(** * mypaperscraper: the multi-source full-text acquisition engine

    A shallow embedding of [my_paperscraper/pdf/fallbacks.py] and
    [my_paperscraper/pdf/pdf.py].  Python [bytes] are Rocq [string]s
    (sequences of 8-bit characters) and a Python [str] is the [string] of
    its UTF-8 encoding; effects (HTTP, the S3 bucket,
    the file system, the module-level eLife cache, the cancellation event)
    live in an explicit [World] that every operation threads through an
    exception-and-state monad. *)

From Stdlib Require Import String Ascii List Arith Lia Bool DecimalString.
From stdpp Require Import base option list strings gmap fin_maps.

Open Scope string_scope.
Open Scope list_scope.

(** ** Python string operations *)

Module Py.

(** [s.startswith(p)] *)
Fixpoint startswith (s p : string) : bool :=
  match p, s with
  | EmptyString, _ => true
  | String _ _, EmptyString => false
  | String a p', String b s' => if Ascii.eqb a b then startswith s' p' else false
  end.

(** [sub in s] *)
Fixpoint contains (sub s : string) : bool :=
  startswith s sub ||
  match s with
  | EmptyString => false
  | String _ s' => contains sub s'
  end.

(** [s.endswith(p)] *)
Definition endswith (s p : string) : bool :=
  startswith (String.rev s) (String.rev p).

(** [bytes.lower()] on one byte: 'A'..'Z' are moved by 32, every other
    byte stays. *)
Definition lower_ascii (c : ascii) : ascii :=
  let n := nat_of_ascii c in
  if ((65 <=? n)%nat && (n <=? 90)%nat)%bool then ascii_of_nat (n + 32) else c.

(** [b.lower()] for [bytes]; [str.lower()], which follows Unicode, is a
    function of the library interface below and agrees with this one on
    ASCII text. *)
Fixpoint lower (s : string) : string :=
  match s with
  | EmptyString => EmptyString
  | String c s' => String (lower_ascii c) (lower s')
  end.

(** [s.split(sep)] for a non-empty separator: [skip] counts the characters
    of a separator occurrence still to be dropped, [cur] is the current
    piece, reversed. *)
Fixpoint split_go (sep : string) (skip : nat) (cur : string) (s : string)
  : list string :=
  match s with
  | EmptyString => [String.rev cur]
  | String c s' =>
      match skip with
      | S k => split_go sep k cur s'
      | O =>
          if startswith s sep
          then String.rev cur :: split_go sep (String.length sep - 1) EmptyString s'
          else split_go sep 0 (String c cur) s'
      end
  end.

Definition split (s sep : string) : list string := split_go sep 0 EmptyString s.

(** [sep.join(parts)] *)
Fixpoint join (sep : string) (parts : list string) : string :=
  match parts with
  | [] => EmptyString
  | [x] => x
  | x :: rest => x +:+ sep +:+ join sep rest
  end.

(** [s.replace(old, new)] for a non-empty [old] *)
Definition replace (s old new : string) : string := join new (split s old).

(** [xs[-1]] on a non-empty list of strings *)
Definition last_item (xs : list string) : string := List.last xs EmptyString.

(** [s.rfind(c)] for a single character *)
Fixpoint rfind (c : ascii) (s : string) : option nat :=
  match s with
  | EmptyString => None
  | String a s' =>
      match rfind c s' with
      | Some i => Some (S i)
      | None => if Ascii.eqb a c then Some 0 else None
      end
  end.

(** Whitespace as [str.strip] sees it, in UTF-8: the characters U+0009 to
    U+000D and U+001C to U+0020 take one byte, *)
Definition is_space (c : ascii) : bool :=
  let n := nat_of_ascii c in
  (((9 <=? n)%nat && (n <=? 13)%nat) || ((28 <=? n)%nat && (n <=? 32)%nat))%bool.

(** U+0085 and U+00A0 take two, *)
Definition is_space2 (a b : ascii) : bool :=
  ((nat_of_ascii a =? 194)%nat
   && ((nat_of_ascii b =? 133)%nat || (nat_of_ascii b =? 160)%nat))%bool.

(** U+1680, U+2000 to U+200A, U+2028, U+2029, U+202F, U+205F and U+3000
    take three. *)
Definition is_space3 (a b c : ascii) : bool :=
  let x := nat_of_ascii a in
  let y := nat_of_ascii b in
  let z := nat_of_ascii c in
  (((x =? 225)%nat && (y =? 154)%nat && (z =? 128)%nat)
   || ((x =? 226)%nat && (y =? 128)%nat
       && (((128 <=? z)%nat && (z <=? 138)%nat)
           || (z =? 168)%nat || (z =? 169)%nat || (z =? 175)%nat))
   || ((x =? 226)%nat && (y =? 129)%nat && (z =? 159)%nat)
   || ((x =? 227)%nat && (y =? 128)%nat && (z =? 128)%nat))%bool.

(** [s.lstrip()] *)
Fixpoint lstrip (s : string) : string :=
  match s with
  | EmptyString => EmptyString
  | String a s1 =>
      if is_space a then lstrip s1
      else
        match s1 with
        | String b s2 =>
            if is_space2 a b then lstrip s2
            else
              match s2 with
              | String c s3 => if is_space3 a b c then lstrip s3 else s
              | EmptyString => s
              end
        | EmptyString => s
        end
  end.

(** [s.rstrip()], on the reversed text: the bytes of a character come last
    byte first. *)
Fixpoint lstrip_rev (s : string) : string :=
  match s with
  | EmptyString => EmptyString
  | String c s1 =>
      if is_space c then lstrip_rev s1
      else
        match s1 with
        | String b s2 =>
            if is_space2 b c then lstrip_rev s2
            else
              match s2 with
              | String a s3 => if is_space3 a b c then lstrip_rev s3 else s
              | EmptyString => s
              end
        | EmptyString => s
        end
  end.

(** [s.strip()] *)
Definition strip (s : string) : string :=
  String.rev (lstrip_rev (String.rev (lstrip s))).

(** text of ASCII characters only *)
Fixpoint is_ascii (s : string) : bool :=
  match s with
  | EmptyString => true
  | String c s' => ((nat_of_ascii c <? 128)%nat && is_ascii s')%bool
  end.

(** [content[:4]] *)
Definition slice_to (n : nat) (s : string) : string := String.substring 0 n s.

(** [str(n)] for a natural number *)
Definition str_of_nat (n : nat) : string := NilZero.string_of_uint (Nat.to_uint n).

End Py.

(** ** pathlib *)

(** A path is the list of its components, outermost first. *)
Definition Path : Type := list string.

Module Pathlib.

(** [p.parent] *)
Definition parent (p : Path) : Path := removelast p.

(** [p.name] *)
Definition name (p : Path) : string := List.last p EmptyString.

(** [p / child] for a single component *)
Definition child (p : Path) (c : string) : Path := p ++ [c].

(** [PurePath.stem]: the name without its last suffix; a dot in first or
    last position does not start a suffix. *)
Definition stem_of (nm : string) : string :=
  match Py.rfind "." nm with
  | Some i =>
      if ((0 <? i)%nat && (i <? String.length nm - 1)%nat)%bool
      then String.substring 0 i nm
      else nm
  | None => nm
  end.

(** [p.with_suffix(suffix)] *)
Definition with_suffix (p : Path) (suffix : string) : Path :=
  parent p ++ [stem_of (name p) +:+ suffix].

(** [p.as_posix()] *)
Definition as_posix (p : Path) : string := Py.join "/" p.

End Pathlib.

(** ** Exceptions and results *)

Inductive exn : Type :=
  | RequestException   (* requests: connection failure, timeout *)
  | HTTPError          (* raise_for_status *)
  | JSONDecodeError
  | KeyError
  | IndexError
  | ValueError
  | TypeError
  | AttributeError
  | OSError            (* FileNotFoundError and friends *)
  | OverflowError
  | BadZipFile
  | ClientError        (* botocore *)
  | XMLSyntaxError
  | SystemExit.        (* raised by exit(); not a subclass of Exception *)

(** [isinstance(e, Exception)] *)
Definition is_Exception (e : exn) : bool :=
  match e with
  | SystemExit => false
  | _ => true
  end.

Inductive result (A : Type) : Type :=
  | Return (a : A)
  | Raise (e : exn).
Arguments Return {A} a.
Arguments Raise {A} e.

(** ** The data the scraper handles *)

(** One record of the [.jsonl] dump ([filter.py] creates the keys below;
    [None] is JSON [null]). *)
Record Paper : Type := {
  p_doi : option string;
  p_title : option string;
  p_date : option string;
  p_is_materials : option bool;
  p_success : option bool;
  p_type : option string;
  p_path : option string;
  p_url : option string;
}.

(** Python truthiness of an optional boolean. *)
Definition truthy (b : option bool) : bool :=
  match b with
  | Some true => true
  | _ => false
  end.

(** [key_to_save] is one of ["doi"], ["title"], ["date"]. *)
Inductive SaveKey : Type := KeyDoi | KeyTitle | KeyDate.

Definition paper_get (paper : Paper) (k : SaveKey) : option string :=
  match k with
  | KeyDoi => p_doi paper
  | KeyTitle => p_title paper
  | KeyDate => p_date paper
  end.

(** [datetime.date] *)
Record date : Type := { year : nat; month : nat; day : nat }.

(** What [requests.get] hands back. *)
Record Response : Type := { status_code : nat; content : string }.

(** [response.text] *)
Definition text (r : Response) : string := content r.

Record Request : Type := {
  req_url : string;
  req_params : list (string * string);
  req_proxies : option string;
}.

(** Calls made on the S3 client: a (possibly ranged) object read, or a
    listing of the keys below a prefix. *)
Inductive S3Call : Type :=
  | GetObject (key : string) (range : option string)
  | ListObjects (prefix : string).

Inductive Entry : Type := File (data : string) | Directory.

(** The pure library functions the code calls (BeautifulSoup, json, re,
    lxml, zipfile, datetime): they are outside the repository and are taken
    as they come. *)
Class Lib : Type := {
  (** [BeautifulSoup(html).find("meta", {"name": n})] followed by
      [.get("content")]; [None] when the tag or the attribute is missing. *)
  soup_meta_content : string -> string -> option string;
  (** [soup.<tag>]: [None] when there is no such tag, otherwise its
      [src] attribute if it has one. *)
  soup_tag_src : string -> string -> option (option string);
  (** [conv_response.json()], then ["records"][0]["pmcid"] when present. *)
  json_first_pmcid : string -> result (option string);
  (** [resp.json()["collection"][0]["date"]] *)
  json_collection_date : string -> result string;
  (** [datetime.date.fromisoformat] *)
  fromisoformat : string -> result date;
  (** [r.json().get("tree", [])] and each item's ["path"] *)
  json_tree_paths : string -> result (list string);
  (** [re.match(r"articles/elife-(\d+)-v(\d+)\.xml", path)]: groups 1 and 2 *)
  re_match_elife : string -> option (string * nat);
  (** [etree.fromstring], for the exception it may raise *)
  etree_fromstring : string -> result unit;
  (** [zipfile.ZipFile(io.BytesIO(data)).namelist()] *)
  zip_namelist : string -> result (list string);
  (** [zipfile.ZipFile(io.BytesIO(data)).read(name)] *)
  zip_read : string -> string -> result string;
  (** [json.dumps(paper, ensure_ascii=False)] and [json.loads(line)] *)
  json_dumps : Paper -> string;
  json_loads : string -> result Paper;
  (** [text.lower()] on a [str]: it follows Unicode, and on ASCII text it
      moves 'A'..'Z' only *)
  str_lower : string -> string;
  str_lower_ascii : forall s, Py.is_ascii s = true -> str_lower s = Py.lower s;
}.

(** ** The world *)

Record World : Type := {
  (** answers the network will give to the next calls of [requests.get];
      [None] is a transport failure (refused connection, timeout) *)
  http_replies : list (option Response);
  (** the requests issued so far, oldest first *)
  http_log : list Request;
  (** answers of the bucket to the next [get_object] calls *)
  s3_replies : list (option string);
  (** pages of keys the paginator yields; [None] when listing fails *)
  s3_listing : option (list (list string));
  s3_log : list S3Call;
  fs : gmap Path Entry;
  (** the module-level cache of [fallbacks.py] *)
  ELIFE_XML_INDEX : option (gmap string (list (nat * string)));
  (** arguments of the [time.sleep] calls so far *)
  slept : list nat;
  (** what [stop_event.is_set()] answers on its next calls *)
  stop_answers : list bool;
  (** what the next writes to the open dump meet: [Some e] is a write that
      raises [e] (the device fails with [OSError], the codec refuses a lone
      surrogate with [UnicodeEncodeError], a [ValueError]) and leaves
      nothing of its text in the file *)
  write_faults : list (option exn);
}.

Definition with_http (w : World) (rs : list (option Response)) (lg : list Request) : World :=
  {| http_replies := rs; http_log := lg; s3_replies := s3_replies w;
     s3_listing := s3_listing w; s3_log := s3_log w; fs := fs w;
     ELIFE_XML_INDEX := ELIFE_XML_INDEX w; slept := slept w;
     stop_answers := stop_answers w; write_faults := write_faults w |}.

Definition with_s3 (w : World) (rs : list (option string)) (lg : list S3Call) : World :=
  {| http_replies := http_replies w; http_log := http_log w; s3_replies := rs;
     s3_listing := s3_listing w; s3_log := lg; fs := fs w;
     ELIFE_XML_INDEX := ELIFE_XML_INDEX w; slept := slept w;
     stop_answers := stop_answers w; write_faults := write_faults w |}.

Definition with_fs (w : World) (f : gmap Path Entry) : World :=
  {| http_replies := http_replies w; http_log := http_log w;
     s3_replies := s3_replies w; s3_listing := s3_listing w; s3_log := s3_log w;
     fs := f; ELIFE_XML_INDEX := ELIFE_XML_INDEX w; slept := slept w;
     stop_answers := stop_answers w; write_faults := write_faults w |}.

Definition with_index (w : World) (ix : option (gmap string (list (nat * string)))) : World :=
  {| http_replies := http_replies w; http_log := http_log w;
     s3_replies := s3_replies w; s3_listing := s3_listing w; s3_log := s3_log w;
     fs := fs w; ELIFE_XML_INDEX := ix; slept := slept w;
     stop_answers := stop_answers w; write_faults := write_faults w |}.

Definition with_slept (w : World) (sl : list nat) : World :=
  {| http_replies := http_replies w; http_log := http_log w;
     s3_replies := s3_replies w; s3_listing := s3_listing w; s3_log := s3_log w;
     fs := fs w; ELIFE_XML_INDEX := ELIFE_XML_INDEX w; slept := sl;
     stop_answers := stop_answers w; write_faults := write_faults w |}.

Definition with_stop (w : World) (a : list bool) : World :=
  {| http_replies := http_replies w; http_log := http_log w;
     s3_replies := s3_replies w; s3_listing := s3_listing w; s3_log := s3_log w;
     fs := fs w; ELIFE_XML_INDEX := ELIFE_XML_INDEX w; slept := slept w;
     stop_answers := a; write_faults := write_faults w |}.

Definition with_faults (w : World) (fl : list (option exn)) : World :=
  {| http_replies := http_replies w; http_log := http_log w;
     s3_replies := s3_replies w; s3_listing := s3_listing w; s3_log := s3_log w;
     fs := fs w; ELIFE_XML_INDEX := ELIFE_XML_INDEX w; slept := slept w;
     stop_answers := stop_answers w; write_faults := fl |}.

(** ** The monad: state, and exceptions that keep the state *)

(** [ST S A]: a computation over a state [S] that returns an [A] or raises;
    the state survives an exception (effects are not rolled back). *)
Definition ST (S A : Type) : Type := S -> result A * S.

(** Computations over the world. *)
Definition M (A : Type) : Type := ST World A.

Definition ret {S A} (a : A) : ST S A := fun w => (Return a, w).

Definition throw {S A} (e : exn) : ST S A := fun w => (Raise e, w).

Definition bind {S A B} (m : ST S A) (k : A -> ST S B) : ST S B :=
  fun w =>
    match m w with
    | (Return a, w') => k a w'
    | (Raise e, w') => (Raise e, w')
    end.

Notation "'let*' x ':=' m 'in' k" := (bind m (fun x => k))
  (at level 10, x pattern, m at level 100, k at level 200).
Notation "'do*' m 'in' k" := (bind m (fun _ => k))
  (at level 10, m at level 100, k at level 200).

(** [lift r]: a pure library call that may raise *)
Definition lift {S A} (r : result A) : ST S A := fun w => (r, w).

(** [try: m  except Exception as e: ...]: the outcome of [m] is handed to
    the continuation; what is not an [Exception] keeps propagating. *)
Definition try_ {S A} (m : ST S A) : ST S (result A) :=
  fun w =>
    match m w with
    | (Return a, w') => (Return (Return a), w')
    | (Raise e, w') =>
        if is_Exception e then (Return (Raise e), w') else (Raise e, w')
    end.

(** ** Primitive effects *)

(** [requests.get(url, params=..., proxies=..., timeout=...)] *)
Definition requests_get (url : string) (params : list (string * string))
    (proxies : option string) : M Response :=
  fun w =>
    let rq := {| req_url := url; req_params := params; req_proxies := proxies |} in
    match http_replies w with
    | Some r :: rest => (Return r, with_http w rest (http_log w ++ [rq]))
    | None :: rest => (Raise RequestException, with_http w rest (http_log w ++ [rq]))
    | [] => (Raise RequestException, with_http w [] (http_log w ++ [rq]))
    end.

(** [response.raise_for_status()] *)
Definition raise_for_status (r : Response) : M unit :=
  if ((400 <=? status_code r)%nat && (status_code r <? 600)%nat)%bool
  then throw HTTPError else ret tt.

(** [s3_client.get_object(Bucket=..., Key=key, Range=range)["Body"].read()] *)
Definition get_object (key : string) (range : option string) : M string :=
  fun w =>
    let rq := GetObject key range in
    match s3_replies w with
    | Some body :: rest => (Return body, with_s3 w rest (s3_log w ++ [rq]))
    | None :: rest => (Raise ClientError, with_s3 w rest (s3_log w ++ [rq]))
    | [] => (Raise ClientError, with_s3 w [] (s3_log w ++ [rq]))
    end.

(** [time.sleep(n)] *)
Definition sleep (n : nat) : M unit :=
  fun w => (Return tt, with_slept w (slept w ++ [n])).

Definition lookup_fs (f : gmap Path Entry) (p : Path) : option Entry := f !! p.

(** [p.is_dir()]; the empty path is the working directory. *)
Definition is_dir_in (f : gmap Path Entry) (p : Path) : bool :=
  match p with
  | [] => true
  | _ => match lookup_fs f p with Some Directory => true | _ => false end
  end.

(** [p.exists()] *)
Definition exists_in (f : gmap Path Entry) (p : Path) : bool :=
  match p with
  | [] => true
  | _ => match lookup_fs f p with Some _ => true | None => false end
  end.

Definition path_exists (p : Path) : M bool := fun w => (Return (exists_in (fs w) p), w).

Definition path_is_dir (p : Path) : M bool := fun w => (Return (is_dir_in (fs w) p), w).

(** [with open(p, "wb") as f: f.write(data)]: the file is created or
    truncated; the folder has to be there. *)
Definition open_write (p : Path) (data : string) : M unit :=
  fun w =>
    if (is_dir_in (fs w) (Pathlib.parent p) && negb (is_dir_in (fs w) p))%bool
    then (Return tt, with_fs w (<[p := File data]> (fs w)))
    else (Raise OSError, w).

(** the entries directly below [p] *)
Definition children (f : gmap Path Entry) (p : Path) : list Path :=
  List.filter (fun q => bool_decide (q <> [] /\ Pathlib.parent q = p))
    (List.map fst (map_to_list f)).

(** [p.iterdir()] *)
Definition iterdir (p : Path) : M (list Path) :=
  fun w =>
    if is_dir_in (fs w) p then (Return (children (fs w) p), w) else (Raise OSError, w).

(** [len(os.listdir(p))] *)
Definition listdir_len (p : Path) : M nat :=
  let* l := iterdir p in ret (List.length l).

(** [stop_event.is_set()] on a real [threading.Event] *)
Definition is_set : M bool :=
  fun w =>
    match stop_answers w with
    | b :: rest => (Return b, with_stop w rest)
    | [] => (Return false, w)
    end.

(** [paginator.paginate(Bucket=..., Prefix=prefix)]: all the pages *)
Definition list_objects_v2 (prefix : string) : M (list (list string)) :=
  fun w =>
    let w' := with_s3 w (s3_replies w) (s3_log w ++ [ListObjects prefix]) in
    match s3_listing w with
    | Some pages => (Return pages, w')
    | None => (Raise ClientError, w')
    end.

(** [f.write(text)] on the dump, which is open for writing: the text is
    put after what the file holds, unless the write raises. *)
Definition file_write (p : Path) (text : string) : M unit :=
  fun w =>
    match write_faults w with
    | Some e :: rest => (Raise e, with_faults w rest)
    | faults =>
        match lookup_fs (fs w) p with
        | Some (File data) =>
            (Return tt,
             with_fs (with_faults w (List.tl faults)) (<[p := File (data +:+ text)]> (fs w)))
        | _ => (Raise OSError, with_faults w (List.tl faults))
        end
    end.

(** [os.makedirs(base/c1/c2/...)]: the folders on the way that are missing
    are made, from the top; a file on the way raises. *)
Fixpoint makedirs (base : Path) (comps : list string) : M unit :=
  match comps with
  | [] => ret tt
  | c :: cs =>
      let d := Pathlib.child base c in
      fun w =>
        match lookup_fs (fs w) d with
        | Some Directory => makedirs d cs w
        | Some (File _) => (Raise OSError, w)
        | None => makedirs d cs (with_fs w (<[d := Directory]> (fs w)))
        end
  end.

(** The entries below a folder [src], put below [dst] instead. *)
Definition moved (f : gmap Path Entry) (src dst : Path) : gmap Path Entry :=
  list_to_map
    (List.map
       (fun ke : Path * Entry =>
          if bool_decide (src `prefix_of` fst ke)
          then (dst ++ drop (List.length src) (fst ke), snd ke)
          else ke)
       (List.filter (fun ke : Path * Entry => negb (bool_decide (fst ke = dst)))
          (map_to_list f))).

(** [src.rename(dst)] ([os.rename] on POSIX): a file takes the place of
    [dst], which must not be a folder; a folder moves with all it holds, to
    a place that is free or an empty folder outside itself.  The folder of
    [dst] has to be there. *)
Definition rename (src dst : Path) : M unit :=
  fun w =>
    match lookup_fs (fs w) src with
    | Some (File data) =>
        if (is_dir_in (fs w) (Pathlib.parent dst) && negb (is_dir_in (fs w) dst))%bool
        then (Return tt, with_fs w (<[dst := File data]> (delete src (fs w))))
        else (Raise OSError, w)
    | Some Directory =>
        if bool_decide (src = dst) then (Return tt, w)
        else if (is_dir_in (fs w) (Pathlib.parent dst)
                 && negb (bool_decide (src `prefix_of` dst))
                 && match lookup_fs (fs w) dst with
                    | Some (File _) => false
                    | Some Directory =>
                        match children (fs w) dst with [] => true | _ => false end
                    | None => true
                    end)%bool
        then (Return tt, with_fs w (moved (fs w) src dst))
        else (Raise OSError, w)
    | None => (Raise OSError, w)
    end.

(** How the system follows the components [comps] from the folder [base]:
    [".."] leads out of a folder that is there, to the folder that holds
    it.  Nothing above the root of the model is part of it. *)
Fixpoint resolve (f : gmap Path Entry) (base : Path) (comps : list string)
  : option Path :=
  match comps with
  | [] => Some base
  | c :: cs =>
      if String.eqb c ".." then
        if is_dir_in f base then
          match base with
          | [] => None
          | _ => resolve f (Pathlib.parent base) cs
          end
        else None
      else resolve f (Pathlib.child base c) cs
  end.

(** [response.content[:4] != b"%PDF"] is [negb (is_pdf content)] *)
Definition is_pdf (body : string) : bool := String.eqb (Py.slice_to 4 body) "%PDF".

(** [f"{x}"] of an optional string *)
Definition fmt (o : option string) : string :=
  match o with
  | Some s => s
  | None => "None"
  end.

(** ** fallbacks.py *)

Module Fallbacks.
Section WithLib.
Context `{Lib}.

(** The loop of [fallback_wiley_api]: [todo] is the number of iterations
    left before [attempt] reaches [max_attempts]. *)
Fixpoint wiley_loop (api_url : string) (output_path : Path)
    (max_attempts attempt todo : nat) : M bool :=
  match todo with
  | O => ret false
  | S todo' =>
      if (attempt <? max_attempts)%nat then
        let* r := try_
          (let* api_response := requests_get api_url [] None in
           do* raise_for_status api_response in
           if negb (is_pdf (content api_response)) then ret false
           else
             do* open_write (Pathlib.with_suffix output_path ".pdf") (content api_response) in
             ret true) in
        match r with
        | Return true => ret true
        | Return false => wiley_loop api_url output_path max_attempts (attempt + 1) todo'
        | Raise _ =>
            do* (if (attempt <? max_attempts - 1)%nat then sleep 20 else ret tt) in
            wiley_loop api_url output_path max_attempts (attempt + 1) todo'
        end
      else ret false
  end.

Definition fallback_wiley_api (paper_metadata : Paper) (output_path : Path)
    (api_keys : gmap string string) (max_attempts : nat) : M bool :=
  match p_doi paper_metadata with
  | None => throw AttributeError
  | Some doi =>
      let encoded_doi := Py.replace doi "/" "%2F" in
      let api_url := "https://api.wiley.com/onlinelibrary/tdm/v1/articles/" +:+ encoded_doi in
      let* success := wiley_loop api_url output_path max_attempts 0 max_attempts in
      do* sleep 10 in
      ret success
  end.

Definition fallback_bioc_pmc (doi : string) (output_path : Path)
    (proxies : option string) : M (bool * option string) :=
  let converter_url := "https://www.ncbi.nlm.nih.gov/pmc/utils/idconv/v1.0/" in
  let params := [("tool", "paperscraper"); ("email", "2987498538@qq.com");
                 ("ids", doi); ("idtype", "doi"); ("format", "json")] in
  let* conv := try_
    (let* conv_response := requests_get converter_url params proxies in
     do* raise_for_status conv_response in
     lift (json_first_pmcid (content conv_response))) in
  match conv with
  | Raise _ => ret (false, None)
  | Return None => ret (false, None)
  | Return (Some pmcid) =>
      let xml_url :=
        "https://www.ncbi.nlm.nih.gov/research/bionlp/RESTful/pmcoa.cgi/BioC_xml/"
        +:+ pmcid +:+ "/unicode" in
      let* r := try_
        (let* xml_response := requests_get xml_url [] proxies in
         do* raise_for_status xml_response in
         let xml_path := Pathlib.with_suffix output_path ".xml" in
         if Py.startswith (content xml_response)
              "[Error] : No result can be found. <BR><HR><B> - https://www.ncbi.nlm.nih.gov/research/bionlp/RESTful/"
         then ret (false, None)
         else
           do* open_write xml_path (content xml_response) in
           ret (true, Some xml_url)) in
      match r with
      | Return v => ret v
      | Raise _ => ret (false, None)
      end
  end.

Definition fallback_elsevier_api (paper_metadata : Paper) (output_path : Path)
    (api_keys : gmap string string) : M bool :=
  let elsevier_api_key := api_keys !! "ELSEVIER_TDM_API_KEY" in
  let doi := p_doi paper_metadata in
  let api_url := "https://api.elsevier.com/content/article/doi/" +:+ fmt doi
                 +:+ "?apiKey=" +:+ fmt elsevier_api_key +:+ "&httpAccept=text%2Fxml" in
  let* r := try_
    (let* response := requests_get api_url [] None in
     if (status_code response =? 401)%nat then
       let error_text := text response in
       if Py.contains "APIKEY_INVALID" error_text then ret false else ret false
     else
       do* raise_for_status response in
       match etree_fromstring (content response) with
       | Raise XMLSyntaxError => ret false
       | Raise e => throw e
       | Return _ =>
           let xml_path := Pathlib.with_suffix output_path ".xml" in
           do* open_write xml_path (content response) in
           ret true
       end) in
  match r with
  | Return b => ret b
  | Raise _ => ret false
  end.

(** [ELIFE_XML_INDEX.setdefault(k, []).append(v)] *)
Definition index_append (ix : gmap string (list (nat * string))) (k : string)
    (v : nat * string) : gmap string (list (nat * string)) :=
  <[k := default [] (ix !! k) ++ [v]]> ix.

(** [list.sort(key=lambda x: x[0])]: a stable sort on the version *)
Fixpoint insert_by_version (x : nat * string) (l : list (nat * string))
  : list (nat * string) :=
  match l with
  | [] => [x]
  | y :: l' => if (fst x <=? fst y)%nat then x :: l else y :: insert_by_version x l'
  end.

Definition sort_by_version (l : list (nat * string)) : list (nat * string) :=
  List.fold_right insert_by_version [] l.

Definition get_elife_xml_index : M (gmap string (list (nat * string))) :=
  fun w =>
    match ELIFE_XML_INDEX w with
    | Some ix => (Return ix, w)
    | None =>
        (let base_tree_url :=
           "https://api.github.com/repos/elifesciences/elife-article-xml/git/trees/master?recursive=1" in
         let* r := requests_get base_tree_url [] None in
         do* raise_for_status r in
         let* paths := lift (json_tree_paths (content r)) in
         let filled :=
           List.fold_left
             (fun ix path =>
                match re_match_elife path with
                | Some (article_num_padded, version) =>
                    let download_url :=
                      "https://raw.githubusercontent.com/elifesciences/elife-article-xml/master/"
                      +:+ path in
                    index_append ix article_num_padded (version, download_url)
                | None => ix
                end)
             paths ∅ in
         let sorted := sort_by_version <$> filled in
         fun w' => (Return sorted, with_index w' (Some sorted)))
        (with_index w (Some ∅))
    end.

(** [max(candidate_files, key=lambda x: x[0])]: the first element of
    greatest version *)
Fixpoint max_by_version (l : list (nat * string)) : option (nat * string) :=
  match l with
  | [] => None
  | x :: l' =>
      match max_by_version l' with
      | Some y => if (fst x <? fst y)%nat then Some y else Some x
      | None => Some x
      end
  end.

Definition fallback_elife_xml (doi : string) (output_path : Path)
  : M (bool * option string) :=
  let parts := Py.split doi "eLife." in
  if (List.length parts <? 2)%nat then ret (false, None)
  else
    let article_num := Py.strip (List.nth 1 parts EmptyString) in
    let* index := get_elife_xml_index in
    match index !! article_num with
    | None => ret (false, None)
    | Some candidate_files =>
        match max_by_version candidate_files with
        | None => throw ValueError
        | Some (latest_version, latest_download_url) =>
            let* got := try_
              (let* r := requests_get latest_download_url [] None in
               do* raise_for_status r in
               ret (content r)) in
            match got with
            | Raise _ => ret (false, None)
            | Return latest_xml =>
                let xml_path := Pathlib.with_suffix output_path ".xml" in
                do* open_write xml_path latest_xml in
                ret (true, Some latest_download_url)
            end
        end
    end.

(** [calendar.isleap] *)
Definition isleap (y : nat) : bool :=
  ((y mod 4 =? 0)%nat && (negb (y mod 100 =? 0)%nat || (y mod 400 =? 0)%nat))%bool.

(** [calendar.monthrange(year, month)[1]]: the number of days of the month *)
Definition monthrange (y m : nat) : result nat :=
  match m with
  | 1 | 3 | 5 | 7 | 8 | 10 | 12 => Return 31
  | 4 | 6 | 9 | 11 => Return 30
  | 2 => Return (if isleap y then 29 else 28)
  | _ => Raise ValueError
  end.

(** [datetime.MAXYEAR], 9999 *)
Definition MAXYEAR : nat := 99 * 101.

(** [date + datetime.timedelta(days=1)]; years end at [datetime.MAXYEAR]. *)
Definition add_one_day (d : date) : result date :=
  match monthrange (year d) (month d) with
  | Raise e => Raise e
  | Return last =>
      if (day d <? last)%nat
      then Return {| year := year d; month := month d; day := day d + 1 |}
      else if (month d <? 12)%nat
      then Return {| year := year d; month := month d + 1; day := 1 |}
      else if (year d <? MAXYEAR)%nat
      then Return {| year := year d + 1; month := 1; day := 1 |}
      else Raise OverflowError
  end.

(** [calendar.month_name] (the [%B] of [strftime], C locale) *)
Definition month_name (m : nat) : string :=
  match m with
  | 1 => "January" | 2 => "February" | 3 => "March" | 4 => "April"
  | 5 => "May" | 6 => "June" | 7 => "July" | 8 => "August"
  | 9 => "September" | 10 => "October" | 11 => "November" | _ => "December"
  end.

(** [date.strftime("%B_%Y")] *)
Definition strftime_B_Y (d : date) : string :=
  month_name (month d) +:+ "_" +:+ Py.str_of_nat (year d).

Definition month_folder (doi : string) : M string :=
  let url := "https://api.biorxiv.org/details/biorxiv/" +:+ doi +:+ "/na/json" in
  let* resp := requests_get url [] None in
  do* raise_for_status resp in
  let* date_str := lift (json_collection_date (content resp)) in
  let* d := lift (fromisoformat date_str) in
  let* last_day := lift (monthrange (year d) (month d)) in
  let* d' := (if (day d =? last_day)%nat then lift (add_one_day d) else ret d) in
  ret (strftime_B_Y d').

Definition list_meca_keys (prefix : string) : M (list string) :=
  let* pages := list_objects_v2 prefix in
  ret (List.filter (fun k => Py.endswith k ".meca") (List.concat pages)).

Definition find_meca_for_doi (key doi_token : string) : M bool :=
  let* reads := try_
    (let* head := get_object key (Some "bytes=0-4095") in
     let* tail := get_object key (Some "bytes=-4096") in
     ret (head, tail)) in
  match reads with
  | Raise _ => ret false
  | Return (head, tail) =>
      let data := head +:+ tail in
      let* manifest := lift (zip_read data "manifest.xml") in
      let doi_token := Py.last_item (Py.split doi_token ".") in
      ret (Py.contains doi_token (Py.lower manifest))
  end.

(** The probes that are left when the scan has found its target: every
    probe was submitted to the pool at the start, [fut.cancel()] stops
    those that have not been started, and the others run to their end,
    their answers and exceptions unread ([executor.shutdown(wait=False)]
    does not wait for them; their reads are placed here). *)
Fixpoint finish_probes (token : string) (order : list (string * bool)) : M unit :=
  match order with
  | [] => ret tt
  | (key, started) :: rest =>
      do* (if started then
             fun w => (Return tt, snd (find_meca_for_doi key token w))
           else ret tt) in
      finish_probes token rest
  end.

(** The loop over [as_completed(futures)] in [fallback_s3]: [order] is the
    order in which the probes complete, each with whether it has been
    started by the time a target is found; a probe that raises is skipped,
    the first one that answers [True] ends the loop. *)
Fixpoint scan_futures (token : string) (order : list (string * bool))
  : M (option string) :=
  match order with
  | [] => ret None
  | (key, _) :: rest =>
      let* r := try_ (find_meca_for_doi key token) in
      match r with
      | Return true =>
          do* finish_probes token rest in
          ret (Some key)
      | _ => scan_futures token rest
      end
  end.

(** The components [ZipFile.extract] makes of a member name: empty ones,
    ["."] and [".."] are left out (so is a leading ["/"]). *)
Definition zip_target (name : string) : list string :=
  List.filter
    (fun c => negb (String.eqb c "" || String.eqb c "." || String.eqb c "..")%bool)
    (Py.split name "/").

(** [z.extract(name, path=dir)]: the folder of the target is made when it
    is not there, then the member is read and written to the target. *)
Definition zip_extract (data name : string) (dir : Path) : M unit :=
  let target := dir ++ zip_target name in
  let upperdirs := Pathlib.parent target in
  let* there := path_exists upperdirs in
  do* (if there then ret tt else makedirs [] upperdirs) in
  let* body := lift (zip_read data name) in
  open_write target body.

(** The components [pathlib] makes of a relative name in [path / name]:
    empty ones and ["."] are left out, [".."] stays.  An absolute name
    replaces the path; it is outside the model. *)
Definition path_parts (name : string) : option (list string) :=
  if Py.startswith name "/" then None
  else Some (List.filter (fun c => negb (String.eqb c "" || String.eqb c ".")%bool)
               (Py.split name "/")).

(** [(dir / name).rename(dst)] *)
Definition rename_member (dir : Path) (name : string) (dst : Path) : M unit :=
  fun w =>
    match path_parts name with
    | Some comps =>
        match resolve (fs w) dir comps with
        | Some src => rename src dst w
        | None => (Raise OSError, w)
        end
    | None => (Raise OSError, w)
    end.

(** [name.lower().endswith(".pdf")] *)
Definition is_pdf_name (name : string) : bool := Py.endswith (str_lower name) ".pdf".

(** [as_completed] is the order in which the thread pool completes the
    probes it was given (the submitted keys in some order), each with
    whether the pool has started it by the time the scan ends. *)
Definition fallback_s3 (as_completed : list string -> list (string * bool))
    (doi : string) (output_path : Path) (api_keys : gmap string string) : M bool :=
  let* folder := month_folder doi in
  let prefix := "Current_Content/" +:+ folder +:+ "/" in
  let* meca_keys := list_meca_keys prefix in
  match meca_keys with
  | [] => ret false
  | _ =>
      let token := str_lower (Py.last_item (Py.split doi "/")) in
      let* target := scan_futures token (as_completed meca_keys) in
      match target with
      | None => ret false
      | Some target =>
          let* data := get_object target None in
          let* names := lift (zip_namelist data) in
          match List.find is_pdf_name names with
          | Some name =>
              do* zip_extract data name (Pathlib.parent output_path) in
              do* rename_member (Pathlib.parent output_path) name
                    (Pathlib.with_suffix output_path ".pdf") in
              ret true
          | None => ret false
          end
      end
  end.

(** [soup.<tag>.attrs["src"]] *)
Definition tag_src (html tag : string) : M string :=
  match soup_tag_src html tag with
  | None => throw AttributeError
  | Some None => throw KeyError
  | Some (Some src) => ret src
  end.

(** [soup.embed.attrs["src"]] when [soup.iframe == None], otherwise
    [soup.iframe.attrs["src"]] *)
Definition frame_src (soup : string) : M string :=
  match soup_tag_src soup "iframe" with
  | None => tag_src soup "embed"
  | Some _ => tag_src soup "iframe"
  end.

Definition fallback_sci_hub (doi : string) (output_path : Path)
    (proxies : option string) : M (bool * option string) :=
  let url := "https://www.sci-hub.ren/" +:+ doi +:+ "#" in
  let* res := try_
    (let* r := requests_get url [] proxies in
     do* raise_for_status r in
     let soup := text r in
     let* src := frame_src soup in
     let download_url := if Py.startswith src "http" then src else "https:" +:+ src in
     let* download_r := requests_get download_url [] proxies in
     do* raise_for_status download_r in
     if negb (is_pdf (content download_r)) then ret (false, None)
     else
       do* open_write (Pathlib.with_suffix output_path ".pdf") (content download_r) in
       ret (true, Some download_url)) in
  match res with
  | Return v => ret v
  | Raise _ => ret (false, None)
  end.

(** One [try] block of [fallback_arxiv]: [Some url] when the PDF was saved. *)
Definition arxiv_try (url : string) (output_path : Path) (proxies : option string)
  : M (option string) :=
  let* res := try_
    (let* response := requests_get url [] proxies in
     do* raise_for_status response in
     if is_pdf (content response) then
       do* open_write (Pathlib.with_suffix output_path ".pdf") (content response) in
       ret (Some url)
     else ret None) in
  match res with
  | Return v => ret v
  | Raise _ => ret None
  end.

(** the [for i in temp] loop of [fallback_arxiv] *)
Fixpoint arxiv_categories (temp : list string) (doi : string) (output_path : Path)
    (proxies : option string) : M (bool * option string) :=
  match temp with
  | [] => ret (false, None)
  | i :: rest =>
      let url := "https://arxiv.org/pdf/" +:+ i +:+ "/" +:+ doi in
      let* got := arxiv_try url output_path proxies in
      match got with
      | Some u => ret (true, Some u)
      | None => arxiv_categories rest doi output_path proxies
      end
  end.

Definition fallback_arxiv (doi : string) (output_path : Path)
    (proxies : option string) : M (bool * option string) :=
  if Py.contains "arxiv" doi then
    match List.nth_error (Py.split doi "arxiv.") 1 with
    | None => throw IndexError
    | Some doi =>
        let lenth := List.length (Py.split doi ".") in
        if (lenth =? 1)%nat then
          arxiv_categories ["physics"; "astro-ph"; "cond-mat"] doi output_path proxies
        else if (lenth =? 2)%nat then
          let url := "https://arxiv.org/pdf/" +:+ doi in
          let* got := arxiv_try url output_path proxies in
          match got with
          | Some u => ret (true, Some u)
          | None => ret (false, None)
          end
        else ret (false, None)
    end
  else ret (false, None).

Definition fallback_doi (doi : string) (output_path : Path)
    (proxies : option string) : M (bool * option string) :=
  let url := "https://doi.org/" +:+ doi in
  let* first := try_
    (let* response := requests_get url [] proxies in
     do* raise_for_status response in
     ret response) in
  match first with
  | Raise _ => ret (false, None)
  | Return response =>
      match soup_meta_content (text response) "citation_pdf_url" with
      | Some pdf_url =>
          if negb (String.eqb pdf_url EmptyString) then
            let* res := try_
              (let* response := requests_get pdf_url [] proxies in
               do* raise_for_status response in
               if negb (is_pdf (content response)) then ret (false, None)
               else
                 do* open_write (Pathlib.with_suffix output_path ".pdf") (content response) in
                 ret (true, Some pdf_url)) in
            match res with
            | Return v => ret v
            | Raise _ => ret (false, None)
            end
          else ret (false, None)
      | None => ret (false, None)
      end
  end.

(** The strategies [save_pdf] looks up in the [FALLBACKS] dictionary. *)
Inductive Name : Type := N_arxiv | N_doi | N_sci_hub | N_bioc_pmc.

#[global] Instance Name_eq_dec : EqDecision Name.
Proof. solve_decision. Defined.

Definition Strategy : Type := string -> Path -> option string -> M (bool * option string).

Definition FALLBACKS (n : Name) : Strategy :=
  match n with
  | N_arxiv => fallback_arxiv
  | N_doi => fallback_doi
  | N_sci_hub => fallback_sci_hub
  | N_bioc_pmc => fallback_bioc_pmc
  end.

End WithLib.
End Fallbacks.

(** ** pdf.py *)

(** A Python [dict] keeps its keys in insertion order; assigning to a key
    that is present replaces the value in place. *)
Fixpoint dict_set {K V} `{EqDecision K} (d : list (K * V)) (k : K) (v : V)
  : list (K * V) :=
  match d with
  | [] => [(k, v)]
  | (k', v') :: d' => if decide (k' = k) then (k, v) :: d' else (k', v') :: dict_set d' k v
  end.

Fixpoint dict_get {K V} `{EqDecision K} (d : list (K * V)) (k : K) : option V :=
  match d with
  | [] => None
  | (k', v') :: d' => if decide (k' = k) then Some v' else dict_get d' k
  end.

(** [d.values()] *)
Definition dict_values {K V} (d : list (K * V)) : list V := List.map snd d.

Definition dict_keys {K V} (d : list (K * V)) : list K := List.map fst d.

Definition set_success (b : option bool) (p : Paper) : Paper :=
  {| p_doi := p_doi p; p_title := p_title p; p_date := p_date p;
     p_is_materials := p_is_materials p; p_success := b; p_type := p_type p;
     p_path := p_path p; p_url := p_url p |}.

Definition set_type (t : option string) (p : Paper) : Paper :=
  {| p_doi := p_doi p; p_title := p_title p; p_date := p_date p;
     p_is_materials := p_is_materials p; p_success := p_success p; p_type := t;
     p_path := p_path p; p_url := p_url p |}.

Definition set_path (v : option string) (p : Paper) : Paper :=
  {| p_doi := p_doi p; p_title := p_title p; p_date := p_date p;
     p_is_materials := p_is_materials p; p_success := p_success p; p_type := p_type p;
     p_path := v; p_url := p_url p |}.

Definition set_url (v : option string) (p : Paper) : Paper :=
  {| p_doi := p_doi p; p_title := p_title p; p_date := p_date p;
     p_is_materials := p_is_materials p; p_success := p_success p; p_type := p_type p;
     p_path := p_path p; p_url := v |}.

Module Pdf.
Import Fallbacks.

(** What an observer of a run sees besides the world: which functions were
    entered, with what outcome. *)
Inductive Event : Type :=
  | SavePdfCalled (filepath : Path) (proxies : option string)
  | StrategyCalled (n : Name) (outcome : result (bool * option string))
  | QuotaChecked (entries : nat)  (* the check that ends the loop body counted the folder *)
  | Flushed.                      (* [f_save_metadata] was entered *)

(** The state of one task: the world, the events so far, and the paper
    dictionary the task mutates in place. *)
Record Ctx : Type := { cx_world : World; cx_trace : list Event; cx_paper : Paper }.

Definition in_world {A} (m : M A) : ST Ctx A :=
  fun c =>
    let (r, w') := m (cx_world c) in
    (r, {| cx_world := w'; cx_trace := cx_trace c; cx_paper := cx_paper c |}).

Definition log (e : Event) : ST Ctx unit :=
  fun c =>
    (Return tt, {| cx_world := cx_world c; cx_trace := cx_trace c ++ [e];
                   cx_paper := cx_paper c |}).

Definition get_paper : ST Ctx Paper := fun c => (Return (cx_paper c), c).

(** [paper[...] = ...] *)
Definition update_paper (f : Paper -> Paper) : ST Ctx unit :=
  fun c =>
    (Return tt, {| cx_world := cx_world c; cx_trace := cx_trace c;
                   cx_paper := f (cx_paper c) |}).

(** [FALLBACKS[n](doi, output_path, proxies=proxies)], recorded *)
Definition invoke (F : Name -> Strategy) (n : Name) (doi : string)
    (output_path : Path) (proxies : option string) : ST Ctx (bool * option string) :=
  fun c =>
    let (r, w') := F n doi output_path proxies (cx_world c) in
    (r, {| cx_world := w'; cx_trace := cx_trace c ++ [StrategyCalled n r];
           cx_paper := cx_paper c |}).

(** The local variables [success], [url], [outputtype] of [save_pdf]. *)
Record Locals : Type := {
  success : bool;
  url : option string;
  outputtype : option string;
}.

(** [success,url = FALLBACKS[n](...)] and [if success: outputtype = kind] *)
Definition step (F : Name -> Strategy) (n : Name) (kind : string) (doi : string)
    (output_path : Path) (proxies : option string) (l : Locals) : ST Ctx Locals :=
  let* r := invoke F n doi output_path proxies in
  ret {| success := fst r; url := snd r;
         outputtype := if fst r then Some kind else outputtype l |}.

(** [save_pdf(paper_metadata, filepath, save_metadata, api_keys, proxies)];
    [paper_metadata] is the dictionary of the context, which is also what
    the function returns.  [F] is the [FALLBACKS] dictionary. *)
Definition save_pdf (F : Name -> Strategy) (filepath : Path) (save_metadata : bool)
    (api_keys : gmap string string) (proxies : option string) : ST Ctx unit :=
  do* log (SavePdfCalled filepath proxies) in
  let output_path := filepath in
  let* parent_exists := in_world (path_exists (Pathlib.parent output_path)) in
  if negb parent_exists then throw ValueError
  else
    let* paper_metadata := get_paper in
    let doi := p_doi paper_metadata in
    let l0 := {| success := false; url := None; outputtype := None |} in
    do* update_paper (fun p => set_url None (set_path None (set_type None
                                 (set_success (Some false) p)))) in
    match doi with
    | None => throw TypeError
    | Some doi =>
        let* l1 :=
          (if (negb (success l0) && Py.contains "arxiv" doi)%bool
           then step F N_arxiv "pdf" doi output_path proxies l0 else ret l0) in
        let* l2 :=
          (if negb (success l1)
           then step F N_doi "pdf" doi output_path proxies l1 else ret l1) in
        let* l3 :=
          (if negb (success l2)
           then step F N_sci_hub "pdf" doi output_path proxies l2 else ret l2) in
        let* l4 :=
          (if negb (success l3)
           then step F N_bioc_pmc "xml" doi output_path proxies l3 else ret l3) in
        do* update_paper (fun p => set_url (url l4) (set_type (outputtype l4)
                                     (set_success (Some (success l4)) p))) in
        if success l4 then
          update_paper (set_path (Some (Pathlib.as_posix
            (Pathlib.with_suffix output_path ("." +:+ fmt (outputtype l4))))))
        else ret tt
    end.

(** the deduplication loop of [_process_single_paper]: [true] when a prior
    artifact was adopted *)
Fixpoint dedup (filename : string) (subdirs : list Path) : ST Ctx bool :=
  match subdirs with
  | [] => ret false
  | subdir :: rest =>
      let* d := in_world (path_is_dir subdir) in
      if d then
        let file_path_pdf := Pathlib.child subdir (filename +:+ ".pdf") in
        let file_path_xml := Pathlib.child subdir (filename +:+ ".xml") in
        let* has_pdf := in_world (path_exists file_path_pdf) in
        if has_pdf then
          do* update_paper (fun p => set_path (Some (Pathlib.as_posix file_path_pdf))
                                       (set_type (Some "pdf") (set_success (Some true) p))) in
          ret true
        else
          let* has_xml := in_world (path_exists file_path_xml) in
          if has_xml then
            do* update_paper (fun p => set_path (Some (Pathlib.as_posix file_path_xml))
                                         (set_type (Some "xml") (set_success (Some true) p))) in
            ret true
          else dedup filename rest
      else dedup filename rest
  end.

(** [ip_pool] is [None], or a pool whose [get_proxies()] gives a proxy
    description or nothing. *)
Definition _process_single_paper (F : Name -> Strategy) (pdf_path : Path)
    (key_to_save : SaveKey) (save_metadata : bool) (api_keys : gmap string string)
    (ip_pool : option (option string)) : ST Ctx (option Paper) :=
  let* r := try_
    (let* paper := get_paper in
     if (truthy (p_success paper)
         || match p_is_materials paper with Some false => true | _ => false end)%bool
     then ret None
     else
       do* update_paper (fun p => set_url None (set_path None (set_type None
                                    (set_success (Some false) p)))) in
       match p_doi paper with
       | None => ret None
       | Some _ =>
           match paper_get paper key_to_save with
           | None => throw AttributeError
           | Some v =>
               let filename := Py.replace v "/" "_" in
               let pdf_file := Pathlib.child pdf_path (filename +:+ ".pdf") in
               let* subdirs := in_world (iterdir (Pathlib.parent pdf_path)) in
               let* found := dedup filename subdirs in
               if found then
                 let* p := get_paper in ret (Some p)
               else
                 let output_path := pdf_file in
                 do* match ip_pool with
                     | Some (Some proxies) =>
                         save_pdf F output_path save_metadata api_keys (Some proxies)
                     | _ => save_pdf F output_path save_metadata api_keys None
                     end in
                 let* metadata := get_paper in ret (Some metadata)
           end
       end) in
  match r with
  | Return v => ret v
  | Raise _ => let* p := get_paper in ret (Some p)
  end.

Section WithLib.
Context `{Lib}.

(** The state of the orchestrator: [metadict] holds the paper dictionaries
    themselves, so what a task writes into its paper is seen through
    [metadict] at once. *)
Record Orch : Type := {
  o_world : World;
  o_trace : list Event;
  metadict : list (option string * Paper);
}.

Definition orch_world {A} (m : M A) : ST Orch A :=
  fun o =>
    let (r, w') := m (o_world o) in
    (r, {| o_world := w'; o_trace := o_trace o; metadict := metadict o |}).

Definition orch_log (e : Event) : ST Orch unit :=
  fun o =>
    (Return tt, {| o_world := o_world o; o_trace := o_trace o ++ [e];
                   metadict := metadict o |}).

Definition get_metadict : ST Orch (list (option string * Paper)) :=
  fun o => (Return (metadict o), o).

Definition set_metadict (d : list (option string * Paper)) : ST Orch unit :=
  fun o => (Return tt, {| o_world := o_world o; o_trace := o_trace o; metadict := d |}).

(** How a file opened for reading as text hands its content over: a
    carriage return, alone or followed by a line feed, is read as one line
    feed. *)
Fixpoint universal_newlines (data : string) : string :=
  match data with
  | EmptyString => EmptyString
  | String c rest =>
      if (nat_of_ascii c =? 13)%nat then
        String (ascii_of_nat 10)
          match rest with
          | String c' rest' =>
              if (nat_of_ascii c' =? 10)%nat then universal_newlines rest'
              else universal_newlines rest
          | EmptyString => EmptyString
          end
      else String c (universal_newlines rest)
  end.

(** [f.readlines()]: the lines of the text, each without the line feed that
    ends it ([json.loads] passes over it); what stands after the last line
    feed is a line when it is not empty. *)
Definition readlines (data : string) : list string :=
  let pieces := Py.split (universal_newlines data) (String (ascii_of_nat 10) EmptyString) in
  if String.eqb (List.last pieces EmptyString) EmptyString
  then removelast pieces else pieces.

(** [open(p, "r").read()] *)
Definition read_file (p : Path) : M string :=
  fun w =>
    match lookup_fs (fs w) p with
    | Some (File data) => (Return data, w)
    | _ => (Raise OSError, w)
    end.

(** [for line in f.readlines(): paper = json.loads(line); metadict[paper["doi"]] = paper] *)
Fixpoint load_lines (lines : list string) (d : list (option string * Paper))
  : result (list (option string * Paper)) :=
  match lines with
  | [] => Return d
  | line :: rest =>
      match json_loads line with
      | Raise e => Raise e
      | Return paper => load_lines rest (dict_set d (p_doi paper) paper)
      end
  end.

(** the text of a dump: one line per value of a mapping *)
Definition dump_text (d : list (option string * Paper)) : string :=
  String.concat EmptyString
    (List.map (fun metadata => json_dumps metadata +:+ String (ascii_of_nat 10) EmptyString)
       (dict_values d)).

(** [for metadata in metadict.values(): f.write(json.dumps(metadata) + nl)] *)
Fixpoint write_records (dump_path : Path) (records : list Paper) : M unit :=
  match records with
  | [] => ret tt
  | metadata :: rest =>
      do* file_write dump_path
            (json_dumps metadata +:+ String (ascii_of_nat 10) EmptyString) in
      write_records dump_path rest
  end.

(** [f_save_metadata]: the file is opened with mode ["w"], which empties
    it, and the records are written one after the other.  The event
    [Flushed] marks the entry into the function. *)
Definition f_save_metadata (dump_path : Path) : ST Orch unit :=
  do* orch_log Flushed in
  let* d := get_metadict in
  do* orch_world (open_write dump_path EmptyString) in
  orch_world (write_records dump_path (dict_values d)).

(** [m], and [after] when [m] raises: the exception goes on once [after]
    is over. *)
Definition on_error {S A} (m : ST S A) (after : ST S unit) : ST S A :=
  fun s =>
    match m s with
    | (Return a, s') => (Return a, s')
    | (Raise e, s') => (Raise e, snd (after s'))
    end.

(** One worker running [_process_single_paper] on the paper stored under
    [k]: the paper in [metadict] is the object the worker mutates. *)
Definition run_task (F : Name -> Strategy) (pdf_path : Path) (key_to_save : SaveKey)
    (save_metadata : bool) (api_keys : gmap string string)
    (ip_pool : option (option string)) (k : option string) : ST Orch (option Paper) :=
  fun o =>
    match dict_get (metadict o) k with
    | None => (Raise KeyError, o)
    | Some paper =>
        let (r, c) :=
          _process_single_paper F pdf_path key_to_save save_metadata api_keys ip_pool
            {| cx_world := o_world o; cx_trace := o_trace o; cx_paper := paper |} in
        (r, {| o_world := cx_world c; o_trace := cx_trace c;
               metadict := dict_set (metadict o) k (cx_paper c) |})
    end.

(** What the pool still does when the loop is left by an exception: the
    [with] statement of the executor waits for every task that has not been
    cancelled, and nobody reads what these tasks return. *)
Fixpoint finish_tasks (F : Name -> Strategy) (pdf_path : Path)
    (key_to_save : SaveKey) (save_metadata : bool) (api_keys : gmap string string)
    (ip_pool : option (option string))
    (order : list (option string * bool)) (cancelling : bool) : ST Orch unit :=
  match order with
  | [] => ret tt
  | (k, started) :: rest =>
      do* (if (cancelling && negb started)%bool then ret tt
           else fun o =>
             (Return tt,
              snd (run_task F pdf_path key_to_save save_metadata api_keys ip_pool k o))) in
      finish_tasks F pdf_path key_to_save save_metadata api_keys ip_pool rest cancelling
  end.

(** The body of [for future in as_completed(future_to_paper)].  Each item
    of [order] is a task and whether it had already been started when
    [cancel()] was first called on it; [cancelling] tells whether the
    cancelling branch has been entered before.  [stop_event] is [None] or an
    event object.  A task is taken as one step, placed where the loop
    receives its result. *)
Fixpoint completion_loop (F : Name -> Strategy) (pdf_path : Path)
    (key_to_save : SaveKey) (save_metadata : bool) (api_keys : gmap string string)
    (max_pdf_num : nat) (ip_pool : option (option string)) (stop_event : option unit)
    (order : list (option string * bool)) (cancelling : bool) : ST Orch unit :=
  match order with
  | [] => ret tt
  | (k, started) :: rest =>
      if (cancelling && negb started)%bool then
        (* future.cancelled() *)
        completion_loop F pdf_path key_to_save save_metadata api_keys max_pdf_num
          ip_pool stop_event rest cancelling
      else
        let* metadata :=
          on_error (run_task F pdf_path key_to_save save_metadata api_keys ip_pool k)
            (finish_tasks F pdf_path key_to_save save_metadata api_keys ip_pool
               rest cancelling) in
        match metadata with
        | None =>
            completion_loop F pdf_path key_to_save save_metadata api_keys max_pdf_num
              ip_pool stop_event rest cancelling
        | Some metadata =>
            let* d := get_metadict in
            do* set_metadict (dict_set d (p_doi metadata) metadata) in
            let* stop :=
              on_error
                (let* entries := orch_world (listdir_len pdf_path) in
                 do* orch_log (QuotaChecked entries) in
                 if (max_pdf_num <? entries)%nat then ret true
                 else match stop_event with
                      | None => throw AttributeError
                      | Some _ => orch_world is_set
                      end)
                (finish_tasks F pdf_path key_to_save save_metadata api_keys ip_pool
                   rest cancelling) in
            completion_loop F pdf_path key_to_save save_metadata api_keys max_pdf_num
              ip_pool stop_event rest (cancelling || stop)
        end
  end.

(** How a call of the orchestrator ends when it does not raise: it returns,
    or it ends the process with [exit()] (which nothing in the function
    catches). *)
Inductive Termination : Type := Returned | Exited.

(** [as_completed] gives the order in which the pool hands the submitted
    tasks back. *)
Definition save_pdf_from_dump_new (F : Name -> Strategy)
    (as_completed : list (option string) -> list (option string * bool))
    (dump_path : Path) (pdf_path : Path) (key_to_save : SaveKey)
    (save_metadata : bool) (api_keys : gmap string string) (max_pdf_num : nat)
    (ip_pool : option (option string)) (stop_event : option unit)
  : ST Orch Termination :=
  if negb (Py.endswith (Pathlib.as_posix dump_path) ".jsonl") then throw ValueError
  else
    do* set_metadict [] in
    let* present := orch_world (path_exists dump_path) in
    do* (if present then
           let* data := orch_world (read_file dump_path) in
           let* d := lift (load_lines (readlines data) []) in
           set_metadict d
         else ret tt) in
    let* d := get_metadict in
    let tasks :=
      List.map fst
        (List.filter (fun kp => (truthy (p_is_materials (snd kp))
                                 && negb (truthy (p_success (snd kp))))%bool) d) in
    do* completion_loop F pdf_path key_to_save save_metadata api_keys max_pdf_num
          ip_pool stop_event (as_completed tasks) false in
    do* f_save_metadata dump_path in
    let* stop :=
      match stop_event with
      | None => throw AttributeError
      | Some _ => orch_world is_set
      end in
    if stop then ret Exited else ret Returned.

End WithLib.
End Pdf.

(** ** A concrete instance of the library interface

    Small stand-ins for the parsers, enough to run the model on examples:
    a landing page names its PDF after ["citation_pdf_url="], an archive is
    ["PK"] followed by [;name=body] members, a dump line is
    [doi|success|type|path]. *)

Module Sample.

Definition after (marker s : string) : option string :=
  match Py.split s marker with
  | _ :: rest :: _ => Some rest
  | _ => None
  end.

Definition digit (c : ascii) : option nat :=
  let n := nat_of_ascii c in
  if ((48 <=? n)%nat && (n <=? 57)%nat)%bool then Some (n - 48) else None.

Fixpoint digits (s : string) (acc : nat) : option nat :=
  match s with
  | EmptyString => Some acc
  | String c s' =>
      match digit c with
      | Some k => digits s' (10 * acc + k)
      | None => None
      end
  end.

Definition number (s : string) : option nat :=
  match s with
  | EmptyString => None
  | _ => digits s 0
  end.

(** ["YYYY-MM-DD"] *)
Definition parse_date (s : string) : result date :=
  match Py.split s "-" with
  | [y; m; d] =>
      match number y, number m, number d with
      | Some y, Some m, Some d =>
          match Fallbacks.monthrange y m with
          | Return last =>
              if ((1 <=? d)%nat && (d <=? last)%nat && (1 <=? y)%nat
                  && (y <=? Fallbacks.MAXYEAR)%nat)%bool
              then Return {| year := y; month := m; day := d |}
              else Raise ValueError
          | Raise e => Raise e
          end
      | _, _, _ => Raise ValueError
      end
  | _ => Raise ValueError
  end.

Definition members (data : string) : result (list (string * string)) :=
  match Py.split data ";" with
  | "PK" :: entries =>
      Return (List.map (fun e =>
                match Py.split e "=" with
                | n :: b :: _ => (n, b)
                | _ => (e, EmptyString)
                end) entries)
  | _ => Raise BadZipFile
  end.

Definition read_member (data name : string) : result string :=
  match members data with
  | Raise e => Raise e
  | Return ms =>
      match List.find (fun m => String.eqb (fst m) name) ms with
      | Some m => Return (snd m)
      | None => Raise KeyError
      end
  end.

Definition dumps (p : Paper) : string :=
  fmt (p_doi p) +:+ "|" +:+ (if truthy (p_success p) then "true" else "false")
  +:+ "|" +:+ fmt (p_type p) +:+ "|" +:+ fmt (p_path p).

Definition loads (line : string) : result Paper :=
  match Py.split line "|" with
  | d :: s :: _ =>
      Return {| p_doi := (if String.eqb d "None" then None else Some d);
                p_title := None; p_date := None;
                p_is_materials := Some true;
                p_success := Some (String.eqb s "true");
                p_type := None; p_path := None; p_url := None |}
  | _ => Raise JSONDecodeError
  end.

#[export] Instance lib : Lib := {|
  soup_meta_content html _ := after "citation_pdf_url=" html;
  soup_tag_src html tag :=
    if Py.contains ("<" +:+ tag) html then Some (after "src=" html) else None;
  json_first_pmcid body :=
    if Py.startswith body "{" then Return (after "pmcid=" body) else Raise JSONDecodeError;
  json_collection_date body :=
    match after "date=" body with Some d => Return d | None => Raise KeyError end;
  fromisoformat := parse_date;
  json_tree_paths body := Return (Py.split body ";");
  re_match_elife path :=
    match after "articles/elife-" path with
    | Some rest =>
        match Py.split rest "-v" with
        | [num; v] =>
            match number num, number (Py.replace v ".xml" EmptyString) with
            | Some _, Some k => Some (num, k)
            | _, _ => None
            end
        | _ => None
        end
    | None => None
    end;
  etree_fromstring body :=
    if Py.startswith body "<" then Return tt else Raise XMLSyntaxError;
  zip_namelist data :=
    match members data with
    | Return ms => Return (List.map fst ms)
    | Raise e => Raise e
    end;
  zip_read := read_member;
  json_dumps := dumps;
  json_loads := loads;
  str_lower := Py.lower;
  str_lower_ascii := fun _ _ => eq_refl;
|}.

(** A world with nothing in it. *)
Definition empty_world : World :=
  {| http_replies := []; http_log := []; s3_replies := []; s3_listing := None;
     s3_log := []; fs := ∅; ELIFE_XML_INDEX := None; slept := [];
     stop_answers := []; write_faults := [] |}.

Definition ok (body : string) : option Response :=
  Some {| status_code := 200; content := body |}.

End Sample.

(** ** The vocabulary of the properties *)

(** The archive bucket of a month. *)
Definition bucket (y m : nat) : string :=
  Fallbacks.month_name m +:+ "_" +:+ Py.str_of_nat y.

(** The month after [(y, m)]. *)
Definition following_month (y m : nat) : nat * nat :=
  if (m =? 12)%nat then (y + 1, 1) else (y, m + 1).

(** A date as [datetime.date] can hold it; [last] is the length of its month. *)
Definition valid_date (d : date) (last : nat) : Prop :=
  Fallbacks.monthrange (year d) (month d) = Return last /\
  1 <= day d <= last /\ 1 <= year d <= Fallbacks.MAXYEAR.

(** The strategies [save_pdf] is to try for an identifier, in order. *)
Definition chain (doi : string) : list Fallbacks.Name :=
  (if Py.contains "arxiv" doi then [Fallbacks.N_arxiv] else [])
  ++ [Fallbacks.N_doi; Fallbacks.N_sci_hub; Fallbacks.N_bioc_pmc].

(** The strategy invocations among some events, oldest first. *)
Definition calls_of (tr : list Pdf.Event)
  : list (Fallbacks.Name * result (bool * option string)) :=
  List.flat_map (fun e => match e with
                          | Pdf.StrategyCalled n r => [(n, r)]
                          | _ => []
                          end) tr.

(** The events a computation added to the trace. *)
Definition new_events (before after : list Pdf.Event) : list Pdf.Event :=
  drop (List.length before) after.

(** An invocation that returned without success. *)
Definition declined (c : Fallbacks.Name * result (bool * option string)) : Prop :=
  exists u, snd c = Return (false, u).

(** ** Concrete runs *)

Module Demo.

Definition paper_xyz : Paper :=
  {| p_doi := Some "10.1000/xyz"; p_title := Some "A title"; p_date := None;
     p_is_materials := Some true; p_success := None; p_type := None;
     p_path := None; p_url := None |}.

(** The output folder ["out/kw"] exists and is empty. *)
Definition out_dirs : gmap Path Entry :=
  <[ ["out"; "kw"] := Directory ]> (<[ ["out"] := Directory ]> ∅).

(** The DOI resolver leads to a landing page that names a PDF, and the PDF
    is served. *)
Definition world_doi_pdf : World :=
  with_fs
    (with_http Sample.empty_world
       [Sample.ok "<html>citation_pdf_url=https://pub.example/xyz.pdf";
        Sample.ok "%PDF-1.7 body"] [])
    out_dirs.

Definition ctx_xyz (w : World) : Pdf.Ctx :=
  {| Pdf.cx_world := w; Pdf.cx_trace := []; Pdf.cx_paper := paper_xyz |}.

Definition out_xyz : Path := ["out"; "kw"; "10.1000_xyz.pdf"].

End Demo.

(** The replies a computation took from the network, and the last
    response among them. *)
Definition consumed (w w' : World) : list (option Response) :=
  take (List.length (http_replies w) - List.length (http_replies w')) (http_replies w).


(** What an attempt to download a PDF to [out] did: with [ok] the last
    response began with the PDF signature and is what is now stored at the
    destination; without it the file system is as before. *)
Definition pdf_outcome (out : Path) (ok : bool) (w w' : World) : Prop :=
  exists l, http_replies w = l ++ http_replies w' /\
    if ok then
      exists resp, last l = Some (Some resp) /\ is_pdf (content resp) = true /\
        fs w' = <[Pathlib.with_suffix out ".pdf" := File (content resp)]> (fs w)
    else fs w' = fs w.

(** A request followed by the status check and the signature check, as
    all four strategies do it: [store] tells the result of each case. *)
Definition checked_download {A} (u : string) (px : option string) (out : Path)
    (stored rejected : A) : M A :=
  let* response := requests_get u [] px in
  do* raise_for_status response in
  if negb (is_pdf (content response)) then ret rejected
  else
    do* open_write (Pathlib.with_suffix out ".pdf") (content response) in
    ret stored.



(** Adopting a prior artifact: what the deduplication writes into a paper. *)
Definition adopt (p : Paper) (file : Path) (ext : string) : Paper :=
  set_path (Some (Pathlib.as_posix file)) (set_type (Some ext) (set_success (Some true) p)).

(** A sibling of the output folder that already holds [filename.ext]. *)
Definition holds_artifact (f : gmap Path Entry) (pdf_path : Path) (filename : string)
    (subdir : Path) (ext : string) : Prop :=
  In subdir (children f (Pathlib.parent pdf_path)) /\
  is_dir_in f subdir = true /\
  exists_in f (Pathlib.child subdir (filename +:+ "." +:+ ext)) = true.

Module Demo2.

(** A sibling folder ["out/other"] already holds the PDF of 10.1000/xyz. *)
Definition fs_with_prior : gmap Path Entry :=
  <[ ["out"; "other"; "10.1000_xyz.pdf"] := File "%PDF-1.4 earlier run" ]>
    (<[ ["out"; "other"] := Directory ]> Demo.out_dirs).

(** The network would serve the PDF if it were asked. *)
Definition world_with_prior : World := with_fs Demo.world_doi_pdf fs_with_prior.

(** The landing page names a PDF, but what is served is an error page. *)
Definition world_doi_html : World :=
  with_fs
    (with_http Sample.empty_world
       [Sample.ok "<html>citation_pdf_url=https://pub.example/xyz.pdf";
        Sample.ok "<html>Access denied</html>"] [])
    Demo.out_dirs.

End Demo2.

(** The two windows [find_meca_for_doi] reads. *)
Definition head_read (key : string) : S3Call := GetObject key (Some "bytes=0-4095").
Definition tail_read (key : string) : S3Call := GetObject key (Some "bytes=-4096").






(** The lines of a dump that holds the records of [d], in their order. *)
Definition lines_of `{Lib} (d : list (option string * Paper)) : list string :=
  List.map (fun kp => json_dumps (snd kp) +:+ String (ascii_of_nat 10) EmptyString) d.

(** The first of the next [n] writes that fails, with its error: [faults]
    is what the writes to come will meet. *)
Fixpoint first_fault (faults : list (option exn)) (n : nat) : option (nat * exn) :=
  match n, faults with
  | S _, Some e :: _ => Some (0, e)
  | S n', None :: rest =>
      match first_fault rest n' with
      | Some (k, e) => Some (S k, e)
      | None => None
      end
  | _, _ => None
  end.

(** [open(p, "w")] would succeed: the folder of [p] is there and [p] is
    not a folder. *)
Definition writable (f : gmap Path Entry) (p : Path) : bool :=
  (is_dir_in f (Pathlib.parent p) && negb (is_dir_in f p))%bool.

(** The S3 calls a computation added to the log. *)
Definition new_s3_calls (w w' : World) : list S3Call :=
  drop (List.length (s3_log w)) (s3_log w').

(** The reads of whole objects among some S3 calls. *)
Definition full_fetches (calls : list S3Call) : list string :=
  List.flat_map (fun c => match c with
                          | GetObject key None => [key]
                          | _ => []
                          end) calls.

Module Demo3.

Definition doi_biorxiv : string := "10.1101/2020.04.30.123456".

Definition out_biorxiv : Path := ["out"; "kw"; "10.1101_2020.04.30.123456.pdf"].

Definition candidates : list string :=
  ["Current_Content/May_2020/a1.meca"; "Current_Content/May_2020/a2.meca";
   "Current_Content/May_2020/a3.meca"; "Current_Content/May_2020/a4.meca";
   "Current_Content/May_2020/a5.meca"].

(** the two windows of a container of another work *)
Definition other_head : option string := Some "PK;manifest.xml=<doi>10.1101/111111</doi>".
Definition other_tail : option string := Some ";content/111111.pdf=%PDF-1.4 other".

(** the two windows of the fourth container, and the container itself;
    the manifest spells the identifier in upper case *)
Definition target_head : option string :=
  Some "PK;manifest.xml=<DOI>10.1101/2020.04.30.123456</DOI>".
Definition target_tail : option string := Some ";content/123456.PDF=%PDF-1.5 target".
Definition target_whole : option string :=
  Some "PK;manifest.xml=<DOI>10.1101/2020.04.30.123456</DOI>;content/123456.PDF=%PDF-1.5 target".

(** Five candidates in the May folder; only the fourth is the one. *)
Definition world_biorxiv : World :=
  {| http_replies := [Sample.ok "date=2020-04-30"]; http_log := [];
     s3_replies := [other_head; other_tail; other_head; other_tail; other_head; other_tail;
                    target_head; target_tail; target_whole];
     s3_listing := Some [candidates ++ ["Current_Content/May_2020/index.txt"]];
     s3_log := []; fs := Demo.out_dirs; ELIFE_XML_INDEX := None; slept := [];
     stop_answers := []; write_faults := [] |}.

(** the pool completes the probes in the order of submission; when one
    of them matches, none of those after it has been started *)
Definition in_order (keys : list string) : list (string * bool) :=
  List.map (fun key => (key, false)) keys.

(** the same order; all the probes have been started when one matches *)
Definition all_started (keys : list string) : list (string * bool) :=
  List.map (fun key => (key, true)) keys.

Definition one_candidate : list string := ["Current_Content/May_2020/a4.meca"].

Definition world_of (whole : option string) : World :=
  {| http_replies := [Sample.ok "date=2020-04-30"]; http_log := [];
     s3_replies := [target_head; target_tail; whole];
     s3_listing := Some [one_candidate];
     s3_log := []; fs := Demo.out_dirs; ELIFE_XML_INDEX := None; slept := [];
     stop_answers := []; write_faults := [] |}.

(** a container whose PDF entry is named with a step out of the folder *)
Definition world_outside : World :=
  world_of (Some "PK;manifest.xml=<DOI>10.1101/2020.04.30.123456</DOI>;../evil.pdf=%PDF-1.5 evil").

(** a container whose PDF entry holds a page of text *)
Definition world_page : World :=
  world_of (Some "PK;manifest.xml=<DOI>10.1101/2020.04.30.123456</DOI>;content/123456.pdf=<html>Not found</html>").

End Demo3.

(** The Elsevier request for a paper. *)
Definition elsevier_request (paper : Paper) (api_keys : gmap string string) : Request :=
  {| req_url := "https://api.elsevier.com/content/article/doi/" +:+ fmt (p_doi paper)
                +:+ "?apiKey=" +:+ fmt (api_keys !! "ELSEVIER_TDM_API_KEY")
                +:+ "&httpAccept=text%2Fxml";
     req_params := []; req_proxies := None |}.

(** Suppression, as a property of two successive calls: after the first
    call, the second one sends nothing. *)
Definition second_call_suppressed `{Lib} (first second : Paper) (out : Path)
    (api_keys : gmap string string) (w : World) : Prop :=
  let w1 := snd (Fallbacks.fallback_elsevier_api first out api_keys w) in
  http_log (snd (Fallbacks.fallback_elsevier_api second out api_keys w1)) = http_log w1.

Module Demo4.

Definition keys : gmap string string := <["ELSEVIER_TDM_API_KEY" := "bad-key"]> ∅.

Definition unauthorized : option Response :=
  Some {| status_code := 401;
          content := "<service-error><status><statusCode>APIKEY_INVALID</statusCode></status></service-error>" |}.

(** Every request is answered 401 with APIKEY_INVALID. *)
Definition world_401 : World :=
  with_fs (with_http Sample.empty_world [unauthorized; unauthorized; unauthorized] [])
    Demo.out_dirs.

Definition paper_abc : Paper :=
  {| p_doi := Some "10.1016/abc"; p_title := None; p_date := None;
     p_is_materials := Some true; p_success := None; p_type := None;
     p_path := None; p_url := None |}.

End Demo4.

(** The events a task can add to the trace. *)
Definition task_event (e : Pdf.Event) : Prop :=
  match e with
  | Pdf.SavePdfCalled _ _ | Pdf.StrategyCalled _ _ => True
  | _ => False
  end.

(** What a task may do to its context: it keeps the identifier of its
    paper and adds task events to the trace. *)
Definition ctx_step (c c' : Pdf.Ctx) : Prop :=
  p_doi (Pdf.cx_paper c') = p_doi (Pdf.cx_paper c) /\
  exists evs, Pdf.cx_trace c' = Pdf.cx_trace c ++ evs /\ Forall task_event evs.

Definition framed {A} (m : ST Pdf.Ctx A) : Prop :=
  forall c, ctx_step c (snd (m c)).

(** Every paper of a dictionary is stored under its own identifier. *)
Definition keyed_by_doi (d : list (option string * Paper)) : Prop :=
  Forall (fun kp => p_doi (snd kp) = fst kp) d.

(** The events the loop over the completed tasks can add. *)
Definition loop_event (e : Pdf.Event) : Prop :=
  match e with
  | Pdf.Flushed => False
  | _ => True
  end.

(** A per-task check that found the quota exceeded. *)
Definition over_quota (max_pdf_num : nat) (e : Pdf.Event) : Prop :=
  match e with
  | Pdf.QuotaChecked n => max_pdf_num < n
  | _ => True
  end.

(** The two properties of the mapping that every step keeps. *)
Definition store_ok (d : list (option string * Paper)) : Prop :=
  NoDup (dict_keys d) /\ keyed_by_doi d.

Module Demo5.

Definition dump_path : Path := ["doi"; "kw.jsonl"].
Definition pdf_path : Path := ["out"; "kw"].

Definition newline : string := String (ascii_of_nat 10) EmptyString.

(** Two pending records. *)
Definition dump_two : string :=
  "10.1000/xyz|false" +:+ newline +:+ "10.1000/abc|false" +:+ newline.

(** Records that have all succeeded already: nothing to schedule. *)
Definition dump_done : string := "10.1000/xyz|true" +:+ newline.

(** One pending record whose identifier is null. *)
Definition dump_null : string := "None|false" +:+ newline.

Definition files (dump : string) : gmap Path Entry :=
  <[ dump_path := File dump ]> (<[ ["doi"] := Directory ]> Demo.out_dirs).

Definition landing (name : string) : option Response :=
  Sample.ok ("<html>citation_pdf_url=https://pub.example/" +:+ name +:+ ".pdf").

(** The publisher serves both PDFs; [answers] is what the event object
    will say. *)
Definition world (dump : string) (answers : list bool) : World :=
  {| http_replies := [landing "xyz"; Sample.ok "%PDF-1.7 xyz";
                      landing "abc"; Sample.ok "%PDF-1.7 abc"];
     http_log := []; s3_replies := []; s3_listing := None; s3_log := [];
     fs := files dump; ELIFE_XML_INDEX := None; slept := [];
     stop_answers := answers; write_faults := [] |}.

Definition start (dump : string) (answers : list bool) : Pdf.Orch :=
  {| Pdf.o_world := world dump answers; Pdf.o_trace := []; Pdf.metadict := [] |}.

(** The same start on a device that lets one write through and fails on
    the next. *)
Definition start_failing (dump : string) (answers : list bool) : Pdf.Orch :=
  {| Pdf.o_world := with_faults (world dump answers) [None; Some OSError];
     Pdf.o_trace := []; Pdf.metadict := [] |}.

(** tasks complete in the order of submission; none has been started
    when the pool is told to cancel *)
Definition one_by_one (tasks : list (option string)) : list (option string * bool) :=
  List.map (fun k => (k, false)) tasks.

Definition run (dump : string) (answers : list bool) (max_pdf_num : nat)
    (stop_event : option unit) : result Pdf.Termination * Pdf.Orch :=
  Pdf.save_pdf_from_dump_new (H := Sample.lib) (Fallbacks.FALLBACKS (H := Sample.lib))
    one_by_one dump_path pdf_path KeyDoi false ∅ max_pdf_num None stop_event
    (start dump answers).

End Demo5.

(** ** More vocabulary *)

(** The kind of file each strategy of [save_pdf] leaves behind: the value
    [outputtype] takes after its success. *)
Definition kind_of (n : Fallbacks.Name) : string :=
  match n with
  | Fallbacks.N_bioc_pmc => "xml"
  | _ => "pdf"
  end.

(** A paper with its four result keys given. *)
Definition with_result (p : Paper) (ok : bool) (ty path u : option string) : Paper :=
  {| p_doi := p_doi p; p_title := p_title p; p_date := p_date p;
     p_is_materials := p_is_materials p; p_success := Some ok; p_type := ty;
     p_path := path; p_url := u |}.

(** The result keys of a paper are settled: a success names the kind of
    the file and its path, a failure names neither. *)
Definition settled (p : Paper) : Prop :=
  (p_success p = Some true /\ (p_type p = Some "pdf" \/ p_type p = Some "xml") /\
   is_Some (p_path p))
  \/ (p_success p = Some false /\ p_type p = None /\ p_path p = None).

(** The papers a task leaves alone: [paper["success"] or
    paper["is_materials"] is False]. *)
Definition skipped (p : Paper) : bool :=
  (truthy (p_success p)
   || match p_is_materials p with Some false => true | _ => false end)%bool.

(** The papers the orchestrator makes a task of:
    [paper["is_materials"] and not paper["success"]]. *)
Definition scheduled (p : Paper) : bool :=
  (truthy (p_is_materials p) && negb (truthy (p_success p)))%bool.

(** [as_completed] hands back nothing but futures it was given. *)
Definition yields_submitted
    (as_completed : list (option string) -> list (option string * bool)) : Prop :=
  forall ks, Forall (fun kb => fst kb ∈ ks) (as_completed ks).

(** What stays of the loaded mapping [d0] in the current one [d]: the
    identifiers in their order, and the records that were not scheduled. *)
Definition kept (d0 d : list (option string * Paper)) : Prop :=
  dict_keys d = dict_keys d0 /\
  forall k p, dict_get d0 k = Some p -> scheduled p = false -> dict_get d k = Some p.

(** The identifiers [ks] in the order of their first occurrence, those of
    [seen] left out. *)
Fixpoint first_occurrences (ks seen : list (option string)) : list (option string) :=
  match ks with
  | [] => []
  | k :: ks' =>
      if decide (k ∈ seen) then first_occurrences ks' seen
      else k :: first_occurrences ks' (seen ++ [k])
  end.

(** The last of some papers that carries the identifier [k]. *)
Definition last_with (k : option string) (papers : list Paper) : option Paper :=
  List.find (fun p => bool_decide (p_doi p = k)) (List.rev papers).

(** A text without line break. *)
Fixpoint one_line (s : string) : bool :=
  match s with
  | EmptyString => true
  | String c s' =>
      (negb (Ascii.eqb c (ascii_of_nat 10)) && negb (Ascii.eqb c (ascii_of_nat 13))
       && one_line s')%bool
  end.

(** The line break the flush writes after each record. *)
Definition nl : string := String (ascii_of_nat 10) EmptyString.


(** The address of a file of the eLife repository. *)
Definition elife_raw_url (path : string) : string :=
  "https://raw.githubusercontent.com/elifesciences/elife-article-xml/master/" +:+ path.

(** The versions of an article among the paths of the repository tree, in
    the order of the tree. *)
Definition listed_versions `{Lib} (article : string) (paths : list string)
  : list (nat * string) :=
  List.flat_map
    (fun path =>
       match re_match_elife path with
       | Some (num, version) =>
           if String.eqb num article then [(version, elife_raw_url path)] else []
       | None => []
       end) paths.

(** Versions in ascending order. *)
Fixpoint ascending (l : list (nat * string)) : Prop :=
  match l with
  | [] => True
  | x :: l' => Forall (fun y => fst x <= fst y) l' /\ ascending l'
  end.

(** What an attempt to store an XML file for [out] did: with [ok] the body
    of the last response received is what is now stored at the destination
    with the suffix [.xml]; without it the file system is as before. *)
Definition xml_outcome (out : Path) (ok : bool) (w w' : World) : Prop :=
  exists l, http_replies w = l ++ http_replies w' /\
    if ok then
      exists resp, last l = Some (Some resp) /\
        fs w' = <[Pathlib.with_suffix out ".xml" := File (content resp)]> (fs w)
    else fs w' = fs w.

(** The two requests of [fallback_bioc_pmc]. *)
Definition idconv_request (doi : string) (proxies : option string) : Request :=
  {| req_url := "https://www.ncbi.nlm.nih.gov/pmc/utils/idconv/v1.0/";
     req_params := [("tool", "paperscraper"); ("email", "2987498538@qq.com");
                    ("ids", doi); ("idtype", "doi"); ("format", "json")];
     req_proxies := proxies |}.

Definition bioc_xml_url (pmcid : string) : string :=
  "https://www.ncbi.nlm.nih.gov/research/bionlp/RESTful/pmcoa.cgi/BioC_xml/"
  +:+ pmcid +:+ "/unicode".

(** The body with which the BioC service says that it has nothing. *)
Definition bioc_no_result : string :=
  "[Error] : No result can be found. <BR><HR><B> - https://www.ncbi.nlm.nih.gov/research/bionlp/RESTful/".

(** The requests a computation added to the log. *)
Definition new_requests (w w' : World) : list Request :=
  drop (List.length (http_log w)) (http_log w').


(** ** step3.py: the identifier read off a file name *)

Module Step3.

(** [doi = xml_path.stem.replace("_", "/")] (and the same for [pdf_path])
    in [update_metadata] *)
Definition doi_of_file (p : Path) : string :=
  Py.replace (Pathlib.stem_of (Pathlib.name p)) "_" "/".

End Step3.

(** A string with every [a] turned into [b]. *)
Fixpoint swap_char (a b : ascii) (s : string) : string :=
  match s with
  | EmptyString => EmptyString
  | String c s' => String (if Ascii.eqb a c then b else c) (swap_char a b s')
  end.

(** ** More concrete runs *)

Module Demo6.

(** A record that is done already and one that is pending. *)
Definition dump_mixed : string :=
  "10.1000/xyz|true" +:+ nl +:+ "10.1000/abc|false" +:+ nl.

Definition paper_of (doi : string) (done : bool) : Paper :=
  {| p_doi := Some doi; p_title := None; p_date := None; p_is_materials := Some true;
     p_success := Some done; p_type := None; p_path := None; p_url := None |}.

Definition loaded_mixed : list (option string * Paper) :=
  [(Some "10.1000/xyz", paper_of "10.1000/xyz" true);
   (Some "10.1000/abc", paper_of "10.1000/abc" false)].

(** The second line is not a record. *)
Definition dump_bad : string :=
  "10.1000/xyz|false" +:+ nl +:+ "not a record" +:+ nl +:+ "10.1000/abc|false" +:+ nl.

(** The identifier 10.1000/xyz comes twice. *)
Definition lines_twice : list string :=
  ["10.1000/xyz|false"; "10.1000/abc|false"; "10.1000/xyz|true"].

(** No dump in the folder ["doi"]. *)
Definition start_without_dump : Pdf.Orch :=
  {| Pdf.o_world := with_fs Sample.empty_world (<[ ["doi"] := Directory ]> Demo.out_dirs);
     Pdf.o_trace := []; Pdf.metadict := [] |}.

(** The tree of the repository lists three versions of article 12345 and
    one of article 00007; the newest version of 12345 is then served. *)
Definition tree : string :=
  "articles/elife-12345-v2.xml;articles/elife-00007-v1.xml;articles/elife-12345-v3.xml;README.md;articles/elife-12345-v1.xml".

Definition world_elife : World :=
  with_fs (with_http Sample.empty_world [Sample.ok tree; Sample.ok "<article>v3</article>"] [])
    Demo.out_dirs.

Definition index_12345 : gmap string (list (nat * string)) :=
  <["12345" := [(1, elife_raw_url "articles/elife-12345-v1.xml");
                (3, elife_raw_url "articles/elife-12345-v3.xml");
                (2, elife_raw_url "articles/elife-12345-v2.xml")]]> ∅.

Definition world_indexed : World :=
  with_index (with_fs (with_http Sample.empty_world [Sample.ok "<article>v3</article>"] [])
                Demo.out_dirs)
    (Some index_12345).

(** The converter names PMC7654321 and the BioC service delivers. *)
Definition world_pmc : World :=
  with_fs (with_http Sample.empty_world
             [Sample.ok "{pmcid=PMC7654321"; Sample.ok "<collection>full text</collection>"] [])
    Demo.out_dirs.

(** The Elsevier API delivers an article. *)
Definition world_elsevier : World :=
  with_fs (with_http Sample.empty_world [Sample.ok "<full-text-retrieval-response/>"] [])
    Demo.out_dirs.

(** arXiv has the old-style paper 9901001 in astro-ph only. *)
Definition world_arxiv_old : World :=
  with_fs (with_http Sample.empty_world
             [Some {| status_code := 404; content := "not found" |};
              Sample.ok "%PDF-1.2 astro"] [])
    Demo.out_dirs.

End Demo6.

(** A table of strategies whose members touch the file system in one way
    only: a success has written one file, the destination with the suffix
    of the strategy's kind (a PDF with the PDF signature); anything else has
    left the file system alone. *)
Definition writes_artifact (F : Fallbacks.Name -> Fallbacks.Strategy) : Prop :=
  forall n id out px w r w',
    F n id out px w = (r, w') ->
    match r with
    | Raise _ => fs w' = fs w
    | Return (true, _) =>
        exists body,
          fs w' = <[Pathlib.with_suffix out ("." +:+ kind_of n) := File body]> (fs w) /\
          (kind_of n = "pdf" -> is_pdf body = true)
    | Return (false, _) => fs w' = fs w
    end.

(** ** The sequential driver, [save_pdf_from_dump] *)

Section SequentialDriver.

(** [load_jsonl] and [load_api_keys] are imported from modules that are
    not part of this tree; they are parameters here. *)
Variable load_jsonl : Path -> M (list Paper).
Variable load_api_keys : option string -> M (gmap string string).

(** [for i, paper in enumerate(pbar)]: the paper of the iteration is the
    object [save_pdf] writes into.  The warning for a paper without
    identifier reads [paper['title']], a key every record has. *)
Fixpoint dump_loop (F : Fallbacks.Name -> Fallbacks.Strategy) (pdf_path : Path)
    (key_to_save : SaveKey) (save_metadata : bool) (api_keys : gmap string string)
    (papers : list Paper) : ST Pdf.Ctx unit :=
  match papers with
  | [] => ret tt
  | paper :: rest =>
      match p_doi paper with
      | None => dump_loop F pdf_path key_to_save save_metadata api_keys rest
      | Some _ =>
          match paper_get paper key_to_save with
          | None => throw AttributeError
          | Some v =>
              let filename := Py.replace v "/" "_" in
              let pdf_file := Pathlib.child pdf_path (filename +:+ ".pdf") in
              let xml_file := Pathlib.with_suffix pdf_file ".xml" in
              let* has_pdf := Pdf.in_world (path_exists pdf_file) in
              if has_pdf then dump_loop F pdf_path key_to_save save_metadata api_keys rest
              else
                let* has_xml := Pdf.in_world (path_exists xml_file) in
                if has_xml then dump_loop F pdf_path key_to_save save_metadata api_keys rest
                else
                  let output_path := pdf_file in
                  do* Pdf.update_paper (fun _ => paper) in
                  do* Pdf.save_pdf F output_path save_metadata api_keys None in
                  dump_loop F pdf_path key_to_save save_metadata api_keys rest
          end
      end
  end.

(** [api_keys] is a dictionary, or the path of a key file or [None]. *)
Definition save_pdf_from_dump (F : Fallbacks.Name -> Fallbacks.Strategy)
    (dump_path : Path) (pdf_path : Path) (key_to_save : SaveKey) (save_metadata : bool)
    (api_keys : option string + gmap string string) : ST Pdf.Ctx unit :=
  if negb (Py.endswith (Pathlib.as_posix dump_path) ".jsonl") then throw ValueError
  else
    let* papers := Pdf.in_world (load_jsonl dump_path) in
    let* api_keys :=
      match api_keys with
      | inr d => ret d
      | inl p => Pdf.in_world (load_api_keys p)
      end in
    dump_loop F pdf_path key_to_save save_metadata api_keys papers.

End SequentialDriver.

(** The papers the sequential driver passes over in a file system: those
    without identifier, and those whose PDF or XML file is there. *)
Definition passed_over (f : gmap Path Entry) (pdf_path : Path) (key_to_save : SaveKey)
    (paper : Paper) : bool :=
  match p_doi paper, paper_get paper key_to_save with
  | None, _ => true
  | Some _, None => false
  | Some _, Some v =>
      let pdf_file := Pathlib.child pdf_path (Py.replace v "/" "_" +:+ ".pdf") in
      (exists_in f pdf_file || exists_in f (Pathlib.with_suffix pdf_file ".xml"))%bool
  end.

(** A computation that leaves the file system as it finds it. *)
Definition reads_only {A} (m : M A) : Prop := forall w, fs (snd (m w)) = fs w.

(** The file the driver can store for a paper: the output folder's child
    named after the key, with the suffix [ext]. *)
Definition artifact_of (pdf_path : Path) (key_to_save : SaveKey) (paper : Paper)
    (ext : string) : option Path :=
  match p_doi paper, paper_get paper key_to_save with
  | Some _, Some v => Some (Pathlib.child pdf_path (Py.replace v "/" "_" +:+ "." +:+ ext))
  | _, _ => None
  end.

(** The keys from which the driver derives file names are not empty. *)
Definition named (key_to_save : SaveKey) (papers : list Paper) : Prop :=
  forall paper, In paper papers -> p_doi paper <> None ->
    paper_get paper key_to_save <> Some EmptyString.

Module Demo7.

(** A loader for the examples: one record per line of the file. *)
Definition load_jsonl `{Lib} (p : Path) : M (list Paper) :=
  let* data := Pdf.read_file p in
  lift (List.fold_right
          (fun line acc =>
             match json_loads line, acc with
             | Return paper, Return l => Return (paper :: l)
             | Raise e, _ => Raise e
             | _, Raise e => Raise e
             end) (Return []) (Pdf.readlines data)).

(** No key file in the examples. *)
Definition load_api_keys (p : option string) : M (gmap string string) := ret ∅.

End Demo7.

Module Demo8.

(** The two pending records of [Demo5.dump_two], as the loader reads them. *)
Definition papers_two : list Paper :=
  [Demo6.paper_of "10.1000/xyz" false; Demo6.paper_of "10.1000/abc" false].

(** The sequential driver starts on the dump of the two pending records. *)
Definition start : Pdf.Ctx :=
  {| Pdf.cx_world := Demo5.world Demo5.dump_two []; Pdf.cx_trace := [];
     Pdf.cx_paper := Demo.paper_xyz |}.

Definition run (c : Pdf.Ctx) : result unit * Pdf.Ctx :=
  save_pdf_from_dump (Demo7.load_jsonl (H := Sample.lib)) Demo7.load_api_keys
    (Fallbacks.FALLBACKS (H := Sample.lib)) Demo5.dump_path Demo5.pdf_path KeyDoi false
    (inl None) c.

End Demo8.


(** The address [fallback_sci_hub] makes of the [src] of a frame. *)
Definition frame_address (src : string) : string :=
  if Py.startswith src "http" then src else "https:" +:+ src.

(** The tag [fallback_sci_hub] takes the address from: [iframe] if the
    page has one, otherwise [embed]. *)
Definition frame_tag `{Lib} (page : string) : string :=
  match soup_tag_src page "iframe" with
  | Some _ => "iframe"
  | None => "embed"
  end.

(** [r.raise_for_status()] lets the answer [r] pass. *)
Definition status_ok (r : Response) : bool :=
  negb ((400 <=? status_code r)%nat && (status_code r <? 600)%nat).

(** What a request for a PDF comes to: the body is stored, the answer is
    rejected because its body does not start with [%PDF], or the attempt
    ends with an exception. *)
Inductive Attempt : Type := Stored | Rejected | Raised.

(** What the request comes to by the reply of the network ([None]: the
    request fails) when the PDF is to go next to [out], on the files [f]:
    an answer with an error status raises, and so does a PDF that cannot be
    written. *)
Definition attempt_of (f : gmap Path Entry) (out : Path) (reply : option Response)
  : Attempt :=
  match reply with
  | None => Raised
  | Some resp =>
      if status_ok resp then
        if is_pdf (content resp) then
          if writable f (Pathlib.with_suffix out ".pdf") then Stored else Raised
        else Rejected
      else Raised
  end.

(** The address [fallback_doi] asks after the resolver: there is one when
    the resolver answered without error status with a page that names a
    non-empty [citation_pdf_url]. *)
Definition doi_pdf_address `{Lib} (reply : option Response) : option string :=
  match reply with
  | Some landing =>
      if status_ok landing then
        match soup_meta_content (text landing) "citation_pdf_url" with
        | Some pdf_url => if String.eqb pdf_url EmptyString then None else Some pdf_url
        | None => None
        end
      else None
  | None => None
  end.

(** The address [fallback_sci_hub] asks after the page of the identifier:
    there is one when the page came without error status and its frame has
    a [src]. *)
Definition sci_hub_pdf_address `{Lib} (reply : option Response) : option string :=
  match reply with
  | Some page =>
      if status_ok page then
        match soup_tag_src (text page) (frame_tag (text page)) with
        | Some (Some src) => Some (frame_address src)
        | _ => None
        end
      else None
  | None => None
  end.

(** ** The keyword driver ([test_download_pdf.py]) *)

Module Driver.

(** The globals [current_pdf_word] and [running_pdf] of the module. *)
Record Globals : Type := { current_pdf_word : string; running_pdf : bool }.

(** What [download_pdf] expects in [target_keys.json]: for each category
    its sub-categories entry, if it has one, with the keywords of each
    sub-category, all in the order of the file. *)
Definition Keywords : Type := list (string * option (list (string * list string))).

(** [subcategory_cn]: what precedes the first space of the name. *)
Definition subcategory_cn (subcategory : string) : string :=
  if Py.contains " " subcategory then List.hd EmptyString (Py.split subcategory " ")
  else subcategory.

(** The driver's state: the globals beside everything its calls act on. *)
Record State (S : Type) : Type := { env : S; globals : Globals }.
Arguments env {S} _.
Arguments globals {S} _.

Definition in_env {S A} (m : ST S A) : ST (State S) A :=
  fun d =>
    let (r, s') := m (env d) in
    (r, {| env := s'; globals := globals d |}).

Definition get_globals {S} : ST (State S) Globals := fun d => (Return (globals d), d).

Definition set_running {S} (b : bool) : ST (State S) unit :=
  fun d =>
    (Return tt, {| env := env d;
                   globals := {| current_pdf_word := current_pdf_word (globals d);
                                 running_pdf := b |} |}).

Definition set_current {S} (keyword : string) : ST (State S) unit :=
  fun d =>
    (Return tt, {| env := env d;
                   globals := {| current_pdf_word := keyword;
                                 running_pdf := running_pdf (globals d) |} |}).

(** What [download_pdf] returns: its message, or nothing after an error. *)
Inductive Outcome : Type := Message | Nothing.

Section WithEffects.
Context {S : Type}.

(** The calls of [download_pdf], in the order of the source:
    [signal.signal(signal.SIGINT, signal.SIG_IGN)];
    [doipath.mkdir(...)] and [pdfpath.mkdir(...)];
    opening [target_keys.json] and [json.load];
    [path1.mkdir(...)] and [path2.mkdir(...)] of a category;
    [path3.mkdir(...)] and [path4.mkdir(...)] of a sub-category;
    [path5.mkdir(...)] of a keyword;
    [save_pdf_from_dump_new(...)] on the dump and the folder of a keyword;
    writing the keyword into [record_pdf.txt]. *)
Variable ignore_sigint : ST S unit.
Variable mkdir_roots : ST S unit.
Variable load_keywords : ST S Keywords.
Variable mkdir_category : string -> ST S unit.
Variable mkdir_subcategory : string -> string -> ST S unit.
Variable mkdir_keyword : string -> string -> string -> ST S unit.
Variable download_keyword : string -> string -> string -> ST S unit.
Variable write_record : string -> ST S unit.

(** The body of [for keyword in keywords]. *)
Definition keyword_body (category cn keyword : string) : ST (State S) unit :=
  do* in_env (mkdir_keyword category cn keyword) in
  let* g := get_globals in
  do* (if String.eqb (current_pdf_word g) EmptyString then set_running true else ret tt) in
  let* g := get_globals in
  do* (if running_pdf g then
         do* in_env (download_keyword category cn keyword) in
         do* in_env (write_record keyword) in
         set_current keyword
       else ret tt) in
  let* g := get_globals in
  if String.eqb (current_pdf_word g) keyword then set_running true else ret tt.

Fixpoint keyword_loop (category cn : string) (keywords : list string)
  : ST (State S) unit :=
  match keywords with
  | [] => ret tt
  | keyword :: rest =>
      do* keyword_body category cn keyword in
      keyword_loop category cn rest
  end.

Fixpoint subcategory_loop (category : string) (subs : list (string * list string))
  : ST (State S) unit :=
  match subs with
  | [] => ret tt
  | (subcategory, keywords) :: rest =>
      let cn := subcategory_cn subcategory in
      do* in_env (mkdir_subcategory category cn) in
      do* keyword_loop category cn keywords in
      subcategory_loop category rest
  end.

Fixpoint category_loop (keywords_data : Keywords) : ST (State S) unit :=
  match keywords_data with
  | [] => ret tt
  | (category, category_data) :: rest =>
      do* in_env (mkdir_category category) in
      do* match category_data with
          | Some subs => subcategory_loop category subs
          | None => ret tt
          end in
      category_loop rest
  end.

Definition download_pdf : ST (State S) Outcome :=
  do* in_env ignore_sigint in
  let* r := try_
    (do* in_env mkdir_roots in
     let* keywords_data := in_env load_keywords in
     do* category_loop keywords_data in
     ret Message) in
  match r with
  | Return v => ret v
  | Raise _ => ret Nothing
  end.

(** The places the loops come through, in their order. *)
Inductive Place : Type :=
  | AtCategory (category : string)
  | AtSubcategory (category cn : string)
  | AtKeyword (category cn keyword : string).

Definition places_of_subcategory (category : string) (sub : string * list string)
  : list Place :=
  AtSubcategory category (subcategory_cn (fst sub))
  :: List.map (AtKeyword category (subcategory_cn (fst sub))) (snd sub).

Definition places (keywords_data : Keywords) : list Place :=
  List.flat_map
    (fun entry =>
       AtCategory (fst entry)
       :: match snd entry with
          | Some subs => List.flat_map (places_of_subcategory (fst entry)) subs
          | None => []
          end)
    keywords_data.

Definition keyword_of (p : Place) : option string :=
  match p with
  | AtKeyword _ _ keyword => Some keyword
  | _ => None
  end.

(** Creating the folders of some places, and nothing else. *)
Fixpoint prepare (ps : list Place) : ST S unit :=
  match ps with
  | [] => ret tt
  | p :: rest =>
      do* match p with
          | AtCategory category => mkdir_category category
          | AtSubcategory category cn => mkdir_subcategory category cn
          | AtKeyword category cn keyword => mkdir_keyword category cn keyword
          end in
      prepare rest
  end.

(** Creating the folders of some places and downloading every keyword
    among them, each recorded after its download. *)
Fixpoint process (ps : list Place) : ST (State S) unit :=
  match ps with
  | [] => ret tt
  | p :: rest =>
      do* match p with
          | AtCategory category => in_env (mkdir_category category)
          | AtSubcategory category cn => in_env (mkdir_subcategory category cn)
          | AtKeyword category cn keyword =>
              do* in_env (mkdir_keyword category cn keyword) in
              do* in_env (download_keyword category cn keyword) in
              do* in_env (write_record keyword) in
              set_current keyword
          end in
      process rest
  end.

(** The loops of [download_pdf], place by place. *)
Fixpoint walk (ps : list Place) : ST (State S) unit :=
  match ps with
  | [] => ret tt
  | p :: rest =>
      do* match p with
          | AtCategory category => in_env (mkdir_category category)
          | AtSubcategory category cn => in_env (mkdir_subcategory category cn)
          | AtKeyword category cn keyword => keyword_body category cn keyword
          end in
      walk rest
  end.

End WithEffects.

End Driver.

Module Demo9.

(** Effects that only write down what is called. *)
Definition note (what : string) : ST (list string) unit :=
  fun log => (Return tt, log ++ [what]).

Definition keys : Driver.Keywords :=
  [("metals", Some [("alloys A", ["steel"; "brass"]); ("oxides", ["rust"])]);
   ("misc", None)].

Definition ignore_sigint : ST (list string) unit := note "ignore SIGINT".

Definition mkdir_roots : ST (list string) unit := note "mkdir doi, pdf".

Definition load_keywords : ST (list string) Driver.Keywords :=
  do* note "load target_keys.json" in ret keys.

Definition mkdir_category (c : string) : ST (list string) unit := note ("mkdir " +:+ c).

Definition mkdir_subcategory (c cn : string) : ST (list string) unit :=
  note ("mkdir " +:+ c +:+ "/" +:+ cn).

Definition mkdir_keyword (c cn k : string) : ST (list string) unit :=
  note ("mkdir " +:+ c +:+ "/" +:+ cn +:+ "/" +:+ k).

Definition download_keyword (c cn k : string) : ST (list string) unit :=
  note ("download " +:+ k).

Definition write_record (k : string) : ST (list string) unit := note ("record " +:+ k).

Definition loops : ST (Driver.State (list string)) unit :=
  Driver.category_loop mkdir_category mkdir_subcategory mkdir_keyword download_keyword
    write_record keys.

Definition download_pdf : ST (Driver.State (list string)) Driver.Outcome :=
  Driver.download_pdf ignore_sigint mkdir_roots load_keywords mkdir_category
    mkdir_subcategory mkdir_keyword download_keyword write_record.

Definition start (word : string) : Driver.State (list string) :=
  {| Driver.env := [];
     Driver.globals := {| Driver.current_pdf_word := word; Driver.running_pdf := false |} |}.

End Demo9.

(** ** Counting requests *)

(** Between two worlds at most [n] requests were sent, all of them with
    the proxies [px]. *)
Definition sends (px : option string) (n : nat) (w w' : World) : Prop :=
  exists l, http_log w' = http_log w ++ l /\
            Forall (fun rq => req_proxies rq = px) l /\ List.length l <= n.

(** A computation that sends at most [n] requests, all with [px]. *)
Definition within {A} (px : option string) (n : nat) (m : M A) : Prop :=
  forall w r w', m w = (r, w') -> sends px n w w'.

(** A computation that sends nothing. *)
Definition silent {A} (m : M A) : Prop :=
  forall w r w', m w = (r, w') -> http_log w' = http_log w.

(** The number of requests each strategy of [save_pdf] can send. *)
Definition request_budget (n : Fallbacks.Name) : nat :=
  match n with
  | Fallbacks.N_arxiv => 3
  | _ => 2
  end.

(** The proxies a task uses: those of the pool, when there is a pool and
    it has any. *)
Definition proxies_of (ip_pool : option (option string)) : option string :=
  match ip_pool with
  | Some (Some proxies) => Some proxies
  | _ => None
  end.

(** A computation on a paper that sends at most [n] requests, all with
    the proxies [px]. *)
Definition within_ctx {A} (px : option string) (n : nat) (m : ST Pdf.Ctx A) : Prop :=
  forall c r c', m c = (r, c') -> sends px n (Pdf.cx_world c) (Pdf.cx_world c').

(** * Properties *)

(** ** Sanity checks of the string and path operations *)

Example split_doi : Py.split "10.1101/2020.01.02.123456" "/" = ["10.1101"; "2020.01.02.123456"].
Proof. reflexivity. Qed.

Example split_arxiv : Py.split "10.48550/arxiv.2101.00001" "arxiv." = ["10.48550/"; "2101.00001"].
Proof. reflexivity. Qed.

Example replace_slash : Py.replace "10.1000/xyz" "/" "_" = "10.1000_xyz".
Proof. reflexivity. Qed.

Example contains_arxiv : Py.contains "arxiv" "10.48550/arxiv.2101.00001" = true.
Proof. reflexivity. Qed.

Example lower_mixed : Py.lower "AbC.9z" = "abc.9z".
Proof. reflexivity. Qed.

Example with_suffix_xml :
  Pathlib.with_suffix ["out"; "kw"; "10.1000_xyz.pdf"] ".xml" = ["out"; "kw"; "10.1000_xyz.xml"].
Proof. reflexivity. Qed.

(** [with_suffix] replaces what follows the last dot of the name, also
    when that is part of an identifier. *)
Example with_suffix_cuts_identifier :
  Pathlib.with_suffix ["out"; "kw"; "10.1101_798496"] ".pdf" = ["out"; "kw"; "10.pdf"].
Proof. reflexivity. Qed.

Example with_suffix_pdf_same :
  Pathlib.with_suffix ["out"; "kw"; "10.1000_xyz.pdf"] ".pdf" = ["out"; "kw"; "10.1000_xyz.pdf"].
Proof. reflexivity. Qed.

(** ** The month folder of the archive (C9) *)

Section MonthFolder.
Context `{Lib}.

Lemma monthrange_month (y m last : nat) :
  Fallbacks.monthrange y m = Return last -> 1 <= m <= 12.
Proof.
  unfold Fallbacks.monthrange.
  do 13 (destruct m as [|m]; [intros; try discriminate; lia|]).
  discriminate.
Qed.

Lemma monthrange_december (y last : nat) :
  Fallbacks.monthrange y 12 = Return last -> last = 31.
Proof. cbn. intros [= <-]. reflexivity. Qed.

(** The date arithmetic of [month_folder], once the lookup has answered. *)
Lemma month_folder_of_date (doi_ : string) (w : World) (resp : Response)
    (rest : list (option Response)) (date_str : string) (d : date) (last : nat) :
  http_replies w = Some resp :: rest ->
  (status_code resp < 400 \/ 600 <= status_code resp) ->
  json_collection_date (content resp) = Return date_str ->
  fromisoformat date_str = Return d ->
  valid_date d last ->
  (year d, month d, day d) <> (Fallbacks.MAXYEAR, 12, 31) ->
  fst (Fallbacks.month_folder doi_ w) =
    Return (if (day d =? last)%nat
            then bucket (fst (following_month (year d) (month d)))
                        (snd (following_month (year d) (month d)))
            else bucket (year d) (month d)).
Proof.
  intros Hrep Hst Hjson Hiso (Hmr & Hday & Hyear) Hmax.
  unfold Fallbacks.month_folder, bind, requests_get, lift, ret.
  rewrite Hrep. cbn [fst snd].
  unfold raise_for_status, throw, ret.
  replace ((400 <=? status_code resp)%nat && (status_code resp <? 600)%nat)%bool
    with false
    by (symmetry; apply andb_false_iff;
        destruct Hst; [left; apply Nat.leb_gt | right; apply Nat.ltb_ge]; lia).
  cbn [content]. rewrite Hjson, Hiso, Hmr.
  destruct (day d =? last)%nat eqn:Elast.
  - apply Nat.eqb_eq in Elast.
    unfold Fallbacks.add_one_day. rewrite Hmr.
    replace (day d <? last)%nat with false by (symmetry; apply Nat.ltb_ge; lia).
    unfold following_month.
    destruct (month d =? 12)%nat eqn:E12.
    + apply Nat.eqb_eq in E12.
      replace (month d <? 12)%nat with false by (symmetry; apply Nat.ltb_ge; lia).
      assert (Hy : year d < Fallbacks.MAXYEAR).
      { destruct (Nat.eq_dec (year d) Fallbacks.MAXYEAR) as [Ey|Ey]; [|lia].
        exfalso. apply Hmax. rewrite E12 in Hmr.
        apply monthrange_december in Hmr. subst last.
        rewrite Ey, E12, Elast. reflexivity. }
      replace (year d <? Fallbacks.MAXYEAR)%nat with true
        by (symmetry; apply Nat.ltb_lt; exact Hy).
      reflexivity.
    + apply Nat.eqb_neq in E12.
      pose proof (monthrange_month _ _ _ Hmr) as Hm.
      replace (month d <? 12)%nat with true by (symmetry; apply Nat.ltb_lt; lia).
      reflexivity.
  - reflexivity.
Qed.

(** C9. [month_folder] turns the deposit date the lookup returns into the
    [Month_Year] bucket: a date that is the last day of its month is moved
    one day on and lands in the bucket of the following month (the last day
    of April gives the May bucket, the last day of December the January
    bucket of the next year); any other date lands in the bucket of its own
    month.  ([datetime.date] ends with year 9999, whose last day cannot be
    moved on.) *)
Theorem month_folder_rollover (doi_ : string) (w : World) (resp : Response)
    (rest : list (option Response)) (date_str : string) (d : date) (last : nat) :
  http_replies w = Some resp :: rest ->
  (status_code resp < 400 \/ 600 <= status_code resp) ->
  json_collection_date (content resp) = Return date_str ->
  fromisoformat date_str = Return d ->
  valid_date d last ->
  (year d, month d, day d) <> (Fallbacks.MAXYEAR, 12, 31) ->
  (day d = last ->
     fst (Fallbacks.month_folder doi_ w) =
       Return (bucket (fst (following_month (year d) (month d)))
                      (snd (following_month (year d) (month d)))) /\
     (month d = 4 -> fst (Fallbacks.month_folder doi_ w) = Return (bucket (year d) 5))) /\
  (day d <> last ->
     fst (Fallbacks.month_folder doi_ w) = Return (bucket (year d) (month d))).
Proof.
  intros Hrep Hst Hjson Hiso Hvalid Hmax.
  pose proof (month_folder_of_date doi_ w resp rest date_str d last
                Hrep Hst Hjson Hiso Hvalid Hmax) as Hmf.
  split.
  - intros Elast. rewrite Hmf.
    replace (day d =? last)%nat with true by (symmetry; apply Nat.eqb_eq; exact Elast).
    split; [reflexivity|].
    intros E4. unfold following_month. rewrite E4. reflexivity.
  - intros Nlast. rewrite Hmf.
    replace (day d =? last)%nat with false by (symmetry; apply Nat.eqb_neq; exact Nlast).
    reflexivity.
Qed.

End MonthFolder.

(** The world in which the date lookup answers with [date_str]. *)
Example april_30_resolves_to_may :
  fst (Fallbacks.month_folder (H := Sample.lib) "10.1101/2020.04.30.123456"
         (with_http Sample.empty_world [Sample.ok "date=2020-04-30"] []))
  = Return "May_2020".
Proof. vm_compute. reflexivity. Qed.

Example april_29_stays_in_april :
  fst (Fallbacks.month_folder (H := Sample.lib) "10.1101/2020.04.29.123456"
         (with_http Sample.empty_world [Sample.ok "date=2020-04-29"] []))
  = Return "April_2020".
Proof. vm_compute. reflexivity. Qed.

Example december_31_resolves_to_january :
  fst (Fallbacks.month_folder (H := Sample.lib) "10.1101/2019.12.31.123456"
         (with_http Sample.empty_world [Sample.ok "date=2019-12-31"] []))
  = Return "January_2020".
Proof. vm_compute. reflexivity. Qed.

Lemma month_folder_rollover_witness :
  fst (Fallbacks.month_folder (H := Sample.lib) "10.1101/2020.04.30.123456"
         (with_http Sample.empty_world [Sample.ok "date=2020-04-30"] []))
  = Return (bucket 2020 5).
Proof.
  refine (proj2 (proj1 (month_folder_rollover (H := Sample.lib)
            "10.1101/2020.04.30.123456"
            (with_http Sample.empty_world [Sample.ok "date=2020-04-30"] [])
            {| status_code := 200; content := "date=2020-04-30" |} []
            "2020-04-30" {| year := 2020; month := 4; day := 30 |} 30
            _ _ _ _ _ _) _) _).
  - reflexivity.
  - left. cbn. lia.
  - reflexivity.
  - vm_compute. reflexivity.
  - repeat split; cbn; unfold Fallbacks.MAXYEAR; lia.
  - cbn. intros [= E]. 
  - reflexivity.
  - reflexivity.
Defined.

(** ** The strategy chain of [save_pdf] (C1) *)

Section Chain.

Lemma new_events_app (tr l : list Pdf.Event) : new_events tr (tr ++ l) = l.
Proof. unfold new_events. apply drop_app_length. Qed.

Ltac run_step F n d fp px w :=
  let s := fresh "s" in let u := fresh "u" in let e := fresh "e" in
  let w' := fresh "w" in let E := fresh "E" in
  destruct (F n d fp px w) as [[[[|] u]|e] w'] eqn:E; cbn.

Ltac chain_leaf :=
  rewrite <- ?app_assoc; cbn; rewrite new_events_app; cbn;
  repeat split;
  try (intros; discriminate);
  try (eexists; reflexivity);
  try (repeat constructor; unfold declined; cbn; eauto; fail);
  try compute_done;
  try (intros _ Hall;
       repeat match goal with
              | Hf : Forall _ (_ :: _) |- _ => apply Forall_cons in Hf; destruct Hf
              end;
       repeat match goal with
              | Hd : declined _ |- _ => destruct Hd as [? Hd]; cbn in Hd; try discriminate
              end;
       reflexivity).

(** C1. Whatever the four strategies do, [save_pdf] invokes them in the
    order arXiv (only for an identifier that contains "arxiv"), DOI
    resolver, Sci-Hub, BioC-PMC: the invocations of one request are an
    initial part of that list without repetition, every invocation but the
    last one declined, and after a decline the next strategy of the list is
    invoked, so that a request whose invocations all declined went through
    the whole list. *)
Theorem save_pdf_chain_order (F : Fallbacks.Name -> Fallbacks.Strategy)
    (filepath : Path) (save_metadata : bool) (api_keys : gmap string string)
    (proxies : option string) (c : Pdf.Ctx) (id : string) :
  p_doi (Pdf.cx_paper c) = Some id ->
  let run := Pdf.save_pdf F filepath save_metadata api_keys proxies c in
  let calls := calls_of (new_events (Pdf.cx_trace c) (Pdf.cx_trace (snd run))) in
  List.map fst calls `prefix_of` chain id /\
  NoDup (List.map fst calls) /\
  Forall declined (removelast calls) /\
  (exists_in (fs (Pdf.cx_world c)) (Pathlib.parent filepath) = true ->
   Forall declined calls -> List.map fst calls = chain id).
Proof.
  intros Hdoi. cbn zeta.
  unfold Pdf.save_pdf, chain, bind, Pdf.log, Pdf.in_world, path_exists, Pdf.get_paper,
    Pdf.update_paper, throw, ret. cbn.
  destruct (exists_in (fs (Pdf.cx_world c)) (Pathlib.parent filepath)) eqn:Epar; cbn.
  2: { chain_leaf. }
  rewrite Hdoi. cbn.
  unfold Pdf.step, Pdf.invoke, bind, ret. cbn.
  destruct (Py.contains "arxiv" id) eqn:Earx; cbn.
  - run_step F Fallbacks.N_arxiv id filepath proxies (Pdf.cx_world c).
    + chain_leaf.
    + run_step F Fallbacks.N_doi id filepath proxies w.
      * chain_leaf.
      * run_step F Fallbacks.N_sci_hub id filepath proxies w0.
        -- chain_leaf.
        -- run_step F Fallbacks.N_bioc_pmc id filepath proxies w1; chain_leaf.
        -- chain_leaf.
      * chain_leaf.
    + chain_leaf.
  - run_step F Fallbacks.N_doi id filepath proxies (Pdf.cx_world c).
    + chain_leaf.
    + run_step F Fallbacks.N_sci_hub id filepath proxies w.
      * chain_leaf.
      * run_step F Fallbacks.N_bioc_pmc id filepath proxies w0; chain_leaf.
      * chain_leaf.
    + chain_leaf.
Qed.

End Chain.

Lemma save_pdf_chain_order_witness :
  let run := Pdf.save_pdf (Fallbacks.FALLBACKS (H := Sample.lib)) Demo.out_xyz false ∅ None
               (Demo.ctx_xyz Demo.world_doi_pdf) in
  let calls := calls_of (new_events [] (Pdf.cx_trace (snd run))) in
  List.map fst calls `prefix_of` chain "10.1000/xyz" /\
  NoDup (List.map fst calls) /\
  Forall declined (removelast calls) /\
  (exists_in (fs Demo.world_doi_pdf) (Pathlib.parent Demo.out_xyz) = true ->
   Forall declined calls -> List.map fst calls = chain "10.1000/xyz").
Proof.
  apply (save_pdf_chain_order (Fallbacks.FALLBACKS (H := Sample.lib)) Demo.out_xyz
           false ∅ None (Demo.ctx_xyz Demo.world_doi_pdf) "10.1000/xyz").
  reflexivity.
Defined.

(** When the second strategy succeeds, the third and the fourth are not
    invoked. *)
Example second_strategy_succeeds :
  let run := Pdf.save_pdf (Fallbacks.FALLBACKS (H := Sample.lib)) Demo.out_xyz false ∅ None
               (Demo.ctx_xyz Demo.world_doi_pdf) in
  calls_of (Pdf.cx_trace (snd run))
    = [(Fallbacks.N_doi, Return (true, Some "https://pub.example/xyz.pdf"))] /\
  p_success (Pdf.cx_paper (snd run)) = Some true /\
  p_type (Pdf.cx_paper (snd run)) = Some "pdf" /\
  p_path (Pdf.cx_paper (snd run)) = Some "out/kw/10.1000_xyz.pdf" /\
  fs (Pdf.cx_world (snd run)) !! Demo.out_xyz = Some (File "%PDF-1.7 body").
Proof. vm_compute. repeat split. Qed.

(** With a network that never answers, all four declines are recorded. *)
Example all_strategies_exhausted :
  let run := Pdf.save_pdf (Fallbacks.FALLBACKS (H := Sample.lib)) Demo.out_xyz false ∅ None
               (Demo.ctx_xyz (with_fs Sample.empty_world Demo.out_dirs)) in
  List.map fst (calls_of (Pdf.cx_trace (snd run)))
    = [Fallbacks.N_doi; Fallbacks.N_sci_hub; Fallbacks.N_bioc_pmc] /\
  p_success (Pdf.cx_paper (snd run)) = Some false.
Proof. vm_compute. repeat split. Qed.

(** ** Signature validation of the PDF downloads (C3) *)

Section Signature.
Context `{Lib}.

Lemma pdf_outcome_refl (out : Path) (w : World) : pdf_outcome out false w w.
Proof. exists []. split; reflexivity. Qed.

Lemma pdf_outcome_trans (out : Path) (b : bool) (w w1 w2 : World) :
  pdf_outcome out false w w1 -> pdf_outcome out b w1 w2 -> pdf_outcome out b w w2.
Proof.
  intros (l1 & E1 & F1) (l2 & E2 & F2).
  exists (l1 ++ l2). split.
  - rewrite E1, E2. apply app_assoc.
  - destruct b.
    + destruct F2 as (resp & Hlast & Hpdf & Hfs).
      exists resp. repeat split; [|exact Hpdf|congruence].
      rewrite last_app, Hlast. reflexivity.
    + congruence.
Qed.

Lemma consumed_app (w w' : World) (l : list (option Response)) :
  http_replies w = l ++ http_replies w' -> consumed w w' = l.
Proof.
  intros E. unfold consumed. rewrite E at 1 2.
  rewrite length_app.
  replace (List.length l + List.length (http_replies w') - List.length (http_replies w'))
    with (List.length l) by lia.
  apply take_app_length.
Qed.


(** one request: what it consumes *)
Lemma requests_get_cases (u : string) (ps : list (string * string)) (px : option string)
    (w : World) :
  let rq := {| req_url := u; req_params := ps; req_proxies := px |} in
  (exists resp rest, http_replies w = Some resp :: rest /\
     requests_get u ps px w = (Return resp, with_http w rest (http_log w ++ [rq]))) \/
  (exists rest, http_replies w = None :: rest /\
     requests_get u ps px w = (Raise RequestException, with_http w rest (http_log w ++ [rq]))) \/
  (http_replies w = [] /\
     requests_get u ps px w = (Raise RequestException, with_http w [] (http_log w ++ [rq]))).
Proof.
  unfold requests_get. destruct (http_replies w) as [|[resp|] rest].
  - right. right. split; reflexivity.
  - left. exists resp, rest. split; reflexivity.
  - right. left. exists rest. split; reflexivity.
Qed.

Lemma checked_download_outcome {A} (u : string) (px : option string) (out : Path)
    (stored rejected : A) (w : World) (r : result (result A)) (w' : World) :
  try_ (checked_download u px out stored rejected) w = (r, w') ->
  (r = Return (Return stored) /\ pdf_outcome out true w w') \/
  ((r = Return (Return rejected) \/ exists e, r = Return (Raise e)) /\
   pdf_outcome out false w w').
Proof.
  unfold try_, checked_download, bind.
  destruct (requests_get_cases u [] px w)
    as [(resp & rest & E & ->)|[(rest & E & ->)|(E & ->)]]; cbn.
  - unfold raise_for_status.
    destruct ((400 <=? status_code resp)%nat && (status_code resp <? 600)%nat)%bool; cbn.
    + intros [= <- <-]. right. split; [right; eauto|].
      exists [Some resp]. split; [exact E|reflexivity].
    + destruct (is_pdf (content resp)) eqn:Epdf; cbn.
      * unfold open_write. cbn.
        destruct (is_dir_in (fs w) (Pathlib.parent (Pathlib.with_suffix out ".pdf"))
                  && negb (is_dir_in (fs w) (Pathlib.with_suffix out ".pdf")))%bool; cbn;
          intros [= <- <-].
        -- left. split; [reflexivity|]. exists [Some resp]. split; [exact E|].
           exists resp. repeat split. exact Epdf.
        -- right. split; [right; eauto|]. exists [Some resp]. split; [exact E|reflexivity].
      * intros [= <- <-]. right. split; [left; reflexivity|].
        exists [Some resp]. split; [exact E|reflexivity].
  - intros [= <- <-]. right. split; [right; eauto|].
    exists [None]. split; [exact E|reflexivity].
  - intros [= <- <-]. right. split; [right; eauto|].
    exists []. split; [exact E|reflexivity].
Qed.

(** the first request of a strategy: the page is fetched and its status
    checked, nothing is stored *)
Lemma fetch_outcome (u : string) (ps : list (string * string)) (px : option string)
    (out : Path) (w : World) (r : result (result Response)) (w' : World) :
  try_ (let* r := requests_get u ps px in
        do* raise_for_status r in ret r) w = (r, w') ->
  (exists v, r = Return v) /\ pdf_outcome out false w w'.
Proof.
  unfold try_, bind.
  destruct (requests_get_cases u ps px w)
    as [(resp & rest & E & ->)|[(rest & E & ->)|(E & ->)]]; cbn.
  - unfold raise_for_status.
    destruct ((400 <=? status_code resp)%nat && (status_code resp <? 600)%nat)%bool; cbn;
      intros [= <- <-]; (split; [eauto|]); exists [Some resp];
      (split; [exact E|reflexivity]).
  - intros [= <- <-]. split; [eauto|]. exists [None]. split; [exact E|reflexivity].
  - intros [= <- <-]. split; [eauto|]. exists []. split; [exact E|reflexivity].
Qed.

Lemma fallback_doi_outcome (id : string) (out : Path) (px : option string) (w : World)
    (r : result (bool * option string)) (w' : World) :
  Fallbacks.fallback_doi id out px w = (r, w') ->
  exists b u, r = Return (b, u) /\ pdf_outcome out b w w' /\ (b = false -> u = None).
Proof.
  unfold Fallbacks.fallback_doi, bind.
  destruct (try_ _ w) as [r1 w1] eqn:E1.
  apply (fetch_outcome _ _ _ out) in E1. destruct E1 as [[v ->] Hout1].
  destruct v as [response|e]; cbn.
  2: { intros [= <- <-]. exists false, None. repeat split. exact Hout1. }
  destruct (soup_meta_content (text response) "citation_pdf_url") as [pdf_url|]; cbn.
  2: { intros [= <- <-]. exists false, None. repeat split. exact Hout1. }
  destruct (negb (pdf_url =? EmptyString)%string); cbn.
  2: { intros [= <- <-]. exists false, None. repeat split. exact Hout1. }
  destruct (try_ _ w1) as [r2 w2] eqn:E2.
  apply (checked_download_outcome pdf_url px out (true, Some pdf_url) (false, None)) in E2.
  destruct E2 as [[-> Hout2]|[[->|[e ->]] Hout2]]; cbn; intros [= <- <-].
  - exists true, (Some pdf_url). repeat split; [|discriminate].
    exact (pdf_outcome_trans _ _ _ _ _ Hout1 Hout2).
  - exists false, None. repeat split. exact (pdf_outcome_trans _ _ _ _ _ Hout1 Hout2).
  - exists false, None. repeat split. exact (pdf_outcome_trans _ _ _ _ _ Hout1 Hout2).
Qed.

Lemma try_bind {S A B} (m : ST S A) (k : A -> ST S B) (w : S) :
  try_ (bind m k) w =
    match m w with
    | (Return a, w1) => try_ (k a) w1
    | (Raise e, w1) => if is_Exception e then (Return (Raise e), w1) else (Raise e, w1)
    end.
Proof. unfold try_, bind. destruct (m w) as [[a|e] w1]; reflexivity. Qed.

Lemma raise_for_status_cases (resp : Response) (w : World) :
  raise_for_status resp w = (Return tt, w) \/ raise_for_status resp w = (Raise HTTPError, w).
Proof.
  unfold raise_for_status.
  destruct ((400 <=? status_code resp)%nat && (status_code resp <? 600)%nat)%bool;
    [right|left]; reflexivity.
Qed.

Lemma fallback_sci_hub_outcome (id : string) (out : Path) (px : option string) (w : World)
    (r : result (bool * option string)) (w' : World) :
  Fallbacks.fallback_sci_hub id out px w = (r, w') ->
  exists b u, r = Return (b, u) /\ pdf_outcome out b w w' /\ (b = false -> u = None).
Proof.
  unfold Fallbacks.fallback_sci_hub. unfold bind at 1.
  rewrite try_bind.
  destruct (requests_get_cases ("https://www.sci-hub.ren/" +:+ id +:+ "#") [] px w)
    as [(resp & rest & E & ->)|[(rest & E & ->)|(E & ->)]]; cbv beta iota.
  2: { cbn [is_Exception]. intros [= <- <-]. exists false, None. repeat split.
       exists [None]. split; [exact E|reflexivity]. }
  2: { cbn [is_Exception]. intros [= <- <-]. exists false, None. repeat split.
       exists []. split; [exact E|reflexivity]. }
  assert (Hout1 : pdf_outcome out false w
            (with_http w rest
               (http_log w ++ [{| req_url := "https://www.sci-hub.ren/" +:+ id +:+ "#";
                                  req_params := []; req_proxies := px |}]))).
  { exists [Some resp]. split; [exact E|reflexivity]. }
  set (w1 := with_http w rest _) in *.
  rewrite try_bind.
  destruct (raise_for_status_cases resp w1) as [-> | ->]; cbv beta iota.
  2: { cbn [is_Exception]. intros [= <- <-]. exists false, None. repeat split. exact Hout1. }
  rewrite try_bind.
  assert (Hsrc : (exists s, Fallbacks.frame_src (text resp) w1 = (Return s, w1)) \/
                 (exists e, Fallbacks.frame_src (text resp) w1 = (Raise e, w1)
                            /\ is_Exception e = true)).
  { unfold Fallbacks.frame_src, Fallbacks.tag_src, throw, ret.
    destruct (soup_tag_src (text resp) "iframe") as [[s|]|];
      [left; eauto|right; eauto|].
    destruct (soup_tag_src (text resp) "embed") as [[s|]|];
      [left; eauto|right; eauto|right; eauto]. }
  destruct Hsrc as [[s ->]|(e & -> & ->)]; cbv beta iota.
  2: { intros [= <- <-]. exists false, None. repeat split. exact Hout1. }
  set (download_url := if Py.startswith s "http" then s else "https:" +:+ s).
  destruct (try_ _ w1) as [r2 w2] eqn:E2.
  apply (checked_download_outcome download_url px out (true, Some download_url)
           (false, None)) in E2.
  destruct E2 as [[-> Hout2]|[[->|[e ->]] Hout2]]; cbv beta iota; intros [= <- <-].
  - exists true, (Some download_url). repeat split; [|discriminate].
    exact (pdf_outcome_trans _ _ _ _ _ Hout1 Hout2).
  - exists false, None. repeat split. exact (pdf_outcome_trans _ _ _ _ _ Hout1 Hout2).
  - exists false, None. repeat split. exact (pdf_outcome_trans _ _ _ _ _ Hout1 Hout2).
Qed.

Lemma arxiv_try_checked (u : string) (out : Path) (px : option string) (w : World) :
  Fallbacks.arxiv_try u out px w =
    (let* res := try_ (checked_download u px out (Some u) None) in
     match res with
     | Return v => ret v
     | Raise _ => ret None
     end) w.
Proof.
  unfold Fallbacks.arxiv_try, checked_download, bind, try_.
  destruct (requests_get u [] px w) as [[resp|e] w1]; [|reflexivity].
  destruct (raise_for_status resp w1) as [[[]|e] w2]; [|reflexivity].
  destruct (is_pdf (content resp)); reflexivity.
Qed.

Lemma arxiv_try_outcome (u : string) (out : Path) (px : option string) (w : World)
    (r : result (option string)) (w' : World) :
  Fallbacks.arxiv_try u out px w = (r, w') ->
  (r = Return (Some u) /\ pdf_outcome out true w w') \/
  (r = Return None /\ pdf_outcome out false w w').
Proof.
  rewrite arxiv_try_checked. unfold bind.
  destruct (try_ _ w) as [r2 w2] eqn:E2.
  apply checked_download_outcome in E2.
  destruct E2 as [[-> Hout]|[[->|[e ->]] Hout]]; cbv beta iota; intros [= <- <-];
    [left|right|right]; split; (reflexivity || exact Hout).
Qed.

Lemma arxiv_categories_outcome (temp : list string) (id : string) (out : Path)
    (px : option string) (w : World) (r : result (bool * option string)) (w' : World) :
  Fallbacks.arxiv_categories temp id out px w = (r, w') ->
  exists b u, r = Return (b, u) /\ pdf_outcome out b w w' /\ (b = false -> u = None).
Proof.
  revert w. induction temp as [|i temp IH]; intros w.
  - cbn. intros [= <- <-]. exists false, None. repeat split. apply pdf_outcome_refl.
  - cbn [Fallbacks.arxiv_categories]. unfold bind.
    destruct (Fallbacks.arxiv_try _ out px w) as [r1 w1] eqn:E1.
    apply arxiv_try_outcome in E1.
    destruct E1 as [[-> Hout]|[-> Hout]]; cbv beta iota.
    + intros [= <- <-]. eexists true, _. repeat split; [exact Hout|discriminate].
    + intros Hrest. apply IH in Hrest. destruct Hrest as (b & u & -> & Hout2 & Hu).
      exists b, u. repeat split; [|exact Hu].
      exact (pdf_outcome_trans _ _ _ _ _ Hout Hout2).
Qed.

Lemma fallback_arxiv_outcome (id : string) (out : Path) (px : option string) (w : World)
    (r : result (bool * option string)) (w' : World) :
  Fallbacks.fallback_arxiv id out px w = (r, w') ->
  (r = Raise IndexError /\ w' = w) \/
  exists b u, r = Return (b, u) /\ pdf_outcome out b w w' /\ (b = false -> u = None).
Proof.
  unfold Fallbacks.fallback_arxiv.
  destruct (Py.contains "arxiv" id).
  2: { intros [= <- <-]. right. exists false, None. repeat split. apply pdf_outcome_refl. }
  destruct (nth_error (Py.split id "arxiv.") 1) as [id'|].
  2: { intros [= <- <-]. left. split; reflexivity. }
  destruct (List.length (Py.split id' ".") =? 1)%nat.
  { intros Hrun. right. exact (arxiv_categories_outcome _ _ _ _ _ _ _ Hrun). }
  destruct (List.length (Py.split id' ".") =? 2)%nat.
  2: { intros [= <- <-]. right. exists false, None. repeat split. apply pdf_outcome_refl. }
  unfold bind. destruct (Fallbacks.arxiv_try _ out px w) as [r1 w1] eqn:E1.
  apply arxiv_try_outcome in E1.
  destruct E1 as [[-> Hout]|[-> Hout]]; cbv beta iota; intros [= <- <-]; right.
  - eexists true, _. repeat split; [exact Hout|discriminate].
  - exists false, None. repeat split. exact Hout.
Qed.







End Signature.


(** The error page served with status 200 leaves no file behind, for the
    DOI resolver and for Sci-Hub alike. *)
Example html_instead_of_pdf :
  let run := Fallbacks.fallback_doi (H := Sample.lib) "10.1000/xyz" Demo.out_xyz None
               Demo2.world_doi_html in
  fst run = Return (false, None) /\
  fs (snd run) !! Demo.out_xyz = None /\
  List.length (http_log (snd run)) = 2.
Proof. vm_compute. repeat split. Qed.

Example sci_hub_html_instead_of_pdf :
  let w := with_fs
             (with_http Sample.empty_world
                [Sample.ok "<iframe src=//mirror.example/xyz.pdf";
                 Sample.ok "<html>captcha</html>"] [])
             Demo.out_dirs in
  let run := Fallbacks.fallback_sci_hub (H := Sample.lib) "10.1000/xyz" Demo.out_xyz None w in
  fst run = Return (false, None) /\
  fs (snd run) !! Demo.out_xyz = None /\
  List.map req_url (http_log (snd run))
    = ["https://www.sci-hub.ren/10.1000/xyz#"; "https://mirror.example/xyz.pdf"].
Proof. vm_compute. repeat split. Qed.

(** ** Deduplication against earlier runs (C4) *)

Section Dedup.

Lemma in_children (f : gmap Path Entry) (p q : Path) :
  In q (children f p) <-> q <> [] /\ Pathlib.parent q = p /\ is_Some (f !! q).
Proof.
  unfold children. rewrite filter_In, in_map_iff, bool_decide_eq_true. split.
  - intros [[[q' e] [Hq Hin]] [Hne Hpar]]. cbn in Hq. subst q'.
    apply list_elem_of_In, elem_of_map_to_list in Hin. eauto.
  - intros (Hne & Hpar & [e He]). split; [|split; assumption].
    exists (q, e). split; [reflexivity|].
    apply list_elem_of_In, elem_of_map_to_list. exact He.
Qed.

Lemma bind_is_dir {B} (p : Path) (k : bool -> ST Pdf.Ctx B) (w : World)
    (tr : list Pdf.Event) (paper : Paper) :
  bind (Pdf.in_world (path_is_dir p)) k
    {| Pdf.cx_world := w; Pdf.cx_trace := tr; Pdf.cx_paper := paper |}
  = k (is_dir_in (fs w) p)
      {| Pdf.cx_world := w; Pdf.cx_trace := tr; Pdf.cx_paper := paper |}.
Proof. reflexivity. Qed.

Lemma bind_exists {B} (p : Path) (k : bool -> ST Pdf.Ctx B) (w : World)
    (tr : list Pdf.Event) (paper : Paper) :
  bind (Pdf.in_world (path_exists p)) k
    {| Pdf.cx_world := w; Pdf.cx_trace := tr; Pdf.cx_paper := paper |}
  = k (exists_in (fs w) p)
      {| Pdf.cx_world := w; Pdf.cx_trace := tr; Pdf.cx_paper := paper |}.
Proof. reflexivity. Qed.

Lemma bind_get_paper {B} (k : Paper -> ST Pdf.Ctx B) (w : World)
    (tr : list Pdf.Event) (paper : Paper) :
  bind Pdf.get_paper k
    {| Pdf.cx_world := w; Pdf.cx_trace := tr; Pdf.cx_paper := paper |}
  = k paper {| Pdf.cx_world := w; Pdf.cx_trace := tr; Pdf.cx_paper := paper |}.
Proof. reflexivity. Qed.

Lemma bind_update_paper {B} (f : Paper -> Paper) (k : unit -> ST Pdf.Ctx B) (w : World)
    (tr : list Pdf.Event) (paper : Paper) :
  bind (Pdf.update_paper f) k
    {| Pdf.cx_world := w; Pdf.cx_trace := tr; Pdf.cx_paper := paper |}
  = k tt {| Pdf.cx_world := w; Pdf.cx_trace := tr; Pdf.cx_paper := f paper |}.
Proof. reflexivity. Qed.

Lemma bind_iterdir {B} (p : Path) (k : list Path -> ST Pdf.Ctx B) (w : World)
    (tr : list Pdf.Event) (paper : Paper) :
  is_dir_in (fs w) p = true ->
  bind (Pdf.in_world (iterdir p)) k
    {| Pdf.cx_world := w; Pdf.cx_trace := tr; Pdf.cx_paper := paper |}
  = k (children (fs w) p)
      {| Pdf.cx_world := w; Pdf.cx_trace := tr; Pdf.cx_paper := paper |}.
Proof. intros Hd. unfold bind, Pdf.in_world, iterdir. cbn. rewrite Hd. reflexivity. Qed.

(** The loop stops at the first sibling folder that holds the file, PDF
    before XML, and touches nothing but the paper. *)
Lemma dedup_outcome (filename : string) (subdirs : list Path) (w : World)
    (tr : list Pdf.Event) (paper : Paper) :
  let c := {| Pdf.cx_world := w; Pdf.cx_trace := tr; Pdf.cx_paper := paper |} in
  (exists sd ext, In sd subdirs /\ is_dir_in (fs w) sd = true /\
     (ext = "pdf" \/ ext = "xml") /\
     exists_in (fs w) (Pathlib.child sd (filename +:+ "." +:+ ext)) = true /\
     Pdf.dedup filename subdirs c =
       (Return true,
        {| Pdf.cx_world := w; Pdf.cx_trace := tr;
           Pdf.cx_paper := adopt paper (Pathlib.child sd (filename +:+ "." +:+ ext)) ext |}))
  \/
  ((forall sd, In sd subdirs -> is_dir_in (fs w) sd = true ->
      exists_in (fs w) (Pathlib.child sd (filename +:+ ".pdf")) = false /\
      exists_in (fs w) (Pathlib.child sd (filename +:+ ".xml")) = false) /\
   Pdf.dedup filename subdirs c = (Return false, c)).
Proof.
  cbn zeta. induction subdirs as [|sd rest IH].
  - right. split; [intros sd []|reflexivity].
  - cbn [Pdf.dedup]. rewrite bind_is_dir.
    destruct (is_dir_in (fs w) sd) eqn:Edir.
    + rewrite bind_exists.
      destruct (exists_in (fs w) (Pathlib.child sd (filename +:+ ".pdf"))) eqn:Epdf.
      * left. exists sd, "pdf". repeat split; auto. left. reflexivity.
      * rewrite bind_exists.
        destruct (exists_in (fs w) (Pathlib.child sd (filename +:+ ".xml"))) eqn:Exml.
        -- left. exists sd, "xml". repeat split; auto. left. reflexivity.
        -- destruct IH as [(sd' & ext & Hin & Hd & Hext & Hex & Hrun)|[Hnone Hrun]].
           ++ left. exists sd', ext. repeat split; auto. right. exact Hin.
           ++ right. split; [|exact Hrun].
              intros sd' [<-|Hin] Hd; [split; assumption|apply Hnone; assumption].
    + destruct IH as [(sd' & ext & Hin & Hd & Hext & Hex & Hrun)|[Hnone Hrun]].
      * left. exists sd', ext. repeat split; auto. right. exact Hin.
      * right. split; [|exact Hrun].
        intros sd' [<-|Hin] Hd; [congruence|apply Hnone; assumption].
Qed.

(** The general form: whatever key names the files. *)
Lemma process_single_paper_adopts_eq (F : Fallbacks.Name -> Fallbacks.Strategy)
    (pdf_path : Path) (key_to_save : SaveKey) (save_metadata : bool)
    (api_keys : gmap string string) (ip_pool : option (option string))
    (w : World) (tr : list Pdf.Event) (paper : Paper) (id v : string) (subdir : Path)
    (ext : string) :
  truthy (p_is_materials paper) = true ->
  truthy (p_success paper) = false ->
  p_doi paper = Some id ->
  paper_get paper key_to_save = Some v ->
  is_dir_in (fs w) (Pathlib.parent pdf_path) = true ->
  (ext = "pdf" \/ ext = "xml") ->
  holds_artifact (fs w) pdf_path (Py.replace v "/" "_") subdir ext ->
  exists sd kind,
    holds_artifact (fs w) pdf_path (Py.replace v "/" "_") sd kind /\
    (kind = "pdf" \/ kind = "xml") /\
    let found :=
      adopt (set_url None (set_path None (set_type None (set_success (Some false) paper))))
        (Pathlib.child sd (Py.replace v "/" "_" +:+ "." +:+ kind)) kind in
    Pdf._process_single_paper F pdf_path key_to_save save_metadata api_keys ip_pool
      {| Pdf.cx_world := w; Pdf.cx_trace := tr; Pdf.cx_paper := paper |}
    = (Return (Some found),
       {| Pdf.cx_world := w; Pdf.cx_trace := tr; Pdf.cx_paper := found |}).
Proof.
  intros Hmat Hsucc Hdoi Hkey Hpar Hext (Hin & Hdir & Hex).
  unfold Pdf._process_single_paper. unfold bind at 1. unfold try_.
  rewrite bind_get_paper. rewrite Hsucc.
  assert (Hm : match p_is_materials paper with Some false => true | _ => false end = false).
  { destruct (p_is_materials paper) as [[|]|]; [reflexivity|discriminate|reflexivity]. }
  rewrite Hm. cbn [orb]. cbv iota.
  rewrite bind_update_paper. rewrite Hdoi, Hkey.
  rewrite (bind_iterdir _ _ _ _ _ Hpar).
  set (paper0 := set_url None (set_path None (set_type None (set_success (Some false) paper)))).
  set (filename := Py.replace v "/" "_") in *.
  destruct (dedup_outcome filename (children (fs w) (Pathlib.parent pdf_path)) w tr paper0)
    as [(sd & kind & Hin' & Hd' & Hkind & Hex' & Hrun)|[Hnone Hrun]].
  - cbn zeta in Hrun. unfold bind at 1. rewrite Hrun. cbv beta iota.
    rewrite bind_get_paper. unfold ret.
    exists sd, kind.
    split; [repeat split; assumption|]. split; [exact Hkind|]. reflexivity.
  - exfalso. destruct (Hnone subdir Hin Hdir) as [Hp Hx].
    destruct Hext as [-> | ->].
    + change (filename +:+ "." +:+ "pdf") with (filename +:+ ".pdf") in Hex. congruence.
    + change (filename +:+ "." +:+ "xml") with (filename +:+ ".xml") in Hex. congruence.
Qed.

Lemma process_single_paper_adopts (F : Fallbacks.Name -> Fallbacks.Strategy)
    (pdf_path : Path) (key_to_save : SaveKey) (save_metadata : bool)
    (api_keys : gmap string string) (ip_pool : option (option string))
    (c : Pdf.Ctx) (id v : string) (subdir : Path) (ext : string) :
  truthy (p_is_materials (Pdf.cx_paper c)) = true ->
  truthy (p_success (Pdf.cx_paper c)) = false ->
  p_doi (Pdf.cx_paper c) = Some id ->
  paper_get (Pdf.cx_paper c) key_to_save = Some v ->
  is_dir_in (fs (Pdf.cx_world c)) (Pathlib.parent pdf_path) = true ->
  (ext = "pdf" \/ ext = "xml") ->
  holds_artifact (fs (Pdf.cx_world c)) pdf_path (Py.replace v "/" "_") subdir ext ->
  let run := Pdf._process_single_paper F pdf_path key_to_save save_metadata api_keys
               ip_pool c in
  exists sd kind,
    holds_artifact (fs (Pdf.cx_world c)) pdf_path (Py.replace v "/" "_") sd kind /\
    (kind = "pdf" \/ kind = "xml") /\
    fst run = Return (Some (Pdf.cx_paper (snd run))) /\
    p_success (Pdf.cx_paper (snd run)) = Some true /\
    p_type (Pdf.cx_paper (snd run)) = Some kind /\
    p_path (Pdf.cx_paper (snd run)) =
      Some (Pathlib.as_posix (Pathlib.child sd (Py.replace v "/" "_" +:+ "." +:+ kind))) /\
    Pdf.cx_world (snd run) = Pdf.cx_world c /\
    Pdf.cx_trace (snd run) = Pdf.cx_trace c.
Proof.
  destruct c as [w tr paper]. cbn [Pdf.cx_world Pdf.cx_trace Pdf.cx_paper].
  intros Hmat Hsucc Hdoi Hkey Hpar Hext Hholds. cbn zeta.
  destruct (process_single_paper_adopts_eq F pdf_path key_to_save save_metadata api_keys
              ip_pool w tr paper id v subdir ext Hmat Hsucc Hdoi Hkey Hpar Hext Hholds)
    as (sd & kind & Hh & Hkind & Heq).
  cbn zeta in Heq. rewrite Heq. exists sd, kind.
  repeat split; try assumption; apply Hh.
Qed.

(** C4. A scheduled request (flagged relevant, not yet successful, with an
    identifier) whose identifier, with slashes replaced by underscores,
    already names a [.pdf] or [.xml] file in a folder next to the output
    folder is answered from that folder: the record comes back with
    [success] true, the kind of the file that was found and the path of that
    file, and neither the world (so: no request, no write) nor the trace (so:
    no call of [save_pdf], no strategy) has changed. *)
Theorem process_single_paper_deduplicates (F : Fallbacks.Name -> Fallbacks.Strategy)
    (pdf_path : Path) (save_metadata : bool) (api_keys : gmap string string)
    (ip_pool : option (option string)) (c : Pdf.Ctx) (id : string) (subdir : Path)
    (ext : string) :
  truthy (p_is_materials (Pdf.cx_paper c)) = true ->
  truthy (p_success (Pdf.cx_paper c)) = false ->
  p_doi (Pdf.cx_paper c) = Some id ->
  is_dir_in (fs (Pdf.cx_world c)) (Pathlib.parent pdf_path) = true ->
  (ext = "pdf" \/ ext = "xml") ->
  holds_artifact (fs (Pdf.cx_world c)) pdf_path (Py.replace id "/" "_") subdir ext ->
  let run := Pdf._process_single_paper F pdf_path KeyDoi save_metadata api_keys ip_pool c in
  exists sd kind,
    holds_artifact (fs (Pdf.cx_world c)) pdf_path (Py.replace id "/" "_") sd kind /\
    (kind = "pdf" \/ kind = "xml") /\
    fst run = Return (Some (Pdf.cx_paper (snd run))) /\
    p_success (Pdf.cx_paper (snd run)) = Some true /\
    p_type (Pdf.cx_paper (snd run)) = Some kind /\
    p_path (Pdf.cx_paper (snd run)) =
      Some (Pathlib.as_posix (Pathlib.child sd (Py.replace id "/" "_" +:+ "." +:+ kind))) /\
    Pdf.cx_world (snd run) = Pdf.cx_world c /\
    Pdf.cx_trace (snd run) = Pdf.cx_trace c.
Proof.
  intros Hmat Hsucc Hdoi Hpar Hext Hholds.
  exact (process_single_paper_adopts F pdf_path KeyDoi save_metadata api_keys ip_pool
           c id id subdir ext Hmat Hsucc Hdoi Hdoi Hpar Hext Hholds).
Qed.

End Dedup.

Lemma process_single_paper_deduplicates_witness :
  let c := Demo.ctx_xyz Demo2.world_with_prior in
  let run := Pdf._process_single_paper (Fallbacks.FALLBACKS (H := Sample.lib))
               ["out"; "kw"] KeyDoi false ∅ None c in
  exists sd kind,
    holds_artifact (fs (Pdf.cx_world c)) ["out"; "kw"] (Py.replace "10.1000/xyz" "/" "_")
      sd kind /\
    (kind = "pdf" \/ kind = "xml") /\
    fst run = Return (Some (Pdf.cx_paper (snd run))) /\
    p_success (Pdf.cx_paper (snd run)) = Some true /\
    p_type (Pdf.cx_paper (snd run)) = Some kind /\
    p_path (Pdf.cx_paper (snd run)) =
      Some (Pathlib.as_posix
              (Pathlib.child sd (Py.replace "10.1000/xyz" "/" "_" +:+ "." +:+ kind))) /\
    Pdf.cx_world (snd run) = Pdf.cx_world c /\
    Pdf.cx_trace (snd run) = Pdf.cx_trace c.
Proof.
  apply (process_single_paper_deduplicates (Fallbacks.FALLBACKS (H := Sample.lib))
           ["out"; "kw"] false ∅ None (Demo.ctx_xyz Demo2.world_with_prior)
           "10.1000/xyz" ["out"; "other"] "pdf").
  - reflexivity.
  - reflexivity.
  - reflexivity.
  - vm_compute. reflexivity.
  - left. reflexivity.
  - unfold holds_artifact. split; [|split].
    + vm_compute. tauto.
    + vm_compute. reflexivity.
    + vm_compute. reflexivity.
Defined.

(** The sibling artifact [10.1000_xyz.pdf] answers the request for
    10.1000/xyz: nothing is requested although the network would serve it. *)
Example sibling_artifact_is_adopted :
  let c := Demo.ctx_xyz Demo2.world_with_prior in
  let run := Pdf._process_single_paper (Fallbacks.FALLBACKS (H := Sample.lib))
               ["out"; "kw"] KeyDoi false ∅ None c in
  p_success (Pdf.cx_paper (snd run)) = Some true /\
  p_type (Pdf.cx_paper (snd run)) = Some "pdf" /\
  p_path (Pdf.cx_paper (snd run)) = Some "out/other/10.1000_xyz.pdf" /\
  http_log (Pdf.cx_world (snd run)) = [] /\
  Pdf.cx_trace (snd run) = [].
Proof. vm_compute. repeat split. Qed.

(** Without the sibling artifact the same request goes to the chain. *)
Example without_sibling_the_chain_runs :
  let c := Demo.ctx_xyz Demo.world_doi_pdf in
  let run := Pdf._process_single_paper (Fallbacks.FALLBACKS (H := Sample.lib))
               ["out"; "kw"] KeyDoi false ∅ None c in
  p_path (Pdf.cx_paper (snd run)) = Some "out/kw/10.1000_xyz.pdf" /\
  List.length (http_log (Pdf.cx_world (snd run))) = 2.
Proof. vm_compute. repeat split. Qed.

(** ** Facts about the string operations *)

Section Strings.

Lemma append_cons (x : ascii) (a b : string) : String x a +:+ b = String x (a +:+ b).
Proof. reflexivity. Qed.

Lemma append_nil (b : string) : EmptyString +:+ b = b.
Proof. reflexivity. Qed.

Lemma append_assoc (a b c : string) : (a +:+ b) +:+ c = a +:+ b +:+ c.
Proof.
  induction a as [|x a IH]; [reflexivity|].
  rewrite !append_cons. now rewrite IH.
Qed.




Lemma lower_ascii_idem (c : ascii) : Py.lower_ascii (Py.lower_ascii c) = Py.lower_ascii c.
Proof. destruct c as [[] [] [] [] [] [] [] []]; reflexivity. Qed.

Lemma lower_idem (s : string) : Py.lower (Py.lower s) = Py.lower s.
Proof. induction s as [|c s IH]; cbn; [reflexivity|]. now rewrite lower_ascii_idem, IH. Qed.














End Strings.

(** ** Folders and files *)

Section Folders.

Lemma with_fs_same (w : World) : with_fs w (fs w) = w.
Proof. destruct w; reflexivity. Qed.





(** The effects below touch the files only. *)
Lemma makedirs_frame (comps : list string) :
  forall (base : Path) (w : World), exists f, snd (makedirs base comps w) = with_fs w f.
Proof.
  induction comps as [|c cs IH]; intros base w; cbn [makedirs].
  - exists (fs w). cbn. symmetry. apply with_fs_same.
  - destruct (lookup_fs (fs w) (Pathlib.child base c)) as [[data|]|].
    + exists (fs w). cbn. symmetry. apply with_fs_same.
    + apply IH.
    + destruct (IH (Pathlib.child base c)
                  (with_fs w (<[Pathlib.child base c := Directory]> (fs w)))) as [f Hf].
      exists f. rewrite Hf. reflexivity.
Qed.

Lemma open_write_frame (p : Path) (data : string) (w : World) :
  exists f, snd (open_write p data w) = with_fs w f.
Proof.
  unfold open_write. destruct (_ && _)%bool; cbn [snd]; eauto.
  exists (fs w). symmetry. apply with_fs_same.
Qed.

Lemma rename_frame (src dst : Path) (w : World) :
  exists f, snd (rename src dst w) = with_fs w f.
Proof.
  assert (Hsame : exists f, w = with_fs w f)
    by (exists (fs w); symmetry; apply with_fs_same).
  unfold rename. destruct (lookup_fs (fs w) src) as [[data|]|]; cbn [snd].
  - destruct (_ && _)%bool; cbn [snd]; eauto.
  - destruct (bool_decide (src = dst)); [exact Hsame|].
    destruct (_ && _)%bool; cbn [snd]; eauto.
  - exact Hsame.
Qed.












End Folders.

(** ** The archive locator (C5, C6) *)

Section Locator.
Context `{Lib}.

Lemma new_s3_calls_app (w w' : World) (l : list S3Call) :
  s3_log w' = s3_log w ++ l -> new_s3_calls w w' = l.
Proof. intros E. unfold new_s3_calls. rewrite E. apply drop_app_length. Qed.

(** What the probe does for each way the bucket can answer. *)
Lemma find_meca_for_doi_cases (key token : string) (w : World) :
  let run := Fallbacks.find_meca_for_doi key token w in
  match s3_replies w with
  | Some h :: Some t :: rest =>
      s3_log (snd run) = s3_log w ++ [head_read key; tail_read key] /\
      s3_replies (snd run) = rest /\
      fst run =
        match zip_read (h +:+ t) "manifest.xml" with
        | Return manifest =>
            Return (Py.contains (Py.last_item (Py.split token ".")) (Py.lower manifest))
        | Raise e => Raise e
        end
  | Some h :: _ =>
      s3_log (snd run) = s3_log w ++ [head_read key; tail_read key] /\
      fst run = Return false
  | _ =>
      s3_log (snd run) = s3_log w ++ [head_read key] /\
      fst run = Return false
  end /\
  fs (snd run) = fs w /\ http_replies (snd run) = http_replies w /\
  http_log (snd run) = http_log w.
Proof.
  cbn zeta. unfold Fallbacks.find_meca_for_doi, bind, try_, get_object, lift, ret,
    head_read, tail_read.
  destruct (s3_replies w) as [|[h|] [|[t|] rest]] eqn:E; cbn; rewrite <- ?app_assoc; cbn;
    try (repeat split; reflexivity).
  destruct (zip_read (h +:+ t) "manifest.xml") as [manifest|e]; cbn;
    repeat split; reflexivity.
Qed.


(** The date lookup and the listing leave the files and the objects alone. *)
Lemma month_folder_frame (doi_ : string) (w : World) (r : result string) (w' : World) :
  Fallbacks.month_folder doi_ w = (r, w') ->
  s3_log w' = s3_log w /\ s3_replies w' = s3_replies w /\ s3_listing w' = s3_listing w /\
  fs w' = fs w.
Proof.
  unfold Fallbacks.month_folder, bind.
  destruct (requests_get_cases ("https://api.biorxiv.org/details/biorxiv/" +:+ doi_
                                +:+ "/na/json") [] None w)
    as [(resp & rest & E & ->)|[(rest & E & ->)|(E & ->)]]; cbv beta iota.
  2, 3: intros [= <- <-]; repeat split.
  destruct (raise_for_status_cases resp
              (with_http w rest (http_log w ++
                 [{| req_url := "https://api.biorxiv.org/details/biorxiv/" +:+ doi_
                                +:+ "/na/json"; req_params := []; req_proxies := None |}])))
    as [-> | ->]; cbv beta iota.
  2: intros [= <- <-]; repeat split.
  unfold lift, ret.
  destruct (json_collection_date (content resp)) as [date_str|e]; cbv beta iota.
  2: intros [= <- <-]; repeat split.
  destruct (fromisoformat date_str) as [d|e]; cbv beta iota.
  2: intros [= <- <-]; repeat split.
  destruct (Fallbacks.monthrange (year d) (month d)) as [last_day|e]; cbv beta iota.
  2: intros [= <- <-]; repeat split.
  destruct (day d =? last_day)%nat; [destruct (Fallbacks.add_one_day d)|];
    cbv beta iota; intros [= <- <-]; repeat split.
Qed.

Lemma list_meca_keys_frame (prefix : string) (w : World) (r : result (list string))
    (w' : World) :
  Fallbacks.list_meca_keys prefix w = (r, w') ->
  s3_log w' = s3_log w ++ [ListObjects prefix] /\ s3_replies w' = s3_replies w /\
  fs w' = fs w.
Proof.
  unfold Fallbacks.list_meca_keys, bind, list_objects_v2.
  destruct (s3_listing w); cbv beta iota; intros [= <- <-]; repeat split.
Qed.

(** A probe makes ranged reads only. *)
Lemma probe_frame (key token : string) (w : World) :
  exists calls,
    s3_log (snd (Fallbacks.find_meca_for_doi key token w)) = s3_log w ++ calls /\
    full_fetches calls = [] /\
    fs (snd (Fallbacks.find_meca_for_doi key token w)) = fs w.
Proof.
  pose proof (find_meca_for_doi_cases key token w) as Hc. cbn zeta in Hc.
  destruct Hc as (Hc & Hfs & _).
  destruct (s3_replies w) as [|[h|] [|[t|] rest]];
    destruct Hc as [Hlog _]; eexists; (split; [exact Hlog|split; [reflexivity|exact Hfs]]).
Qed.

(** So do the probes that are still running when the scan ends. *)
Lemma finish_probes_frame (token : string) (order : list (string * bool)) :
  forall w : World,
  fst (Fallbacks.finish_probes token order w) = Return tt /\
  exists calls,
    s3_log (snd (Fallbacks.finish_probes token order w)) = s3_log w ++ calls /\
    full_fetches calls = [] /\
    fs (snd (Fallbacks.finish_probes token order w)) = fs w.
Proof.
  induction order as [|[key started] order IH]; intros w.
  - cbn. split; [reflexivity|]. exists []. rewrite app_nil_r. repeat split.
  - cbn [Fallbacks.finish_probes]. unfold bind. destruct started.
    + destruct (probe_frame key token w) as (calls1 & L1 & F1 & S1).
      destruct (IH (snd (Fallbacks.find_meca_for_doi key token w)))
        as (Hr & calls2 & L2 & F2 & S2).
      split; [exact Hr|]. exists (calls1 ++ calls2). split; [|split].
      * rewrite L2, L1. symmetry. apply app_assoc.
      * unfold full_fetches in *. rewrite flat_map_app, F1, F2. reflexivity.
      * congruence.
    + unfold ret. apply IH.
Qed.

(** The scan makes ranged reads only. *)
Lemma scan_futures_frame (token : string) (order : list (string * bool)) :
  forall (w : World) (r : result (option string)) (w' : World),
  Fallbacks.scan_futures token order w = (r, w') ->
  exists calls, s3_log w' = s3_log w ++ calls /\ full_fetches calls = [] /\ fs w' = fs w.
Proof.
  induction order as [|[key started] order IH]; intros w r w'.
  - cbn. intros [= <- <-]. exists []. rewrite app_nil_r. repeat split.
  - cbn [Fallbacks.scan_futures]. unfold bind at 1. unfold try_.
    destruct (probe_frame key token w) as (calls1 & Hlog1 & Hfull1 & Hfs).
    destruct (Fallbacks.find_meca_for_doi key token w) as [r1 w1] eqn:E1.
    cbn [fst snd] in *.
    assert (Hrest : forall r w', Fallbacks.scan_futures token order w1 = (r, w') ->
              exists calls, s3_log w' = s3_log w ++ calls /\ full_fetches calls = []
                            /\ fs w' = fs w).
    { intros r2 w2 Hrun. destruct (IH _ _ _ Hrun) as (calls2 & Hlog2 & Hfull2 & Hfs2).
      exists (calls1 ++ calls2). repeat split.
      - rewrite Hlog2, Hlog1. symmetry. apply app_assoc.
      - unfold full_fetches in *. rewrite flat_map_app, Hfull1, Hfull2. reflexivity.
      - congruence. }
    destruct r1 as [[|]|e]; cbv beta iota.
    + unfold bind, ret.
      destruct (finish_probes_frame token order w1) as (Hr & calls2 & Hlog2 & Hfull2 & Hfs2).
      destruct (Fallbacks.finish_probes token order w1) as [r2 w2].
      cbn [fst snd] in *. subst r2. intros [= <- <-].
      exists (calls1 ++ calls2). repeat split.
      * rewrite Hlog2, Hlog1. symmetry. apply app_assoc.
      * unfold full_fetches in *. rewrite flat_map_app, Hfull1, Hfull2. reflexivity.
      * congruence.
    + apply Hrest.
    + destruct (is_Exception e); cbv beta iota; [apply Hrest|].
      intros [= <- <-]. exists calls1. repeat split; assumption.
Qed.




(** The extraction and the move touch the files only. *)
Lemma zip_extract_frame (data name : string) (dir : Path) (w : World) :
  exists f, snd (Fallbacks.zip_extract data name dir w) = with_fs w f.
Proof.
  assert (Hsame : exists f, w = with_fs w f)
    by (exists (fs w); symmetry; apply with_fs_same).
  unfold Fallbacks.zip_extract, bind, path_exists, lift.
  destruct (exists_in (fs w) _).
  - unfold ret. destruct (zip_read data name) as [body|e]; [|exact Hsame].
    apply open_write_frame.
  - destruct (makedirs_frame (Pathlib.parent (dir ++ Fallbacks.zip_target name)) [] w)
      as [f Hf].
    destruct (makedirs [] _ w) as [[[]|e] w1]; cbn [snd] in Hf; subst w1;
      [|exists f; reflexivity].
    destruct (zip_read data name) as [body|e]; [|exists f; reflexivity].
    destruct (open_write_frame (dir ++ Fallbacks.zip_target name) body (with_fs w f))
      as [g Hg].
    exists g. rewrite Hg. reflexivity.
Qed.

Lemma rename_member_frame (dir : Path) (name : string) (dst : Path) (w : World) :
  exists f, snd (Fallbacks.rename_member dir name dst w) = with_fs w f.
Proof.
  assert (Hsame : exists f, w = with_fs w f)
    by (exists (fs w); symmetry; apply with_fs_same).
  unfold Fallbacks.rename_member.
  destruct (Fallbacks.path_parts name) as [comps|]; [|exact Hsame].
  destruct (resolve (fs w) dir comps) as [src|]; [|exact Hsame].
  apply rename_frame.
Qed.

(** The entry that was found is extracted and moved, or the call raises;
    the bucket is not asked again. *)
Lemma relocate_frame (data name : string) (out : Path) (w : World) :
  let run := (do* Fallbacks.zip_extract data name (Pathlib.parent out) in
              do* Fallbacks.rename_member (Pathlib.parent out) name
                    (Pathlib.with_suffix out ".pdf") in
              ret true) w in
  s3_log (snd run) = s3_log w /\
  (fst run = Return true \/ exists e, fst run = Raise e).
Proof.
  cbn zeta. unfold bind, ret.
  destruct (zip_extract_frame data name (Pathlib.parent out) w) as [f Hf].
  destruct (Fallbacks.zip_extract data name (Pathlib.parent out) w) as [[[]|e] w1];
    cbn [snd] in Hf; subst w1; [|split; [reflexivity|right; eauto]].
  destruct (rename_member_frame (Pathlib.parent out) name (Pathlib.with_suffix out ".pdf")
              (with_fs w f)) as [g Hg].
  destruct (Fallbacks.rename_member _ name _ (with_fs w f)) as [[[]|e] w2];
    cbn [snd] in Hg; subst w2; (split; [reflexivity|]); [left|right]; eauto.
Qed.


End Locator.


(** The claim of two reads for every key fails where the first read is
    not answered: the probe stops after one read. *)
Lemma find_meca_probe_one_read :
  let w := with_s3 Sample.empty_world [None; Demo3.target_tail] [] in
  let run := Fallbacks.find_meca_for_doi (H := Sample.lib) "k.meca" "123456" w in
  fst run = Return false /\
  new_s3_calls w (snd run) = [head_read "k.meca"] /\
  new_s3_calls w (snd run) <> [head_read "k.meca"; tail_read "k.meca"].
Proof. vm_compute. repeat split. discriminate. Qed.

(** The probe of the fourth container reads two windows and matches. *)
Example probe_reads_two_windows :
  let run := Fallbacks.find_meca_for_doi (H := Sample.lib) "k.meca" "2020.04.30.123456"
               (with_s3 Sample.empty_world [Demo3.target_head; Demo3.target_tail] []) in
  fst run = Return true /\
  s3_log (snd run) = [GetObject "k.meca" (Some "bytes=0-4095");
                      GetObject "k.meca" (Some "bytes=-4096")].
Proof. vm_compute. repeat split. Qed.

(** A failed second read gives no match. *)
Example probe_with_failed_read :
  let run := Fallbacks.find_meca_for_doi (H := Sample.lib) "k.meca" "2020.04.30.123456"
               (with_s3 Sample.empty_world [Demo3.target_head; None] []) in
  fst run = Return false.
Proof. vm_compute. reflexivity. Qed.


(** An entry named with a step out of the folder: the extraction leaves
    the step out and writes next to the destination, the move looks one
    folder higher and finds nothing; the call raises and the extracted file
    stays. *)
Lemma fallback_s3_member_outside :
  let run := Fallbacks.fallback_s3 (H := Sample.lib) Demo3.in_order Demo3.doi_biorxiv
               Demo3.out_biorxiv ∅ Demo3.world_outside in
  Fallbacks.is_pdf_name (H := Sample.lib) "../evil.pdf" = true /\
  full_fetches (s3_log (snd run)) = ["Current_Content/May_2020/a4.meca"] /\
  fst run = Raise OSError /\
  fs (snd run) !! Demo3.out_biorxiv = None /\
  fs (snd run) !! ["out"; "kw"; "evil.pdf"] = Some (File "%PDF-1.5 evil").
Proof. vm_compute. repeat split. Qed.

(** Five candidates, the fourth one matches: it is the only object fetched
    in full, its PDF entry (named in upper case) ends up at the
    destination, and the fifth candidate is not probed. *)
Example fourth_of_five_containers :
  let run := Fallbacks.fallback_s3 (H := Sample.lib) Demo3.in_order Demo3.doi_biorxiv
               Demo3.out_biorxiv ∅ Demo3.world_biorxiv in
  fst run = Return true /\
  full_fetches (s3_log (snd run)) = ["Current_Content/May_2020/a4.meca"] /\
  List.length (s3_log (snd run)) = 10 /\
  fs (snd run) !! Demo3.out_biorxiv = Some (File "%PDF-1.5 target").
Proof. vm_compute. repeat split. Qed.

(** With every probe started when the fourth one matches, the fifth probe
    takes the answer that was meant for the whole container, and the
    fetch of the container fails. *)
Example fifth_probe_still_runs :
  let run := Fallbacks.fallback_s3 (H := Sample.lib) Demo3.all_started Demo3.doi_biorxiv
               Demo3.out_biorxiv ∅ Demo3.world_biorxiv in
  fst run = Raise ClientError /\
  List.length (s3_log (snd run)) = 12.
Proof. vm_compute. repeat split. Qed.

(** ** Exceptions that leave a strategy (C7) *)

Section Unguarded.
Context `{Lib}.

Lemma requests_get_unanswered (u : string) (ps : list (string * string))
    (px : option string) (w : World) :
  (forall resp rest, http_replies w <> Some resp :: rest) ->
  fst (requests_get u ps px w) = Raise RequestException.
Proof.
  intros Hno. unfold requests_get.
  destruct (http_replies w) as [|[resp|] rest]; [reflexivity| |reflexivity].
  exfalso. exact (Hno resp rest eq_refl).
Qed.

(** The strategies that wrap their requests in [try] return a pair on
    every network and with every library. *)
Lemma guarded_strategies_return (id : string) (out : Path) (px : option string)
    (w : World) :
  (exists b u, fst (Fallbacks.fallback_doi id out px w) = Return (b, u)) /\
  (exists b u, fst (Fallbacks.fallback_sci_hub id out px w) = Return (b, u)).
Proof.
  split.
  - destruct (Fallbacks.fallback_doi id out px w) as [r w'] eqn:E.
    destruct (fallback_doi_outcome _ _ _ _ _ _ E) as (b & u & -> & _). eauto.
  - destruct (Fallbacks.fallback_sci_hub id out px w) as [r w'] eqn:E.
    destruct (fallback_sci_hub_outcome _ _ _ _ _ _ E) as (b & u & -> & _). eauto.
Qed.

(** C7, at the inputs where it fails. [month_folder] and
    [get_elife_xml_index] make their request outside any [try], and so do
    [fallback_s3] and [fallback_elife_xml], which call them: when the
    request is not answered the exception reaches the caller of the
    strategy.  [fallback_arxiv] indexes the pieces of the identifier outside
    any [try]: an identifier with "arxiv" but without "arxiv." raises
    [IndexError]. *)
Theorem unguarded_strategies_raise (as_completed : list string -> list (string * bool))
    (doi_ : string) (out : Path) (api_keys : gmap string string)
    (px : option string) (w : World) :
  (forall resp rest, http_replies w <> Some resp :: rest) ->
  fst (Fallbacks.month_folder doi_ w) = Raise RequestException /\
  fst (Fallbacks.fallback_s3 as_completed doi_ out api_keys w) = Raise RequestException /\
  (ELIFE_XML_INDEX w = None ->
     fst (Fallbacks.get_elife_xml_index w) = Raise RequestException /\
     ELIFE_XML_INDEX (snd (Fallbacks.get_elife_xml_index w)) = Some ∅ /\
     (2 <= List.length (Py.split doi_ "eLife.") ->
        fst (Fallbacks.fallback_elife_xml doi_ out w) = Raise RequestException)) /\
  (Py.contains "arxiv" doi_ = true -> List.length (Py.split doi_ "arxiv.") <= 1 ->
     fst (Fallbacks.fallback_arxiv doi_ out px w) = Raise IndexError).
Proof.
  intros Hno.
  assert (Hmf : fst (Fallbacks.month_folder doi_ w) = Raise RequestException).
  { unfold Fallbacks.month_folder, bind.
    pose proof (requests_get_unanswered
                  ("https://api.biorxiv.org/details/biorxiv/" +:+ doi_ +:+ "/na/json")
                  [] None w Hno) as Hrq.
    destruct (requests_get _ [] None w) as [r1 w1]. cbn [fst] in Hrq. subst r1.
    reflexivity. }
  split; [exact Hmf|]. split.
  { unfold Fallbacks.fallback_s3, bind.
    destruct (Fallbacks.month_folder doi_ w) as [r1 w1]. cbn [fst] in Hmf. subst r1.
    reflexivity. }
  split.
  - intros Hcache.
    assert (Hix : fst (Fallbacks.get_elife_xml_index w) = Raise RequestException /\
                  ELIFE_XML_INDEX (snd (Fallbacks.get_elife_xml_index w)) = Some ∅).
    { unfold Fallbacks.get_elife_xml_index. rewrite Hcache. unfold bind.
      assert (Hno' : forall resp rest,
                http_replies (with_index w (Some ∅)) <> Some resp :: rest) by exact Hno.
      pose proof (requests_get_unanswered
                    "https://api.github.com/repos/elifesciences/elife-article-xml/git/trees/master?recursive=1"
                    [] None (with_index w (Some ∅)) Hno') as Hrq.
      unfold requests_get in *. cbn [http_replies with_index] in *.
      destruct (http_replies w) as [|[resp|] rest]; cbn in Hrq |- *;
        [split; reflexivity|discriminate|split; reflexivity]. }
    destruct Hix as [Hix1 Hix2]. repeat split; [exact Hix1|exact Hix2|].
    intros Hlen. unfold Fallbacks.fallback_elife_xml.
    replace (List.length (Py.split doi_ "eLife.") <? 2)%nat with false
      by (symmetry; apply Nat.ltb_ge; exact Hlen).
    unfold bind. destruct (Fallbacks.get_elife_xml_index w) as [r1 w1].
    cbn [fst] in Hix1. subst r1. reflexivity.
  - intros Harx Hlen. unfold Fallbacks.fallback_arxiv. rewrite Harx.
    destruct (Py.split doi_ "arxiv.") as [|a [|b l]]; cbn in Hlen |- *;
      [reflexivity|reflexivity|lia].
Qed.

End Unguarded.

Lemma unguarded_strategies_raise_witness :
  fst (Fallbacks.fallback_s3 (H := Sample.lib) Demo3.in_order Demo3.doi_biorxiv
         Demo3.out_biorxiv ∅ (with_http Demo3.world_biorxiv [None] []))
  = Raise RequestException.
Proof.
  refine (proj1 (proj2 (unguarded_strategies_raise (H := Sample.lib) Demo3.in_order
            Demo3.doi_biorxiv Demo3.out_biorxiv ∅ None
            (with_http Demo3.world_biorxiv [None] []) _))).
  intros resp rest. cbn. discriminate.
Defined.

(** A date lookup that times out: [fallback_s3] raises instead of
    returning [False]. *)
Example fallback_s3_raises_on_timeout :
  fst (Fallbacks.fallback_s3 (H := Sample.lib) Demo3.in_order Demo3.doi_biorxiv
         Demo3.out_biorxiv ∅ (with_http Demo3.world_biorxiv [None] []))
  = Raise RequestException.
Proof. vm_compute. reflexivity. Qed.

(** A date lookup answered 404: the [HTTPError] of [raise_for_status]
    leaves [fallback_s3] as well. *)
Example fallback_s3_raises_on_404 :
  fst (Fallbacks.fallback_s3 (H := Sample.lib) Demo3.in_order Demo3.doi_biorxiv
         Demo3.out_biorxiv ∅
         (with_http Demo3.world_biorxiv
            [Some {| status_code := 404; content := "not found" |}] []))
  = Raise HTTPError.
Proof. vm_compute. reflexivity. Qed.

(** The index of eLife cannot be fetched: the first call raises, and the
    cache it leaves behind makes every later call decline. *)
Example fallback_elife_raises_then_declines :
  let first := Fallbacks.fallback_elife_xml (H := Sample.lib) "10.7554/eLife.12345"
                 Demo.out_xyz (with_fs Sample.empty_world Demo.out_dirs) in
  fst first = Raise RequestException /\
  fst (Fallbacks.fallback_elife_xml (H := Sample.lib) "10.7554/eLife.12345"
         Demo.out_xyz (with_http (snd first)
                         [Sample.ok "articles/elife-12345-v1.xml"; Sample.ok "<article/>"] []))
  = Return (false, None).
Proof. vm_compute. repeat split. Qed.

Example fallback_arxiv_raises_index_error :
  fst (Fallbacks.fallback_arxiv "10.1000/arxiv123" Demo.out_xyz None
         Sample.empty_world)
  = Raise IndexError.
Proof. vm_compute. reflexivity. Qed.

(** The guarded strategies do return the declined outcome on the same
    network. *)
Example guarded_strategies_decline :
  fst (Fallbacks.fallback_doi (H := Sample.lib) "10.1000/xyz" Demo.out_xyz None
         Sample.empty_world) = Return (false, None) /\
  fst (Fallbacks.fallback_sci_hub (H := Sample.lib) "10.1000/xyz" Demo.out_xyz None
         Sample.empty_world) = Return (false, None) /\
  fst (Fallbacks.fallback_bioc_pmc (H := Sample.lib) "10.1000/xyz" Demo.out_xyz None
         Sample.empty_world) = Return (false, None).
Proof. vm_compute. repeat split. Qed.

(** ** The Elsevier API and a rejected key (C8) *)

Section Elsevier.
Context `{Lib}.

(** Every call sends its request: nothing in the world can hold it back. *)
Lemma elsevier_always_requests (paper : Paper) (out : Path)
    (api_keys : gmap string string) (w : World) :
  http_log (snd (Fallbacks.fallback_elsevier_api paper out api_keys w))
  = http_log w ++ [elsevier_request paper api_keys].
Proof.
  unfold Fallbacks.fallback_elsevier_api, elsevier_request. unfold bind at 1.
  rewrite try_bind. unfold requests_get.
  destruct (http_replies w) as [|[resp|] rest]; cbv beta iota; cbn [is_Exception];
    try reflexivity.
  destruct (status_code resp =? 401)%nat.
  { destruct (Py.contains "APIKEY_INVALID" (text resp)); reflexivity. }
  rewrite try_bind.
  match goal with
  | |- context [raise_for_status resp ?w1] =>
      destruct (raise_for_status_cases resp w1) as [-> | ->]
  end; cbv beta iota; cbn [is_Exception]; [|reflexivity].
  destruct (etree_fromstring (content resp)) as [[]|e]; cbv beta iota.
  - rewrite try_bind. unfold open_write. cbn [fs with_http].
    destruct (is_dir_in (fs w) (Pathlib.parent (Pathlib.with_suffix out ".xml"))
              && negb (is_dir_in (fs w) (Pathlib.with_suffix out ".xml")))%bool;
      reflexivity.
  - destruct e; reflexivity.
Qed.

(** C8, as the code has it. A 401 answer of the Elsevier API, with or
    without [APIKEY_INVALID] in its body, makes that call return [False];
    the world after the call differs from the world before only by the
    answer that was consumed and the request that was logged, so no file is
    written and nothing remembers the rejection; a later call, for any
    paper, sends its request again. *)
Theorem elsevier_unauthorized_declines (paper later : Paper) (out : Path)
    (api_keys : gmap string string) (w : World) (resp : Response)
    (rest : list (option Response)) :
  http_replies w = Some resp :: rest ->
  status_code resp = 401 ->
  let w1 := with_http w rest (http_log w ++ [elsevier_request paper api_keys]) in
  Fallbacks.fallback_elsevier_api paper out api_keys w = (Return false, w1) /\
  http_log (snd (Fallbacks.fallback_elsevier_api later out api_keys w1))
    = http_log w1 ++ [elsevier_request later api_keys].
Proof.
  intros Hrep H401. cbn zeta. split; [|apply elsevier_always_requests].
  unfold Fallbacks.fallback_elsevier_api, elsevier_request. unfold bind at 1.
  rewrite try_bind. unfold requests_get. rewrite Hrep. cbv beta iota.
  rewrite H401. cbn [Nat.eqb].
  replace (401 =? 401)%nat with true by (symmetry; apply Nat.eqb_refl).
  destruct (Py.contains "APIKEY_INVALID" (text resp)); reflexivity.
Qed.

End Elsevier.

Lemma elsevier_unauthorized_declines_witness :
  Fallbacks.fallback_elsevier_api (H := Sample.lib) Demo4.paper_abc Demo.out_xyz Demo4.keys
    Demo4.world_401
  = (Return false,
     with_http Demo4.world_401 [Demo4.unauthorized; Demo4.unauthorized]
       [elsevier_request Demo4.paper_abc Demo4.keys]).
Proof.
  refine (proj1 (elsevier_unauthorized_declines (H := Sample.lib) Demo4.paper_abc
            Demo.paper_xyz Demo.out_xyz Demo4.keys Demo4.world_401
            {| status_code := 401;
               content := "<service-error><status><statusCode>APIKEY_INVALID</statusCode></status></service-error>" |}
            [Demo4.unauthorized; Demo4.unauthorized] _ _)).
  - reflexivity.
  - reflexivity.
Defined.

(** After a call that was answered 401 with APIKEY_INVALID, the next call
    of the same run is not suppressed: it sends the same bad key again. *)
Lemma elsevier_not_suppressed :
  ~ second_call_suppressed (H := Sample.lib) Demo4.paper_abc Demo.paper_xyz Demo.out_xyz
      Demo4.keys Demo4.world_401.
Proof.
  unfold second_call_suppressed. cbn zeta.
  rewrite !(elsevier_always_requests (H := Sample.lib)).
  intros E. apply (f_equal (@List.length Request)) in E.
  rewrite !length_app in E. cbn in E. lia.
Qed.

Example elsevier_two_calls_two_requests :
  let w1 := snd (Fallbacks.fallback_elsevier_api (H := Sample.lib) Demo4.paper_abc
                   Demo.out_xyz Demo4.keys Demo4.world_401) in
  let second := Fallbacks.fallback_elsevier_api (H := Sample.lib) Demo.paper_xyz
                  Demo.out_xyz Demo4.keys w1 in
  fst second = Return false /\
  List.map req_url (http_log (snd second))
    = ["https://api.elsevier.com/content/article/doi/10.1016/abc?apiKey=bad-key&httpAccept=text%2Fxml";
       "https://api.elsevier.com/content/article/doi/10.1000/xyz?apiKey=bad-key&httpAccept=text%2Fxml"].
Proof. vm_compute. repeat split. Qed.

(** ** What a task does to the trace and to its paper *)

Section TaskFrame.

Lemma ctx_step_refl (c : Pdf.Ctx) : ctx_step c c.
Proof. split; [reflexivity|]. exists []. rewrite app_nil_r. split; [reflexivity|constructor]. Qed.

Lemma ctx_step_trans (c1 c2 c3 : Pdf.Ctx) : ctx_step c1 c2 -> ctx_step c2 c3 -> ctx_step c1 c3.
Proof.
  intros [D1 (e1 & T1 & F1)] [D2 (e2 & T2 & F2)]. split; [congruence|].
  exists (e1 ++ e2). split; [rewrite T2, T1; symmetry; apply app_assoc|].
  apply Forall_app. split; assumption.
Qed.

Lemma framed_ret {A} (a : A) : framed (ret a).
Proof. intros c. apply ctx_step_refl. Qed.

Lemma framed_throw {A} (e : exn) : framed (@throw Pdf.Ctx A e).
Proof. intros c. apply ctx_step_refl. Qed.

Lemma framed_bind {A B} (m : ST Pdf.Ctx A) (k : A -> ST Pdf.Ctx B) :
  framed m -> (forall a, framed (k a)) -> framed (bind m k).
Proof.
  intros Hm Hk c. unfold bind. specialize (Hm c).
  destruct (m c) as [[a|e] c1]; cbn [snd] in *; [|exact Hm].
  exact (ctx_step_trans _ _ _ Hm (Hk a c1)).
Qed.

Lemma framed_try {A} (m : ST Pdf.Ctx A) : framed m -> framed (try_ m).
Proof.
  intros Hm c. unfold try_. specialize (Hm c).
  destruct (m c) as [[a|e] c1]; [exact Hm|]. destruct (is_Exception e); exact Hm.
Qed.

Lemma framed_in_world {A} (m : M A) : framed (Pdf.in_world m).
Proof.
  intros c. unfold Pdf.in_world. destruct (m (Pdf.cx_world c)) as [r w']. cbn.
  split; [reflexivity|]. exists []. rewrite app_nil_r. split; [reflexivity|constructor].
Qed.

Lemma framed_get_paper : framed Pdf.get_paper.
Proof. intros c. apply ctx_step_refl. Qed.

Lemma framed_update_paper (f : Paper -> Paper) :
  (forall p, p_doi (f p) = p_doi p) -> framed (Pdf.update_paper f).
Proof.
  intros Hf c. cbn. split; [apply Hf|]. exists []. rewrite app_nil_r.
  split; [reflexivity|constructor].
Qed.

Lemma framed_log (e : Pdf.Event) : task_event e -> framed (Pdf.log e).
Proof.
  intros He c. cbn. split; [reflexivity|]. exists [e]. split; [reflexivity|].
  constructor; [exact He|constructor].
Qed.

Lemma framed_invoke (F : Fallbacks.Name -> Fallbacks.Strategy) (n : Fallbacks.Name)
    (id : string) (out : Path) (px : option string) :
  framed (Pdf.invoke F n id out px).
Proof.
  intros c. unfold Pdf.invoke. destruct (F n id out px (Pdf.cx_world c)) as [r w']. cbn.
  split; [reflexivity|]. eexists [_]. split; [reflexivity|].
  constructor; [exact I|constructor].
Qed.

Lemma framed_step (F : Fallbacks.Name -> Fallbacks.Strategy) (n : Fallbacks.Name)
    (kind id : string) (out : Path) (px : option string) (l : Pdf.Locals) :
  framed (Pdf.step F n kind id out px l).
Proof.
  unfold Pdf.step. apply framed_bind; [apply framed_invoke|]. intros r. apply framed_ret.
Qed.

Ltac framed_tac :=
  repeat first
    [ apply framed_ret | apply framed_throw | apply framed_get_paper
    | apply framed_in_world | apply framed_invoke | apply framed_step
    | apply framed_log; exact I
    | apply framed_update_paper; intros; reflexivity
    | apply framed_try
    | apply framed_bind; [|intros]
    | match goal with
      | |- framed (if ?b then _ else _) => destruct b
      | |- framed (match ?x with _ => _ end) => destruct x
      end ].

Lemma framed_save_pdf (F : Fallbacks.Name -> Fallbacks.Strategy) (filepath : Path)
    (save_metadata : bool) (api_keys : gmap string string) (proxies : option string) :
  framed (Pdf.save_pdf F filepath save_metadata api_keys proxies).
Proof. unfold Pdf.save_pdf. framed_tac. Qed.

Lemma framed_dedup (filename : string) (subdirs : list Path) :
  framed (Pdf.dedup filename subdirs).
Proof.
  induction subdirs as [|sd rest IH]; cbn [Pdf.dedup]; [apply framed_ret|].
  framed_tac; exact IH.
Qed.

Lemma framed_process_single_paper (F : Fallbacks.Name -> Fallbacks.Strategy)
    (pdf_path : Path) (key_to_save : SaveKey) (save_metadata : bool)
    (api_keys : gmap string string) (ip_pool : option (option string)) :
  framed (Pdf._process_single_paper F pdf_path key_to_save save_metadata api_keys ip_pool).
Proof.
  unfold Pdf._process_single_paper.
  framed_tac; try apply framed_dedup; try apply framed_save_pdf.
Qed.

(** [except Exception] around the whole body: a task hands nothing but
    [Exception]s on, and those it turns into a result. *)
Lemma process_single_paper_raises (F : Fallbacks.Name -> Fallbacks.Strategy)
    (pdf_path : Path) (key_to_save : SaveKey) (save_metadata : bool)
    (api_keys : gmap string string) (ip_pool : option (option string)) (c : Pdf.Ctx)
    (e : exn) :
  fst (Pdf._process_single_paper F pdf_path key_to_save save_metadata api_keys ip_pool c)
    = Raise e ->
  is_Exception e = false.
Proof.
  unfold Pdf._process_single_paper. unfold bind at 1, try_.
  match goal with |- context [let (_, _) := ?m c in _] => destruct (m c) as [[v|e'] c1] end.
  - cbn. discriminate.
  - destruct (is_Exception e') eqn:Ee; cbn; [discriminate|]. intros [= <-]. exact Ee.
Qed.

End TaskFrame.

(** ** The state store and its flush (C2, C10) *)

Section StateStore.
Context `{Lib}.

Lemma bind_inv {S A B} (m : ST S A) (k : A -> ST S B) (s : S) (r : result B) (s' : S) :
  bind m k s = (r, s') ->
  (exists a s1, m s = (Return a, s1) /\ k a s1 = (r, s')) \/
  (exists e, m s = (Raise e, s') /\ r = Raise e).
Proof.
  unfold bind. destruct (m s) as [[a|e] s1].
  - intros Hk. left. eauto.
  - intros [= <- <-]. right. eauto.
Qed.

Lemma dict_get_In {K V} `{EqDecision K} (d : list (K * V)) (k : K) (v : V) :
  dict_get d k = Some v -> In (k, v) d.
Proof.
  induction d as [|[k' v'] d IH]; cbn; [discriminate|].
  destruct (decide (k' = k)) as [->|Hne].
  - intros [= ->]. left. reflexivity.
  - intros Hg. right. exact (IH Hg).
Qed.

Lemma dict_set_keys {K V} `{EqDecision K} (d : list (K * V)) (k : K) (v : V) :
  ((k ∈ dict_keys d) /\ dict_keys (dict_set d k v) = dict_keys d) \/
  ((k ∉ dict_keys d) /\ dict_keys (dict_set d k v) = dict_keys d ++ [k]).
Proof.
  induction d as [|[k' v'] d IH]; cbn.
  - right. split; [apply not_elem_of_nil|reflexivity].
  - destruct (decide (k' = k)) as [->|Hne]; cbn.
    + left. split; [apply list_elem_of_here|reflexivity].
    + destruct IH as [[Hin Hk]|[Hnot Hk]]; unfold dict_keys in *; rewrite Hk.
      * left. split; [apply list_elem_of_further; exact Hin|reflexivity].
      * right. split; [|reflexivity].
        intros Hin. apply elem_of_cons in Hin. destruct Hin as [->|Hin]; [congruence|].
        exact (Hnot Hin).
Qed.

Lemma dict_set_nodup {K V} `{EqDecision K} (d : list (K * V)) (k : K) (v : V) :
  NoDup (dict_keys d) -> NoDup (dict_keys (dict_set d k v)).
Proof.
  intros Hnd. destruct (dict_set_keys d k v) as [[_ ->]|[Hnot ->]]; [exact Hnd|].
  apply NoDup_app. split; [exact Hnd|]. split; [|apply NoDup_singleton].
  intros x Hx Hx'. apply list_elem_of_singleton in Hx'. subst x. exact (Hnot Hx).
Qed.

Lemma dict_set_keyed (d : list (option string * Paper)) (k : option string) (v : Paper) :
  keyed_by_doi d -> p_doi v = k -> keyed_by_doi (dict_set d k v).
Proof.
  unfold keyed_by_doi. intros Hd Hv. induction Hd as [|[k' v'] d Hx Hd IH]; cbn.
  - constructor; [exact Hv|constructor].
  - destruct (decide (k' = k)); constructor; try assumption.
Qed.

Lemma store_ok_set (d : list (option string * Paper)) (v : Paper) :
  store_ok d -> store_ok (dict_set d (p_doi v) v).
Proof.
  intros [Hnd Hk]. split; [apply dict_set_nodup; exact Hnd|].
  apply dict_set_keyed; [exact Hk|reflexivity].
Qed.

Lemma load_lines_ok (lines : list string) :
  forall d d', store_ok d -> Pdf.load_lines lines d = Return d' -> store_ok d'.
Proof.
  induction lines as [|line lines IH]; intros d d' Hd; cbn.
  - intros [= <-]. exact Hd.
  - destruct (json_loads line) as [paper|e]; [|discriminate].
    apply IH. apply store_ok_set. exact Hd.
Qed.

Lemma task_event_loop (evs : list Pdf.Event) :
  Forall task_event evs ->
  Forall loop_event evs /\ (forall m, Forall (over_quota m) evs) /\
  (forall n, Pdf.QuotaChecked n ∉ evs) /\ Pdf.Flushed ∉ evs.
Proof.
  induction 1 as [|e evs He _ (IH1 & IH2 & IH3 & IH4)].
  - repeat split; try constructor; intros; apply not_elem_of_nil.
  - repeat split.
    + constructor; [destruct e; try exact I; destruct He|exact IH1].
    + intros m. constructor; [destruct e; try exact I; destruct He|apply IH2].
    + intros n Hin. apply elem_of_cons in Hin. destruct Hin as [<-|Hin];
        [destruct He|exact (IH3 n Hin)].
    + intros Hin. apply elem_of_cons in Hin. destruct Hin as [<-|Hin];
        [destruct He|exact (IH4 Hin)].
Qed.

(** A worker keeps the store in order and adds task events only. *)
Lemma run_task_step (F : Fallbacks.Name -> Fallbacks.Strategy) (pdf_path : Path)
    (key_to_save : SaveKey) (save_metadata : bool) (api_keys : gmap string string)
    (ip_pool : option (option string)) (k : option string) (o : Pdf.Orch)
    (r : result (option Paper)) (o' : Pdf.Orch) :
  Pdf.run_task F pdf_path key_to_save save_metadata api_keys ip_pool k o = (r, o') ->
  store_ok (Pdf.metadict o) ->
  store_ok (Pdf.metadict o') /\
  exists evs, Pdf.o_trace o' = Pdf.o_trace o ++ evs /\ Forall task_event evs.
Proof.
  unfold Pdf.run_task. intros Hrun [Hnd Hkey].
  destruct (dict_get (Pdf.metadict o) k) as [paper|] eqn:Eg.
  - pose proof (framed_process_single_paper F pdf_path key_to_save save_metadata api_keys
                  ip_pool {| Pdf.cx_world := Pdf.o_world o; Pdf.cx_trace := Pdf.o_trace o;
                             Pdf.cx_paper := paper |}) as [Hdoi Htr].
    destruct (Pdf._process_single_paper F pdf_path key_to_save save_metadata api_keys
                ip_pool _) as [r1 c1].
    cbn [snd Pdf.cx_paper Pdf.cx_trace] in Hdoi, Htr. injection Hrun as <- <-.
    cbn [Pdf.metadict Pdf.o_trace]. split; [|exact Htr].
    assert (Hk : p_doi (Pdf.cx_paper c1) = k).
    { rewrite Hdoi. apply dict_get_In in Eg.
      unfold keyed_by_doi in Hkey. rewrite Forall_forall in Hkey.
      exact (Hkey (k, paper) (proj2 (list_elem_of_In _ _) Eg)). }
    split; [apply dict_set_nodup; exact Hnd|apply dict_set_keyed; assumption].
  - injection Hrun as <- <-. split; [split; assumption|].
    exists []. rewrite app_nil_r. split; [reflexivity|constructor].
Qed.

Lemma on_error_inv {S A} (m : ST S A) (after : ST S unit) (s : S) (r : result A) (s' : S) :
  Pdf.on_error m after s = (r, s') ->
  (exists a, m s = (Return a, s') /\ r = Return a) \/
  (exists e s1, m s = (Raise e, s1) /\ r = Raise e /\ s' = snd (after s1)).
Proof.
  unfold Pdf.on_error. destruct (m s) as [[a|e] s1]; intros [= <- <-]; [left|right]; eauto.
Qed.

(** The tasks the pool still runs keep the store in order and add task
    events only. *)
Lemma finish_tasks_step (F : Fallbacks.Name -> Fallbacks.Strategy) (pdf_path : Path)
    (key_to_save : SaveKey) (save_metadata : bool) (api_keys : gmap string string)
    (ip_pool : option (option string)) (order : list (option string * bool)) :
  forall (cancelling : bool) (o : Pdf.Orch),
  store_ok (Pdf.metadict o) ->
  store_ok (Pdf.metadict (snd (Pdf.finish_tasks F pdf_path key_to_save save_metadata
                                 api_keys ip_pool order cancelling o))) /\
  exists evs,
    Pdf.o_trace (snd (Pdf.finish_tasks F pdf_path key_to_save save_metadata
                        api_keys ip_pool order cancelling o))
    = Pdf.o_trace o ++ evs /\ Forall task_event evs.
Proof.
  induction order as [|[k started] rest IH]; intros cancelling o Hok;
    cbn [Pdf.finish_tasks].
  - cbn. split; [exact Hok|]. exists []. rewrite app_nil_r. split; [reflexivity|constructor].
  - unfold bind. destruct (cancelling && negb started)%bool.
    + unfold ret. apply IH. exact Hok.
    + destruct (Pdf.run_task F pdf_path key_to_save save_metadata api_keys ip_pool k o)
        as [r1 o1] eqn:E1. cbn [snd].
      destruct (run_task_step _ _ _ _ _ _ _ _ _ _ E1 Hok) as [Hok1 (evs1 & Htr1 & Hev1)].
      destruct (IH cancelling o1 Hok1) as [Hok' (evs2 & Htr2 & Hev2)].
      split; [exact Hok'|]. exists (evs1 ++ evs2). split.
      * rewrite Htr2, Htr1, app_assoc. reflexivity.
      * apply Forall_app. split; assumption.
Qed.

(** The check that ends the loop body. *)
Lemma quota_check_cases (pdf_path : Path) (max_pdf_num : nat) (stop_event : option unit)
    (o : Pdf.Orch) (r : result bool) (o' : Pdf.Orch) :
  (let* entries := Pdf.orch_world (listdir_len pdf_path) in
   do* Pdf.orch_log (Pdf.QuotaChecked entries) in
   if (max_pdf_num <? entries)%nat then ret true
   else match stop_event with
        | None => throw AttributeError
        | Some _ => Pdf.orch_world is_set
        end) o = (r, o') ->
  Pdf.metadict o' = Pdf.metadict o /\
  ((Pdf.o_trace o' = Pdf.o_trace o /\ exists e, r = Raise e) \/
   exists entries, Pdf.o_trace o' = Pdf.o_trace o ++ [Pdf.QuotaChecked entries] /\
     ((max_pdf_num < entries /\ r = Return true) \/
      (entries <= max_pdf_num /\
       match stop_event with
       | None => r = Raise AttributeError
       | Some _ => exists b, r = Return b
       end))).
Proof.
  unfold bind at 1, Pdf.orch_world. intros Hrun.
  destruct (listdir_len pdf_path (Pdf.o_world o)) as [[entries|e] w2].
  2: { injection Hrun as <- <-. cbn. split; [reflexivity|]. left. eauto. }
  unfold bind at 1, Pdf.orch_log in Hrun. cbn [Pdf.o_world Pdf.o_trace Pdf.metadict] in Hrun.
  destruct (max_pdf_num <? entries)%nat eqn:Equota.
  - apply Nat.ltb_lt in Equota. injection Hrun as <- <-. cbn.
    split; [reflexivity|]. right. exists entries. split; [reflexivity|]. left. auto.
  - apply Nat.ltb_ge in Equota. destruct stop_event as [ev|].
    + unfold Pdf.orch_world, is_set in Hrun.
      cbn [Pdf.o_world Pdf.o_trace Pdf.metadict] in Hrun.
      destruct (stop_answers w2) as [|b answers]; injection Hrun as <- <-; cbn;
        (split; [reflexivity|]); right; exists entries; (split; [reflexivity|]);
        right; eauto.
    + injection Hrun as <- <-. cbn.
      split; [reflexivity|]. right. exists entries. split; [reflexivity|]. right. auto.
Qed.

(** The loop over the completed tasks keeps the store in order, never
    flushes, and, without an event object, goes on only as long as every
    check finds the quota exceeded. *)
Lemma completion_loop_step (F : Fallbacks.Name -> Fallbacks.Strategy) (pdf_path : Path)
    (key_to_save : SaveKey) (save_metadata : bool) (api_keys : gmap string string)
    (max_pdf_num : nat) (ip_pool : option (option string)) (stop_event : option unit)
    (order : list (option string * bool)) :
  forall (cancelling : bool) (o : Pdf.Orch) (r : result unit) (o' : Pdf.Orch),
  Pdf.completion_loop F pdf_path key_to_save save_metadata api_keys max_pdf_num ip_pool
    stop_event order cancelling o = (r, o') ->
  store_ok (Pdf.metadict o) ->
  store_ok (Pdf.metadict o') /\
  exists evs, Pdf.o_trace o' = Pdf.o_trace o ++ evs /\ Forall loop_event evs /\
    (stop_event = None ->
       (r = Return tt -> Forall (over_quota max_pdf_num) evs) /\
       (forall n, Pdf.QuotaChecked n ∈ evs -> n <= max_pdf_num -> r = Raise AttributeError)).
Proof.
  induction order as [|[k started] rest IH]; intros cancelling o r o' Hrun Hok.
  - cbn in Hrun. injection Hrun as <- <-. split; [exact Hok|].
    exists []. rewrite app_nil_r. repeat split; try constructor.
    intros n Hin. exfalso. exact (not_elem_of_nil _ Hin).
  - cbn [Pdf.completion_loop] in Hrun.
    destruct (cancelling && negb started)%bool; [exact (IH _ _ _ _ Hrun Hok)|].
    apply bind_inv in Hrun.
    destruct Hrun as [(metadata & o1 & Htask & Hrun)|(e & Htask & ->)].
    2: { apply on_error_inv in Htask.
         destruct Htask as [(a & _ & [=])|(e' & o1 & Htask & _ & ->)].
         destruct (run_task_step _ _ _ _ _ _ _ _ _ _ Htask Hok)
           as [Hok1 (evs1 & Htr1 & Hev1)].
         destruct (finish_tasks_step F pdf_path key_to_save save_metadata api_keys ip_pool
                     rest cancelling o1 Hok1) as [Hok2 (evs2 & Htr2 & Hev2)].
         assert (Hev : Forall task_event (evs1 ++ evs2))
           by (apply Forall_app; split; assumption).
         destruct (task_event_loop _ Hev) as (Hl & _ & Hq & _).
         split; [exact Hok2|]. exists (evs1 ++ evs2).
         split; [rewrite Htr2, Htr1, app_assoc; reflexivity|].
         split; [exact Hl|]. intros _. split; [discriminate|].
         intros n Hin. exfalso. exact (Hq n Hin). }
    apply on_error_inv in Htask.
    destruct Htask as [(a & Htask & [= <-])|(e' & o1' & _ & [=] & _)].
    destruct (run_task_step _ _ _ _ _ _ _ _ _ _ Htask Hok) as [Hok1 (evs1 & Htr1 & Hev1)].
    destruct (task_event_loop _ Hev1) as (Hl1 & Hover1 & Hq1 & _).
    assert (Hcont : forall c o2 evs2,
              Pdf.o_trace o2 = Pdf.o_trace o1 ++ evs2 ->
              Forall loop_event evs2 -> Forall (over_quota max_pdf_num) evs2 ->
              store_ok (Pdf.metadict o2) ->
              Pdf.completion_loop F pdf_path key_to_save save_metadata api_keys max_pdf_num
                ip_pool stop_event rest c o2 = (r, o') ->
              store_ok (Pdf.metadict o') /\
              exists evs, Pdf.o_trace o' = Pdf.o_trace o ++ evs /\ Forall loop_event evs /\
                (stop_event = None ->
                   (r = Return tt -> Forall (over_quota max_pdf_num) evs) /\
                   (forall n, Pdf.QuotaChecked n ∈ evs -> n <= max_pdf_num ->
                      r = Raise AttributeError))).
    { intros c o2 evs2 Htr2 Hl2 Hover2 Hok2 Hloop.
      destruct (IH _ _ _ _ Hloop Hok2) as [Hok' (evs3 & Htr3 & Hl3 & Hnone)].
      split; [exact Hok'|]. exists (evs1 ++ evs2 ++ evs3). split.
      { rewrite Htr3, Htr2, Htr1, <- !app_assoc. reflexivity. }
      split; [rewrite !Forall_app; auto|].
      intros Hstop. destruct (Hnone Hstop) as [Hret Hraise]. split.
      - intros Hr. rewrite !Forall_app. auto.
      - intros n Hin Hle. rewrite !elem_of_app in Hin.
        destruct Hin as [Hin|[Hin|Hin]].
        + exfalso. exact (Hq1 n Hin).
        + exfalso. rewrite Forall_forall in Hover2. specialize (Hover2 _ Hin).
          cbn in Hover2. lia.
        + exact (Hraise n Hin Hle). }
    destruct metadata as [metadata|].
    2: { refine (Hcont cancelling o1 [] _ _ _ Hok1 Hrun);
           [rewrite app_nil_r; reflexivity|constructor|constructor]. }
    unfold bind at 1, Pdf.get_metadict in Hrun. unfold bind at 1, Pdf.set_metadict in Hrun.
    set (o2 := {| Pdf.o_world := Pdf.o_world o1; Pdf.o_trace := Pdf.o_trace o1;
                  Pdf.metadict := dict_set (Pdf.metadict o1) (p_doi metadata) metadata |})
      in Hrun.
    assert (Hok2 : store_ok (Pdf.metadict o2)) by (apply store_ok_set; exact Hok1).
    apply bind_inv in Hrun.
    destruct Hrun as [(stop & o3 & Hcheck & Hrun)|(e & Hcheck & ->)].
    + apply on_error_inv in Hcheck.
      destruct Hcheck as [(a & Hcheck & [= <-])|(e' & o3' & _ & [=] & _)].
      apply quota_check_cases in Hcheck.
      destruct Hcheck as [Hmd [[_ [e He]]|(entries & Htr & [[Hlt Hr]|[Hle Hr]])]];
        [discriminate He| |].
      * refine (Hcont _ o3 [Pdf.QuotaChecked entries] Htr _ _ _ Hrun).
        -- constructor; [exact I|constructor].
        -- constructor; [exact Hlt|constructor].
        -- rewrite Hmd. exact Hok2.
      * destruct stop_event as [ev|]; [|discriminate Hr].
        assert (Hok3 : store_ok (Pdf.metadict o3)) by (rewrite Hmd; exact Hok2).
        destruct (IH _ _ _ _ Hrun Hok3) as [Hok' (evs3 & Htr3 & Hl3 & _)].
        split; [exact Hok'|]. exists (evs1 ++ Pdf.QuotaChecked entries :: evs3). split.
        { rewrite Htr3, Htr. cbn [Pdf.o_trace o2]. rewrite Htr1, <- !app_assoc.
          reflexivity. }
        split; [|discriminate].
        rewrite Forall_app. split; [exact Hl1|]. constructor; [exact I|exact Hl3].
    + apply on_error_inv in Hcheck.
      destruct Hcheck as [(a & _ & [=])|(e' & o3 & Hcheck & [= <-] & ->)].
      apply quota_check_cases in Hcheck. destruct Hcheck as [Hmd Hcheck].
      assert (Hok3 : store_ok (Pdf.metadict o3)) by (rewrite Hmd; exact Hok2).
      destruct (finish_tasks_step F pdf_path key_to_save save_metadata api_keys ip_pool
                  rest cancelling o3 Hok3) as [Hok4 (evs4 & Htr4 & Hev4)].
      destruct (task_event_loop _ Hev4) as (Hl4 & Hover4 & Hq4 & _).
      split; [exact Hok4|].
      destruct Hcheck as [[Htr _]|(entries & Htr & [[_ [=]]|[Hle Hr]])].
      * exists (evs1 ++ evs4). split.
        { rewrite Htr4, Htr. cbn [Pdf.o_trace o2]. rewrite Htr1, <- !app_assoc.
          reflexivity. }
        split; [rewrite Forall_app; auto|].
        intros _. split; [discriminate|].
        intros n Hin. exfalso. rewrite elem_of_app in Hin.
        destruct Hin as [Hin|Hin]; [exact (Hq1 n Hin)|exact (Hq4 n Hin)].
      * exists (evs1 ++ Pdf.QuotaChecked entries :: evs4). split.
        { rewrite Htr4, Htr. cbn [Pdf.o_trace o2]. rewrite Htr1, <- !app_assoc.
          reflexivity. }
        split.
        { rewrite Forall_app. split; [exact Hl1|]. constructor; [exact I|exact Hl4]. }
        intros ->. split; [discriminate|]. intros. injection Hr as ->. reflexivity.
Qed.

(** Loading the dump leaves the trace alone and gives a store in order. *)
Lemma load_step (dump_path : Path) (present : bool) (o : Pdf.Orch) (r : result unit)
    (o' : Pdf.Orch) :
  (if present then
     let* data := Pdf.orch_world (Pdf.read_file dump_path) in
     let* d := lift (Pdf.load_lines (Pdf.readlines data) []) in
     Pdf.set_metadict d
   else ret tt) o = (r, o') ->
  store_ok (Pdf.metadict o) ->
  Pdf.o_trace o' = Pdf.o_trace o /\ (forall v, r = Return v -> store_ok (Pdf.metadict o')).
Proof.
  intros Hrun Hok. destruct present.
  2: { injection Hrun as <- <-. split; [reflexivity|intros; exact Hok]. }
  unfold bind at 1, Pdf.orch_world, Pdf.read_file in Hrun.
  destruct (lookup_fs (fs (Pdf.o_world o)) dump_path) as [[data|]|].
  2, 3: injection Hrun as <- <-; split; [reflexivity|discriminate].
  unfold bind, lift, Pdf.set_metadict in Hrun.
  destruct (Pdf.load_lines (Pdf.readlines data) []) as [d|e] eqn:El.
  - injection Hrun as <- <-. split; [reflexivity|]. intros _ _.
    refine (load_lines_ok _ [] d _ El).
    split; [apply NoDup_nil_2|constructor].
  - injection Hrun as <- <-. split; [reflexivity|discriminate].
Qed.

Lemma first_fault_nil (n : nat) : first_fault [] n = None.
Proof. destruct n; reflexivity. Qed.

Lemma first_fault_zero (faults : list (option exn)) : first_fault faults 0 = None.
Proof. destruct faults as [|[e|] rest]; reflexivity. Qed.

Lemma world_same (w : World) : with_faults (with_fs w (fs w)) (write_faults w) = w.
Proof. destruct w; reflexivity. Qed.

Lemma append_empty_r (s : string) : s +:+ EmptyString = s.
Proof.
  induction s as [|c s IH]; [reflexivity|].
  change (String c (s +:+ EmptyString) = String c s). rewrite IH. reflexivity.
Qed.

Lemma append_append (a b c : string) : (a +:+ b) +:+ c = a +:+ b +:+ c.
Proof.
  induction a as [|x a IH]; [reflexivity|].
  change (String x ((a +:+ b) +:+ c) = String x (a +:+ b +:+ c)). rewrite IH. reflexivity.
Qed.

Lemma concat_lines_cons (x : string) (l : list string) :
  String.concat EmptyString (x :: l) = x +:+ String.concat EmptyString l.
Proof.
  destruct l; cbn [String.concat]; [|reflexivity].
  symmetry. apply append_empty_r.
Qed.

(** The records are written one after the other until a write fails. *)
Lemma write_records_run (p : Path) (rs : list Paper) :
  forall (w : World) (data0 : string),
  lookup_fs (fs w) p = Some (File data0) ->
  Pdf.write_records p rs w =
    match first_fault (write_faults w) (List.length rs) with
    | None =>
        (Return tt,
         with_faults
           (with_fs w
              (<[p := File (data0 +:+ String.concat EmptyString
                              (List.map (fun r => json_dumps r +:+ nl) rs))]> (fs w)))
           (drop (List.length rs) (write_faults w)))
    | Some (k, e) =>
        (Raise e,
         with_faults
           (with_fs w
              (<[p := File (data0 +:+ String.concat EmptyString
                              (List.map (fun r => json_dumps r +:+ nl) (take k rs)))]>
                 (fs w)))
           (drop (S k) (write_faults w)))
    end.
Proof.
  induction rs as [|r rs IH]; intros w data0 Hfile.
  - cbn [Pdf.write_records List.length List.map String.concat drop].
    rewrite first_fault_zero. unfold ret. rewrite append_empty_r.
    rewrite (insert_id (fs w) p (File data0) Hfile), world_same. reflexivity.
  - cbn [Pdf.write_records List.length]. unfold bind, file_write. fold nl.
    destruct (write_faults w) as [|[e|] rest] eqn:Ef.
    + rewrite Hfile. cbn [List.tl].
      rewrite (IH _ (data0 +:+ json_dumps r +:+ nl)) by apply lookup_insert_eq.
      cbn [write_faults with_fs with_faults fs].
      rewrite !first_fault_nil. cbn [List.map]. rewrite concat_lines_cons.
      rewrite insert_insert_eq, !drop_nil, append_append. reflexivity.
    + cbn [first_fault take List.map String.concat drop].
      rewrite append_empty_r, (insert_id (fs w) p (File data0) Hfile).
      rewrite with_fs_same. reflexivity.
    + rewrite Hfile. cbn [List.tl].
      rewrite (IH _ (data0 +:+ json_dumps r +:+ nl)) by apply lookup_insert_eq.
      cbn [write_faults with_fs with_faults fs first_fault].
      destruct (first_fault rest (List.length rs)) as [[k e]|].
      * cbn [take List.map]. rewrite concat_lines_cons.
        rewrite insert_insert_eq, append_append. reflexivity.
      * cbn [List.map]. rewrite concat_lines_cons.
        rewrite insert_insert_eq, append_append. reflexivity.
Qed.


(** What a flush does: it enters, empties the file if it can open it, and
    writes the records in the order of the mapping until a write fails. *)
Lemma flush_cases (dump_path : Path) (o : Pdf.Orch) :
  let d := Pdf.metadict o in
  let w := Pdf.o_world o in
  let run := Pdf.f_save_metadata dump_path o in
  Pdf.o_trace (snd run) = Pdf.o_trace o ++ [Pdf.Flushed] /\
  Pdf.metadict (snd run) = d /\
  (http_log (Pdf.o_world (snd run)) = http_log w /\
   s3_log (Pdf.o_world (snd run)) = s3_log w) /\
  if writable (fs w) dump_path then
    match first_fault (write_faults w) (List.length d) with
    | None =>
        fst run = Return tt /\
        fs (Pdf.o_world (snd run))
        = <[dump_path := File (String.concat EmptyString (lines_of d))]> (fs w)
    | Some (k, e) =>
        fst run = Raise e /\
        fs (Pdf.o_world (snd run))
        = <[dump_path := File (String.concat EmptyString (take k (lines_of d)))]> (fs w)
    end
  else fst run = Raise OSError /\ Pdf.o_world (snd run) = w.
Proof.
  cbn zeta. unfold Pdf.f_save_metadata, writable.
  unfold bind, Pdf.orch_log, Pdf.get_metadict, Pdf.orch_world, open_write.
  cbn [Pdf.o_world Pdf.o_trace Pdf.metadict].
  destruct (is_dir_in (fs (Pdf.o_world o)) (Pathlib.parent dump_path)
            && negb (is_dir_in (fs (Pdf.o_world o)) dump_path))%bool.
  2: { cbn. repeat split. }
  cbn [Pdf.o_world Pdf.o_trace Pdf.metadict].
  rewrite (write_records_run dump_path (dict_values (Pdf.metadict o)) _ EmptyString)
    by apply lookup_insert_eq.
  cbn [write_faults with_fs fs].
  unfold dict_values, lines_of. rewrite length_map. fold nl.
  destruct (first_fault (write_faults (Pdf.o_world o)) (List.length (Pdf.metadict o)))
    as [[k e]|]; cbn [fst snd Pdf.o_world Pdf.o_trace Pdf.metadict fs with_fs with_faults
                      http_log s3_log];
    rewrite insert_insert_eq; cbn [append];
    rewrite <- ?firstn_map, List.map_map; repeat split.
Qed.

(** The ways a call of the orchestrator can end.  Either it raised before
    the flush was entered, having added loop events only; or it entered the
    flush with a store in order, and ended with the error of the flush or,
    the flush done, right after the check of the event. *)
Lemma orchestrator_endings (F : Fallbacks.Name -> Fallbacks.Strategy)
    (as_completed : list (option string) -> list (option string * bool))
    (dump_path pdf_path : Path) (key_to_save : SaveKey) (save_metadata : bool)
    (api_keys : gmap string string) (max_pdf_num : nat)
    (ip_pool : option (option string)) (stop_event : option unit) (o : Pdf.Orch)
    (r : result Pdf.Termination) (o' : Pdf.Orch) :
  Pdf.save_pdf_from_dump_new F as_completed dump_path pdf_path key_to_save save_metadata
    api_keys max_pdf_num ip_pool stop_event o = (r, o') ->
  exists evs, Forall loop_event evs /\
    ((Pdf.o_trace o' = Pdf.o_trace o ++ evs /\ (exists e, r = Raise e) /\
      (stop_event = None -> forall n, Pdf.QuotaChecked n ∈ evs -> n <= max_pdf_num ->
         r = Raise AttributeError))
     \/
     (exists o2,
        Pdf.o_trace o2 = Pdf.o_trace o ++ evs /\
        (stop_event = None -> Forall (over_quota max_pdf_num) evs) /\
        store_ok (Pdf.metadict o2) /\
        Pdf.o_trace o' = Pdf.o_trace (snd (Pdf.f_save_metadata dump_path o2)) /\
        Pdf.metadict o' = Pdf.metadict (snd (Pdf.f_save_metadata dump_path o2)) /\
        fs (Pdf.o_world o') = fs (Pdf.o_world (snd (Pdf.f_save_metadata dump_path o2))) /\
        match fst (Pdf.f_save_metadata dump_path o2) with
        | Raise e => r = Raise e
        | Return _ =>
            match stop_event with
            | None => r = Raise AttributeError
            | Some _ => exists t, r = Return t
            end
        end)).
Proof.
  unfold Pdf.save_pdf_from_dump_new. intros Hrun.
  assert (Hearly : forall e, r = Raise e -> Pdf.o_trace o' = Pdf.o_trace o ->
            exists evs, Forall loop_event evs /\
              ((Pdf.o_trace o' = Pdf.o_trace o ++ evs /\ (exists e, r = Raise e) /\
                (stop_event = None -> forall n, Pdf.QuotaChecked n ∈ evs ->
                   n <= max_pdf_num -> r = Raise AttributeError))
               \/
               (exists o2,
                  Pdf.o_trace o2 = Pdf.o_trace o ++ evs /\
                  (stop_event = None -> Forall (over_quota max_pdf_num) evs) /\
                  store_ok (Pdf.metadict o2) /\
                  Pdf.o_trace o' = Pdf.o_trace (snd (Pdf.f_save_metadata dump_path o2)) /\
                  Pdf.metadict o' = Pdf.metadict (snd (Pdf.f_save_metadata dump_path o2)) /\
                  fs (Pdf.o_world o')
                  = fs (Pdf.o_world (snd (Pdf.f_save_metadata dump_path o2))) /\
                  match fst (Pdf.f_save_metadata dump_path o2) with
                  | Raise e => r = Raise e
                  | Return _ =>
                      match stop_event with
                      | None => r = Raise AttributeError
                      | Some _ => exists t, r = Return t
                      end
                  end))).
  { intros e -> Htr. exists []. split; [constructor|]. left.
    rewrite app_nil_r. repeat split; [exact Htr|eauto|].
    intros _ n Hin. exfalso. exact (not_elem_of_nil _ Hin). }
  destruct (negb (Py.endswith (Pathlib.as_posix dump_path) ".jsonl")).
  { injection Hrun as <- <-. apply (Hearly ValueError); reflexivity. }
  unfold bind at 1, Pdf.set_metadict in Hrun.
  unfold bind at 1, Pdf.orch_world, path_exists in Hrun.
  cbn [Pdf.o_world Pdf.o_trace Pdf.metadict] in Hrun.
  apply bind_inv in Hrun. destruct Hrun as [([] & o1 & Hload & Hrun)|(e & Hload & ->)].
  2: { apply load_step in Hload; [|split; [apply NoDup_nil_2|constructor]].
       destruct Hload as [Htr _]. apply (Hearly e); [reflexivity|exact Htr]. }
  apply load_step in Hload; [|split; [apply NoDup_nil_2|constructor]].
  destruct Hload as [Htr1 Hok1]. cbn [Pdf.o_trace] in Htr1. specialize (Hok1 tt eq_refl).
  unfold bind at 1, Pdf.get_metadict in Hrun.
  apply bind_inv in Hrun. destruct Hrun as [([] & o2 & Hloop & Hrun)|(e & Hloop & ->)].
  2: { destruct (completion_loop_step _ _ _ _ _ _ _ _ _ _ _ _ _ Hloop Hok1)
         as [_ (evs & Htr & Hl & Hnone)].
       exists evs. split; [exact Hl|]. left. repeat split; [congruence|eauto|].
       intros Hstop n Hin Hle. pose proof (proj2 (Hnone Hstop) n Hin Hle) as E.
       injection E as ->. reflexivity. }
  destruct (completion_loop_step _ _ _ _ _ _ _ _ _ _ _ _ _ Hloop Hok1)
    as [Hok2 (evs & Htr2 & Hl & Hnone)].
  exists evs. split; [exact Hl|]. right. exists o2.
  split; [congruence|]. split; [intros Hstop; exact (proj1 (Hnone Hstop) eq_refl)|].
  split; [exact Hok2|].
  unfold bind at 1 in Hrun.
  destruct (Pdf.f_save_metadata dump_path o2) as [[[]|e] o3]; cbn [fst snd].
  2: { injection Hrun as <- <-. repeat split. }
  destruct stop_event as [ev|].
  - unfold bind, Pdf.orch_world, is_set in Hrun.
    destruct (stop_answers (Pdf.o_world o3)) as [|b answers];
      [|destruct b]; injection Hrun as <- <-; cbn; repeat split; eauto.
  - unfold bind, throw in Hrun. injection Hrun as <- <-. repeat split.
Qed.

Lemma new_events_of (tr evs : list Pdf.Event) (tr' : list Pdf.Event) :
  tr' = tr ++ evs -> new_events tr tr' = evs.
Proof. intros ->. unfold new_events. apply drop_app_length. Qed.

Lemma loop_event_not_flushed (evs : list Pdf.Event) :
  Forall loop_event evs -> Pdf.Flushed ∉ evs.
Proof.
  intros Hl Hin. rewrite Forall_forall in Hl. exact (Hl _ Hin).
Qed.

(** C2. Whenever [save_pdf_from_dump_new] hands control back, by
    returning or through [exit()], and whatever made the loop end (all
    tasks done, the quota exceeded, the event set), the dump file holds one
    line for each entry of the in-memory mapping and nothing else: the
    record of the entry as [json.dumps] writes it, followed by a line
    feed, in the order of the mapping.  The entries have pairwise distinct
    keys and each is stored under its own identifier, and the former
    content of the file plays no part.  The flush was entered once, as the
    last step before the check of the event.  (A call in which a write of
    the flush fails does not hand control back: it raises.) *)
Theorem state_store_flushed (F : Fallbacks.Name -> Fallbacks.Strategy)
    (as_completed : list (option string) -> list (option string * bool))
    (dump_path pdf_path : Path) (key_to_save : SaveKey) (save_metadata : bool)
    (api_keys : gmap string string) (max_pdf_num : nat)
    (ip_pool : option (option string)) (stop_event : option unit) (o : Pdf.Orch)
    (t : Pdf.Termination) :
  let run := Pdf.save_pdf_from_dump_new F as_completed dump_path pdf_path key_to_save
               save_metadata api_keys max_pdf_num ip_pool stop_event o in
  fst run = Return t ->
  fs (Pdf.o_world (snd run)) !! dump_path
    = Some (File (String.concat EmptyString
                    (List.map (fun kp => json_dumps (snd kp) +:+ nl)
                       (Pdf.metadict (snd run))))) /\
  NoDup (dict_keys (Pdf.metadict (snd run))) /\
  keyed_by_doi (Pdf.metadict (snd run)) /\
  exists evs, new_events (Pdf.o_trace o) (Pdf.o_trace (snd run)) = evs ++ [Pdf.Flushed] /\
              Pdf.Flushed ∉ evs.
Proof.
  cbn zeta.
  destruct (Pdf.save_pdf_from_dump_new F as_completed dump_path pdf_path key_to_save
              save_metadata api_keys max_pdf_num ip_pool stop_event o) as [r o'] eqn:Hrun.
  cbn [fst snd]. intros ->.
  apply orchestrator_endings in Hrun.
  destruct Hrun as (evs & Hl & [(_ & [e He] & _)|
                               (o2 & Htr2 & _ & [Hnd Hkey] & Htr & Hmd & Hfs & Hr)]);
    [discriminate|].
  pose proof (flush_cases dump_path o2) as Hflush. cbn zeta in Hflush.
  destruct Hflush as (Ftr & Fmd & _ & Hflush).
  rewrite Hmd, Fmd, Hfs. rewrite Htr, Ftr, Htr2, <- app_assoc.
  destruct (writable (fs (Pdf.o_world o2)) dump_path).
  2: { destruct Hflush as [E _]. rewrite E in Hr. discriminate. }
  destruct (first_fault _ _) as [[k e]|].
  { destruct Hflush as [E _]. rewrite E in Hr. discriminate. }
  destruct Hflush as [_ Hfile]. rewrite Hfile.
  split; [apply lookup_insert_eq|]. split; [exact Hnd|]. split; [exact Hkey|].
  exists evs. split; [apply new_events_of; reflexivity|exact (loop_event_not_flushed _ Hl)].
Qed.


End StateStore.

Lemma state_store_flushed_witness :
  let run := Demo5.run Demo5.dump_two [] 500 (Some tt) in
  fs (Pdf.o_world (snd run)) !! Demo5.dump_path
    = Some (File (String.concat EmptyString
                    (List.map (fun kp => @json_dumps Sample.lib (snd kp) +:+ nl)
                       (Pdf.metadict (snd run))))) /\
  NoDup (dict_keys (Pdf.metadict (snd run))) /\
  keyed_by_doi (Pdf.metadict (snd run)) /\
  exists evs,
    new_events (Pdf.o_trace (Demo5.start Demo5.dump_two [])) (Pdf.o_trace (snd run))
      = evs ++ [Pdf.Flushed] /\
    Pdf.Flushed ∉ evs.
Proof.
  refine (state_store_flushed (H := Sample.lib) (Fallbacks.FALLBACKS (H := Sample.lib))
            Demo5.one_by_one Demo5.dump_path Demo5.pdf_path KeyDoi false ∅ 500 None
            (Some tt) (Demo5.start Demo5.dump_two []) Pdf.Returned _).
  vm_compute. reflexivity.
Defined.

(** Normal completion: both tasks run, the call returns, and the file
    holds both records with their outcome. *)
Example flush_on_normal_completion :
  let run := Demo5.run Demo5.dump_two [] 500 (Some tt) in
  fst run = Return Pdf.Returned /\
  List.map p_success (dict_values (Pdf.metadict (snd run))) = [Some true; Some true] /\
  fs (Pdf.o_world (snd run)) !! Demo5.dump_path
    = Some (File ("10.1000/xyz|true|pdf|out/kw/10.1000_xyz.pdf" +:+ Demo5.newline +:+
                  "10.1000/abc|true|pdf|out/kw/10.1000_abc.pdf" +:+ Demo5.newline)).
Proof. vm_compute. repeat split. Qed.

(** Quota exceeded: with a quota of 0 the first artifact ends the run;
    the second task is cancelled, the call returns, and the file holds both
    records, the second one still without success. *)
Example flush_on_quota :
  let run := Demo5.run Demo5.dump_two [] 0 (Some tt) in
  fst run = Return Pdf.Returned /\
  List.length (http_log (Pdf.o_world (snd run))) = 2 /\
  fs (Pdf.o_world (snd run)) !! Demo5.dump_path
    = Some (File ("10.1000/xyz|true|pdf|out/kw/10.1000_xyz.pdf" +:+ Demo5.newline +:+
                  "10.1000/abc|false|None|None" +:+ Demo5.newline)).
Proof. vm_compute. repeat split. Qed.

(** Cancellation: the event is set when the first task completes; the
    second task is cancelled, the file is written, and the process exits. *)
Example flush_on_cancellation :
  let run := Demo5.run Demo5.dump_two [true; true] 500 (Some tt) in
  fst run = Return Pdf.Exited /\
  List.length (http_log (Pdf.o_world (snd run))) = 2 /\
  fs (Pdf.o_world (snd run)) !! Demo5.dump_path
    = Some (File ("10.1000/xyz|true|pdf|out/kw/10.1000_xyz.pdf" +:+ Demo5.newline +:+
                  "10.1000/abc|false|None|None" +:+ Demo5.newline)).
Proof. vm_compute. repeat split. Qed.

(** A write that fails: the device takes the first line and refuses the
    second; the call raises the error of the write and the file holds the
    first line only. *)
Example flush_interrupted :
  let run := Pdf.save_pdf_from_dump_new (H := Sample.lib)
               (Fallbacks.FALLBACKS (H := Sample.lib)) Demo5.one_by_one Demo5.dump_path
               Demo5.pdf_path KeyDoi false ∅ 500 None (Some tt)
               (Demo5.start_failing Demo5.dump_two []) in
  fst run = Raise OSError /\
  fs (Pdf.o_world (snd run)) !! Demo5.dump_path
    = Some (File ("10.1000/xyz|true|pdf|out/kw/10.1000_xyz.pdf" +:+ Demo5.newline)).
Proof. vm_compute. repeat split. Qed.


(** The claim says that a scheduled task whose completion leaves the
    folder at or below the quota makes the call abort before the flush.
    Here one record is scheduled, its identifier is null, the task hands
    back nothing and no check is made: the flush is entered, the file is
    rewritten, and only then the call raises. *)
Lemma orchestrator_null_identifier :
  let run := Demo5.run Demo5.dump_null [] 500 None in
  (exists paper,
     Pdf.load_lines (H := Sample.lib) (Pdf.readlines Demo5.dump_null) []
     = Return [(None, paper)] /\
     p_is_materials paper = Some true /\ p_success paper = Some false) /\
  fst (listdir_len Demo5.pdf_path (Pdf.o_world (snd run))) = Return 0 /\
  fst run = Raise AttributeError /\
  Pdf.o_trace (snd run) = [Pdf.Flushed] /\
  fs (Pdf.o_world (snd run)) !! Demo5.dump_path
    = Some (File ("None|false|None|None" +:+ Demo5.newline)).
Proof.
  vm_compute. split; [eexists; repeat split|repeat split].
Qed.

(** Without an event object the first completed task ends the loop: the
    PDF is on disk, the pool still finishes the other task, and the dump
    file still says that nothing succeeded. *)
Example no_event_one_task :
  let run := Demo5.run Demo5.dump_two [] 500 None in
  fst run = Raise AttributeError /\
  fs (Pdf.o_world (snd run)) !! ["out"; "kw"; "10.1000_xyz.pdf"] = Some (File "%PDF-1.7 xyz") /\
  fs (Pdf.o_world (snd run)) !! ["out"; "kw"; "10.1000_abc.pdf"] = Some (File "%PDF-1.7 abc") /\
  fs (Pdf.o_world (snd run)) !! Demo5.dump_path = Some (File Demo5.dump_two).
Proof. vm_compute. repeat split. Qed.

(** Without an event object and with nothing to schedule, the file is
    rewritten and the call raises all the same. *)
Example no_event_no_task :
  let run := Demo5.run Demo5.dump_done [] 500 None in
  fst run = Raise AttributeError /\
  Pdf.o_trace (snd run) = [Pdf.Flushed] /\
  fs (Pdf.o_world (snd run)) !! Demo5.dump_path
    = Some (File ("10.1000/xyz|true|None|None" +:+ Demo5.newline)).
Proof. vm_compute. repeat split. Qed.

(** ** What [save_pdf] writes into the paper *)

Section Record.

Ltac run_strategy F n d fp px w :=
  let u := fresh "u" in let e := fresh "e" in
  let w' := fresh "w" in let E := fresh "E" in
  destruct (F n d fp px w) as [[[[|] u]|e] w'] eqn:E; cbn.

Ltac record_leaf :=
  rewrite <- ?app_assoc; cbn; rewrite ?new_events_app; cbn;
  first
    [ discriminate
    | intros _; eexists _, _, _; split; [reflexivity|]; split;
      [first [reflexivity | discriminate]|reflexivity] ].

Ltac failure_leaf :=
  rewrite <- ?app_assoc; cbn; rewrite ?new_events_app; cbn;
  first
    [ discriminate
    | intros [= <-]; right; split; [reflexivity|]; split; [reflexivity|];
      right; eexists; reflexivity ].

(** When [save_pdf] returns, the paper tells the outcome of the last
    strategy invoked: with a success, the kind of file of that strategy,
    the path of the file and the address it came from; without, no kind and
    no path, and then the last strategy was the last of the chain. *)
Theorem save_pdf_record (F : Fallbacks.Name -> Fallbacks.Strategy)
    (filepath : Path) (save_metadata : bool) (api_keys : gmap string string)
    (proxies : option string) (c : Pdf.Ctx) :
  let run := Pdf.save_pdf F filepath save_metadata api_keys proxies c in
  fst run = Return tt ->
  exists n b u,
    last (calls_of (new_events (Pdf.cx_trace c) (Pdf.cx_trace (snd run))))
      = Some (n, Return (b, u)) /\
    (b = false -> n = Fallbacks.N_bioc_pmc) /\
    Pdf.cx_paper (snd run) =
      if b then
        with_result (Pdf.cx_paper c) true (Some (kind_of n))
          (Some (Pathlib.as_posix (Pathlib.with_suffix filepath ("." +:+ kind_of n)))) u
      else with_result (Pdf.cx_paper c) false None None u.
Proof.
  cbn zeta.
  unfold Pdf.save_pdf, bind, Pdf.log, Pdf.in_world, path_exists, Pdf.get_paper,
    Pdf.update_paper, throw, ret. cbn.
  destruct (exists_in (fs (Pdf.cx_world c)) (Pathlib.parent filepath)) eqn:Epar; cbn.
  2: { record_leaf. }
  destruct (p_doi (Pdf.cx_paper c)) as [id|] eqn:Hdoi; cbn.
  2: { record_leaf. }
  unfold Pdf.step, Pdf.invoke, bind, ret. cbn.
  destruct (Py.contains "arxiv" id) eqn:Earx; cbn.
  - run_strategy F Fallbacks.N_arxiv id filepath proxies (Pdf.cx_world c).
    + record_leaf.
    + run_strategy F Fallbacks.N_doi id filepath proxies w.
      * record_leaf.
      * run_strategy F Fallbacks.N_sci_hub id filepath proxies w0.
        -- record_leaf.
        -- run_strategy F Fallbacks.N_bioc_pmc id filepath proxies w1; record_leaf.
        -- record_leaf.
      * record_leaf.
    + record_leaf.
  - run_strategy F Fallbacks.N_doi id filepath proxies (Pdf.cx_world c).
    + record_leaf.
    + run_strategy F Fallbacks.N_sci_hub id filepath proxies w.
      * record_leaf.
      * run_strategy F Fallbacks.N_bioc_pmc id filepath proxies w0; record_leaf.
      * record_leaf.
    + record_leaf.
Qed.

(** How a call of [save_pdf] that raises leaves things: either the folder
    was missing ([ValueError], nothing touched, no strategy invoked), or the
    result keys are those of a failure and the exception is [TypeError] for
    a missing identifier or what the last strategy invoked let out. *)
Theorem save_pdf_failure (F : Fallbacks.Name -> Fallbacks.Strategy)
    (filepath : Path) (save_metadata : bool) (api_keys : gmap string string)
    (proxies : option string) (c : Pdf.Ctx) (e : exn) :
  filepath <> [] ->
  let run := Pdf.save_pdf F filepath save_metadata api_keys proxies c in
  let calls := calls_of (new_events (Pdf.cx_trace c) (Pdf.cx_trace (snd run))) in
  fst run = Raise e ->
  (exists_in (fs (Pdf.cx_world c)) (Pathlib.parent filepath) = false /\
   e = ValueError /\ calls = [] /\
   Pdf.cx_paper (snd run) = Pdf.cx_paper c /\ Pdf.cx_world (snd run) = Pdf.cx_world c)
  \/
  (exists_in (fs (Pdf.cx_world c)) (Pathlib.parent filepath) = true /\
   Pdf.cx_paper (snd run) = with_result (Pdf.cx_paper c) false None None None /\
   ((p_doi (Pdf.cx_paper c) = None /\ e = TypeError /\ calls = [] /\
     Pdf.cx_world (snd run) = Pdf.cx_world c)
    \/ (exists n, last calls = Some (n, Raise e)))).
Proof.
  intros _. cbn zeta.
  unfold Pdf.save_pdf, bind, Pdf.log, Pdf.in_world, path_exists, Pdf.get_paper,
    Pdf.update_paper, throw, ret. cbn.
  destruct (exists_in (fs (Pdf.cx_world c)) (Pathlib.parent filepath)) eqn:Epar; cbn.
  2: { rewrite new_events_app. cbn. intros [= <-]. left. repeat split. }
  destruct (p_doi (Pdf.cx_paper c)) as [id|] eqn:Hdoi; cbn.
  2: { rewrite new_events_app. cbn. intros [= <-]. right.
       split; [reflexivity|]. split; [reflexivity|]. left. repeat split. }
  unfold Pdf.step, Pdf.invoke, bind, ret. cbn.
  destruct (Py.contains "arxiv" id) eqn:Earx; cbn.
  - run_strategy F Fallbacks.N_arxiv id filepath proxies (Pdf.cx_world c).
    + failure_leaf.
    + run_strategy F Fallbacks.N_doi id filepath proxies w.
      * failure_leaf.
      * run_strategy F Fallbacks.N_sci_hub id filepath proxies w0.
        -- failure_leaf.
        -- run_strategy F Fallbacks.N_bioc_pmc id filepath proxies w1; failure_leaf.
        -- failure_leaf.
      * failure_leaf.
    + failure_leaf.
  - run_strategy F Fallbacks.N_doi id filepath proxies (Pdf.cx_world c).
    + failure_leaf.
    + run_strategy F Fallbacks.N_sci_hub id filepath proxies w.
      * failure_leaf.
      * run_strategy F Fallbacks.N_bioc_pmc id filepath proxies w0; failure_leaf.
      * failure_leaf.
    + failure_leaf.
Qed.

End Record.

Lemma save_pdf_record_witness :
  let run := Pdf.save_pdf (Fallbacks.FALLBACKS (H := Sample.lib)) Demo.out_xyz false ∅ None
               (Demo.ctx_xyz Demo.world_doi_pdf) in
  exists n b u,
    last (calls_of (new_events (Pdf.cx_trace (Demo.ctx_xyz Demo.world_doi_pdf))
                      (Pdf.cx_trace (snd run))))
      = Some (n, Return (b, u)) /\
    (b = false -> n = Fallbacks.N_bioc_pmc) /\
    Pdf.cx_paper (snd run) =
      if b then
        with_result (Pdf.cx_paper (Demo.ctx_xyz Demo.world_doi_pdf)) true (Some (kind_of n))
          (Some (Pathlib.as_posix (Pathlib.with_suffix Demo.out_xyz ("." +:+ kind_of n)))) u
      else with_result (Pdf.cx_paper (Demo.ctx_xyz Demo.world_doi_pdf)) false None None u.
Proof.
  refine (save_pdf_record (Fallbacks.FALLBACKS (H := Sample.lib)) Demo.out_xyz false ∅ None
            (Demo.ctx_xyz Demo.world_doi_pdf) _).
  vm_compute. reflexivity.
Defined.

(** The record of 10.1000/xyz after the DOI resolver has delivered. *)
Example record_after_second_strategy :
  Pdf.cx_paper (snd (Pdf.save_pdf (Fallbacks.FALLBACKS (H := Sample.lib)) Demo.out_xyz
                       false ∅ None (Demo.ctx_xyz Demo.world_doi_pdf)))
  = with_result Demo.paper_xyz true (Some "pdf") (Some "out/kw/10.1000_xyz.pdf")
      (Some "https://pub.example/xyz.pdf").
Proof. vm_compute. reflexivity. Qed.

Lemma save_pdf_failure_witness :
  let c := Demo.ctx_xyz Demo.world_doi_pdf in
  let run := Pdf.save_pdf (Fallbacks.FALLBACKS (H := Sample.lib)) ["nowhere"; "x.pdf"]
               false ∅ None c in
  let calls := calls_of (new_events (Pdf.cx_trace c) (Pdf.cx_trace (snd run))) in
  (exists_in (fs (Pdf.cx_world c)) (Pathlib.parent ["nowhere"; "x.pdf"]) = false /\
   ValueError = ValueError /\ calls = [] /\
   Pdf.cx_paper (snd run) = Pdf.cx_paper c /\ Pdf.cx_world (snd run) = Pdf.cx_world c)
  \/
  (exists_in (fs (Pdf.cx_world c)) (Pathlib.parent ["nowhere"; "x.pdf"]) = true /\
   Pdf.cx_paper (snd run) = with_result (Pdf.cx_paper c) false None None None /\
   ((p_doi (Pdf.cx_paper c) = None /\ ValueError = TypeError /\ calls = [] /\
     Pdf.cx_world (snd run) = Pdf.cx_world c)
    \/ (exists n, last calls = Some (n, Raise ValueError)))).
Proof.
  refine (save_pdf_failure (Fallbacks.FALLBACKS (H := Sample.lib)) ["nowhere"; "x.pdf"]
            false ∅ None (Demo.ctx_xyz Demo.world_doi_pdf) ValueError _ _).
  - discriminate.
  - vm_compute. reflexivity.
Defined.

(** ** What a task hands back *)

Section Task.

Ltac run_strategy F n d fp px w :=
  let u := fresh "u" in let e := fresh "e" in
  let w' := fresh "w" in let E := fresh "E" in
  destruct (F n d fp px w) as [[[[|] u]|e] w'] eqn:E; cbn.

Ltac settle_leaf :=
  first
    [ left; reflexivity
    | right; left; cbn; split; [reflexivity|]; split;
      [first [left; reflexivity | right; reflexivity]|eexists; reflexivity]
    | right; right; cbn; repeat split ].

Lemma save_pdf_settles (F : Fallbacks.Name -> Fallbacks.Strategy)
    (filepath : Path) (save_metadata : bool) (api_keys : gmap string string)
    (proxies : option string) (c : Pdf.Ctx) :
  let run := Pdf.save_pdf F filepath save_metadata api_keys proxies c in
  Pdf.cx_paper (snd run) = Pdf.cx_paper c \/ settled (Pdf.cx_paper (snd run)).
Proof.
  cbn zeta. unfold settled.
  unfold Pdf.save_pdf, bind, Pdf.log, Pdf.in_world, path_exists, Pdf.get_paper,
    Pdf.update_paper, throw, ret. cbn.
  destruct (exists_in (fs (Pdf.cx_world c)) (Pathlib.parent filepath)) eqn:Epar; cbn.
  2: { settle_leaf. }
  destruct (p_doi (Pdf.cx_paper c)) as [id|] eqn:Hdoi; cbn.
  2: { settle_leaf. }
  unfold Pdf.step, Pdf.invoke, bind, ret. cbn.
  destruct (Py.contains "arxiv" id) eqn:Earx; cbn.
  - run_strategy F Fallbacks.N_arxiv id filepath proxies (Pdf.cx_world c).
    + settle_leaf.
    + run_strategy F Fallbacks.N_doi id filepath proxies w.
      * settle_leaf.
      * run_strategy F Fallbacks.N_sci_hub id filepath proxies w0.
        -- settle_leaf.
        -- run_strategy F Fallbacks.N_bioc_pmc id filepath proxies w1; settle_leaf.
        -- settle_leaf.
      * settle_leaf.
    + settle_leaf.
  - run_strategy F Fallbacks.N_doi id filepath proxies (Pdf.cx_world c).
    + settle_leaf.
    + run_strategy F Fallbacks.N_sci_hub id filepath proxies w.
      * settle_leaf.
      * run_strategy F Fallbacks.N_bioc_pmc id filepath proxies w0; settle_leaf.
      * settle_leaf.
    + settle_leaf.
Qed.

Lemma settled_reset (p : Paper) : settled (with_result p false None None None).
Proof. right. repeat split. Qed.

(** The outcomes of a task. *)
Lemma task_cases (F : Fallbacks.Name -> Fallbacks.Strategy)
    (pdf_path : Path) (key_to_save : SaveKey) (save_metadata : bool)
    (api_keys : gmap string string) (ip_pool : option (option string))
    (w : World) (tr : list Pdf.Event) (paper : Paper)
    (r : result (option Paper)) (c' : Pdf.Ctx) :
  let c := {| Pdf.cx_world := w; Pdf.cx_trace := tr; Pdf.cx_paper := paper |} in
  Pdf._process_single_paper F pdf_path key_to_save save_metadata api_keys ip_pool c
    = (r, c') ->
  match r with
  | Raise e => is_Exception e = false
  | Return None =>
      (skipped paper = true /\ c' = c) \/ (skipped paper = false /\ p_doi paper = None)
  | Return (Some p) =>
      skipped paper = false /\ is_Some (p_doi paper) /\
      p = Pdf.cx_paper c' /\ settled p
  end.
Proof.
  cbn zeta. unfold Pdf._process_single_paper. unfold bind at 1, try_.
  rewrite bind_get_paper. fold (skipped paper).
  destruct (skipped paper) eqn:Eskip.
  { cbn. intros [= <- <-]. left. split; reflexivity. }
  rewrite bind_update_paper.
  change (set_url None (set_path None (set_type None (set_success (Some false) paper))))
    with (with_result paper false None None None).
  set (paper0 := with_result paper false None None None).
  destruct (p_doi paper) as [id|] eqn:Hdoi.
  2: { cbn. intros [= <- <-]. right. split; reflexivity. }
  destruct (paper_get paper key_to_save) as [v|] eqn:Hkey.
  2: { cbn. intros [= <- <-]. repeat split; [eexists; reflexivity|]. apply settled_reset. }
  unfold bind at 1, Pdf.in_world, iterdir. cbn [Pdf.cx_world Pdf.cx_trace Pdf.cx_paper].
  destruct (is_dir_in (fs w) (Pathlib.parent pdf_path)) eqn:Hpar.
  2: { cbn. intros [= <- <-]. repeat split; [eexists; reflexivity|]. apply settled_reset. }
  set (filename := Py.replace v "/" "_").
  destruct (dedup_outcome filename (children (fs w) (Pathlib.parent pdf_path)) w tr paper0)
    as [(sd & kind & Hin' & Hd' & Hkind & Hex' & Hrun)|[Hnone Hrun]].
  - cbn zeta in Hrun. unfold bind at 1. rewrite Hrun. cbv beta iota.
    rewrite bind_get_paper. cbn. intros [= <- <-].
    repeat split; [eexists; reflexivity|].
    left. cbn. split; [reflexivity|]. split; [|eexists; reflexivity].
    destruct Hkind as [-> | ->]; [left|right]; reflexivity.
  - cbn zeta in Hrun. unfold bind at 1. rewrite Hrun. cbv beta iota.
    unfold bind at 1.
    match goal with
    | |- context [match ip_pool with _ => _ end] =>
        set (call := match ip_pool with
                     | Some (Some proxies) =>
                         Pdf.save_pdf F (Pathlib.child pdf_path (filename +:+ ".pdf"))
                           save_metadata api_keys (Some proxies)
                     | _ => Pdf.save_pdf F (Pathlib.child pdf_path (filename +:+ ".pdf"))
                              save_metadata api_keys None
                     end)
    end.
    assert (Hcall : forall c0, Pdf.cx_paper c0 = paper0 ->
              settled (Pdf.cx_paper (snd (call c0)))).
    { intros c0 Hc0. subst call.
      destruct ip_pool as [[px|]|];
        (match goal with
         | |- context [Pdf.save_pdf F ?fp ?sm ?k ?px] =>
             destruct (save_pdf_settles F fp sm k px c0) as [Hs|Hs]
         end; [rewrite Hs, Hc0; apply settled_reset|exact Hs]). }
    specialize (Hcall {| Pdf.cx_world := w; Pdf.cx_trace := tr; Pdf.cx_paper := paper0 |}
                  eq_refl).
    destruct (call _) as [[[]|e] c1]; cbn [snd] in Hcall.
    + destruct c1 as [w1 tr1 p1]. rewrite bind_get_paper. cbn. intros [= <- <-].
      repeat split; [eexists; reflexivity|exact Hcall].
    + destruct (is_Exception e) eqn:Ee; cbn; intros [= <- <-]; [|exact Ee].
      repeat split; [eexists; reflexivity|exact Hcall].
Qed.

(** What [_process_single_paper] hands back.  It raises nothing that is an
    [Exception].  It returns [None] for a paper that is already successful
    or flagged as irrelevant, which it leaves untouched, and for a paper
    without identifier.  Otherwise it returns the paper itself, with its
    result keys settled: a success with the kind and the path of the file, or
    a failure with neither, also when something went wrong on the way. *)
Theorem process_single_paper_result (F : Fallbacks.Name -> Fallbacks.Strategy)
    (pdf_path : Path) (key_to_save : SaveKey) (save_metadata : bool)
    (api_keys : gmap string string) (ip_pool : option (option string)) (c : Pdf.Ctx) :
  let run := Pdf._process_single_paper F pdf_path key_to_save save_metadata api_keys
               ip_pool c in
  match fst run with
  | Raise e => is_Exception e = false
  | Return None =>
      (skipped (Pdf.cx_paper c) = true /\ snd run = c)
      \/ (skipped (Pdf.cx_paper c) = false /\ p_doi (Pdf.cx_paper c) = None)
  | Return (Some p) =>
      skipped (Pdf.cx_paper c) = false /\ is_Some (p_doi (Pdf.cx_paper c)) /\
      p = Pdf.cx_paper (snd run) /\ settled p
  end.
Proof.
  cbn zeta. destruct c as [w tr paper].
  destruct (Pdf._process_single_paper F pdf_path key_to_save save_metadata api_keys
              ip_pool _) as [r c'] eqn:Hrun.
  apply task_cases in Hrun. exact Hrun.
Qed.

End Task.

(** A task whose output folder is missing: the paper comes back as a
    failure. *)
Example task_with_missing_folder :
  let run := Pdf._process_single_paper (Fallbacks.FALLBACKS (H := Sample.lib))
               ["nowhere"; "kw"] KeyDoi false ∅ None (Demo.ctx_xyz Sample.empty_world) in
  fst run = Return (Some (with_result Demo.paper_xyz false None None None)).
Proof. vm_compute. reflexivity. Qed.

(** ** The records the orchestrator leaves alone *)

Section Records.
Context `{Lib}.

Lemma dict_get_set_eq {K V} `{EqDecision K} (d : list (K * V)) (k : K) (v : V) :
  dict_get (dict_set d k v) k = Some v.
Proof.
  induction d as [|[k' v'] d IH]; cbn.
  - destruct (decide (k = k)); [reflexivity|congruence].
  - destruct (decide (k' = k)) as [->|Hne]; cbn.
    + destruct (decide (k = k)); [reflexivity|congruence].
    + destruct (decide (k' = k)); [congruence|exact IH].
Qed.

Lemma dict_get_set_ne {K V} `{EqDecision K} (d : list (K * V)) (k k' : K) (v : V) :
  k' <> k -> dict_get (dict_set d k v) k' = dict_get d k'.
Proof.
  intros Hne. induction d as [|[k0 v0] d IH]; cbn.
  - destruct (decide (k = k')); [congruence|reflexivity].
  - destruct (decide (k0 = k)) as [->|Hne0]; cbn.
    + destruct (decide (k = k')); [congruence|reflexivity].
    + destruct (decide (k0 = k')); [reflexivity|exact IH].
Qed.

Lemma dict_get_key {K V} `{EqDecision K} (d : list (K * V)) (k : K) (v : V) :
  dict_get d k = Some v -> k ∈ dict_keys d.
Proof.
  intros Hg. apply dict_get_In in Hg. apply list_elem_of_In.
  unfold dict_keys. apply in_map_iff. exists (k, v). split; [reflexivity|exact Hg].
Qed.

Lemma dict_set_present {K V} `{EqDecision K} (d : list (K * V)) (k : K) (v x : V) :
  dict_get d k = Some x -> dict_keys (dict_set d k v) = dict_keys d.
Proof.
  intros Hg. destruct (dict_set_keys d k v) as [[_ E]|[Hnot _]]; [exact E|].
  exfalso. exact (Hnot (dict_get_key _ _ _ Hg)).
Qed.

Lemma In_dict_get {K V} `{EqDecision K} (d : list (K * V)) (k : K) (v : V) :
  NoDup (dict_keys d) -> In (k, v) d -> dict_get d k = Some v.
Proof.
  induction d as [|[k' v'] d IH]; cbn; [intros _ []|].
  intros Hnd Hin. apply NoDup_cons in Hnd. destruct Hnd as [Hnot Hnd].
  destruct (decide (k' = k)) as [->|Hne].
  - destruct Hin as [[= ->]|Hin]; [reflexivity|].
    exfalso. apply Hnot. apply list_elem_of_In. unfold dict_keys.
    apply in_map_iff. exists (k, v). split; [reflexivity|exact Hin].
  - destruct Hin as [[= -> ->]|Hin]; [congruence|]. exact (IH Hnd Hin).
Qed.

Lemma task_key (d0 : list (option string * Paper)) (k : option string) :
  NoDup (dict_keys d0) ->
  k ∈ List.map fst (List.filter (fun kp => scheduled (snd kp)) d0) ->
  forall k' p', dict_get d0 k' = Some p' -> scheduled p' = false -> k' <> k.
Proof.
  intros Hnd Hin k' p' Hg Hs ->.
  apply list_elem_of_In, in_map_iff in Hin. destruct Hin as [[k0 p0] [E Hin]].
  cbn in E. subst k0. apply filter_In in Hin. destruct Hin as [Hin Hp0]. cbn in Hp0.
  rewrite (In_dict_get _ _ _ Hnd Hin) in Hg. congruence.
Qed.

Lemma run_task_kept (F : Fallbacks.Name -> Fallbacks.Strategy) (pdf_path : Path)
    (key_to_save : SaveKey) (save_metadata : bool) (api_keys : gmap string string)
    (ip_pool : option (option string)) (d0 : list (option string * Paper))
    (k : option string) (o : Pdf.Orch) (metadata : option Paper) (o' : Pdf.Orch) :
  Pdf.run_task F pdf_path key_to_save save_metadata api_keys ip_pool k o
    = (Return metadata, o') ->
  (forall k' p', dict_get d0 k' = Some p' -> scheduled p' = false -> k' <> k) ->
  store_ok (Pdf.metadict o) -> kept d0 (Pdf.metadict o) ->
  kept d0 (Pdf.metadict o') /\
  forall m, metadata = Some m -> p_doi m = k.
Proof.
  unfold Pdf.run_task. intros Hrun Hk [Hnd Hkey] [Hkeys Hkept].
  destruct (dict_get (Pdf.metadict o) k) as [paper|] eqn:Eg; [|discriminate].
  pose proof (framed_process_single_paper F pdf_path key_to_save save_metadata api_keys
                ip_pool {| Pdf.cx_world := Pdf.o_world o; Pdf.cx_trace := Pdf.o_trace o;
                           Pdf.cx_paper := paper |}) as [Hdoi _].
  destruct (Pdf._process_single_paper F pdf_path key_to_save save_metadata api_keys
              ip_pool _) as [r1 c1] eqn:Htask.
  cbn [snd Pdf.cx_paper] in Hdoi. injection Hrun as -> <-. cbn [Pdf.metadict].
  assert (Hpk : p_doi paper = k).
  { apply dict_get_In in Eg. unfold keyed_by_doi in Hkey. rewrite Forall_forall in Hkey.
    exact (Hkey (k, paper) (proj2 (list_elem_of_In _ _) Eg)). }
  split; [split|].
  - rewrite (dict_set_present _ _ _ _ Eg). exact Hkeys.
  - intros k' p' Hg Hs. rewrite dict_get_set_ne by exact (Hk k' p' Hg Hs).
    exact (Hkept k' p' Hg Hs).
  - intros m ->. apply task_cases in Htask. destruct Htask as (_ & _ & -> & _).
    congruence.
Qed.

Lemma completion_loop_kept (F : Fallbacks.Name -> Fallbacks.Strategy) (pdf_path : Path)
    (key_to_save : SaveKey) (save_metadata : bool) (api_keys : gmap string string)
    (max_pdf_num : nat) (ip_pool : option (option string)) (stop_event : option unit)
    (d0 : list (option string * Paper)) (order : list (option string * bool)) :
  Forall (fun kb => forall k' p', dict_get d0 k' = Some p' -> scheduled p' = false ->
                      k' <> fst kb) order ->
  forall (cancelling : bool) (o o' : Pdf.Orch),
  Pdf.completion_loop F pdf_path key_to_save save_metadata api_keys max_pdf_num ip_pool
    stop_event order cancelling o = (Return tt, o') ->
  store_ok (Pdf.metadict o) -> kept d0 (Pdf.metadict o) ->
  kept d0 (Pdf.metadict o').
Proof.
  induction 1 as [|[k started] rest Hk Hrest IH]; intros cancelling o o' Hrun Hok Hkept.
  - cbn in Hrun. injection Hrun as <-. exact Hkept.
  - cbn [Pdf.completion_loop] in Hrun. cbn [fst] in Hk.
    destruct (cancelling && negb started)%bool; [exact (IH _ _ _ Hrun Hok Hkept)|].
    apply bind_inv in Hrun.
    destruct Hrun as [(metadata & o1 & Htask & Hrun)|(e & _ & [=])].
    apply on_error_inv in Htask.
    destruct Htask as [(a & Htask & [= <-])|(e' & o1' & _ & [=] & _)].
    destruct (run_task_step _ _ _ _ _ _ _ _ _ _ Htask Hok) as [Hok1 _].
    destruct (run_task_kept _ _ _ _ _ _ _ _ _ _ _ Htask Hk Hok Hkept) as [Hkept1 Hm].
    destruct metadata as [metadata|]; [|exact (IH _ _ _ Hrun Hok1 Hkept1)].
    specialize (Hm metadata eq_refl).
    unfold bind at 1, Pdf.get_metadict in Hrun. unfold bind at 1, Pdf.set_metadict in Hrun.
    set (o2 := {| Pdf.o_world := Pdf.o_world o1; Pdf.o_trace := Pdf.o_trace o1;
                  Pdf.metadict := dict_set (Pdf.metadict o1) (p_doi metadata) metadata |})
      in Hrun.
    assert (Ho2 : Pdf.metadict o2 = dict_set (Pdf.metadict o1) k metadata)
      by (cbn; rewrite Hm; reflexivity).
    assert (Hin1 : exists x, dict_get (Pdf.metadict o1) k = Some x).
    { destruct Hkept1 as [Hkeys1 _]. destruct Hkept as [Hkeys _].
      unfold Pdf.run_task in Htask.
      destruct (dict_get (Pdf.metadict o) k) as [paper|] eqn:Eg; [|discriminate].
      destruct (Pdf._process_single_paper F pdf_path key_to_save save_metadata api_keys
                  ip_pool _) as [r1 c1].
      injection Htask as _ <-. cbn [Pdf.metadict]. rewrite dict_get_set_eq. eauto. }
    destruct Hin1 as [x Hx].
    assert (Hkept2 : kept d0 (Pdf.metadict o2)).
    { rewrite Ho2. destruct Hkept1 as [Hkeys1 Hkept1]. split.
      - rewrite (dict_set_present _ _ _ _ Hx). exact Hkeys1.
      - intros k' p' Hg Hs. rewrite dict_get_set_ne by exact (Hk k' p' Hg Hs).
        exact (Hkept1 k' p' Hg Hs). }
    assert (Hok2 : store_ok (Pdf.metadict o2)).
    { rewrite Ho2, <- Hm. apply store_ok_set. exact Hok1. }
    apply bind_inv in Hrun.
    destruct Hrun as [(stop & o4 & Hcheck & Hrun)|(e & _ & [=])].
    apply on_error_inv in Hcheck.
    destruct Hcheck as [(a & Hcheck & [= <-])|(e' & o3' & _ & [=] & _)].
    apply quota_check_cases in Hcheck. destruct Hcheck as [Ho4 _].
    refine (IH _ _ _ Hrun _ _); rewrite Ho4; assumption.
Qed.

Lemma exists_in_lookup (f : gmap Path Entry) (p : Path) (e : Entry) :
  f !! p = Some e -> exists_in f p = true.
Proof. intros Hp. unfold exists_in, lookup_fs. rewrite Hp. destruct p; reflexivity. Qed.

(** Loading a dump that is there. *)
Lemma load_present (dump_path : Path) (data : string)
    (d0 : list (option string * Paper)) (o : Pdf.Orch) :
  fs (Pdf.o_world o) !! dump_path = Some (File data) ->
  Pdf.load_lines (Pdf.readlines data) [] = Return d0 ->
  (let* data := Pdf.orch_world (Pdf.read_file dump_path) in
   let* d := lift (Pdf.load_lines (Pdf.readlines data) []) in
   Pdf.set_metadict d) o
  = (Return tt, {| Pdf.o_world := Pdf.o_world o; Pdf.o_trace := Pdf.o_trace o;
                   Pdf.metadict := d0 |}).
Proof.
  intros Hfile Hload. unfold bind, Pdf.orch_world, Pdf.read_file, lookup_fs.
  rewrite Hfile. unfold lift. rewrite Hload. reflexivity.
Qed.

(** The orchestrator changes nothing but the records it makes tasks of:
    when it hands control back, the mapping has the identifiers of the dump
    it loaded, in the same order, and every record that was not scheduled
    (not flagged relevant, or successful already) is as it was loaded. *)
Theorem orchestrator_keeps_records (F : Fallbacks.Name -> Fallbacks.Strategy)
    (as_completed : list (option string) -> list (option string * bool))
    (dump_path pdf_path : Path) (key_to_save : SaveKey) (save_metadata : bool)
    (api_keys : gmap string string) (max_pdf_num : nat)
    (ip_pool : option (option string)) (stop_event : option unit) (o : Pdf.Orch)
    (data : string) (d0 : list (option string * Paper)) (t : Pdf.Termination) :
  yields_submitted as_completed ->
  fs (Pdf.o_world o) !! dump_path = Some (File data) ->
  Pdf.load_lines (Pdf.readlines data) [] = Return d0 ->
  let run := Pdf.save_pdf_from_dump_new F as_completed dump_path pdf_path key_to_save
               save_metadata api_keys max_pdf_num ip_pool stop_event o in
  fst run = Return t ->
  kept d0 (Pdf.metadict (snd run)).
Proof.
  intros Hyield Hfile Hload. cbn zeta.
  destruct (Pdf.save_pdf_from_dump_new F as_completed dump_path pdf_path key_to_save
              save_metadata api_keys max_pdf_num ip_pool stop_event o) as [r o'] eqn:Hrun.
  cbn [fst snd]. intros ->.
  unfold Pdf.save_pdf_from_dump_new in Hrun.
  destruct (negb (Py.endswith (Pathlib.as_posix dump_path) ".jsonl")); [discriminate|].
  unfold bind at 1, Pdf.set_metadict in Hrun.
  unfold bind at 1, Pdf.orch_world, path_exists in Hrun.
  cbn [Pdf.o_world Pdf.o_trace Pdf.metadict] in Hrun.
  rewrite (exists_in_lookup _ _ _ Hfile) in Hrun.
  unfold bind at 1 in Hrun.
  rewrite (load_present dump_path data d0) in Hrun by assumption.
  cbn [Pdf.o_world Pdf.o_trace Pdf.metadict] in Hrun.
  unfold bind at 1, Pdf.get_metadict in Hrun. cbn [Pdf.metadict] in Hrun.
  assert (Hok0 : store_ok d0).
  { refine (load_lines_ok _ [] d0 _ Hload). split; [apply NoDup_nil_2|constructor]. }
  apply bind_inv in Hrun. destruct Hrun as [([] & o2 & Hloop & Hrun)|(e & _ & [=])].
  assert (Hkept : kept d0 (Pdf.metadict o2)).
  { refine (completion_loop_kept _ _ _ _ _ _ _ _ d0 _ _ _ _ _ Hloop Hok0 _).
    - specialize (Hyield (List.map fst
                            (List.filter (fun kp => (truthy (p_is_materials (snd kp))
                                           && negb (truthy (p_success (snd kp))))%bool) d0))).
      eapply Forall_impl; [exact Hyield|].
      intros [k b] Hin. cbn [fst] in *. apply task_key; [apply Hok0|exact Hin].
    - split; [reflexivity|]. intros k p Hg _. exact Hg. }
  apply bind_inv in Hrun. destruct Hrun as [([] & o3 & Hflush & Hrun)|(e & _ & [=])].
  assert (Ho3 : Pdf.metadict o3 = Pdf.metadict o2).
  { pose proof (flush_cases dump_path o2) as Hf. cbn zeta in Hf.
    destruct Hf as (_ & Fmd & _). rewrite Hflush in Fmd. exact Fmd. }
  apply bind_inv in Hrun. destruct Hrun as [(stop & o4 & Hstop & Hrun)|(e & _ & [=])].
  assert (Ho4 : Pdf.metadict o4 = Pdf.metadict o3).
  { destruct stop_event; [|discriminate].
    unfold Pdf.orch_world in Hstop. destruct (is_set (Pdf.o_world o3)) as [r4 w4].
    injection Hstop as _ <-. reflexivity. }
  assert (Ho' : o' = o4). { destruct stop; injection Hrun as _ <-; reflexivity. }
  rewrite Ho', Ho4, Ho3. exact Hkept.
Qed.

(** A dump that is not there is an empty mapping: nothing is scheduled,
    and the flush creates the file, empty; when its folder is missing too,
    the flush raises. *)
Theorem orchestrator_missing_dump (F : Fallbacks.Name -> Fallbacks.Strategy)
    (as_completed : list (option string) -> list (option string * bool))
    (dump_path pdf_path : Path) (key_to_save : SaveKey) (save_metadata : bool)
    (api_keys : gmap string string) (max_pdf_num : nat)
    (ip_pool : option (option string)) (o : Pdf.Orch) :
  as_completed [] = [] ->
  Py.endswith (Pathlib.as_posix dump_path) ".jsonl" = true ->
  exists_in (fs (Pdf.o_world o)) dump_path = false ->
  let run := Pdf.save_pdf_from_dump_new F as_completed dump_path pdf_path key_to_save
               save_metadata api_keys max_pdf_num ip_pool (Some tt) o in
  Pdf.metadict (snd run) = [] /\
  http_log (Pdf.o_world (snd run)) = http_log (Pdf.o_world o) /\
  if is_dir_in (fs (Pdf.o_world o)) (Pathlib.parent dump_path) then
    (exists t, fst run = Return t) /\
    fs (Pdf.o_world (snd run)) = <[dump_path := File EmptyString]> (fs (Pdf.o_world o))
  else
    fst run = Raise OSError /\ fs (Pdf.o_world (snd run)) = fs (Pdf.o_world o).
Proof.
  intros Hnone Hext Habsent. cbn zeta.
  destruct (Pdf.save_pdf_from_dump_new F as_completed dump_path pdf_path key_to_save
              save_metadata api_keys max_pdf_num ip_pool (Some tt) o) as [r o'] eqn:Hrun.
  cbn [fst snd].
  unfold Pdf.save_pdf_from_dump_new in Hrun. rewrite Hext in Hrun. cbn [negb] in Hrun.
  unfold bind at 1, Pdf.set_metadict in Hrun.
  unfold bind at 1, Pdf.orch_world, path_exists in Hrun.
  cbn [Pdf.o_world Pdf.o_trace Pdf.metadict] in Hrun. rewrite Habsent in Hrun.
  unfold bind at 1, ret in Hrun. unfold bind at 1, Pdf.get_metadict in Hrun.
  cbn [Pdf.metadict List.filter List.map] in Hrun. rewrite Hnone in Hrun.
  unfold bind at 1 in Hrun. cbn [Pdf.completion_loop] in Hrun. unfold ret at 1 in Hrun.
  assert (Hnd : is_dir_in (fs (Pdf.o_world o)) dump_path = false).
  { unfold exists_in in Habsent. unfold is_dir_in. destruct dump_path; [discriminate|].
    destruct (lookup_fs _ _); [discriminate|reflexivity]. }
  pose proof (flush_cases dump_path
                {| Pdf.o_world := Pdf.o_world o; Pdf.o_trace := Pdf.o_trace o;
                   Pdf.metadict := [] |}) as Hf.
  cbn zeta in Hf. cbn [Pdf.o_world Pdf.o_trace Pdf.metadict List.length] in Hf.
  unfold writable in Hf. rewrite Hnd in Hf. cbn [negb] in Hf. rewrite andb_true_r in Hf.
  rewrite first_fault_zero in Hf.
  unfold bind at 1 in Hrun.
  destruct (Pdf.f_save_metadata dump_path _) as [rf o3]. cbn [fst snd] in Hf.
  destruct Hf as (_ & Fmd & [Flog _] & Hf).
  destruct (is_dir_in (fs (Pdf.o_world o)) (Pathlib.parent dump_path)).
  - destruct Hf as [-> Hfs]. unfold bind, Pdf.orch_world, is_set in Hrun.
    destruct (stop_answers (Pdf.o_world o3)) as [|[|] answers];
      injection Hrun as <- <-; cbn; (repeat split; eauto).
  - destruct Hf as [-> Hw]. injection Hrun as <- <-. rewrite Hw. repeat split.
    exact Fmd.
Qed.

(** A line of the dump that does not parse makes the call raise the error
    of the first such line, before anything is scheduled: the world and the
    trace are as they were. *)
Theorem orchestrator_malformed_line (F : Fallbacks.Name -> Fallbacks.Strategy)
    (as_completed : list (option string) -> list (option string * bool))
    (dump_path pdf_path : Path) (key_to_save : SaveKey) (save_metadata : bool)
    (api_keys : gmap string string) (max_pdf_num : nat)
    (ip_pool : option (option string)) (stop_event : option unit) (o : Pdf.Orch)
    (data : string) (good : list string) (bad : string) (rest : list string) (e : exn) :
  Py.endswith (Pathlib.as_posix dump_path) ".jsonl" = true ->
  fs (Pdf.o_world o) !! dump_path = Some (File data) ->
  Pdf.readlines data = good ++ bad :: rest ->
  Forall (fun line => exists paper, json_loads line = Return paper) good ->
  json_loads bad = Raise e ->
  Pdf.save_pdf_from_dump_new F as_completed dump_path pdf_path key_to_save
    save_metadata api_keys max_pdf_num ip_pool stop_event o
  = (Raise e, {| Pdf.o_world := Pdf.o_world o; Pdf.o_trace := Pdf.o_trace o;
                 Pdf.metadict := [] |}).
Proof.
  intros Hext Hfile Hlines Hgood Hbad.
  assert (Hload : forall d, Pdf.load_lines (good ++ bad :: rest) d = Raise e).
  { clear Hlines. induction Hgood as [|line good [paper Hp] _ IH]; intros d; cbn.
    - rewrite Hbad. reflexivity.
    - rewrite Hp. apply IH. }
  unfold Pdf.save_pdf_from_dump_new. rewrite Hext. cbn [negb].
  unfold bind at 1, Pdf.set_metadict. unfold bind at 1, Pdf.orch_world, path_exists.
  cbn [Pdf.o_world Pdf.o_trace Pdf.metadict].
  rewrite (exists_in_lookup _ _ _ Hfile).
  unfold bind, Pdf.orch_world, Pdf.read_file, lookup_fs, lift.
  cbn [Pdf.o_world Pdf.o_trace Pdf.metadict]. rewrite Hfile, Hlines, Hload. reflexivity.
Qed.

End Records.

(** ** Loading a dump, and loading what was flushed *)

Section Reload.
Context `{Lib}.

Lemma find_snoc {A} (f : A -> bool) (l : list A) (x : A) :
  List.find f (l ++ [x]) =
    match List.find f l with
    | Some y => Some y
    | None => if f x then Some x else None
    end.
Proof.
  induction l as [|a l IH]; cbn; [reflexivity|].
  destruct (f a); [reflexivity|exact IH].
Qed.

Lemma load_lines_fold (lines : list string) (papers : list Paper) :
  Forall2 (fun line p => json_loads line = Return p) lines papers ->
  forall d, exists d',
    Pdf.load_lines lines d = Return d' /\
    dict_keys d' = dict_keys d ++ first_occurrences (List.map p_doi papers) (dict_keys d) /\
    forall k, dict_get d' k =
                match last_with k papers with
                | Some p => Some p
                | None => dict_get d k
                end.
Proof.
  induction 1 as [|line p lines papers Hp _ IH]; intros d.
  - exists d. cbn. rewrite app_nil_r. repeat split.
  - cbn [Pdf.load_lines]. rewrite Hp.
    destruct (IH (dict_set d (p_doi p) p)) as (d' & Hload & Hkeys & Hget).
    exists d'. split; [exact Hload|]. split.
    + rewrite Hkeys. cbn [List.map first_occurrences].
      destruct (dict_set_keys d (p_doi p) p) as [[Hin ->]|[Hnot ->]].
      * destruct (decide (p_doi p ∈ dict_keys d)); [reflexivity|contradiction].
      * destruct (decide (p_doi p ∈ dict_keys d)); [contradiction|].
        rewrite <- app_assoc. reflexivity.
    + intros k. rewrite Hget. unfold last_with. cbn [List.rev]. rewrite find_snoc.
      destruct (List.find _ (List.rev papers)); [reflexivity|].
      destruct (bool_decide (p_doi p = k)) eqn:Ek.
      * apply bool_decide_eq_true in Ek. subst k. apply dict_get_set_eq.
      * apply bool_decide_eq_false in Ek. apply dict_get_set_ne. congruence.
Qed.

(** Loading keeps one record per identifier: the records stand in the
    order in which their identifiers first occur in the dump, and each is
    the one of the last line that carries its identifier. *)
Theorem load_lines_last_wins (lines : list string) (papers : list Paper) :
  Forall2 (fun line p => json_loads line = Return p) lines papers ->
  exists d,
    Pdf.load_lines lines [] = Return d /\
    dict_keys d = first_occurrences (List.map p_doi papers) [] /\
    forall k, dict_get d k = last_with k papers.
Proof.
  intros Hp. destruct (load_lines_fold lines papers Hp []) as (d & Hload & Hkeys & Hget).
  exists d. split; [exact Hload|]. split; [exact Hkeys|].
  intros k. rewrite Hget. destruct (last_with k papers); reflexivity.
Qed.

Lemma append_nil_r (s : string) : s +:+ EmptyString = s.
Proof. induction s as [|c s IH]; [reflexivity|]. rewrite append_cons, IH. reflexivity. Qed.

Lemma rev_app_append (s acc : string) :
  String.rev_app s acc = String.rev s +:+ acc.
Proof.
  unfold String.rev. revert acc. induction s as [|c s IH]; intros acc; cbn [String.rev_app].
  - rewrite append_nil. reflexivity.
  - rewrite (IH (String c acc)), (IH (String c EmptyString)), append_assoc, append_cons,
      append_nil. reflexivity.
Qed.

Lemma rev_cons (c : ascii) (s : string) :
  String.rev (String c s) = String.rev s +:+ String c EmptyString.
Proof. unfold String.rev at 1. cbn [String.rev_app]. apply rev_app_append. Qed.

Lemma startswith_nl (c : ascii) (s : string) :
  Py.startswith (String c s) nl = Ascii.eqb (ascii_of_nat 10) c.
Proof.
  unfold nl. cbn [Py.startswith].
  destruct (Ascii.eqb (ascii_of_nat 10) c); [destruct s|]; reflexivity.
Qed.

Lemma split_line (l : string) :
  one_line l = true ->
  forall cur rest,
    Py.split_go nl 0 cur (l +:+ nl +:+ rest)
    = (String.rev cur +:+ l) :: Py.split_go nl 0 EmptyString rest.
Proof.
  induction l as [|c l IH]; intros Hl cur rest.
  - rewrite append_nil, append_nil_r. unfold nl at 2. rewrite append_cons, append_nil.
    cbn [Py.split_go]. rewrite startswith_nl.
    rewrite (proj2 (Ascii.eqb_eq _ _) eq_refl). reflexivity.
  - cbn [one_line] in Hl. apply andb_true_iff in Hl. destruct Hl as [Hc Hl].
    apply andb_true_iff in Hc. destruct Hc as [Hc _]. apply negb_true_iff in Hc.
    rewrite append_cons. cbn [Py.split_go].
    rewrite startswith_nl, Ascii.eqb_sym, Hc.
    rewrite (IH Hl). rewrite rev_cons, append_assoc, append_cons, append_nil.
    reflexivity.
Qed.

Lemma concat_cons (x : string) (l : list string) :
  String.concat EmptyString (x :: l) = x +:+ String.concat EmptyString l.
Proof. destruct l; cbn [String.concat]; [rewrite append_nil_r|rewrite append_nil]; reflexivity. Qed.

Lemma split_lines (ls : list string) :
  Forall (fun l => one_line l = true) ls ->
  Py.split (String.concat EmptyString (List.map (fun l => l +:+ nl) ls)) nl
  = ls ++ [EmptyString].
Proof.
  unfold Py.split. induction 1 as [|l ls Hl _ IH]; [reflexivity|].
  cbn [List.map]. rewrite concat_cons, append_assoc, (split_line l Hl), IH.
  rewrite append_nil. reflexivity.
Qed.

Lemma cr_test (c : ascii) : (nat_of_ascii c =? 13)%nat = Ascii.eqb c (ascii_of_nat 13).
Proof. destruct c as [[] [] [] [] [] [] [] []]; reflexivity. Qed.

(** A line of a dump is read as it was written. *)
Lemma universal_newlines_line (l rest : string) :
  one_line l = true ->
  Pdf.universal_newlines (l +:+ nl +:+ rest) = l +:+ nl +:+ Pdf.universal_newlines rest.
Proof.
  induction l as [|c l IH]; intros Hl; [reflexivity|].
  cbn [one_line] in Hl. apply andb_true_iff in Hl. destruct Hl as [Hc Hl].
  apply andb_true_iff in Hc. destruct Hc as [_ Hc]. apply negb_true_iff in Hc.
  rewrite !append_cons. cbn [Pdf.universal_newlines]. rewrite cr_test, Hc, (IH Hl).
  reflexivity.
Qed.

Lemma universal_newlines_lines (ls : list string) :
  Forall (fun l => one_line l = true) ls ->
  Pdf.universal_newlines (String.concat EmptyString (List.map (fun l => l +:+ nl) ls))
  = String.concat EmptyString (List.map (fun l => l +:+ nl) ls).
Proof.
  induction 1 as [|l ls Hl _ IH]; [reflexivity|].
  cbn [List.map]. rewrite !concat_cons, !append_assoc.
  rewrite (universal_newlines_line l _ Hl), IH. reflexivity.
Qed.

Lemma readlines_lines (ls : list string) :
  Forall (fun l => one_line l = true) ls ->
  Pdf.readlines (String.concat EmptyString (List.map (fun l => l +:+ nl) ls)) = ls.
Proof.
  intros Hls. unfold Pdf.readlines. rewrite (universal_newlines_lines ls Hls).
  fold nl. rewrite (split_lines ls Hls).
  rewrite last_last. cbn [String.eqb]. apply removelast_last.
Qed.

Lemma dict_set_fresh {K V} `{EqDecision K} (d : list (K * V)) (k : K) (v : V) :
  k ∉ dict_keys d -> dict_set d k v = d ++ [(k, v)].
Proof.
  induction d as [|[k' v'] d IH]; cbn; [reflexivity|].
  intros Hnot. destruct (decide (k' = k)) as [->|Hne].
  - exfalso. apply Hnot. apply list_elem_of_here.
  - rewrite IH; [reflexivity|]. intros Hin. apply Hnot. apply list_elem_of_further. exact Hin.
Qed.

Lemma load_dumped (d : list (option string * Paper)) :
  Forall (fun kp => json_loads (json_dumps (snd kp)) = Return (snd kp)) d ->
  keyed_by_doi d ->
  forall acc, NoDup (dict_keys (acc ++ d)) ->
    Pdf.load_lines (List.map (fun kp => json_dumps (snd kp)) d) acc = Return (acc ++ d).
Proof.
  induction 1 as [|[k p] d Hp _ IH]; intros Hkey acc Hnd.
  - cbn. rewrite app_nil_r. reflexivity.
  - apply Forall_cons in Hkey. destruct Hkey as [Hk Hkey]. cbn in Hk, Hp.
    cbn [List.map Pdf.load_lines snd]. rewrite Hp, Hk.
    assert (Hfresh : k ∉ dict_keys acc).
    { unfold dict_keys in *. rewrite map_app in Hnd. apply NoDup_app in Hnd.
      destruct Hnd as (_ & Hdis & _). intros Hin. apply (Hdis k Hin).
      cbn. apply list_elem_of_here. }
    rewrite (dict_set_fresh acc k p Hfresh).
    specialize (IH Hkey (acc ++ [(k, p)])). rewrite <- app_assoc in IH. cbn in IH.
    apply IH. exact Hnd.
Qed.

(** What the flush writes can be loaded again: a mapping whose records
    are stored under their own identifiers, each written as one line that
    [json.loads] reads back, is what the dump text of that mapping loads
    to, record for record and in the same order. *)
Theorem flushed_dump_reloads (d : list (option string * Paper)) :
  NoDup (dict_keys d) ->
  keyed_by_doi d ->
  Forall (fun kp => json_loads (json_dumps (snd kp)) = Return (snd kp) /\
                    one_line (json_dumps (snd kp)) = true) d ->
  Pdf.load_lines (Pdf.readlines (Pdf.dump_text d)) [] = Return d.
Proof.
  intros Hnd Hkey Hd. unfold Pdf.dump_text, dict_values.
  change (String (ascii_of_nat 10) EmptyString) with nl.
  rewrite List.map_map.
  rewrite <- (List.map_map (fun kp => json_dumps (snd kp)) (fun l => l +:+ nl)).
  rewrite readlines_lines.
  - apply (load_dumped d); [|exact Hkey|exact Hnd].
    eapply Forall_impl; [exact Hd|]. intros kp [Hr _]. exact Hr.
  - apply Forall_forall. intros l Hin.
    apply list_elem_of_In, in_map_iff in Hin. destruct Hin as [kp [<- Hin]].
    rewrite Forall_forall in Hd. exact (proj2 (Hd kp (proj2 (list_elem_of_In _ _) Hin))).
Qed.

End Reload.

(** ** The retries of the Wiley API *)

Section Wiley.
Context `{Lib}.




End Wiley.

(** ** The index of the eLife repository *)

Section Elife.
Context `{Lib}.

(** The index is fetched at most once: after a call of
    [get_elife_xml_index], whether it returned or raised, the cache is
    filled, and the next call answers from it without a request and
    without a change to the world.  What a call returns is what it leaves in
    the cache; a call raises only when it found the cache empty. *)
Theorem elife_index_fetched_once (w : World) :
  let first := Fallbacks.get_elife_xml_index w in
  exists ix,
    ELIFE_XML_INDEX (snd first) = Some ix /\
    (forall r, fst first = Return r -> r = ix) /\
    (forall e, fst first = Raise e -> ELIFE_XML_INDEX w = None) /\
    Fallbacks.get_elife_xml_index (snd first) = (Return ix, snd first).
Proof.
  cbn zeta.
  destruct (Fallbacks.get_elife_xml_index w) as [r w'] eqn:Hrun. cbn [fst snd].
  assert (Hcached : forall ix, ELIFE_XML_INDEX w' = Some ix ->
            Fallbacks.get_elife_xml_index w' = (Return ix, w')).
  { intros ix Hc. unfold Fallbacks.get_elife_xml_index. rewrite Hc. reflexivity. }
  unfold Fallbacks.get_elife_xml_index in Hrun.
  destruct (ELIFE_XML_INDEX w) as [ix|] eqn:Ecache.
  { injection Hrun as <- <-. exists ix. split; [exact Ecache|].
    split; [intros r [= <-]; reflexivity|]. split; [intros e [=]|].
    apply Hcached. exact Ecache. }
  unfold bind at 1 in Hrun.
  destruct (requests_get_cases
              "https://api.github.com/repos/elifesciences/elife-article-xml/git/trees/master?recursive=1"
              [] None (with_index w (Some ∅)))
    as [(resp & rest & E & Hget)|[(rest & E & Hget)|(E & Hget)]];
    rewrite Hget in Hrun; cbv beta iota in Hrun.
  2, 3: injection Hrun as <- <-; exists ∅;
        (split; [reflexivity|]); (split; [discriminate|]);
        (split; [intros; reflexivity|apply Hcached; reflexivity]).
  unfold bind at 1 in Hrun.
  match type of Hrun with
  | context [raise_for_status resp ?w1] =>
      destruct (raise_for_status_cases resp w1) as [Hst|Hst]; rewrite Hst in Hrun
  end; cbv beta iota in Hrun.
  2: { injection Hrun as <- <-. exists ∅. split; [reflexivity|]. split; [discriminate|].
       split; [intros; reflexivity|apply Hcached; reflexivity]. }
  unfold bind at 1, lift in Hrun.
  destruct (json_tree_paths (content resp)) as [paths|e]; cbv beta iota in Hrun.
  2: { injection Hrun as <- <-. exists ∅. split; [reflexivity|]. split; [discriminate|].
       split; [intros; reflexivity|apply Hcached; reflexivity]. }
  injection Hrun as <- <-. eexists. split; [reflexivity|].
  split; [intros r [= <-]; reflexivity|]. split; [discriminate|].
  apply Hcached. reflexivity.
Qed.

Lemma insert_by_version_perm (x : nat * string) (l : list (nat * string)) :
  Fallbacks.insert_by_version x l ≡ₚ x :: l.
Proof.
  induction l as [|y l IH]; cbn; [reflexivity|].
  destruct (fst x <=? fst y)%nat; [reflexivity|].
  rewrite IH. apply Permutation_swap.
Qed.

Lemma insert_by_version_ascending (x : nat * string) (l : list (nat * string)) :
  ascending l -> ascending (Fallbacks.insert_by_version x l).
Proof.
  induction l as [|y l IH]; cbn; [intros _; split; [constructor|exact I]|].
  intros [Hy Hl]. destruct (fst x <=? fst y)%nat eqn:Exy.
  - apply Nat.leb_le in Exy. cbn. split; [|split; assumption].
    constructor; [exact Exy|]. eapply Forall_impl; [exact Hy|]. cbn. intros; lia.
  - apply Nat.leb_gt in Exy. cbn. split; [|exact (IH Hl)].
    rewrite (insert_by_version_perm x l). constructor; [lia|exact Hy].
Qed.

Lemma sort_by_version_perm (l : list (nat * string)) : Fallbacks.sort_by_version l ≡ₚ l.
Proof.
  unfold Fallbacks.sort_by_version. induction l as [|x l IH]; cbn; [reflexivity|].
  rewrite insert_by_version_perm, IH. reflexivity.
Qed.

Lemma sort_by_version_ascending (l : list (nat * string)) :
  ascending (Fallbacks.sort_by_version l).
Proof.
  unfold Fallbacks.sort_by_version. induction l as [|x l IH]; cbn; [exact I|].
  apply insert_by_version_ascending. exact IH.
Qed.

Lemma index_fold_lookup (paths : list string) :
  forall (acc : gmap string (list (nat * string))) (article : string),
  List.fold_left
    (fun ix path =>
       match re_match_elife path with
       | Some (article_num_padded, version) =>
           Fallbacks.index_append ix article_num_padded (version, elife_raw_url path)
       | None => ix
       end) paths acc !! article
  = match listed_versions article paths with
    | [] => acc !! article
    | es => Some (default [] (acc !! article) ++ es)
    end.
Proof.
  induction paths as [|path paths IH]; intros acc article; [reflexivity|].
  cbn [List.fold_left]. rewrite IH. unfold listed_versions. cbn [List.flat_map].
  fold (listed_versions article paths).
  destruct (re_match_elife path) as [[num version]|]; [|reflexivity].
  unfold Fallbacks.index_append.
  destruct (String.eqb_spec num article) as [->|Hne].
  - rewrite lookup_insert_eq. cbn [default from_option app]. unfold id.
    destruct (listed_versions article paths) as [|e es].
    + reflexivity.
    + rewrite <- app_assoc. reflexivity.
  - rewrite lookup_insert_ne by exact Hne. reflexivity.
Qed.

(** What the index holds once it has been fetched: for every article of
    the repository tree, the versions the tree lists for it with their
    addresses, in ascending order of version; an article the tree does not
    list has no entry (and no entry is an empty list). *)
Theorem elife_index_content (w : World) (resp : Response) (rest : list (option Response))
    (paths : list string) :
  ELIFE_XML_INDEX w = None ->
  http_replies w = Some resp :: rest ->
  (status_code resp < 400 \/ 600 <= status_code resp) ->
  json_tree_paths (content resp) = Return paths ->
  exists ix,
    fst (Fallbacks.get_elife_xml_index w) = Return ix /\
    forall article,
      match ix !! article with
      | None => listed_versions article paths = []
      | Some versions =>
          versions <> [] /\ versions ≡ₚ listed_versions article paths /\ ascending versions
      end.
Proof.
  intros Hcache Hrep Hst Hjson.
  unfold Fallbacks.get_elife_xml_index. rewrite Hcache.
  unfold bind, requests_get, lift. cbn [http_replies with_index]. rewrite Hrep.
  unfold raise_for_status.
  replace ((400 <=? status_code resp)%nat && (status_code resp <? 600)%nat)%bool
    with false
    by (symmetry; apply andb_false_iff;
        destruct Hst; [left; apply Nat.leb_gt | right; apply Nat.ltb_ge]; lia).
  cbn [ret]. rewrite Hjson. cbn [fst].
  eexists. split; [reflexivity|]. intros article.
  rewrite lookup_fmap.
  pose proof (index_fold_lookup paths ∅ article) as Hfold. unfold elife_raw_url in Hfold.
  rewrite Hfold. rewrite lookup_empty. cbn [default app].
  destruct (listed_versions article paths) as [|e es] eqn:El; cbn [fmap option_fmap option_map].
  - reflexivity.
  - split.
    + intros Hnil. pose proof (sort_by_version_perm (e :: es)) as Hp.
      rewrite Hnil in Hp. apply Permutation_nil_l in Hp. discriminate.
    + split; [apply sort_by_version_perm|apply sort_by_version_ascending].
Qed.



End Elife.

(** ** The strategies that store XML *)

Section Xml.
Context `{Lib}.

Lemma status_cases (resp : Response) :
  ((400 <=? status_code resp)%nat && (status_code resp <? 600)%nat)%bool = true \/
  ((400 <=? status_code resp)%nat && (status_code resp <? 600)%nat)%bool = false.
Proof. destruct (_ && _)%bool; [left|right]; reflexivity. Qed.

Lemma try_lift {S A} (r : result A) (w : S) :
  try_ (lift r) w =
    match r with
    | Return a => (Return (Return a), w)
    | Raise e => if is_Exception e then (Return (Raise e), w) else (Raise e, w)
    end.
Proof. unfold try_, lift. destruct r; reflexivity. Qed.

Lemma bioc_pmc_cases (doi : string) (out : Path) (proxies : option string) (w : World)
    (r : result (bool * option string)) (w' : World) :
  Fallbacks.fallback_bioc_pmc doi out proxies w = (r, w') ->
  match r with
  | Raise e => is_Exception e = false /\ fs w' = fs w
  | Return (ok, u) =>
      xml_outcome out ok w w' /\
      if ok then
        exists conv pmcid resp,
          json_first_pmcid (content conv) = Return (Some pmcid) /\
          u = Some (bioc_xml_url pmcid) /\
          http_log w'
            = http_log w ++ [idconv_request doi proxies;
                             {| req_url := bioc_xml_url pmcid; req_params := [];
                                req_proxies := proxies |}] /\
          consumed w w' = [Some conv; Some resp] /\
          Py.startswith (content resp) bioc_no_result = false
      else u = None
  end.
Proof.
  intros Hrun. unfold Fallbacks.fallback_bioc_pmc in Hrun.
  unfold bind at 1 in Hrun. rewrite try_bind in Hrun.
  assert (Hdecl : forall l, http_replies w = l ++ http_replies w' -> fs w' = fs w ->
            r = Return (false, None) ->
            match r with
            | Raise e => is_Exception e = false /\ fs w' = fs w
            | Return (ok, u) =>
                xml_outcome out ok w w' /\
                if ok then
                  exists conv pmcid resp,
                    json_first_pmcid (content conv) = Return (Some pmcid) /\
                    u = Some (bioc_xml_url pmcid) /\
                    http_log w'
                      = http_log w ++ [idconv_request doi proxies;
                                       {| req_url := bioc_xml_url pmcid; req_params := [];
                                          req_proxies := proxies |}] /\
                    consumed w w' = [Some conv; Some resp] /\
                    Py.startswith (content resp) bioc_no_result = false
                else u = None
            end).
  { intros l Hl Hfs ->. split; [|reflexivity]. exists l. split; assumption. }
  match type of Hrun with
  | context [requests_get ?u ?ps proxies w] =>
      destruct (requests_get_cases u ps proxies w)
        as [(conv & rest & E & Hget)|[(rest & E & Hget)|(E & Hget)]];
      rewrite Hget in Hrun; cbv beta iota in Hrun
  end.
  2: { cbn in Hrun. injection Hrun as <- <-. apply (Hdecl [None]); [exact E| |]; reflexivity. }
  2: { cbn in Hrun. injection Hrun as <- <-. apply (Hdecl []); [exact E| |]; reflexivity. }
  rewrite try_bind in Hrun.
  match type of Hrun with
  | context [raise_for_status conv ?w1] =>
      destruct (raise_for_status_cases conv w1) as [Hst|Hst]; rewrite Hst in Hrun
  end; cbv beta iota in Hrun.
  2: { cbn in Hrun. injection Hrun as <- <-.
       apply (Hdecl [Some conv]); [exact E| |]; reflexivity. }
  rewrite try_lift in Hrun.
  destruct (json_first_pmcid (content conv)) as [[pmcid|]|e] eqn:Ejson;
    cbv beta iota zeta in Hrun.
  2: { injection Hrun as <- <-. apply (Hdecl [Some conv]); [exact E| |]; reflexivity. }
  2: { destruct (is_Exception e) eqn:Ee; injection Hrun as <- <-.
       - apply (Hdecl [Some conv]); [exact E| |]; reflexivity.
       - split; [exact Ee|reflexivity]. }
  unfold bind at 1 in Hrun. rewrite try_bind in Hrun.
  match type of Hrun with
  | context [requests_get ?u ?ps proxies ?w1] =>
      destruct (requests_get_cases u ps proxies w1)
        as [(resp & rest2 & E2 & Hget2)|[(rest2 & E2 & Hget2)|(E2 & Hget2)]];
      rewrite Hget2 in Hrun; cbv beta iota in Hrun
  end; cbn [http_replies with_http] in E2.
  2: { cbn in Hrun. injection Hrun as <- <-.
       apply (Hdecl [Some conv; None]); [rewrite E, E2| |]; reflexivity. }
  2: { cbn in Hrun. injection Hrun as <- <-.
       apply (Hdecl [Some conv]); [rewrite E, E2| |]; reflexivity. }
  rewrite try_bind in Hrun.
  match type of Hrun with
  | context [raise_for_status resp ?w1] =>
      destruct (raise_for_status_cases resp w1) as [Hst2|Hst2]; rewrite Hst2 in Hrun
  end; cbv beta iota in Hrun.
  2: { cbn in Hrun. injection Hrun as <- <-.
       apply (Hdecl [Some conv; Some resp]); [rewrite E, E2| |]; reflexivity. }
  fold bioc_no_result in Hrun.
  destruct (Py.startswith (content resp) bioc_no_result) eqn:Emark.
  { cbn in Hrun. injection Hrun as <- <-.
    apply (Hdecl [Some conv; Some resp]); [rewrite E, E2| |]; reflexivity. }
  unfold try_, bind, open_write, ret in Hrun. cbn [fs with_http http_log] in Hrun.
  destruct (is_dir_in (fs w) (Pathlib.parent (Pathlib.with_suffix out ".xml"))
            && negb (is_dir_in (fs w) (Pathlib.with_suffix out ".xml")))%bool;
    cbn in Hrun; injection Hrun as <- <-.
  - split.
    + exists [Some conv; Some resp]. split; [rewrite E, E2; reflexivity|].
      exists resp. split; reflexivity.
    + exists conv, pmcid, resp. split; [exact Ejson|]. split; [reflexivity|].
      split; [cbn; rewrite <- app_assoc; reflexivity|]. split; [|exact Emark].
      apply consumed_app. cbn. rewrite E, E2. reflexivity.
  - apply (Hdecl [Some conv; Some resp]); [cbn; rewrite E, E2| |]; reflexivity.
Qed.

(** [fallback_bioc_pmc] raises nothing that is an [Exception], and writes
    nothing unless it succeeds.  It succeeds only in one way: the
    identifier converter has named a PMC identifier, the BioC address of
    that identifier has been requested next, its answer is not the
    "no result" page, and the body of that answer is what is now stored at
    the destination with the suffix [.xml]; the address is returned. *)
Theorem bioc_pmc_outcome (doi : string) (out : Path) (proxies : option string) (w : World) :
  let run := Fallbacks.fallback_bioc_pmc doi out proxies w in
  match fst run with
  | Raise e => is_Exception e = false /\ fs (snd run) = fs w
  | Return (ok, u) =>
      xml_outcome out ok w (snd run) /\
      if ok then
        exists conv pmcid resp,
          json_first_pmcid (content conv) = Return (Some pmcid) /\
          u = Some (bioc_xml_url pmcid) /\
          http_log (snd run)
            = http_log w ++ [idconv_request doi proxies;
                             {| req_url := bioc_xml_url pmcid; req_params := [];
                                req_proxies := proxies |}] /\
          consumed w (snd run) = [Some conv; Some resp] /\
          Py.startswith (content resp) bioc_no_result = false
      else u = None
  end.
Proof.
  cbn zeta.
  destruct (Fallbacks.fallback_bioc_pmc doi out proxies w) as [r w'] eqn:Hrun.
  cbn [fst snd]. exact (bioc_pmc_cases _ _ _ _ _ _ Hrun).
Qed.

(** [fallback_elsevier_api] raises nothing that is an [Exception] and
    writes nothing unless it returns [True]; it returns [True] only when the
    one response it received was not a 401, passed the status check and was
    accepted by the XML parser, and then the body of that response is what
    is stored at the destination with the suffix [.xml]. *)
Theorem elsevier_outcome (paper : Paper) (out : Path) (api_keys : gmap string string)
    (w : World) :
  let run := Fallbacks.fallback_elsevier_api paper out api_keys w in
  match fst run with
  | Raise e => is_Exception e = false /\ fs (snd run) = fs w
  | Return ok =>
      xml_outcome out ok w (snd run) /\
      (ok = true ->
       exists resp, consumed w (snd run) = [Some resp] /\ status_code resp <> 401 /\
         raise_for_status resp w = (Return tt, w) /\
         etree_fromstring (content resp) = Return tt)
  end.
Proof.
  cbn zeta.
  destruct (Fallbacks.fallback_elsevier_api paper out api_keys w) as [r w'] eqn:Hrun.
  cbn [fst snd]. unfold Fallbacks.fallback_elsevier_api in Hrun.
  unfold bind at 1 in Hrun. rewrite try_bind in Hrun.
  assert (Hdecl : forall l, http_replies w = l ++ http_replies w' -> fs w' = fs w ->
            xml_outcome out false w w' /\
            (false = true ->
             exists resp, consumed w w' = [Some resp] /\ status_code resp <> 401 /\
               raise_for_status resp w = (Return tt, w) /\
               etree_fromstring (content resp) = Return tt)).
  { intros l Hl Hfs. split; [|discriminate]. exists l. split; assumption. }
  match type of Hrun with
  | context [requests_get ?u ?ps None w] =>
      destruct (requests_get_cases u ps None w)
        as [(resp & rest & E & Hget)|[(rest & E & Hget)|(E & Hget)]];
      rewrite Hget in Hrun; cbv beta iota in Hrun
  end.
  2: { cbn in Hrun. injection Hrun as <- <-. refine (Hdecl [None] E eq_refl). }
  2: { cbn in Hrun. injection Hrun as <- <-. refine (Hdecl [] E eq_refl). }
  destruct (status_code resp =? 401)%nat eqn:E401.
  { destruct (Py.contains "APIKEY_INVALID" (text resp)); cbn in Hrun;
      injection Hrun as <- <-; refine (Hdecl [Some resp] E eq_refl). }
  apply Nat.eqb_neq in E401.
  rewrite try_bind in Hrun.
  pose proof (raise_for_status_cases resp w) as Hw.
  match type of Hrun with
  | context [raise_for_status resp ?w1] =>
      destruct (raise_for_status_cases resp w1) as [Hst|Hst]; rewrite Hst in Hrun
  end; cbv beta iota in Hrun.
  2: { cbn in Hrun. injection Hrun as <- <-.
       refine (Hdecl [Some resp] E eq_refl). }
  assert (Hok : raise_for_status resp w = (Return tt, w)).
  { destruct Hw as [Hw|Hw]; [exact Hw|]. unfold raise_for_status in *.
    destruct ((400 <=? status_code resp)%nat && (status_code resp <? 600)%nat)%bool;
      [discriminate Hst|discriminate Hw]. }
  destruct (etree_fromstring (content resp)) as [[]|e] eqn:Etree.
  - unfold try_, bind, open_write, ret in Hrun. cbn [fs with_http http_log] in Hrun.
    destruct (is_dir_in (fs w) (Pathlib.parent (Pathlib.with_suffix out ".xml"))
              && negb (is_dir_in (fs w) (Pathlib.with_suffix out ".xml")))%bool;
      cbn in Hrun; injection Hrun as <- <-.
    + split.
      * exists [Some resp]. split; [exact E|]. exists resp. split; reflexivity.
      * intros _. exists resp. split; [apply consumed_app; exact E|]. repeat split; assumption.
    + refine (Hdecl [Some resp] E eq_refl).
  - destruct e; cbn in Hrun; injection Hrun as <- <-;
      first [refine (Hdecl [Some resp] E eq_refl)
            |split; reflexivity].
Qed.

End Xml.

(** ** The addresses of the arXiv strategy *)

Section Arxiv.




End Arxiv.

(** ** What the bioRxiv strategy leaves behind when it does not succeed *)

Section Bucket.
Context `{Lib}.

(** A call of [fallback_s3] that declines has left the file system as it
    was: no file, no folder has come or gone.  And whatever the outcome, the
    call has read at most one whole object from the bucket. *)
Theorem fallback_s3_declines_clean (as_completed : list string -> list (string * bool))
    (doi : string) (out : Path) (api_keys : gmap string string) (w : World) :
  let run := Fallbacks.fallback_s3 as_completed doi out api_keys w in
  (fst run = Return false -> fs (snd run) = fs w) /\
  List.length (full_fetches (new_s3_calls w (snd run))) <= 1.
Proof.
  cbn zeta.
  destruct (Fallbacks.fallback_s3 as_completed doi out api_keys w) as [r w'] eqn:Hrun.
  cbn [fst snd]. unfold Fallbacks.fallback_s3 in Hrun.
  assert (Hnone : forall calls, s3_log w' = s3_log w ++ calls -> full_fetches calls = [] ->
            List.length (full_fetches (new_s3_calls w w')) <= 1).
  { intros calls Hlog Hfull. rewrite (new_s3_calls_app _ _ _ Hlog), Hfull. cbn. lia. }
  apply bind_inv in Hrun. destruct Hrun as [(folder & w1 & H1 & Hrun)|(e & H1 & ->)].
  2: { destruct (month_folder_frame _ _ _ _ H1) as (L1 & _ & _ & F1).
       split; [intros _; exact F1|]. apply (Hnone []); [rewrite app_nil_r; exact L1|reflexivity]. }
  destruct (month_folder_frame _ _ _ _ H1) as (L1 & _ & _ & F1).
  apply bind_inv in Hrun. destruct Hrun as [(keys & w2 & H2 & Hrun)|(e & H2 & ->)].
  2: { destruct (list_meca_keys_frame _ _ _ _ H2) as (L2 & _ & F2).
       split; [intros _; congruence|]. apply (Hnone [ListObjects ("Current_Content/" +:+ folder +:+ "/")]); [|reflexivity].
       rewrite L2, L1. reflexivity. }
  destruct (list_meca_keys_frame _ _ _ _ H2) as (L2 & _ & F2).
  destruct keys as [|k keys].
  { injection Hrun as <- <-. split; [intros _; congruence|].
    apply (Hnone [ListObjects ("Current_Content/" +:+ folder +:+ "/")]); [|reflexivity]. rewrite L2, L1. reflexivity. }
  apply bind_inv in Hrun. destruct Hrun as [(target & w3 & H3 & Hrun)|(e & H3 & ->)].
  2: { destruct (scan_futures_frame _ _ _ _ _ H3) as (calls & L3 & Hfull & F3).
       split; [intros _; congruence|]. apply (Hnone (ListObjects ("Current_Content/" +:+ folder +:+ "/") :: calls)); [|exact Hfull].
       rewrite L3, L2, L1, <- app_assoc. reflexivity. }
  destruct (scan_futures_frame _ _ _ _ _ H3) as (calls & L3 & Hfull & F3).
  destruct target as [target|].
  2: { injection Hrun as <- <-. split; [intros _; congruence|].
       apply (Hnone (ListObjects ("Current_Content/" +:+ folder +:+ "/") :: calls)); [|exact Hfull].
       rewrite L3, L2, L1, <- app_assoc. reflexivity. }
  assert (Hone : s3_log w' = s3_log w3 ++ [GetObject target None] ->
            List.length (full_fetches (new_s3_calls w w')) <= 1).
  { intros Hw'.
    rewrite (new_s3_calls_app w w'
               (ListObjects ("Current_Content/" +:+ folder +:+ "/")
                :: calls ++ [GetObject target None])).
    - unfold full_fetches in *. cbn [flat_map app]. rewrite flat_map_app, Hfull. cbn. lia.
    - rewrite Hw', L3, L2, L1, <- !app_assoc. reflexivity. }
  assert (Hfs3 : fs w3 = fs w) by congruence.
  unfold bind at 1, get_object in Hrun.
  destruct (s3_replies w3) as [|[data|] rest] eqn:Erep.
  1, 3: injection Hrun as <- <-; (split; [intros _; exact Hfs3|apply Hone; reflexivity]).
  unfold bind at 1, lift in Hrun.
  destruct (zip_namelist data) as [names|e].
  2: { injection Hrun as <- <-. split; [intros _; exact Hfs3|apply Hone; reflexivity]. }
  destruct (List.find Fallbacks.is_pdf_name names) as [name|].
  2: { injection Hrun as <- <-. split; [intros _; exact Hfs3|apply Hone; reflexivity]. }
  pose proof (relocate_frame data name out
                (with_s3 w3 rest (s3_log w3 ++ [GetObject target None]))) as Hframe.
  cbn zeta in Hframe. rewrite Hrun in Hframe. cbn [fst snd] in Hframe.
  destruct Hframe as [Hlog Hres].
  split; [|apply Hone; exact Hlog].
  intros ->. destruct Hres as [[=]|[e [=]]].
Qed.

End Bucket.

(** ** File names and identifiers *)

Section Names.

Lemma startswith_char (a c : ascii) (s : string) :
  Py.startswith (String c s) (String a EmptyString) = Ascii.eqb a c.
Proof.
  cbn [Py.startswith]. destruct (Ascii.eqb a c); [destruct s|]; reflexivity.
Qed.

Lemma split_go_nonempty (sep : string) (s : string) :
  forall skip cur, Py.split_go sep skip cur s <> [].
Proof.
  induction s as [|c s IH]; intros skip cur; cbn [Py.split_go]; [discriminate|].
  destruct skip; [|apply IH].
  destruct (Py.startswith (String c s) sep); [discriminate|apply IH].
Qed.

Lemma join_cons (sep x : string) (l : list string) :
  l <> [] -> Py.join sep (x :: l) = x +:+ sep +:+ Py.join sep l.
Proof. destruct l; [congruence|reflexivity]. Qed.

Lemma replace_char_go (a b : ascii) (s : string) :
  forall cur,
    Py.join (String b EmptyString) (Py.split_go (String a EmptyString) 0 cur s)
    = String.rev cur +:+ swap_char a b s.
Proof.
  induction s as [|c s IH]; intros cur.
  - cbn. rewrite append_nil_r. reflexivity.
  - cbn [Py.split_go swap_char]. rewrite startswith_char.
    destruct (Ascii.eqb a c).
    + cbn [String.length Nat.sub]. rewrite join_cons by apply split_go_nonempty.
      rewrite IH. cbn [String.rev]. rewrite append_cons, !append_nil. reflexivity.
    + rewrite IH, rev_cons, append_assoc, append_cons, append_nil. reflexivity.
Qed.

(** Replacing one character by another works character by character. *)
Lemma replace_char (a b : ascii) (s : string) :
  Py.replace s (String a EmptyString) (String b EmptyString) = swap_char a b s.
Proof.
  unfold Py.replace, Py.split. rewrite replace_char_go. apply append_nil.
Qed.

Lemma contains_char (a c : ascii) (s : string) :
  Py.contains (String a EmptyString) (String c s)
  = (Ascii.eqb a c || Py.contains (String a EmptyString) s)%bool.
Proof. cbn [Py.contains]. rewrite startswith_char. reflexivity. Qed.

Lemma swap_char_gone (a b : ascii) (s : string) :
  a <> b -> Py.contains (String a EmptyString) (swap_char a b s) = false.
Proof.
  intros Hab. induction s as [|c s IH]; [reflexivity|].
  cbn [swap_char]. rewrite contains_char, IH, orb_false_r.
  destruct (Ascii.eqb a c) eqn:Eac; [|exact Eac].
  apply Ascii.eqb_neq. exact Hab.
Qed.

Lemma swap_char_back (a b : ascii) (s : string) :
  Py.contains (String b EmptyString) s = false ->
  swap_char b a (swap_char a b s) = s.
Proof.
  induction s as [|c s IH]; [reflexivity|].
  rewrite contains_char. intros Hc. apply orb_false_iff in Hc. destruct Hc as [Hbc Hs].
  cbn [swap_char]. rewrite (IH Hs). f_equal.
  destruct (Ascii.eqb a c) eqn:Eac.
  - rewrite Ascii.eqb_refl. apply Ascii.eqb_eq. exact Eac.
  - rewrite Hbc. reflexivity.
Qed.

Lemma swap_char_length (a b : ascii) (s : string) :
  String.length (swap_char a b s) = String.length s.
Proof. induction s as [|c s IH]; cbn; [reflexivity|]. rewrite IH. reflexivity. Qed.

(** The file name of a task holds no path separator: the artifact of an
    identifier lies directly in the output folder, whatever slashes the
    identifier has. *)
Theorem filename_has_no_separator (v : string) :
  Py.contains "/" (Py.replace v "/" "_") = false.
Proof. rewrite replace_char. apply swap_char_gone. discriminate. Qed.

Lemma rfind_app (c : ascii) (s t : string) :
  Py.rfind c (s +:+ t) =
    match Py.rfind c t with
    | Some i => Some (String.length s + i)
    | None => Py.rfind c s
    end.
Proof.
  induction s as [|x s IH].
  - rewrite append_nil. cbn. destruct (Py.rfind c t); reflexivity.
  - rewrite append_cons. cbn [Py.rfind String.length]. rewrite IH.
    destruct (Py.rfind c t); [reflexivity|]. reflexivity.
Qed.

Lemma substring_prefix (s t : string) :
  String.substring 0 (String.length s) (s +:+ t) = s.
Proof.
  induction s as [|x s IH].
  - rewrite append_nil. destruct t; reflexivity.
  - rewrite append_cons. cbn [String.length String.substring]. rewrite IH. reflexivity.
Qed.

Lemma length_append (s t : string) :
  String.length (s +:+ t) = String.length s + String.length t.
Proof.
  induction s as [|x s IH]; [rewrite append_nil; reflexivity|].
  rewrite append_cons. cbn [String.length]. rewrite IH. reflexivity.
Qed.

(** the stem of [name.ext] for a three-letter extension without dot *)
Lemma stem_of_artifact (name ext : string) :
  name <> EmptyString -> Py.rfind "." ext = None -> 1 <= String.length ext ->
  Pathlib.stem_of (name +:+ "." +:+ ext) = name.
Proof.
  intros Hne Hext Hlen. unfold Pathlib.stem_of.
  rewrite rfind_app. change ("." +:+ ext) with (String "." ext).
  cbn [Py.rfind]. rewrite Hext. rewrite Ascii.eqb_refl, Nat.add_0_r.
  assert (H0 : 0 < String.length name) by (destruct name; [congruence|cbn; lia]).
  rewrite length_append. cbn [String.length].
  replace (0 <? String.length name)%nat with true by (symmetry; apply Nat.ltb_lt; lia).
  replace (String.length name <? String.length name + S (String.length ext) - 1)%nat
    with true by (symmetry; apply Nat.ltb_lt; lia).
  cbn [andb]. apply substring_prefix.
Qed.

(** [update_metadata] finds the identifier of an artifact again: from the
    name under which the task stores the PDF or the XML of an identifier,
    it reads the identifier itself, provided the identifier has no
    underscore (an underscore comes back as a slash) and is not empty. *)
Theorem artifact_name_decodes (pdf_path : Path) (doi : string) :
  doi <> EmptyString ->
  Py.contains "_" doi = false ->
  Step3.doi_of_file (Pathlib.child pdf_path (Py.replace doi "/" "_" +:+ ".pdf")) = doi /\
  Step3.doi_of_file
    (Pathlib.with_suffix (Pathlib.child pdf_path (Py.replace doi "/" "_" +:+ ".pdf")) ".xml")
  = doi.
Proof.
  intros Hne Hunder.
  assert (Hname : Py.replace doi "/" "_" <> EmptyString).
  { rewrite replace_char. intros E. apply (f_equal String.length) in E.
    rewrite swap_char_length in E. destruct doi; [congruence|discriminate]. }
  assert (Hstem : Pathlib.stem_of (Py.replace doi "/" "_" +:+ ".pdf") = Py.replace doi "/" "_").
  { apply (stem_of_artifact _ "pdf"); [exact Hname|reflexivity|cbn; lia]. }
  assert (Hback : Py.replace (Py.replace doi "/" "_") "_" "/" = doi).
  { rewrite !replace_char. apply swap_char_back. exact Hunder. }
  unfold Step3.doi_of_file, Pathlib.with_suffix, Pathlib.child, Pathlib.name.
  rewrite !last_last. split.
  - rewrite Hstem. exact Hback.
  - rewrite Hstem. rewrite (stem_of_artifact _ "xml"); [exact Hback|exact Hname|reflexivity|cbn; lia].
Qed.

End Names.

(** An identifier with an underscore does not come back. *)
Example underscore_comes_back_as_slash :
  Step3.doi_of_file ["out"; "kw"; Py.replace "10.1000/a_b" "/" "_" +:+ ".pdf"] = "10.1000/a/b".
Proof. vm_compute. reflexivity. Qed.

(** ** Concrete runs of the properties above *)

Lemma one_by_one_yields_submitted : yields_submitted Demo5.one_by_one.
Proof.
  intros ks. unfold Demo5.one_by_one. apply Forall_forall. intros kb Hin.
  apply list_elem_of_In, in_map_iff in Hin. destruct Hin as [k [<- Hin]].
  cbn. apply list_elem_of_In. exact Hin.
Qed.

Lemma orchestrator_keeps_records_witness :
  let run := Pdf.save_pdf_from_dump_new (H := Sample.lib)
               (Fallbacks.FALLBACKS (H := Sample.lib)) Demo5.one_by_one Demo5.dump_path
               Demo5.pdf_path KeyDoi false ∅ 500 None (Some tt)
               (Demo5.start Demo6.dump_mixed []) in
  kept Demo6.loaded_mixed (Pdf.metadict (snd run)).
Proof.
  refine (orchestrator_keeps_records (H := Sample.lib)
            (Fallbacks.FALLBACKS (H := Sample.lib)) Demo5.one_by_one Demo5.dump_path
            Demo5.pdf_path KeyDoi false ∅ 500 None (Some tt)
            (Demo5.start Demo6.dump_mixed []) Demo6.dump_mixed Demo6.loaded_mixed
            Pdf.Returned one_by_one_yields_submitted _ _ _).
  - vm_compute. reflexivity.
  - vm_compute. reflexivity.
  - vm_compute. reflexivity.
Defined.

(** The record that was done is written back as it was; the pending one
    has been downloaded. *)
Example done_record_is_kept :
  let run := Demo5.run Demo6.dump_mixed [] 500 (Some tt) in
  dict_get (Pdf.metadict (snd run)) (Some "10.1000/xyz")
    = Some (Demo6.paper_of "10.1000/xyz" true) /\
  (p_path <$> dict_get (Pdf.metadict (snd run)) (Some "10.1000/abc"))
    = Some (Some "out/kw/10.1000_abc.pdf") /\
  List.length (http_log (Pdf.o_world (snd run))) = 2.
Proof. vm_compute. repeat split. Qed.

Lemma orchestrator_missing_dump_witness :
  let run := Pdf.save_pdf_from_dump_new (H := Sample.lib)
               (Fallbacks.FALLBACKS (H := Sample.lib)) Demo5.one_by_one Demo5.dump_path
               Demo5.pdf_path KeyDoi false ∅ 500 None (Some tt) Demo6.start_without_dump in
  Pdf.metadict (snd run) = [] /\
  http_log (Pdf.o_world (snd run)) = http_log (Pdf.o_world Demo6.start_without_dump) /\
  if is_dir_in (fs (Pdf.o_world Demo6.start_without_dump)) (Pathlib.parent Demo5.dump_path)
  then
    (exists t, fst run = Return t) /\
    fs (Pdf.o_world (snd run))
      = <[Demo5.dump_path := File EmptyString]> (fs (Pdf.o_world Demo6.start_without_dump))
  else
    fst run = Raise OSError /\
    fs (Pdf.o_world (snd run)) = fs (Pdf.o_world Demo6.start_without_dump).
Proof.
  refine (orchestrator_missing_dump (H := Sample.lib)
            (Fallbacks.FALLBACKS (H := Sample.lib)) Demo5.one_by_one Demo5.dump_path
            Demo5.pdf_path KeyDoi false ∅ 500 None Demo6.start_without_dump _ _ _).
  - reflexivity.
  - vm_compute. reflexivity.
  - vm_compute. reflexivity.
Defined.

Lemma orchestrator_malformed_line_witness :
  Pdf.save_pdf_from_dump_new (H := Sample.lib) (Fallbacks.FALLBACKS (H := Sample.lib))
    Demo5.one_by_one Demo5.dump_path Demo5.pdf_path KeyDoi false ∅ 500 None (Some tt)
    (Demo5.start Demo6.dump_bad [])
  = (Raise JSONDecodeError,
     {| Pdf.o_world := Pdf.o_world (Demo5.start Demo6.dump_bad []);
        Pdf.o_trace := Pdf.o_trace (Demo5.start Demo6.dump_bad []);
        Pdf.metadict := [] |}).
Proof.
  refine (orchestrator_malformed_line (H := Sample.lib)
            (Fallbacks.FALLBACKS (H := Sample.lib)) Demo5.one_by_one Demo5.dump_path
            Demo5.pdf_path KeyDoi false ∅ 500 None (Some tt) (Demo5.start Demo6.dump_bad [])
            Demo6.dump_bad ["10.1000/xyz|false"] "not a record" ["10.1000/abc|false"]
            JSONDecodeError _ _ _ _ _).
  - vm_compute. reflexivity.
  - vm_compute. reflexivity.
  - vm_compute. reflexivity.
  - constructor; [|constructor]. eexists. vm_compute. reflexivity.
  - vm_compute. reflexivity.
Defined.

Lemma load_lines_last_wins_witness :
  exists d,
    Pdf.load_lines (H := Sample.lib) Demo6.lines_twice [] = Return d /\
    dict_keys d
      = first_occurrences
          (List.map p_doi [Demo6.paper_of "10.1000/xyz" false; Demo6.paper_of "10.1000/abc" false;
                           Demo6.paper_of "10.1000/xyz" true]) [] /\
    forall k, dict_get d k
              = last_with k [Demo6.paper_of "10.1000/xyz" false;
                             Demo6.paper_of "10.1000/abc" false;
                             Demo6.paper_of "10.1000/xyz" true].
Proof.
  refine (load_lines_last_wins (H := Sample.lib) Demo6.lines_twice
            [Demo6.paper_of "10.1000/xyz" false; Demo6.paper_of "10.1000/abc" false;
             Demo6.paper_of "10.1000/xyz" true] _).
  repeat constructor.
Defined.

(** Two records are left, the first with the data of the third line. *)
Example later_line_replaces_earlier :
  Pdf.load_lines (H := Sample.lib) Demo6.lines_twice []
  = Return [(Some "10.1000/xyz", Demo6.paper_of "10.1000/xyz" true);
            (Some "10.1000/abc", Demo6.paper_of "10.1000/abc" false)].
Proof. vm_compute. reflexivity. Qed.

Lemma flushed_dump_reloads_witness :
  Pdf.load_lines (H := Sample.lib)
    (Pdf.readlines (Pdf.dump_text (H := Sample.lib) Demo6.loaded_mixed)) []
  = Return Demo6.loaded_mixed.
Proof.
  refine (flushed_dump_reloads (H := Sample.lib) Demo6.loaded_mixed _ _ _).
  - unfold dict_keys. cbn. apply NoDup_cons. split; [|apply NoDup_singleton].
    intros Hin. apply list_elem_of_singleton in Hin. discriminate.
  - repeat constructor.
  - repeat constructor.
Defined.


(** Two attempts on a network that does not answer: one wait of 20
    seconds between them, and the closing wait of 10 seconds. *)
Example wiley_two_failures :
  let run := Fallbacks.fallback_wiley_api Demo4.paper_abc Demo.out_xyz ∅ 2
               (with_fs Sample.empty_world Demo.out_dirs) in
  fst run = Return false /\ slept (snd run) = [20; 10] /\
  List.map req_url (http_log (snd run))
    = ["https://api.wiley.com/onlinelibrary/tdm/v1/articles/10.1016%2Fabc";
       "https://api.wiley.com/onlinelibrary/tdm/v1/articles/10.1016%2Fabc"].
Proof. vm_compute. repeat split. Qed.

(** The first attempt delivers: no retry, but the closing wait. *)
Example wiley_first_attempt_delivers :
  let run := Fallbacks.fallback_wiley_api Demo4.paper_abc Demo.out_xyz ∅ 2
               (with_fs (with_http Sample.empty_world [Sample.ok "%PDF-1.6 wiley"] [])
                  Demo.out_dirs) in
  fst run = Return true /\ slept (snd run) = [10] /\
  List.length (http_log (snd run)) = 1.
Proof. vm_compute. repeat split. Qed.

Lemma elife_index_content_witness :
  exists ix,
    fst (Fallbacks.get_elife_xml_index (H := Sample.lib) Demo6.world_elife) = Return ix /\
    forall article,
      match ix !! article with
      | None =>
          listed_versions (H := Sample.lib) article (Py.split Demo6.tree ";") = []
      | Some versions =>
          versions <> [] /\
          versions ≡ₚ listed_versions (H := Sample.lib) article (Py.split Demo6.tree ";") /\
          ascending versions
      end.
Proof.
  refine (elife_index_content (H := Sample.lib) Demo6.world_elife
            {| status_code := 200; content := Demo6.tree |}
            [Sample.ok "<article>v3</article>"] (Py.split Demo6.tree ";") _ _ _ _).
  - reflexivity.
  - reflexivity.
  - left. cbn. lia.
  - reflexivity.
Defined.

(** The versions of article 12345 come out in ascending order. *)
Example index_of_the_tree :
  (fun r => match r with
            | Return ix => List.map fst <$> ix !! "12345"
            | Raise _ => None
            end) (fst (Fallbacks.get_elife_xml_index (H := Sample.lib) Demo6.world_elife))
  = Some [1; 2; 3].
Proof. vm_compute. reflexivity. Qed.


(** Version 3 is the one that is fetched and stored. *)
Example elife_fetches_version_3 :
  let run := Fallbacks.fallback_elife_xml (H := Sample.lib) "10.7554/eLife.12345"
               Demo.out_xyz Demo6.world_indexed in
  fst run = Return (true, Some (elife_raw_url "articles/elife-12345-v3.xml")) /\
  fs (snd run) !! ["out"; "kw"; "10.1000_xyz.xml"] = Some (File "<article>v3</article>").
Proof. vm_compute. repeat split. Qed.

(** The converter and the BioC service both answer: the XML is stored. *)
Example bioc_pmc_delivers :
  let run := Fallbacks.fallback_bioc_pmc (H := Sample.lib) "10.1000/xyz" Demo.out_xyz None
               Demo6.world_pmc in
  fst run = Return (true, Some (bioc_xml_url "PMC7654321")) /\
  fs (snd run) !! ["out"; "kw"; "10.1000_xyz.xml"]
    = Some (File "<collection>full text</collection>").
Proof. vm_compute. repeat split. Qed.

(** The "no result" page of the BioC service is not stored. *)
Example bioc_pmc_no_result :
  let run := Fallbacks.fallback_bioc_pmc (H := Sample.lib) "10.1000/xyz" Demo.out_xyz None
               (with_http Demo6.world_pmc
                  [Sample.ok "{pmcid=PMC7654321"; Sample.ok (bioc_no_result +:+ "pmcoa.cgi")]
                  []) in
  fst run = Return (false, None) /\
  fs (snd run) !! ["out"; "kw"; "10.1000_xyz.xml"] = None.
Proof. vm_compute. split; reflexivity. Qed.

(** The Elsevier API delivers; a body the parser rejects is not stored. *)
Example elsevier_delivers :
  let run := Fallbacks.fallback_elsevier_api (H := Sample.lib) Demo4.paper_abc Demo.out_xyz
               Demo4.keys Demo6.world_elsevier in
  fst run = Return true /\
  fs (snd run) !! ["out"; "kw"; "10.1000_xyz.xml"]
    = Some (File "<full-text-retrieval-response/>").
Proof. vm_compute. repeat split. Qed.

Example elsevier_rejects_invalid_xml :
  let run := Fallbacks.fallback_elsevier_api (H := Sample.lib) Demo4.paper_abc Demo.out_xyz
               Demo4.keys (with_http Demo6.world_elsevier [Sample.ok "Service unavailable"] []) in
  fst run = Return false /\ fs (snd run) !! ["out"; "kw"; "10.1000_xyz.xml"] = None.
Proof. vm_compute. split; reflexivity. Qed.


(** The paper is not in physics but in astro-ph: two requests, the second
    address is returned, cond-mat is not asked. *)
Example arxiv_second_category :
  let run := Fallbacks.fallback_arxiv "10.48550/arxiv.9901001" Demo.out_xyz None
               Demo6.world_arxiv_old in
  fst run = Return (true, Some "https://arxiv.org/pdf/astro-ph/9901001") /\
  List.map req_url (http_log (snd run))
    = ["https://arxiv.org/pdf/physics/9901001"; "https://arxiv.org/pdf/astro-ph/9901001"].
Proof. vm_compute. repeat split. Qed.

(** No container of the month matches: [fallback_s3] declines, nothing
    is written, and no whole object has been read. *)
Example fallback_s3_without_match :
  let w := with_s3 Demo3.world_biorxiv
             [Demo3.other_head; Demo3.other_tail; Demo3.other_head; Demo3.other_tail;
              Demo3.other_head; Demo3.other_tail; Demo3.other_head; Demo3.other_tail;
              Demo3.other_head; Demo3.other_tail] [] in
  let run := Fallbacks.fallback_s3 (H := Sample.lib) Demo3.in_order Demo3.doi_biorxiv
               Demo3.out_biorxiv ∅ w in
  fst run = Return false /\
  fs (snd run) !! Pathlib.with_suffix Demo3.out_biorxiv ".pdf" = None /\
  full_fetches (s3_log (snd run)) = [] /\ List.length (s3_log (snd run)) = 11.
Proof. vm_compute. repeat split. Qed.

Lemma artifact_name_decodes_witness :
  Step3.doi_of_file (Pathlib.child ["out"; "kw"] (Py.replace "10.1000/xyz" "/" "_" +:+ ".pdf"))
    = "10.1000/xyz" /\
  Step3.doi_of_file
    (Pathlib.with_suffix
       (Pathlib.child ["out"; "kw"] (Py.replace "10.1000/xyz" "/" "_" +:+ ".pdf")) ".xml")
    = "10.1000/xyz".
Proof.
  refine (artifact_name_decodes ["out"; "kw"] "10.1000/xyz" _ _).
  - discriminate.
  - vm_compute. reflexivity.
Defined.

(** ** The file behind a record *)

Section Artifact.
Context `{Lib}.

(** What each strategy of the chain does to the file system. *)
Lemma strategy_effect : writes_artifact Fallbacks.FALLBACKS.
Proof.
  intros n id out px w r w' Hrun.
  assert (Hpdf : forall b u, r = Return (b, u) -> pdf_outcome out b w w' ->
            kind_of n = "pdf" ->
            match r with
            | Raise _ => fs w' = fs w
            | Return (true, _) =>
                exists body,
                  fs w' = <[Pathlib.with_suffix out ("." +:+ kind_of n) := File body]> (fs w) /\
                  (kind_of n = "pdf" -> is_pdf body = true)
            | Return (false, _) => fs w' = fs w
            end).
  { intros b u -> (l & _ & Hb) Hk. rewrite Hk. destruct b; [|exact Hb].
    destruct Hb as (resp & _ & Hsig & Hfs). exists (content resp). split; [exact Hfs|].
    intros _. exact Hsig. }
  destruct n; cbn [Fallbacks.FALLBACKS] in Hrun.
  - apply fallback_arxiv_outcome in Hrun.
    destruct Hrun as [[-> ->]|(b & u & Hr & Hout & _)]; [reflexivity|].
    exact (Hpdf b u Hr Hout eq_refl).
  - apply fallback_doi_outcome in Hrun. destruct Hrun as (b & u & Hr & Hout & _).
    exact (Hpdf b u Hr Hout eq_refl).
  - apply fallback_sci_hub_outcome in Hrun. destruct Hrun as (b & u & Hr & Hout & _).
    exact (Hpdf b u Hr Hout eq_refl).
  - apply bioc_pmc_cases in Hrun. destruct r as [[[|] u]|e].
    + destruct Hrun as [(l & _ & resp & _ & Hfs) _]. exists (content resp).
      split; [exact Hfs|]. discriminate.
    + destruct Hrun as [(l & _ & Hfs) _]. exact Hfs.
    + exact (proj2 Hrun).
Qed.

Ltac run_chain HF F n id filepath proxies w :=
  let u := fresh "u" in let e := fresh "e" in
  let w' := fresh "w" in let E := fresh "E" in
  destruct (F n id filepath proxies w) as [[[[|] u]|e] w'] eqn:E;
  apply HF in E; cbn in E |- *.

Ltac artifact_leaf :=
  first
    [ discriminate
    | intros _; congruence
    | intros _;
      match goal with
      | E : exists body, _ |- _ =>
          let body := fresh "body" in let Hfs := fresh "Hfs" in let Hsig := fresh "Hsig" in
          destruct E as (body & Hfs & Hsig); eexists _, body;
          split; [reflexivity|]; split; [reflexivity|]; split;
          [rewrite Hfs; congruence
          |first [left; split; [reflexivity|apply Hsig; reflexivity]
                 |right; reflexivity]]
      end ].

Lemma save_pdf_artifact (F : Fallbacks.Name -> Fallbacks.Strategy) (filepath : Path)
    (save_metadata : bool) (api_keys : gmap string string) (proxies : option string)
    (c : Pdf.Ctx) :
  writes_artifact F ->
  let run := Pdf.save_pdf F filepath save_metadata api_keys proxies c in
  fst run = Return tt ->
  if truthy (p_success (Pdf.cx_paper (snd run))) then
    exists ext body,
      p_type (Pdf.cx_paper (snd run)) = Some ext /\
      p_path (Pdf.cx_paper (snd run))
        = Some (Pathlib.as_posix (Pathlib.with_suffix filepath ("." +:+ ext))) /\
      fs (Pdf.cx_world (snd run))
        = <[Pathlib.with_suffix filepath ("." +:+ ext) := File body]> (fs (Pdf.cx_world c)) /\
      ((ext = "pdf" /\ is_pdf body = true) \/ ext = "xml")
  else fs (Pdf.cx_world (snd run)) = fs (Pdf.cx_world c).
Proof.
  intros HF. cbn zeta.
  unfold Pdf.save_pdf, bind, Pdf.log, Pdf.in_world, path_exists, Pdf.get_paper,
    Pdf.update_paper, throw, ret. cbn.
  destruct (exists_in (fs (Pdf.cx_world c)) (Pathlib.parent filepath)) eqn:Epar; cbn.
  2: { discriminate. }
  destruct (p_doi (Pdf.cx_paper c)) as [id|] eqn:Hdoi; cbn.
  2: { discriminate. }
  unfold Pdf.step, Pdf.invoke, bind, ret. cbn.
  destruct (Py.contains "arxiv" id) eqn:Earx; cbn.
  - run_chain HF F Fallbacks.N_arxiv id filepath proxies (Pdf.cx_world c).
    + artifact_leaf.
    + run_chain HF F Fallbacks.N_doi id filepath proxies w.
      * artifact_leaf.
      * run_chain HF F Fallbacks.N_sci_hub id filepath proxies w0.
        -- artifact_leaf.
        -- run_chain HF F Fallbacks.N_bioc_pmc id filepath proxies w1; artifact_leaf.
        -- artifact_leaf.
      * artifact_leaf.
    + artifact_leaf.
  - run_chain HF F Fallbacks.N_doi id filepath proxies (Pdf.cx_world c).
    + artifact_leaf.
    + run_chain HF F Fallbacks.N_sci_hub id filepath proxies w.
      * artifact_leaf.
      * run_chain HF F Fallbacks.N_bioc_pmc id filepath proxies w0; artifact_leaf.
      * artifact_leaf.
    + artifact_leaf.
Qed.

(** With the strategies of [fallbacks.py]: when [save_pdf] returns with
    a success, the path it has written into the paper names a file that
    exists, and that file is the only change to the file system; a file
    recorded as PDF begins with the PDF signature.  When it returns with a
    failure, the file system is as it was. *)
Theorem save_pdf_leaves_artifact (filepath : Path) (save_metadata : bool)
    (api_keys : gmap string string) (proxies : option string) (c : Pdf.Ctx) :
  let run := Pdf.save_pdf Fallbacks.FALLBACKS filepath save_metadata api_keys proxies c in
  fst run = Return tt ->
  if truthy (p_success (Pdf.cx_paper (snd run))) then
    exists ext body,
      p_type (Pdf.cx_paper (snd run)) = Some ext /\
      p_path (Pdf.cx_paper (snd run))
        = Some (Pathlib.as_posix (Pathlib.with_suffix filepath ("." +:+ ext))) /\
      fs (Pdf.cx_world (snd run))
        = <[Pathlib.with_suffix filepath ("." +:+ ext) := File body]> (fs (Pdf.cx_world c)) /\
      ((ext = "pdf" /\ is_pdf body = true) \/ ext = "xml")
  else fs (Pdf.cx_world (snd run)) = fs (Pdf.cx_world c).
Proof. exact (save_pdf_artifact _ _ _ _ _ _ strategy_effect). Qed.

End Artifact.

Lemma save_pdf_leaves_artifact_witness :
  let run := Pdf.save_pdf (Fallbacks.FALLBACKS (H := Sample.lib)) Demo.out_xyz false ∅ None
               (Demo.ctx_xyz Demo.world_doi_pdf) in
  if truthy (p_success (Pdf.cx_paper (snd run))) then
    exists ext body,
      p_type (Pdf.cx_paper (snd run)) = Some ext /\
      p_path (Pdf.cx_paper (snd run))
        = Some (Pathlib.as_posix (Pathlib.with_suffix Demo.out_xyz ("." +:+ ext))) /\
      fs (Pdf.cx_world (snd run))
        = <[Pathlib.with_suffix Demo.out_xyz ("." +:+ ext) := File body]>
            (fs (Pdf.cx_world (Demo.ctx_xyz Demo.world_doi_pdf))) /\
      ((ext = "pdf" /\ is_pdf body = true) \/ ext = "xml")
  else fs (Pdf.cx_world (snd run)) = fs (Pdf.cx_world (Demo.ctx_xyz Demo.world_doi_pdf)).
Proof.
  refine (save_pdf_leaves_artifact (H := Sample.lib) Demo.out_xyz false ∅ None
            (Demo.ctx_xyz Demo.world_doi_pdf) _).
  vm_compute. reflexivity.
Defined.

(** ** The sequential driver *)

Section Sequential.
Context `{Lib}.
Variable load_jsonl : Path -> M (list Paper).
Variable load_api_keys : option string -> M (gmap string string).

Ltac run_link HF F n id filepath proxies w :=
  let u := fresh "u" in let e := fresh "e" in
  let w' := fresh "w" in let E := fresh "E" in
  destruct (F n id filepath proxies w) as [[[[|] u]|e] w'] eqn:E;
  apply HF in E; cbn in E |- *.

Ltac fs_leaf :=
  first
    [ left; congruence
    | match goal with
      | E : exists body, _ |- _ =>
          let body := fresh "body" in let Hfs := fresh "Hfs" in let Hsig := fresh "Hsig" in
          destruct E as (body & Hfs & Hsig); right; eexists _, body;
          split;
          [first [left; split; [reflexivity|apply Hsig; reflexivity]
                 |right; reflexivity]
          |rewrite Hfs; congruence]
      end ].

(** Whatever its outcome, a call of [save_pdf] changes the file system
    in at most one place. *)
Lemma save_pdf_fs (F : Fallbacks.Name -> Fallbacks.Strategy) (filepath : Path)
    (save_metadata : bool) (api_keys : gmap string string) (proxies : option string)
    (c : Pdf.Ctx) :
  writes_artifact F ->
  let run := Pdf.save_pdf F filepath save_metadata api_keys proxies c in
  fs (Pdf.cx_world (snd run)) = fs (Pdf.cx_world c) \/
  exists ext body,
    ((ext = "pdf" /\ is_pdf body = true) \/ ext = "xml") /\
    fs (Pdf.cx_world (snd run))
      = <[Pathlib.with_suffix filepath ("." +:+ ext) := File body]> (fs (Pdf.cx_world c)).
Proof.
  intros HF. cbn zeta.
  unfold Pdf.save_pdf, bind, Pdf.log, Pdf.in_world, path_exists, Pdf.get_paper,
    Pdf.update_paper, throw, ret. cbn.
  destruct (exists_in (fs (Pdf.cx_world c)) (Pathlib.parent filepath)) eqn:Epar; cbn.
  2: { left. reflexivity. }
  destruct (p_doi (Pdf.cx_paper c)) as [id|] eqn:Hdoi; cbn.
  2: { left. reflexivity. }
  unfold Pdf.step, Pdf.invoke, bind, ret. cbn.
  destruct (Py.contains "arxiv" id) eqn:Earx; cbn.
  - run_link HF F Fallbacks.N_arxiv id filepath proxies (Pdf.cx_world c).
    + fs_leaf.
    + run_link HF F Fallbacks.N_doi id filepath proxies w.
      * fs_leaf.
      * run_link HF F Fallbacks.N_sci_hub id filepath proxies w0.
        -- fs_leaf.
        -- run_link HF F Fallbacks.N_bioc_pmc id filepath proxies w1; fs_leaf.
        -- fs_leaf.
      * fs_leaf.
    + fs_leaf.
  - run_link HF F Fallbacks.N_doi id filepath proxies (Pdf.cx_world c).
    + fs_leaf.
    + run_link HF F Fallbacks.N_sci_hub id filepath proxies w.
      * fs_leaf.
      * run_link HF F Fallbacks.N_bioc_pmc id filepath proxies w0; fs_leaf.
      * fs_leaf.
    + fs_leaf.
Qed.

Lemma exists_in_insert (f : gmap Path Entry) (p q : Path) (e : Entry) :
  exists_in f p = true -> exists_in (<[q := e]> f) p = true.
Proof.
  unfold exists_in, lookup_fs. destruct p as [|a p]; [reflexivity|].
  destruct (decide (q = a :: p)) as [->|Hne].
  - rewrite lookup_insert_eq. reflexivity.
  - rewrite lookup_insert_ne by exact Hne. tauto.
Qed.

(** One iteration of the loop. *)
Lemma dump_loop_cons (F : Fallbacks.Name -> Fallbacks.Strategy) (pdf_path : Path)
    (key_to_save : SaveKey) (save_metadata : bool) (api_keys : gmap string string)
    (paper : Paper) (rest : list Paper) (c : Pdf.Ctx) :
  dump_loop F pdf_path key_to_save save_metadata api_keys (paper :: rest) c
  = if passed_over (fs (Pdf.cx_world c)) pdf_path key_to_save paper
    then dump_loop F pdf_path key_to_save save_metadata api_keys rest c
    else
      match paper_get paper key_to_save with
      | None => (Raise AttributeError, c)
      | Some v =>
          bind (Pdf.save_pdf F (Pathlib.child pdf_path (Py.replace v "/" "_" +:+ ".pdf"))
                  save_metadata api_keys None)
            (fun _ => dump_loop F pdf_path key_to_save save_metadata api_keys rest)
            {| Pdf.cx_world := Pdf.cx_world c; Pdf.cx_trace := Pdf.cx_trace c;
               Pdf.cx_paper := paper |}
      end.
Proof.
  destruct c as [w tr p0]. cbn [dump_loop Pdf.cx_world Pdf.cx_trace]. unfold passed_over.
  destruct (p_doi paper) as [d|]; [|reflexivity].
  destruct (paper_get paper key_to_save) as [v|]; [|reflexivity].
  rewrite bind_exists.
  destruct (exists_in (fs w) (Pathlib.child pdf_path (Py.replace v "/" "_" +:+ ".pdf")));
    [reflexivity|].
  rewrite bind_exists.
  destruct (exists_in (fs w)
              (Pathlib.with_suffix
                 (Pathlib.child pdf_path (Py.replace v "/" "_" +:+ ".pdf")) ".xml"));
    [reflexivity|].
  rewrite bind_update_paper. reflexivity.
Qed.

(** The loop removes nothing: what exists keeps existing. *)
Lemma dump_loop_grows (F : Fallbacks.Name -> Fallbacks.Strategy) (pdf_path : Path)
    (key_to_save : SaveKey) (save_metadata : bool) (api_keys : gmap string string)
    (papers : list Paper) :
  writes_artifact F ->
  forall c r c',
    dump_loop F pdf_path key_to_save save_metadata api_keys papers c = (r, c') ->
    forall p, exists_in (fs (Pdf.cx_world c)) p = true ->
              exists_in (fs (Pdf.cx_world c')) p = true.
Proof.
  intros HF. induction papers as [|paper rest IH]; intros c r c' Hrun p Hp.
  - injection Hrun as <- <-. exact Hp.
  - rewrite dump_loop_cons in Hrun.
    destruct (passed_over (fs (Pdf.cx_world c)) pdf_path key_to_save paper).
    { exact (IH _ _ _ Hrun p Hp). }
    destruct (paper_get paper key_to_save) as [v|].
    2: { injection Hrun as <- <-. exact Hp. }
    set (c0 := {| Pdf.cx_world := Pdf.cx_world c; Pdf.cx_trace := Pdf.cx_trace c;
                  Pdf.cx_paper := paper |}) in Hrun.
    assert (Hstep : exists_in
              (fs (Pdf.cx_world (snd (Pdf.save_pdf F
                 (Pathlib.child pdf_path (Py.replace v "/" "_" +:+ ".pdf"))
                 save_metadata api_keys None c0)))) p = true).
    { destruct (save_pdf_fs F (Pathlib.child pdf_path (Py.replace v "/" "_" +:+ ".pdf"))
                  save_metadata api_keys None c0 HF) as [Hsame|(ext & body & _ & Hins)].
      - rewrite Hsame. exact Hp.
      - rewrite Hins. apply exists_in_insert. exact Hp. }
    apply bind_inv in Hrun. destruct Hrun as [(a & c1 & Hsave & Hrest)|(e & Hsave & _)].
    + rewrite Hsave in Hstep. exact (IH _ _ _ Hrest p Hstep).
    + rewrite Hsave in Hstep. exact Hstep.
Qed.

Lemma passed_over_grows (f f' : gmap Path Entry) (pdf_path : Path)
    (key_to_save : SaveKey) (paper : Paper) :
  (forall p, exists_in f p = true -> exists_in f' p = true) ->
  passed_over f pdf_path key_to_save paper = true ->
  passed_over f' pdf_path key_to_save paper = true.
Proof.
  intros Hgrow. unfold passed_over.
  destruct (p_doi paper); [|reflexivity].
  destruct (paper_get paper key_to_save) as [v|]; [|discriminate].
  intros Hor. apply orb_true_iff in Hor. apply orb_true_iff.
  destruct Hor as [Hp|Hx]; [left|right]; apply Hgrow; assumption.
Qed.

(** Leaving out papers that are passed over at the start does not change
    the run, wherever they stand in the list. *)
Lemma dump_loop_filter (F : Fallbacks.Name -> Fallbacks.Strategy) (pdf_path : Path)
    (key_to_save : SaveKey) (save_metadata : bool) (api_keys : gmap string string)
    (f0 : gmap Path Entry) (papers : list Paper) :
  writes_artifact F ->
  forall c,
    (forall p, exists_in f0 p = true -> exists_in (fs (Pdf.cx_world c)) p = true) ->
    dump_loop F pdf_path key_to_save save_metadata api_keys papers c
    = dump_loop F pdf_path key_to_save save_metadata api_keys
        (List.filter (fun paper => negb (passed_over f0 pdf_path key_to_save paper)) papers) c.
Proof.
  intros HF. induction papers as [|paper rest IH]; intros c Hgrow; [reflexivity|].
  cbn [List.filter].
  destruct (passed_over f0 pdf_path key_to_save paper) eqn:Hover; cbn [negb].
  - rewrite dump_loop_cons.
    rewrite (passed_over_grows _ _ _ _ _ Hgrow Hover). apply IH. exact Hgrow.
  - rewrite !dump_loop_cons.
    destruct (passed_over (fs (Pdf.cx_world c)) pdf_path key_to_save paper).
    { apply IH. exact Hgrow. }
    destruct (paper_get paper key_to_save) as [v|]; [|reflexivity].
    set (c0 := {| Pdf.cx_world := Pdf.cx_world c; Pdf.cx_trace := Pdf.cx_trace c;
                  Pdf.cx_paper := paper |}).
    unfold bind.
    destruct (Pdf.save_pdf F (Pathlib.child pdf_path (Py.replace v "/" "_" +:+ ".pdf"))
                save_metadata api_keys None c0) as [[[]|e] c1] eqn:Hsave; [|reflexivity].
    apply IH. intros p Hp. apply Hgrow in Hp.
    destruct (save_pdf_fs F (Pathlib.child pdf_path (Py.replace v "/" "_" +:+ ".pdf"))
                save_metadata api_keys None c0 HF) as [Hsame|(ext & body & _ & Hins)];
      rewrite Hsave in *; cbn [snd] in *.
    + rewrite Hsame. exact Hp.
    + rewrite Hins. apply exists_in_insert. exact Hp.
Qed.

(** The loop of [save_pdf_from_dump] passes over the papers that have no
    identifier and those whose [.pdf] or [.xml] file is already in the
    output folder, wherever they stand in the dump: the run is the run on
    the other papers, request for request.  When no paper is left,
    nothing happens at all. *)
Theorem sequential_passes_over (pdf_path : Path) (key_to_save : SaveKey)
    (save_metadata : bool) (api_keys : gmap string string) (papers : list Paper)
    (c : Pdf.Ctx) :
  let pending :=
    List.filter
      (fun paper => negb (passed_over (fs (Pdf.cx_world c)) pdf_path key_to_save paper))
      papers in
  dump_loop Fallbacks.FALLBACKS pdf_path key_to_save save_metadata api_keys papers c
  = dump_loop Fallbacks.FALLBACKS pdf_path key_to_save save_metadata api_keys pending c
  /\ (pending = [] ->
      dump_loop Fallbacks.FALLBACKS pdf_path key_to_save save_metadata api_keys papers c
      = (Return tt, c)).
Proof.
  cbn zeta.
  assert (Heq := dump_loop_filter Fallbacks.FALLBACKS pdf_path key_to_save save_metadata
                   api_keys (fs (Pdf.cx_world c)) papers strategy_effect c
                   (fun p Hp => Hp)).
  split; [exact Heq|].
  intros Hnil. rewrite Heq, Hnil. reflexivity.
Qed.

Lemma exists_in_absent (f : gmap Path Entry) (p : Path) :
  exists_in f p = false -> f !! p = None.
Proof.
  unfold exists_in. destruct p as [|a p]; [discriminate|].
  change (f !! (a :: p)) with (lookup_fs f (a :: p)).
  destruct (lookup_fs f (a :: p)); intros Hex; [discriminate Hex|reflexivity].
Qed.

Lemma with_suffix_child (pdf_path : Path) (name ext ext' : string) :
  name <> EmptyString -> Py.rfind "." ext = None -> 1 <= String.length ext ->
  Pathlib.with_suffix (Pathlib.child pdf_path (name +:+ "." +:+ ext)) ("." +:+ ext')
  = Pathlib.child pdf_path (name +:+ "." +:+ ext').
Proof.
  intros Hne Hext Hlen. unfold Pathlib.with_suffix, Pathlib.child, Pathlib.parent, Pathlib.name.
  rewrite removelast_last, last_last, stem_of_artifact by assumption. reflexivity.
Qed.

Lemma filename_not_empty (v : string) :
  v <> EmptyString -> Py.replace v "/" "_" <> EmptyString.
Proof.
  intros Hv Hr. apply Hv. rewrite replace_char in Hr.
  assert (Hlen := swap_char_length "/" "_" v). rewrite Hr in Hlen.
  destruct v; [reflexivity|discriminate].
Qed.

(** What the loop adds to the file system, and that it adds only. *)
Lemma dump_loop_adds (F : Fallbacks.Name -> Fallbacks.Strategy) (pdf_path : Path)
    (key_to_save : SaveKey) (save_metadata : bool) (api_keys : gmap string string)
    (papers : list Paper) :
  writes_artifact F ->
  named key_to_save papers ->
  forall c r c',
    dump_loop F pdf_path key_to_save save_metadata api_keys papers c = (r, c') ->
    fs (Pdf.cx_world c) ⊆ fs (Pdf.cx_world c') /\
    forall p e,
      fs (Pdf.cx_world c') !! p = Some e -> fs (Pdf.cx_world c) !! p = None ->
      exists paper ext body,
        In paper papers /\ artifact_of pdf_path key_to_save paper ext = Some p /\
        e = File body /\ ((ext = "pdf" /\ is_pdf body = true) \/ ext = "xml").
Proof.
  intros HF. induction papers as [|paper rest IH]; intros Hnamed c r c' Hrun.
  - injection Hrun as <- <-. split; [reflexivity|].
    intros p e Hsome Hnone. congruence.
  - assert (Hrest : named key_to_save rest).
    { intros q Hq. apply Hnamed. right. exact Hq. }
    assert (Hweak : forall c1,
              (fs (Pdf.cx_world c1) ⊆ fs (Pdf.cx_world c') /\
               forall p e,
                 fs (Pdf.cx_world c') !! p = Some e -> fs (Pdf.cx_world c1) !! p = None ->
                 exists paper0 ext body,
                   In paper0 rest /\ artifact_of pdf_path key_to_save paper0 ext = Some p /\
                   e = File body /\ ((ext = "pdf" /\ is_pdf body = true) \/ ext = "xml")) ->
              fs (Pdf.cx_world c1) = fs (Pdf.cx_world c) ->
              fs (Pdf.cx_world c) ⊆ fs (Pdf.cx_world c') /\
              forall p e,
                fs (Pdf.cx_world c') !! p = Some e -> fs (Pdf.cx_world c) !! p = None ->
                exists paper0 ext body,
                  In paper0 (paper :: rest) /\
                  artifact_of pdf_path key_to_save paper0 ext = Some p /\
                  e = File body /\ ((ext = "pdf" /\ is_pdf body = true) \/ ext = "xml")).
    { intros c1 [Hsub Hnew] Hsame. rewrite <- Hsame. split; [exact Hsub|].
      intros p e Hsome Hnone. destruct (Hnew p e Hsome Hnone) as (q & ext & body & Hq & Hrem).
      exists q, ext, body. split; [right; exact Hq|exact Hrem]. }
    rewrite dump_loop_cons in Hrun.
    destruct (passed_over (fs (Pdf.cx_world c)) pdf_path key_to_save paper) eqn:Hover.
    { exact (Hweak c (IH Hrest _ _ _ Hrun) eq_refl). }
    unfold passed_over in Hover.
    destruct (p_doi paper) as [d|] eqn:Hdoi; [|discriminate].
    destruct (paper_get paper key_to_save) as [v|] eqn:Hkey.
    2: { injection Hrun as <- <-. split; [reflexivity|]. intros p e Hsome Hnone. congruence. }
    apply orb_false_iff in Hover. destruct Hover as [Hnopdf Hnoxml].
    assert (Hv : v <> EmptyString).
    { intros ->. apply (Hnamed paper); [left; reflexivity|congruence|exact Hkey]. }
    assert (Hfn := filename_not_empty v Hv).
    set (fn := Py.replace v "/" "_") in *.
    set (c0 := {| Pdf.cx_world := Pdf.cx_world c; Pdf.cx_trace := Pdf.cx_trace c;
                  Pdf.cx_paper := paper |}) in Hrun.
    assert (Hstep := save_pdf_fs F (Pathlib.child pdf_path (fn +:+ ".pdf"))
                       save_metadata api_keys None c0 HF).
    cbn zeta in Hstep.
    assert (Htail : forall c1 r1,
              Pdf.save_pdf F (Pathlib.child pdf_path (fn +:+ ".pdf")) save_metadata
                api_keys None c0 = (r1, c1) ->
              (fs (Pdf.cx_world c1) ⊆ fs (Pdf.cx_world c') /\
               forall p e,
                 fs (Pdf.cx_world c') !! p = Some e -> fs (Pdf.cx_world c1) !! p = None ->
                 exists paper0 ext body,
                   In paper0 rest /\ artifact_of pdf_path key_to_save paper0 ext = Some p /\
                   e = File body /\ ((ext = "pdf" /\ is_pdf body = true) \/ ext = "xml")) ->
              fs (Pdf.cx_world c) ⊆ fs (Pdf.cx_world c') /\
              forall p e,
                fs (Pdf.cx_world c') !! p = Some e -> fs (Pdf.cx_world c) !! p = None ->
                exists paper0 ext body,
                  In paper0 (paper :: rest) /\
                  artifact_of pdf_path key_to_save paper0 ext = Some p /\
                  e = File body /\ ((ext = "pdf" /\ is_pdf body = true) \/ ext = "xml")).
    { intros c1 r1 Hsave Hafter. rewrite Hsave in Hstep. cbn [snd] in Hstep.
      destruct Hstep as [Hsame|(ext & body & Hext & Hins)].
      { exact (Hweak c1 Hafter Hsame). }
      assert (Hpath : Pathlib.with_suffix (Pathlib.child pdf_path (fn +:+ ".pdf"))
                        ("." +:+ ext)
                      = Pathlib.child pdf_path (fn +:+ "." +:+ ext)).
      { apply (with_suffix_child pdf_path fn "pdf" ext Hfn); [reflexivity|cbn; lia]. }
      assert (Hfresh : fs (Pdf.cx_world c) !! Pathlib.child pdf_path (fn +:+ "." +:+ ext)
                       = None).
      { destruct Hext as [[-> _]| ->].
        - apply exists_in_absent. exact Hnopdf.
        - apply exists_in_absent.
          rewrite <- (with_suffix_child pdf_path fn "pdf" "xml" Hfn eq_refl)
            by (cbn; lia).
          exact Hnoxml. }
      rewrite Hpath in Hins. cbn [c0 Pdf.cx_world] in Hins.
      destruct Hafter as [Hsub Hnew].
      assert (Hfirst : fs (Pdf.cx_world c) ⊆ fs (Pdf.cx_world c1)).
      { rewrite Hins. apply insert_subseteq. exact Hfresh. }
      split; [etransitivity; eassumption|].
      intros p e Hsome Hnone.
      destruct (fs (Pdf.cx_world c1) !! p) as [e1|] eqn:Hmid.
      - assert (Hp : p = Pathlib.child pdf_path (fn +:+ "." +:+ ext)).
        { destruct (decide (Pathlib.child pdf_path (fn +:+ "." +:+ ext) = p)) as [Heq|Hne];
            [symmetry; exact Heq|].
          rewrite Hins, lookup_insert_ne in Hmid by exact Hne. congruence. }
        assert (He1 : e1 = File body).
        { rewrite Hins, Hp, lookup_insert_eq in Hmid. congruence. }
        assert (He : e = e1).
        { pose proof (lookup_weaken _ _ _ _ Hmid Hsub) as Hlook. congruence. }
        exists paper, ext, body. split; [left; reflexivity|].
        split; [|split; [congruence|exact Hext]].
        unfold artifact_of. rewrite Hdoi, Hkey. rewrite Hp. reflexivity.
      - destruct (Hnew p e Hsome Hmid) as (q & ext' & body' & Hq & Hrem).
        exists q, ext', body'. split; [right; exact Hq|exact Hrem]. }
    apply bind_inv in Hrun. destruct Hrun as [(a & c1 & Hsave & Hloop)|(e & Hsave & _)].
    + exact (Htail c1 (Return a) Hsave (IH Hrest _ _ _ Hloop)).
    + apply (Htail c' (Raise e) Hsave). split; [reflexivity|].
      intros p e0 Hsome Hnone. congruence.
Qed.

(** [save_pdf_from_dump] only adds files, provided the keys it names files
    after are not empty and the loaders do not write: every entry of the
    file system is still there and unchanged when the call ends, however
    it ends, and every new entry is a file in the output folder named
    after the key of one of the loaded papers, with the suffix [.pdf]
    (and then it starts with the PDF signature) or [.xml]. *)
Theorem sequential_only_adds (dump_path pdf_path : Path) (key_to_save : SaveKey)
    (save_metadata : bool) (api_keys : option string + gmap string string)
    (papers : list Paper) (c : Pdf.Ctx) :
  reads_only (load_jsonl dump_path) ->
  (forall p, reads_only (load_api_keys p)) ->
  fst (load_jsonl dump_path (Pdf.cx_world c)) = Return papers ->
  named key_to_save papers ->
  let run := save_pdf_from_dump load_jsonl load_api_keys Fallbacks.FALLBACKS dump_path
               pdf_path key_to_save save_metadata api_keys c in
  fs (Pdf.cx_world c) ⊆ fs (Pdf.cx_world (snd run)) /\
  forall p e,
    fs (Pdf.cx_world (snd run)) !! p = Some e -> fs (Pdf.cx_world c) !! p = None ->
    exists paper ext body,
      In paper papers /\ artifact_of pdf_path key_to_save paper ext = Some p /\
      e = File body /\ ((ext = "pdf" /\ is_pdf body = true) \/ ext = "xml").
Proof.
  intros Hload Hkeys Hpapers Hnamed. cbn zeta.
  destruct (save_pdf_from_dump load_jsonl load_api_keys Fallbacks.FALLBACKS dump_path
              pdf_path key_to_save save_metadata api_keys c) as [r c'] eqn:Hrun.
  cbn [snd]. unfold save_pdf_from_dump in Hrun.
  assert (Hstay : forall r0, (r0, c) = (r, c') ->
            fs (Pdf.cx_world c) ⊆ fs (Pdf.cx_world c') /\
            forall p e,
              fs (Pdf.cx_world c') !! p = Some e -> fs (Pdf.cx_world c) !! p = None ->
              exists paper ext body,
                In paper papers /\ artifact_of pdf_path key_to_save paper ext = Some p /\
                e = File body /\ ((ext = "pdf" /\ is_pdf body = true) \/ ext = "xml")).
  { intros r0 [= _ <-]. split; [reflexivity|]. intros p e Hsome Hnone. congruence. }
  destruct (negb (Py.endswith (Pathlib.as_posix dump_path) ".jsonl")).
  { exact (Hstay _ Hrun). }
  destruct c as [w tr p0]. cbn [Pdf.cx_world] in *.
  unfold bind at 1 in Hrun. unfold Pdf.in_world at 1 in Hrun. cbn [Pdf.cx_world] in Hrun.
  specialize (Hload w).
  destruct (load_jsonl dump_path w) as [rl w1] eqn:Hl. cbn [fst snd] in Hpapers, Hload.
  subst rl. cbn [Pdf.cx_trace Pdf.cx_paper] in Hrun.
  assert (Hloop : forall ak c1,
            fs (Pdf.cx_world c1) = fs w ->
            dump_loop Fallbacks.FALLBACKS pdf_path key_to_save save_metadata ak papers c1
            = (r, c') ->
            fs w ⊆ fs (Pdf.cx_world c') /\
            forall p e,
              fs (Pdf.cx_world c') !! p = Some e -> fs w !! p = None ->
              exists paper ext body,
                In paper papers /\ artifact_of pdf_path key_to_save paper ext = Some p /\
                e = File body /\ ((ext = "pdf" /\ is_pdf body = true) \/ ext = "xml")).
  { intros ak c1 Hsame Hdl. rewrite <- Hsame.
    exact (dump_loop_adds Fallbacks.FALLBACKS pdf_path key_to_save save_metadata ak papers
             strategy_effect Hnamed c1 r c' Hdl). }
  destruct api_keys as [path|d].
  - unfold bind at 1 in Hrun. unfold Pdf.in_world at 1 in Hrun. cbn [Pdf.cx_world] in Hrun.
    specialize (Hkeys path w1).
    destruct (load_api_keys path w1) as [[ak|e] w2] eqn:Hk; cbn [snd] in Hkeys;
      cbn [Pdf.cx_trace Pdf.cx_paper] in Hrun.
    + refine (Hloop ak {| Pdf.cx_world := w2; Pdf.cx_trace := tr; Pdf.cx_paper := p0 |} _ Hrun).
      exact (eq_trans Hkeys Hload).
    + injection Hrun as <- <-. cbn [Pdf.cx_world]. rewrite Hkeys, Hload.
      split; [reflexivity|]. intros p e0 Hsome Hnone. congruence.
  - unfold bind at 1, ret at 1 in Hrun.
    refine (Hloop d {| Pdf.cx_world := w1; Pdf.cx_trace := tr; Pdf.cx_paper := p0 |} _ Hrun).
    exact Hload.
Qed.

End Sequential.

Lemma demo_loader_reads_only `{Lib} (p : Path) : reads_only (Demo7.load_jsonl p).
Proof.
  intros w. unfold Demo7.load_jsonl, bind, Pdf.read_file, lift.
  destruct (lookup_fs (fs w) p) as [[data|]|]; reflexivity.
Qed.

Lemma sequential_only_adds_witness :
  let run := save_pdf_from_dump (Demo7.load_jsonl (H := Sample.lib)) Demo7.load_api_keys
               (Fallbacks.FALLBACKS (H := Sample.lib)) Demo5.dump_path Demo5.pdf_path
               KeyDoi false (inl None) Demo8.start in
  fs (Pdf.cx_world Demo8.start) ⊆ fs (Pdf.cx_world (snd run)) /\
  forall p e,
    fs (Pdf.cx_world (snd run)) !! p = Some e ->
    fs (Pdf.cx_world Demo8.start) !! p = None ->
    exists paper ext body,
      In paper Demo8.papers_two /\ artifact_of Demo5.pdf_path KeyDoi paper ext = Some p /\
      e = File body /\ ((ext = "pdf" /\ is_pdf body = true) \/ ext = "xml").
Proof.
  refine (sequential_only_adds (H := Sample.lib) (Demo7.load_jsonl (H := Sample.lib))
            Demo7.load_api_keys Demo5.dump_path Demo5.pdf_path KeyDoi false (inl None)
            Demo8.papers_two Demo8.start _ _ _ _).
  - apply demo_loader_reads_only.
  - intros p w. reflexivity.
  - vm_compute. reflexivity.
  - intros paper [<-|[<-|[]]] _; discriminate.
Defined.

(** The driver downloads both papers of the dump; run again on what it
    left, it finds both files and sends no further request. *)
Example sequential_second_run_is_idle :
  let first := Demo8.run Demo8.start in
  let second := Demo8.run (snd first) in
  fst first = Return tt /\
  fs (Pdf.cx_world (snd first)) !! ["out"; "kw"; "10.1000_xyz.pdf"]
    = Some (File "%PDF-1.7 xyz") /\
  fs (Pdf.cx_world (snd first)) !! ["out"; "kw"; "10.1000_abc.pdf"]
    = Some (File "%PDF-1.7 abc") /\
  List.length (http_log (Pdf.cx_world (snd first))) = 4 /\
  fst second = Return tt /\
  List.length (http_log (Pdf.cx_world (snd second))) = 4 /\
  Pdf.cx_trace (snd second) = Pdf.cx_trace (snd first).
Proof. vm_compute. repeat split; reflexivity. Qed.

(** The driver does not create the output folder: without it the first
    pending paper ends the run with [ValueError], before any request. *)
Example sequential_without_folder :
  let start := {| Pdf.cx_world := with_fs (Demo5.world Demo5.dump_two [])
                                    (<[Demo5.dump_path := File Demo5.dump_two]> ∅);
                  Pdf.cx_trace := []; Pdf.cx_paper := Demo.paper_xyz |} in
  let run := Demo8.run start in
  fst run = Raise ValueError /\
  http_log (Pdf.cx_world (snd run)) = [].
Proof. vm_compute. split; reflexivity. Qed.

(** ** A dump with nothing to download *)

Section Idle.
Context `{Lib}.

(** When no record of the dump is to be downloaded (none is flagged as
    relevant without being successful already), [save_pdf_from_dump_new]
    starts no task and sends no request: it enters the flush, which opens
    the dump anew and writes the records of the loaded mapping one after
    the other.  When no write fails, the call hands control back and the
    dump holds one line for each record, in the order of the mapping; when
    a write fails, the call raises the error of that write and the dump
    holds the lines written before it. *)
Theorem orchestrator_nothing_scheduled (F : Fallbacks.Name -> Fallbacks.Strategy)
    (as_completed : list (option string) -> list (option string * bool))
    (dump_path pdf_path : Path) (key_to_save : SaveKey) (save_metadata : bool)
    (api_keys : gmap string string) (max_pdf_num : nat)
    (ip_pool : option (option string)) (o : Pdf.Orch)
    (data : string) (d0 : list (option string * Paper)) :
  as_completed [] = [] ->
  Py.endswith (Pathlib.as_posix dump_path) ".jsonl" = true ->
  fs (Pdf.o_world o) !! dump_path = Some (File data) ->
  is_dir_in (fs (Pdf.o_world o)) (Pathlib.parent dump_path) = true ->
  Pdf.load_lines (Pdf.readlines data) [] = Return d0 ->
  Forall (fun kp => scheduled (snd kp) = false) d0 ->
  let run := Pdf.save_pdf_from_dump_new F as_completed dump_path pdf_path key_to_save
               save_metadata api_keys max_pdf_num ip_pool (Some tt) o in
  Pdf.metadict (snd run) = d0 /\
  Pdf.o_trace (snd run) = Pdf.o_trace o ++ [Pdf.Flushed] /\
  http_log (Pdf.o_world (snd run)) = http_log (Pdf.o_world o) /\
  s3_log (Pdf.o_world (snd run)) = s3_log (Pdf.o_world o) /\
  match first_fault (write_faults (Pdf.o_world o)) (List.length d0) with
  | None =>
      (exists t, fst run = Return t) /\
      fs (Pdf.o_world (snd run))
      = <[dump_path := File (String.concat EmptyString (lines_of d0))]>
          (fs (Pdf.o_world o))
  | Some (k, e) =>
      fst run = Raise e /\
      fs (Pdf.o_world (snd run))
      = <[dump_path := File (String.concat EmptyString (take k (lines_of d0)))]>
          (fs (Pdf.o_world o))
  end.
Proof.
  intros Hnone Hext Hfile Hparent Hload Hidle. cbn zeta.
  destruct (Pdf.save_pdf_from_dump_new F as_completed dump_path pdf_path key_to_save
              save_metadata api_keys max_pdf_num ip_pool (Some tt) o) as [r o'] eqn:Hrun.
  cbn [fst snd].
  unfold Pdf.save_pdf_from_dump_new in Hrun. rewrite Hext in Hrun. cbn [negb] in Hrun.
  unfold bind at 1, Pdf.set_metadict at 1 in Hrun.
  unfold bind at 1, Pdf.orch_world at 1, path_exists in Hrun.
  cbn [Pdf.o_world Pdf.o_trace Pdf.metadict] in Hrun.
  assert (Hthere : exists_in (fs (Pdf.o_world o)) dump_path = true).
  { unfold exists_in, lookup_fs. destruct dump_path; [reflexivity|]. rewrite Hfile.
    reflexivity. }
  rewrite Hthere in Hrun.
  unfold bind at 1 in Hrun.
  rewrite (load_present dump_path data d0
             {| Pdf.o_world := Pdf.o_world o; Pdf.o_trace := Pdf.o_trace o;
                Pdf.metadict := [] |} Hfile Hload) in Hrun.
  cbn [Pdf.o_world Pdf.o_trace] in Hrun.
  unfold bind at 1, Pdf.get_metadict at 1 in Hrun. cbn [Pdf.metadict] in Hrun.
  assert (Hno : List.filter
                  (fun kp : option string * Paper =>
                     (truthy (p_is_materials (snd kp))
                      && negb (truthy (p_success (snd kp))))%bool) d0 = []).
  { clear -Hidle. induction Hidle as [|kp d Hkp _ IH]; [reflexivity|].
    cbn [List.filter]. unfold scheduled in Hkp. rewrite Hkp. exact IH. }
  rewrite Hno in Hrun. cbn [List.map] in Hrun. rewrite Hnone in Hrun.
  unfold bind at 1 in Hrun. cbn [Pdf.completion_loop] in Hrun. unfold ret at 1 in Hrun.
  assert (Hnd : is_dir_in (fs (Pdf.o_world o)) dump_path = false).
  { unfold is_dir_in, lookup_fs. destruct dump_path; [discriminate|]. rewrite Hfile.
    reflexivity. }
  pose proof (flush_cases dump_path
                {| Pdf.o_world := Pdf.o_world o; Pdf.o_trace := Pdf.o_trace o;
                   Pdf.metadict := d0 |}) as Hf.
  cbn zeta in Hf. cbn [Pdf.o_world Pdf.o_trace Pdf.metadict] in Hf.
  unfold writable in Hf. rewrite Hnd, Hparent in Hf. cbn [negb andb] in Hf.
  unfold bind at 1 in Hrun.
  destruct (Pdf.f_save_metadata dump_path _) as [rf o3]. cbn [fst snd] in Hf.
  destruct Hf as (Ftr & Fmd & [Fhttp Fs3] & Hf).
  destruct (first_fault (write_faults (Pdf.o_world o)) (List.length d0)) as [[k e]|].
  - destruct Hf as [-> Hfs]. injection Hrun as <- <-. repeat split; assumption.
  - destruct Hf as [-> Hfs]. unfold bind, Pdf.orch_world, is_set in Hrun.
    destruct (stop_answers (Pdf.o_world o3)) as [|[|] answers];
      injection Hrun as <- <-; cbn; (repeat split; eauto).
Qed.

End Idle.

Lemma orchestrator_nothing_scheduled_witness :
  let run := Pdf.save_pdf_from_dump_new (H := Sample.lib)
               (Fallbacks.FALLBACKS (H := Sample.lib)) Demo5.one_by_one Demo5.dump_path
               Demo5.pdf_path KeyDoi false ∅ 500 None (Some tt)
               (Demo5.start Demo5.dump_done []) in
  Pdf.metadict (snd run) = [(Some "10.1000/xyz", Demo6.paper_of "10.1000/xyz" true)] /\
  Pdf.o_trace (snd run) = Pdf.o_trace (Demo5.start Demo5.dump_done []) ++ [Pdf.Flushed] /\
  http_log (Pdf.o_world (snd run))
    = http_log (Pdf.o_world (Demo5.start Demo5.dump_done [])) /\
  s3_log (Pdf.o_world (snd run)) = s3_log (Pdf.o_world (Demo5.start Demo5.dump_done [])) /\
  (exists t, fst run = Return t) /\
  fs (Pdf.o_world (snd run))
    = <[Demo5.dump_path := File ("10.1000/xyz|true|None|None" +:+ Demo5.newline)]>
        (fs (Pdf.o_world (Demo5.start Demo5.dump_done []))).
Proof.
  refine (orchestrator_nothing_scheduled (H := Sample.lib)
            (Fallbacks.FALLBACKS (H := Sample.lib)) Demo5.one_by_one Demo5.dump_path
            Demo5.pdf_path KeyDoi false ∅ 500 None (Demo5.start Demo5.dump_done [])
            Demo5.dump_done [(Some "10.1000/xyz", Demo6.paper_of "10.1000/xyz" true)]
            _ _ _ _ _ _).
  - reflexivity.
  - vm_compute. reflexivity.
  - vm_compute. reflexivity.
  - vm_compute. reflexivity.
  - vm_compute. reflexivity.
  - repeat constructor.
Defined.

(** The same dump on a device that refuses the first write: the call
    raises and leaves the dump empty. *)
Example nothing_scheduled_write_fails :
  let run := Pdf.save_pdf_from_dump_new (H := Sample.lib)
               (Fallbacks.FALLBACKS (H := Sample.lib)) Demo5.one_by_one Demo5.dump_path
               Demo5.pdf_path KeyDoi false ∅ 500 None (Some tt)
               {| Pdf.o_world := with_faults (Demo5.world Demo5.dump_done []) [Some OSError];
                  Pdf.o_trace := []; Pdf.metadict := [] |} in
  fst run = Raise OSError /\
  fs (Pdf.o_world (snd run)) !! Demo5.dump_path = Some (File EmptyString).
Proof. vm_compute. repeat split. Qed.

(** ** The addresses of the DOI and Sci-Hub strategies *)

Section Addresses.
Context `{Lib}.




End Addresses.

(** The resolver's page names the PDF; both requests are logged and the
    address of the second is returned. *)
Example doi_two_requests :
  let run := Fallbacks.fallback_doi (H := Sample.lib) "10.1000/xyz" Demo.out_xyz None
               Demo.world_doi_pdf in
  fst run = Return (true, Some "https://pub.example/xyz.pdf") /\
  List.map req_url (http_log (snd run))
    = ["https://doi.org/10.1000/xyz"; "https://pub.example/xyz.pdf"].
Proof. vm_compute. split; reflexivity. Qed.

(** A page without [iframe] whose [embed] has a protocol-relative address:
    the scheme is put in front. *)
Example sci_hub_protocol_relative :
  let w := with_fs (with_http Sample.empty_world
                      [Sample.ok "<html><embed type=pdf src=//cdn.example/xyz.pdf";
                       Sample.ok "%PDF-1.4 mirror"] [])
             Demo.out_dirs in
  let run := Fallbacks.fallback_sci_hub (H := Sample.lib) "10.1000/xyz" Demo.out_xyz None w in
  fst run = Return (true, Some "https://cdn.example/xyz.pdf") /\
  List.map req_url (http_log (snd run))
    = ["https://www.sci-hub.ren/10.1000/xyz#"; "https://cdn.example/xyz.pdf"] /\
  fs (snd run) !! Demo.out_xyz = Some (File "%PDF-1.4 mirror").
Proof. vm_compute. repeat split; reflexivity. Qed.

(** ** Resuming the keyword driver *)

Section Resume.
Context {S : Type}.
Variable ignore_sigint : ST S unit.
Variable mkdir_roots : ST S unit.
Variable load_keywords : ST S Driver.Keywords.
Variable mkdir_category : string -> ST S unit.
Variable mkdir_subcategory : string -> string -> ST S unit.
Variable mkdir_keyword : string -> string -> string -> ST S unit.
Variable download_keyword : string -> string -> string -> ST S unit.
Variable write_record : string -> ST S unit.

Local Abbreviation keyword_body :=
  (Driver.keyword_body mkdir_keyword download_keyword write_record).
Local Abbreviation keyword_loop :=
  (Driver.keyword_loop mkdir_keyword download_keyword write_record).
Local Abbreviation subcategory_loop :=
  (Driver.subcategory_loop mkdir_subcategory mkdir_keyword download_keyword write_record).
Local Abbreviation category_loop :=
  (Driver.category_loop mkdir_category mkdir_subcategory mkdir_keyword download_keyword
     write_record).
Local Abbreviation walk :=
  (Driver.walk mkdir_category mkdir_subcategory mkdir_keyword download_keyword write_record).
Local Abbreviation prepare := (Driver.prepare mkdir_category mkdir_subcategory mkdir_keyword).
Local Abbreviation process :=
  (Driver.process mkdir_category mkdir_subcategory mkdir_keyword download_keyword
     write_record).

Lemma bind_assoc {T A B C} (m : ST T A) (f : A -> ST T B) (g : B -> ST T C) (s : T) :
  bind (bind m f) g s = bind m (fun a => bind (f a) g) s.
Proof. unfold bind. destruct (m s) as [[a|e] s1]; reflexivity. Qed.

Lemma bind_ext {T A B} (m : ST T A) (f g : A -> ST T B) (s : T) :
  (forall a s1, f a s1 = g a s1) -> bind m f s = bind m g s.
Proof. intros Hfg. unfold bind. destruct (m s) as [[a|e] s1]; [apply Hfg|reflexivity]. Qed.

Lemma bind_cong {T A B} (m m' : ST T A) (f g : A -> ST T B) (s : T) :
  m s = m' s -> (forall a s1, f a s1 = g a s1) -> bind m f s = bind m' g s.
Proof.
  intros Hm Hfg. unfold bind. rewrite Hm.
  destruct (m' s) as [[a|e] s1]; [apply Hfg|reflexivity].
Qed.

Lemma bind_ret_r {T} (m : ST T unit) (s : T) : bind m (fun _ => ret tt) s = m s.
Proof. unfold bind, ret. destruct (m s) as [[[]|e] s1]; reflexivity. Qed.

Lemma walk_app (ps qs : list Driver.Place) (d : Driver.State S) :
  walk (ps ++ qs) d = bind (walk ps) (fun _ => walk qs) d.
Proof.
  revert d. induction ps as [|p ps IH]; intros d; [reflexivity|].
  cbn [app Driver.walk]. rewrite bind_assoc. apply bind_ext. intros _ d1. apply IH.
Qed.

Lemma keyword_loop_walk (category cn : string) (keywords : list string)
    (d : Driver.State S) :
  keyword_loop category cn keywords d
  = walk (List.map (Driver.AtKeyword category cn) keywords) d.
Proof.
  revert d. induction keywords as [|k ks IH]; intros d; [reflexivity|].
  cbn [Driver.keyword_loop List.map Driver.walk]. apply bind_ext. intros _ d1. apply IH.
Qed.

Lemma subcategory_loop_walk (category : string) (subs : list (string * list string))
    (d : Driver.State S) :
  subcategory_loop category subs d
  = walk (List.flat_map (Driver.places_of_subcategory category) subs) d.
Proof.
  revert d. induction subs as [|[subcategory keywords] subs IH]; intros d; [reflexivity|].
  cbn [Driver.subcategory_loop List.flat_map Driver.places_of_subcategory fst snd app
       Driver.walk].
  apply bind_ext. intros _ d1. rewrite walk_app.
  apply bind_cong; [apply keyword_loop_walk|]. intros _ d2. apply IH.
Qed.

Lemma category_loop_walk (keywords_data : Driver.Keywords) (d : Driver.State S) :
  category_loop keywords_data d = walk (Driver.places keywords_data) d.
Proof.
  revert d. induction keywords_data as [|[category category_data] rest IH]; intros d;
    [reflexivity|].
  unfold Driver.places in *.
  cbn [Driver.category_loop List.flat_map fst snd app Driver.walk].
  apply bind_ext. intros _ d1. rewrite walk_app.
  apply bind_cong; [|intros _ d2; apply IH].
  destruct category_data as [subs|]; [apply subcategory_loop_walk|reflexivity].
Qed.

(** A keyword that is not the recorded one, before the driver runs: its
    folder is made and nothing else. *)
Lemma keyword_body_skip (category cn keyword word : string) (s : S) :
  word <> EmptyString -> keyword <> word ->
  keyword_body category cn keyword
    {| Driver.env := s;
       Driver.globals := {| Driver.current_pdf_word := word; Driver.running_pdf := false |} |}
  = Driver.in_env (mkdir_keyword category cn keyword)
      {| Driver.env := s;
         Driver.globals := {| Driver.current_pdf_word := word;
                              Driver.running_pdf := false |} |}.
Proof.
  intros Hword Hne. unfold Driver.keyword_body, bind, Driver.in_env, Driver.get_globals.
  cbn [Driver.env Driver.globals].
  destruct (mkdir_keyword category cn keyword s) as [[[]|e] s1]; [|reflexivity].
  cbn [Driver.env Driver.globals Driver.current_pdf_word Driver.running_pdf].
  apply String.eqb_neq in Hword. rewrite Hword. unfold ret.
  cbn [Driver.env Driver.globals Driver.current_pdf_word Driver.running_pdf].
  assert (Hkw : (word =? keyword)%string = false).
  { apply String.eqb_neq. congruence. }
  rewrite Hkw. reflexivity.
Qed.

(** The recorded keyword itself: its folder is made and the driver starts
    running, without downloading it again. *)
Lemma keyword_body_hit (category cn word : string) (s : S) :
  word <> EmptyString ->
  keyword_body category cn word
    {| Driver.env := s;
       Driver.globals := {| Driver.current_pdf_word := word; Driver.running_pdf := false |} |}
  = bind (Driver.in_env (mkdir_keyword category cn word)) (fun _ => Driver.set_running true)
      {| Driver.env := s;
         Driver.globals := {| Driver.current_pdf_word := word;
                              Driver.running_pdf := false |} |}.
Proof.
  intros Hword. unfold Driver.keyword_body, bind, Driver.in_env, Driver.get_globals.
  cbn [Driver.env Driver.globals].
  destruct (mkdir_keyword category cn word s) as [[[]|e] s1]; [|reflexivity].
  cbn [Driver.env Driver.globals Driver.current_pdf_word Driver.running_pdf].
  apply String.eqb_neq in Hword. rewrite Hword. unfold ret.
  cbn [Driver.env Driver.globals Driver.current_pdf_word Driver.running_pdf].
  rewrite String.eqb_refl. reflexivity.
Qed.

(** While the driver runs, every keyword is downloaded and recorded. *)
Lemma keyword_body_running (category cn keyword : string) (d : Driver.State S) :
  Driver.running_pdf (Driver.globals d) = true ->
  keyword_body category cn keyword d
  = (do* Driver.in_env (mkdir_keyword category cn keyword) in
     do* Driver.in_env (download_keyword category cn keyword) in
     do* Driver.in_env (write_record keyword) in
     Driver.set_current keyword) d
  /\ forall r d', keyword_body category cn keyword d = (r, d') ->
                  Driver.running_pdf (Driver.globals d') = true.
Proof.
  destruct d as [s [word running]]. cbn [Driver.globals Driver.running_pdf]. intros ->.
  unfold Driver.keyword_body, bind, Driver.in_env, Driver.get_globals.
  cbn [Driver.env Driver.globals].
  destruct (mkdir_keyword category cn keyword s) as [[[]|e] s1].
  2: { split; [reflexivity|]. intros r d' [= <- <-]. reflexivity. }
  cbn [Driver.env Driver.globals Driver.current_pdf_word Driver.running_pdf].
  assert (Hfirst : forall b : bool,
            (if b then Driver.set_running (S := S) true else ret tt)
              {| Driver.env := s1;
                 Driver.globals := {| Driver.current_pdf_word := word;
                                      Driver.running_pdf := true |} |}
            = (Return tt, {| Driver.env := s1;
                             Driver.globals := {| Driver.current_pdf_word := word;
                                                  Driver.running_pdf := true |} |})).
  { intros []; reflexivity. }
  rewrite Hfirst. cbn [Driver.env Driver.globals Driver.current_pdf_word Driver.running_pdf].
  destruct (download_keyword category cn keyword s1) as [[[]|e] s2].
  2: { split; [reflexivity|]. intros r d' [= <- <-]. reflexivity. }
  cbn [Driver.env Driver.globals].
  destruct (write_record keyword s2) as [[[]|e] s3].
  2: { split; [reflexivity|]. intros r d' [= <- <-]. reflexivity. }
  unfold Driver.set_current.
  cbn [Driver.env Driver.globals Driver.current_pdf_word Driver.running_pdf].
  rewrite String.eqb_refl. split; [reflexivity|]. intros r d' [= <- <-]. reflexivity.
Qed.

Lemma bind_ext_on {T A B} (m : ST T A) (f g : A -> ST T B) (s : T) :
  (forall a s1, m s = (Return a, s1) -> f a s1 = g a s1) -> bind m f s = bind m g s.
Proof.
  intros Hfg. unfold bind. destruct (m s) as [[a|e] s1]; [apply Hfg|]; reflexivity.
Qed.

Lemma in_env_globals {A} (m : ST S A) (d : Driver.State S) (r : result A)
    (d' : Driver.State S) :
  Driver.in_env m d = (r, d') -> Driver.globals d' = Driver.globals d.
Proof.
  unfold Driver.in_env. destruct (m (Driver.env d)) as [r1 s1]. intros [= _ <-]. reflexivity.
Qed.

Lemma walk_running (ps : list Driver.Place) (d : Driver.State S) :
  Driver.running_pdf (Driver.globals d) = true -> walk ps d = process ps d.
Proof.
  revert d. induction ps as [|p ps IH]; intros d Hrun; [reflexivity|].
  cbn [Driver.walk Driver.process].
  destruct p as [category|category cn|category cn keyword].
  - apply bind_ext_on. intros a d1 Hstep. apply IH.
    rewrite (in_env_globals _ _ _ _ Hstep). exact Hrun.
  - apply bind_ext_on. intros a d1 Hstep. apply IH.
    rewrite (in_env_globals _ _ _ _ Hstep). exact Hrun.
  - destruct (keyword_body_running category cn keyword d Hrun) as [Heq Hkeep].
    transitivity (bind (keyword_body category cn keyword) (fun _ => process ps) d).
    + apply bind_ext_on. intros a d1 Hstep. apply IH. exact (Hkeep _ _ Hstep).
    + apply bind_cong; [exact Heq|reflexivity].
Qed.

(** Before the recorded keyword, only folders are made. *)
Lemma walk_before (word : string) (ps : list Driver.Place) (s : S) :
  word <> EmptyString ->
  Forall (fun p => Driver.keyword_of p <> Some word) ps ->
  walk ps {| Driver.env := s;
             Driver.globals := {| Driver.current_pdf_word := word;
                                  Driver.running_pdf := false |} |}
  = Driver.in_env (prepare ps)
      {| Driver.env := s;
         Driver.globals := {| Driver.current_pdf_word := word;
                              Driver.running_pdf := false |} |}.
Proof.
  intros Hword Hps. revert s. induction Hps as [|p ps Hp _ IH]; intros s; [reflexivity|].
  cbn [Driver.walk Driver.prepare].
  assert (Hstep : forall m : ST S unit,
            bind (Driver.in_env m) (fun _ => walk ps)
              {| Driver.env := s;
                 Driver.globals := {| Driver.current_pdf_word := word;
                                      Driver.running_pdf := false |} |}
            = Driver.in_env (bind m (fun _ => prepare ps))
                {| Driver.env := s;
                   Driver.globals := {| Driver.current_pdf_word := word;
                                        Driver.running_pdf := false |} |}).
  { intros m. unfold bind, Driver.in_env. cbn [Driver.env Driver.globals].
    destruct (m s) as [[[]|e] s1]; [|reflexivity]. rewrite IH. reflexivity. }
  destruct p as [category|category cn|category cn keyword].
  - apply Hstep.
  - apply Hstep.
  - rewrite <- Hstep. apply bind_cong; [|reflexivity].
    apply keyword_body_skip; [exact Hword|]. intros ->. apply Hp. reflexivity.
Qed.

Lemma prepare_app (ps qs : list Driver.Place) (s : S) :
  prepare (ps ++ qs) s = bind (prepare ps) (fun _ => prepare qs) s.
Proof.
  revert s. induction ps as [|p ps IH]; intros s; [reflexivity|].
  cbn [app Driver.prepare]. rewrite bind_assoc. apply bind_ext. intros _ s1. apply IH.
Qed.

(** Started with a recorded keyword, the loops of [download_pdf] make
    the folders of everything up to and including the first place of that
    keyword and download nothing there, the recorded keyword included; from
    the next place on they download and record every keyword. *)
Theorem driver_resumes_after_record (keywords_data : Driver.Keywords)
    (pre post : list Driver.Place) (category cn word : string) (s : S) :
  word <> EmptyString ->
  Driver.places keywords_data = pre ++ Driver.AtKeyword category cn word :: post ->
  Forall (fun p => Driver.keyword_of p <> Some word) pre ->
  let start := {| Driver.env := s;
                  Driver.globals := {| Driver.current_pdf_word := word;
                                       Driver.running_pdf := false |} |} in
  category_loop keywords_data start
  = (do* Driver.in_env (prepare (pre ++ [Driver.AtKeyword category cn word])) in
     do* Driver.set_running true in
     process post) start.
Proof.
  intros Hword Hsplit Hpre. cbn zeta.
  rewrite category_loop_walk, Hsplit, walk_app.
  unfold bind. rewrite (walk_before word pre s Hword Hpre).
  unfold Driver.in_env. cbn [Driver.env Driver.globals].
  rewrite prepare_app. unfold bind.
  destruct (prepare pre s) as [[[]|e] s1]; [|reflexivity].
  cbn [Driver.walk Driver.prepare]. unfold bind.
  rewrite (keyword_body_hit category cn word s1 Hword).
  unfold bind, Driver.in_env, ret. cbn [Driver.env Driver.globals].
  destruct (mkdir_keyword category cn word s1) as [[[]|e] s2]; [|reflexivity].
  unfold Driver.set_running.
  cbn [Driver.env Driver.globals Driver.current_pdf_word Driver.running_pdf].
  apply walk_running. reflexivity.
Qed.

(** Started with a recorded keyword that the key file does not list,
    [download_pdf] downloads nothing and records nothing: it makes the
    folders and returns its message of completion like a run that had
    downloaded everything. *)
Theorem driver_stale_record (keywords_data : Driver.Keywords) (word : string)
    (s s1 s2 s3 s4 : S) :
  word <> EmptyString ->
  ignore_sigint s = (Return tt, s1) ->
  mkdir_roots s1 = (Return tt, s2) ->
  load_keywords s2 = (Return keywords_data, s3) ->
  Forall (fun p => Driver.keyword_of p <> Some word) (Driver.places keywords_data) ->
  prepare (Driver.places keywords_data) s3 = (Return tt, s4) ->
  Driver.download_pdf ignore_sigint mkdir_roots load_keywords mkdir_category
    mkdir_subcategory mkdir_keyword download_keyword write_record
    {| Driver.env := s;
       Driver.globals := {| Driver.current_pdf_word := word; Driver.running_pdf := false |} |}
  = (Return Driver.Message,
     {| Driver.env := s4;
        Driver.globals := {| Driver.current_pdf_word := word;
                             Driver.running_pdf := false |} |}).
Proof.
  intros Hword Hsig Hroots Hload Hnone Hprep.
  unfold Driver.download_pdf. unfold bind at 1. unfold Driver.in_env at 1.
  cbn [Driver.env Driver.globals]. rewrite Hsig.
  unfold bind at 1. rewrite try_bind. unfold Driver.in_env at 1.
  cbn [Driver.env Driver.globals]. rewrite Hroots.
  rewrite try_bind. unfold Driver.in_env at 1. cbn [Driver.env Driver.globals].
  rewrite Hload. rewrite try_bind, category_loop_walk.
  rewrite (walk_before word _ s3 Hword Hnone).
  unfold Driver.in_env at 1. cbn [Driver.env Driver.globals]. rewrite Hprep.
  reflexivity.
Qed.

End Resume.

Lemma driver_resumes_after_record_witness :
  let start := {| Driver.env := @nil string;
                  Driver.globals := {| Driver.current_pdf_word := "steel";
                                       Driver.running_pdf := false |} |} in
  Demo9.loops start
  = (do* Driver.in_env
           (Driver.prepare Demo9.mkdir_category Demo9.mkdir_subcategory Demo9.mkdir_keyword
              ([Driver.AtCategory "metals"; Driver.AtSubcategory "metals" "alloys"]
               ++ [Driver.AtKeyword "metals" "alloys" "steel"])) in
     do* Driver.set_running true in
     Driver.process Demo9.mkdir_category Demo9.mkdir_subcategory Demo9.mkdir_keyword
       Demo9.download_keyword Demo9.write_record
       [Driver.AtKeyword "metals" "alloys" "brass"; Driver.AtSubcategory "metals" "oxides";
        Driver.AtKeyword "metals" "oxides" "rust"; Driver.AtCategory "misc"]) start.
Proof.
  refine (driver_resumes_after_record Demo9.mkdir_category Demo9.mkdir_subcategory
            Demo9.mkdir_keyword Demo9.download_keyword Demo9.write_record Demo9.keys
            [Driver.AtCategory "metals"; Driver.AtSubcategory "metals" "alloys"]
            [Driver.AtKeyword "metals" "alloys" "brass"; Driver.AtSubcategory "metals" "oxides";
             Driver.AtKeyword "metals" "oxides" "rust"; Driver.AtCategory "misc"]
            "metals" "alloys" "steel" [] _ _ _).
  - discriminate.
  - reflexivity.
  - repeat constructor; discriminate.
Defined.

Lemma driver_stale_record_witness :
  Demo9.download_pdf (Demo9.start "copper")
  = (Return Driver.Message,
     {| Driver.env := ["ignore SIGINT"; "mkdir doi, pdf"; "load target_keys.json";
                       "mkdir metals"; "mkdir metals/alloys"; "mkdir metals/alloys/steel";
                       "mkdir metals/alloys/brass"; "mkdir metals/oxides";
                       "mkdir metals/oxides/rust"; "mkdir misc"];
        Driver.globals := {| Driver.current_pdf_word := "copper";
                             Driver.running_pdf := false |} |}).
Proof.
  refine (driver_stale_record Demo9.ignore_sigint Demo9.mkdir_roots Demo9.load_keywords
            Demo9.mkdir_category Demo9.mkdir_subcategory
            Demo9.mkdir_keyword Demo9.download_keyword Demo9.write_record Demo9.keys
            "copper" [] ["ignore SIGINT"] ["ignore SIGINT"; "mkdir doi, pdf"]
            ["ignore SIGINT"; "mkdir doi, pdf"; "load target_keys.json"] _ _ _ _ _ _ _).
  - discriminate.
  - reflexivity.
  - reflexivity.
  - reflexivity.
  - repeat constructor; discriminate.
  - reflexivity.
Defined.

(** What the driver does after "steel" was recorded, and what it does when
    the record names a keyword that is not in the file. *)
Example driver_after_steel :
  Driver.env (snd (Demo9.loops (Demo9.start "steel")))
  = ["mkdir metals"; "mkdir metals/alloys"; "mkdir metals/alloys/steel";
     "mkdir metals/alloys/brass"; "download brass"; "record brass";
     "mkdir metals/oxides"; "mkdir metals/oxides/rust"; "download rust"; "record rust";
     "mkdir misc"] /\
  Driver.globals (snd (Demo9.loops (Demo9.start "steel")))
  = {| Driver.current_pdf_word := "rust"; Driver.running_pdf := true |}.
Proof. vm_compute. split; reflexivity. Qed.

Example driver_after_unknown_word :
  Driver.env (snd (Demo9.loops (Demo9.start "copper")))
  = ["mkdir metals"; "mkdir metals/alloys"; "mkdir metals/alloys/steel";
     "mkdir metals/alloys/brass"; "mkdir metals/oxides"; "mkdir metals/oxides/rust";
     "mkdir misc"] /\
  Driver.globals (snd (Demo9.loops (Demo9.start "copper")))
  = {| Driver.current_pdf_word := "copper"; Driver.running_pdf := false |}.
Proof. vm_compute. split; reflexivity. Qed.

(** ** Identifiers that [update_metadata] cannot find again *)

Section Lost.

(** The identifier [update_metadata] reads from a file name never
    contains an underscore: a paper whose identifier has one is not found
    again under any file, the one its own download stored included. *)
Theorem underscore_identifier_never_indexed (doi : string) (file : Path) :
  Py.contains "_" doi = true ->
  Step3.doi_of_file file <> doi.
Proof.
  intros Hunder Heq. rewrite <- Heq in Hunder. unfold Step3.doi_of_file in Hunder.
  rewrite replace_char, swap_char_gone in Hunder; discriminate.
Qed.

End Lost.

Lemma underscore_identifier_never_indexed_witness :
  Step3.doi_of_file ["out"; "kw"; Py.replace "10.1000/a_b" "/" "_" +:+ ".pdf"]
  <> "10.1000/a_b".
Proof.
  refine (underscore_identifier_never_indexed "10.1000/a_b"
            ["out"; "kw"; Py.replace "10.1000/a_b" "/" "_" +:+ ".pdf"] _).
  vm_compute. reflexivity.
Defined.

(** ** Cancellation *)

Section Cancel.
Context `{Lib}.

Lemma finish_tasks_started (F : Fallbacks.Name -> Fallbacks.Strategy)
    (pdf_path : Path) (key_to_save : SaveKey) (save_metadata : bool)
    (api_keys : gmap string string) (ip_pool : option (option string))
    (order : list (option string * bool)) :
  forall o : Pdf.Orch,
  Pdf.finish_tasks F pdf_path key_to_save save_metadata api_keys ip_pool order true o
  = Pdf.finish_tasks F pdf_path key_to_save save_metadata api_keys ip_pool
      (List.filter snd order) true o.
Proof.
  induction order as [|[k started] rest IH]; intros o; [reflexivity|].
  cbn [List.filter snd]. destruct started; cbn [Pdf.finish_tasks andb negb].
  - apply bind_ext. intros _ o1. apply IH.
  - unfold bind, ret. apply IH.
Qed.

Lemma on_error_ext {T A} (m : ST T A) (a a' : ST T unit) (s : T) :
  (forall s1, a s1 = a' s1) -> Pdf.on_error m a s = Pdf.on_error m a' s.
Proof.
  intros E. unfold Pdf.on_error. destruct (m s) as [[x|e] s1]; [reflexivity|].
  rewrite E. reflexivity.
Qed.

(** Once the orchestrator is cancelling (the quota was exceeded or the
    event was set), the tasks that had not been started are passed over:
    the rest of the run is the run on the tasks that were already started,
    and it stays cancelling whatever the later checks say. *)
Theorem cancelling_runs_started_only (F : Fallbacks.Name -> Fallbacks.Strategy)
    (pdf_path : Path) (key_to_save : SaveKey) (save_metadata : bool)
    (api_keys : gmap string string) (max_pdf_num : nat)
    (ip_pool : option (option string)) (stop_event : option unit)
    (order : list (option string * bool)) (o : Pdf.Orch) :
  Pdf.completion_loop F pdf_path key_to_save save_metadata api_keys max_pdf_num ip_pool
    stop_event order true o
  = Pdf.completion_loop F pdf_path key_to_save save_metadata api_keys max_pdf_num ip_pool
      stop_event (List.filter snd order) true o.
Proof.
  revert o. induction order as [|[k started] rest IH]; intros o; [reflexivity|].
  cbn [List.filter snd]. destruct started.
  - cbn [Pdf.completion_loop andb negb orb].
    apply bind_cong; [apply on_error_ext; apply finish_tasks_started|].
    intros metadata o1. destruct metadata as [metadata|]; [|apply IH].
    apply bind_ext. intros d o2. apply bind_ext. intros _ o3.
    apply bind_cong; [apply on_error_ext; apply finish_tasks_started|].
    intros stop o6. apply IH.
  - cbn [Pdf.completion_loop andb negb]. apply IH.
Qed.

End Cancel.

(** ** The requests of [save_pdf] *)

Section Requests.
Context `{Lib}.

Lemma sends_refl (px : option string) (n : nat) (w : World) : sends px n w w.
Proof. exists []. rewrite app_nil_r. repeat split; [constructor|cbn; lia]. Qed.

Lemma sends_split (px : option string) (a b n : nat) (w w1 w2 : World) :
  a + b <= n -> sends px a w w1 -> sends px b w1 w2 -> sends px n w w2.
Proof.
  intros Hn (l1 & Hl1 & Hp1 & Hc1) (l2 & Hl2 & Hp2 & Hc2). exists (l1 ++ l2).
  split; [rewrite Hl2, Hl1, <- app_assoc; reflexivity|].
  split; [apply Forall_app; split; assumption|].
  rewrite length_app. lia.
Qed.

Lemma within_silent {A} (px : option string) (n : nat) (m : M A) :
  silent m -> within px n m.
Proof.
  intros Hm w r w' Hrun. exists []. rewrite app_nil_r.
  split; [exact (Hm _ _ _ Hrun)|]. split; [constructor|cbn; lia].
Qed.

Lemma within_bind {A B} (px : option string) (a b n : nat) (m : M A) (k : A -> M B) :
  a + b <= n -> within px a m -> (forall x, within px b (k x)) -> within px n (bind m k).
Proof.
  intros Hn Hm Hk w r w' Hrun. apply bind_inv in Hrun.
  destruct Hrun as [(x & w1 & Hfirst & Hrest)|(e & Hfirst & _)].
  - exact (sends_split px a b n w w1 w' Hn (Hm _ _ _ Hfirst) (Hk x _ _ _ Hrest)).
  - apply (sends_split px a b n w w' w' Hn (Hm _ _ _ Hfirst)). apply sends_refl.
Qed.

Lemma within_try {A} (px : option string) (n : nat) (m : M A) :
  within px n m -> within px n (try_ m).
Proof.
  intros Hm w r w'. unfold try_. destruct (m w) as [[a|e] w1] eqn:Hrun.
  - intros [= _ <-]. exact (Hm _ _ _ Hrun).
  - destruct (is_Exception e); intros [= _ <-]; exact (Hm _ _ _ Hrun).
Qed.

Lemma within_get (px : option string) (n : nat) (u : string)
    (params : list (string * string)) :
  1 <= n -> within px n (requests_get u params px).
Proof.
  intros Hn w r w' Hrun.
  exists [{| req_url := u; req_params := params; req_proxies := px |}].
  split; [|split; [repeat constructor|cbn; lia]].
  destruct (requests_get_cases u params px w)
    as [(resp & rest & _ & Hget)|[(rest & _ & Hget)|[_ Hget]]];
    cbn zeta in Hget; rewrite Hget in Hrun; injection Hrun as _ <-; reflexivity.
Qed.

Lemma silent_ret {A} (a : A) : silent (ret a).
Proof. intros w r w' [= _ <-]. reflexivity. Qed.

Lemma silent_throw {A} (e : exn) : silent (throw (A := A) e).
Proof. intros w r w' [= _ <-]. reflexivity. Qed.

Lemma silent_lift {A} (x : result A) : silent (lift x).
Proof. intros w r w' [= _ <-]. reflexivity. Qed.

Lemma silent_status (resp : Response) : silent (raise_for_status resp).
Proof.
  intros w r w'. destruct (raise_for_status_cases resp w) as [-> | ->];
    intros [= _ <-]; reflexivity.
Qed.

Lemma silent_open_write (p : Path) (data : string) : silent (open_write p data).
Proof.
  intros w r w'. unfold open_write.
  destruct (is_dir_in _ _ && negb (is_dir_in _ _))%bool; intros [= _ <-]; reflexivity.
Qed.

Lemma silent_frame_src (soup : string) : silent (Fallbacks.frame_src soup).
Proof.
  unfold Fallbacks.frame_src, Fallbacks.tag_src.
  destruct (soup_tag_src soup "iframe") as [[src|]|];
    [apply silent_ret|apply silent_throw|].
  destruct (soup_tag_src soup "embed") as [[src|]|];
    [apply silent_ret|apply silent_throw|apply silent_throw].
Qed.

Ltac quiet :=
  apply within_silent;
  first [apply silent_ret | apply silent_throw | apply silent_lift | apply silent_status
        | apply silent_open_write | apply silent_frame_src].

(** a request, its status check, and a continuation that sends nothing *)
Ltac one_request n :=
  apply within_try; apply (within_bind _ 1 0 n); [lia|apply within_get; lia|];
  intros ?; apply (within_bind _ 0 0 0); [lia|quiet|]; intros _.

Lemma within_arxiv_try (px : option string) (u : string) (out : Path) :
  within px 1 (Fallbacks.arxiv_try u out px).
Proof.
  unfold Fallbacks.arxiv_try. apply (within_bind _ 1 0 1); [lia| |].
  - one_request 1. destruct (is_pdf _); [|quiet].
    apply (within_bind _ 0 0 0); [lia|quiet|]. intros _. quiet.
  - intros [v|e]; quiet.
Qed.

Lemma within_arxiv_categories (px : option string) (temp : list string) (id : string)
    (out : Path) :
  within px (List.length temp) (Fallbacks.arxiv_categories temp id out px).
Proof.
  induction temp as [|i temp IH]; cbn [Fallbacks.arxiv_categories List.length]; [quiet|].
  apply (within_bind _ 1 (List.length temp) _); [lia|apply within_arxiv_try|].
  intros [u|]; [|exact IH]. quiet.
Qed.

Lemma within_weaken {A} (px : option string) (a n : nat) (m : M A) :
  a <= n -> within px a m -> within px n m.
Proof.
  intros Hn Hm w r w' Hrun.
  apply (sends_split px a 0 n w w' w'); [lia|exact (Hm _ _ _ Hrun)|apply sends_refl].
Qed.

(** Each strategy of [save_pdf] passes the proxies on to all its requests
    and keeps to its budget. *)
Lemma strategy_requests (n : Fallbacks.Name) (id : string) (out : Path)
    (px : option string) :
  within px (request_budget n) (Fallbacks.FALLBACKS n id out px).
Proof.
  destruct n; cbn [Fallbacks.FALLBACKS request_budget].
  - unfold Fallbacks.fallback_arxiv.
    destruct (Py.contains "arxiv" id); [|quiet].
    destruct (nth_error _ 1) as [id'|]; [|quiet].
    destruct (_ =? 1)%nat; [apply (within_arxiv_categories px [_; _; _])|].
    destruct (_ =? 2)%nat; [|quiet].
    apply (within_bind _ 1 0 3); [lia|apply within_arxiv_try|].
    intros [u|]; quiet.
  - unfold Fallbacks.fallback_doi. apply (within_bind _ 1 1 2); [lia| |].
    + one_request 1. quiet.
    + intros [response|e]; [|quiet].
      destruct (soup_meta_content _ _) as [pdf_url|]; [|quiet].
      destruct (negb _); [|quiet].
      apply (within_bind _ 1 0 1); [lia| |intros [v|e]; quiet].
      one_request 1. destruct (negb _); [quiet|].
      apply (within_bind _ 0 0 0); [lia|quiet|]. intros _. quiet.
  - unfold Fallbacks.fallback_sci_hub. apply (within_bind _ 2 0 2); [lia| |intros [v|e]; quiet].
    apply within_try. apply (within_bind _ 1 1 2); [lia|apply within_get; lia|].
    intros r. apply (within_bind _ 0 1 1); [lia|quiet|]. intros _.
    apply (within_bind _ 0 1 1); [lia|quiet|]. intros src.
    apply (within_bind _ 1 0 1); [lia|apply within_get; lia|]. intros download_r.
    apply (within_bind _ 0 0 0); [lia|quiet|]. intros _.
    destruct (negb _); [quiet|].
    apply (within_bind _ 0 0 0); [lia|quiet|]. intros _. quiet.
  - unfold Fallbacks.fallback_bioc_pmc. apply (within_bind _ 1 1 2); [lia| |].
    + one_request 1. quiet.
    + intros [[pmcid|]|e]; [|quiet|quiet].
      apply (within_bind _ 1 0 1); [lia| |intros [v|e]; quiet].
      one_request 1. destruct (Py.startswith _ _); [quiet|].
      apply (within_bind _ 0 0 0); [lia|quiet|]. intros _. quiet.
Qed.

Ltac run_budget HF F n id filepath proxies w :=
  let r := fresh "r" in let w' := fresh "w" in let E := fresh "E" in
  destruct (F n id filepath proxies w) as [r w'] eqn:E;
  apply HF in E; cbn [request_budget] in E;
  destruct r as [[[|] ?]|?]; cbn.

Ltac close_sends :=
  match goal with
  | |- sends _ _ ?w ?w => apply sends_refl
  | E : sends ?px ?a ?w ?w1 |- sends ?px ?n ?w ?w2 =>
      apply (sends_split px a (n - a) n w w1 w2); [cbn; lia|exact E|clear E; close_sends]
  end.

Lemma save_pdf_sends (F : Fallbacks.Name -> Fallbacks.Strategy) (filepath : Path)
    (save_metadata : bool) (api_keys : gmap string string) (proxies : option string)
    (c : Pdf.Ctx) :
  (forall n id out, within proxies (request_budget n) (F n id out proxies)) ->
  sends proxies 9 (Pdf.cx_world c)
    (Pdf.cx_world (snd (Pdf.save_pdf F filepath save_metadata api_keys proxies c))).
Proof.
  intros HF.
  unfold Pdf.save_pdf, bind, Pdf.log, Pdf.in_world, path_exists, Pdf.get_paper,
    Pdf.update_paper, throw, ret. cbn.
  destruct (exists_in (fs (Pdf.cx_world c)) (Pathlib.parent filepath)) eqn:Epar; cbn.
  2: { apply sends_refl. }
  destruct (p_doi (Pdf.cx_paper c)) as [id|] eqn:Hdoi; cbn.
  2: { apply sends_refl. }
  unfold Pdf.step, Pdf.invoke, bind, ret. cbn.
  destruct (Py.contains "arxiv" id) eqn:Earx; cbn.
  - run_budget HF F Fallbacks.N_arxiv id filepath proxies (Pdf.cx_world c).
    + close_sends.
    + run_budget HF F Fallbacks.N_doi id filepath proxies w.
      * close_sends.
      * run_budget HF F Fallbacks.N_sci_hub id filepath proxies w0.
        -- close_sends.
        -- run_budget HF F Fallbacks.N_bioc_pmc id filepath proxies w1; close_sends.
        -- close_sends.
      * close_sends.
    + close_sends.
  - run_budget HF F Fallbacks.N_doi id filepath proxies (Pdf.cx_world c).
    + close_sends.
    + run_budget HF F Fallbacks.N_sci_hub id filepath proxies w.
      * close_sends.
      * run_budget HF F Fallbacks.N_bioc_pmc id filepath proxies w0; close_sends.
      * close_sends.
    + close_sends.
Qed.

(** Whatever happens in [save_pdf], every request it sends carries the
    proxies it was given, and it sends nine requests at most: three by the
    arXiv strategy and two by each of the other three. *)
Theorem save_pdf_requests (filepath : Path) (save_metadata : bool)
    (api_keys : gmap string string) (proxies : option string) (c : Pdf.Ctx) :
  let run := Pdf.save_pdf Fallbacks.FALLBACKS filepath save_metadata api_keys proxies c in
  let asked := new_requests (Pdf.cx_world c) (Pdf.cx_world (snd run)) in
  http_log (Pdf.cx_world (snd run)) = http_log (Pdf.cx_world c) ++ asked /\
  Forall (fun rq => req_proxies rq = proxies) asked /\
  List.length asked <= 9.
Proof.
  cbn zeta.
  destruct (save_pdf_sends Fallbacks.FALLBACKS filepath save_metadata api_keys proxies c
              (fun n id out => strategy_requests n id out proxies))
    as (l & Hlog & Hpx & Hlen).
  unfold new_requests. rewrite Hlog, drop_app_length. auto.
Qed.

Lemma ctx_bind {A B} (px : option string) (a b n : nat) (m : ST Pdf.Ctx A)
    (k : A -> ST Pdf.Ctx B) :
  a + b <= n -> within_ctx px a m -> (forall x, within_ctx px b (k x)) ->
  within_ctx px n (bind m k).
Proof.
  intros Hn Hm Hk c r c' Hrun. apply bind_inv in Hrun.
  destruct Hrun as [(x & c1 & Hfirst & Hrest)|(e & Hfirst & _)].
  - exact (sends_split px a b n _ _ _ Hn (Hm _ _ _ Hfirst) (Hk x _ _ _ Hrest)).
  - apply (sends_split px a b n _ _ _ Hn (Hm _ _ _ Hfirst)). apply sends_refl.
Qed.

Lemma ctx_try {A} (px : option string) (n : nat) (m : ST Pdf.Ctx A) :
  within_ctx px n m -> within_ctx px n (try_ m).
Proof.
  intros Hm c r c'. unfold try_. destruct (m c) as [[a|e] c1] eqn:Hrun.
  - intros [= _ <-]. exact (Hm _ _ _ Hrun).
  - destruct (is_Exception e); intros [= _ <-]; exact (Hm _ _ _ Hrun).
Qed.

Lemma ctx_same {A} (px : option string) (n : nat) (m : ST Pdf.Ctx A) :
  (forall c r c', m c = (r, c') -> Pdf.cx_world c' = Pdf.cx_world c) ->
  within_ctx px n m.
Proof. intros Hm c r c' Hrun. rewrite (Hm _ _ _ Hrun). apply sends_refl. Qed.

Lemma ctx_in_world {A} (px : option string) (n : nat) (m : M A) :
  silent m -> within_ctx px n (Pdf.in_world m).
Proof.
  intros Hm c r c'. unfold Pdf.in_world. destruct (m (Pdf.cx_world c)) as [r1 w1] eqn:Hrun.
  intros [= _ <-]. cbn [Pdf.cx_world]. exists []. rewrite app_nil_r.
  split; [exact (Hm _ _ _ Hrun)|]. split; [constructor|cbn; lia].
Qed.

Lemma silent_path_exists (p : Path) : silent (path_exists p).
Proof. intros w r w' [= _ <-]. reflexivity. Qed.

Lemma silent_path_is_dir (p : Path) : silent (path_is_dir p).
Proof. intros w r w' [= _ <-]. reflexivity. Qed.

Lemma silent_iterdir (p : Path) : silent (iterdir p).
Proof.
  intros w r w'. unfold iterdir. destruct (is_dir_in (fs w) p); intros [= _ <-]; reflexivity.
Qed.

Ltac still :=
  first
    [ apply ctx_same; intros ? ? ? [= _ <-]; reflexivity
    | apply ctx_in_world;
      first [apply silent_path_exists | apply silent_path_is_dir | apply silent_iterdir] ].

Lemma ctx_dedup (px : option string) (filename : string) (subdirs : list Path) :
  within_ctx px 0 (Pdf.dedup filename subdirs).
Proof.
  induction subdirs as [|subdir rest IH]; cbn [Pdf.dedup]; [still|].
  apply (ctx_bind px 0 0 0); [lia|still|]. intros [|]; [|exact IH].
  apply (ctx_bind px 0 0 0); [lia|still|]. intros [|].
  { apply (ctx_bind px 0 0 0); [lia|still|]. intros _. still. }
  apply (ctx_bind px 0 0 0); [lia|still|]. intros [|]; [|exact IH].
  apply (ctx_bind px 0 0 0); [lia|still|]. intros _. still.
Qed.

Lemma ctx_save_pdf (filepath : Path) (save_metadata : bool)
    (api_keys : gmap string string) (proxies : option string) :
  within_ctx proxies 9
    (Pdf.save_pdf Fallbacks.FALLBACKS filepath save_metadata api_keys proxies).
Proof.
  intros c r c' Hrun.
  assert (Hsends := save_pdf_sends Fallbacks.FALLBACKS filepath save_metadata api_keys
                      proxies c (fun n id out => strategy_requests n id out proxies)).
  rewrite Hrun in Hsends. exact Hsends.
Qed.

(** A task sends all its requests through the proxies of the pool, or
    directly when there is no pool or the pool has none to give, and it
    sends nine requests at most. *)
Theorem task_requests (pdf_path : Path) (key_to_save : SaveKey) (save_metadata : bool)
    (api_keys : gmap string string) (ip_pool : option (option string)) (c : Pdf.Ctx) :
  let run := Pdf._process_single_paper Fallbacks.FALLBACKS pdf_path key_to_save
               save_metadata api_keys ip_pool c in
  let asked := new_requests (Pdf.cx_world c) (Pdf.cx_world (snd run)) in
  http_log (Pdf.cx_world (snd run)) = http_log (Pdf.cx_world c) ++ asked /\
  Forall (fun rq => req_proxies rq = proxies_of ip_pool) asked /\
  List.length asked <= 9.
Proof.
  cbn zeta.
  assert (Htask : within_ctx (proxies_of ip_pool) 9
                    (Pdf._process_single_paper Fallbacks.FALLBACKS pdf_path key_to_save
                       save_metadata api_keys ip_pool)).
  { unfold Pdf._process_single_paper.
    apply (ctx_bind _ 9 0 9); [lia| |intros [v|e]; [still|]].
    2: { apply (ctx_bind _ 0 0 0); [lia|still|]. intros p. still. }
    apply ctx_try. apply (ctx_bind _ 0 9 9); [lia|still|]. intros paper.
    destruct (_ || _)%bool; [still|].
    apply (ctx_bind _ 0 9 9); [lia|still|]. intros _.
    destruct (p_doi paper); [|still].
    destruct (paper_get paper key_to_save) as [v|]; [|still].
    apply (ctx_bind _ 0 9 9); [lia|still|]. intros subdirs.
    apply (ctx_bind _ 0 9 9); [lia|apply ctx_dedup|]. intros [|].
    { apply (ctx_bind _ 0 0 9); [lia|still|]. intros p. still. }
    apply (ctx_bind _ 9 0 9); [lia| |intros _; apply (ctx_bind _ 0 0 0); [lia|still|];
                                     intros p; still].
    destruct ip_pool as [[proxies|]|]; apply ctx_save_pdf. }
  destruct (Pdf._process_single_paper Fallbacks.FALLBACKS pdf_path key_to_save
              save_metadata api_keys ip_pool c) as [r c'] eqn:Hrun.
  destruct (Htask c r c' Hrun) as (l & Hlog & Hpx & Hlen). cbn [snd].
  unfold new_requests. rewrite Hlog, drop_app_length. auto.
Qed.

End Requests.

(** Through a proxy, both requests of the DOI strategy go through it. *)
Example requests_through_proxy :
  let run := Pdf.save_pdf (Fallbacks.FALLBACKS (H := Sample.lib)) Demo.out_xyz false ∅
               (Some "socks5://10.0.0.1:1080") (Demo.ctx_xyz Demo.world_doi_pdf) in
  List.map req_proxies (http_log (Pdf.cx_world (snd run)))
  = [Some "socks5://10.0.0.1:1080"; Some "socks5://10.0.0.1:1080"].
Proof. vm_compute. reflexivity. Qed.

(** With a pool that has a proxy the task goes through it; with a pool
    that has none to give it connects directly. *)
Example task_with_and_without_proxy :
  let task pool := Pdf._process_single_paper (Fallbacks.FALLBACKS (H := Sample.lib))
                     ["out"; "kw"] KeyDoi false ∅ pool (Demo.ctx_xyz Demo.world_doi_pdf) in
  List.map req_proxies (http_log (Pdf.cx_world (snd (task (Some (Some "http://10.0.0.2:8080"))))))
  = [Some "http://10.0.0.2:8080"; Some "http://10.0.0.2:8080"] /\
  List.map req_proxies (http_log (Pdf.cx_world (snd (task (Some None))))) = [None; None].
Proof. vm_compute. split; reflexivity. Qed.
